(** * Cigar pricing scrapers: extraction, coercion and traversal rules

    A shallow embedding of the value-coercion helpers, the dimension, price
    and wrapper parsers, the field reconciliation expressions and the
    listing/detail traversal loops of the scraper scripts, together with the
    properties established about them.

    Conventions of the embedding.
    - A Python [str] is a [string]; every [ascii] stands for the code point
      with the same number, so the strings of the model are the Python
      strings whose code points are below 256 (the multiplication sign used
      by some sites is the single character 215).
    - A Python [float] is a [spec_float] at binary64 precision, with the
      operations of the standard library's IEEE 754 specification.
    - A Python [int] is a [Z].
    - [None] is the [None] of [option]; exceptions are the [Raise] results of
      the [result] type.
    - Pages are received from the network: what a fetch returns is an input
      of the model (a function from URLs to page contents or failures), and
      the CSS selections made on a page are fields of the page value. *)

From Stdlib Require Import Bool Arith ZArith NArith Lia List.
From Stdlib Require Import Ascii String.
From Stdlib Require Import SpecFloat DecimalString Sorted.
Import ListNotations.

Local Open Scope list_scope.
Local Open Scope string_scope.

Set Implicit Arguments.

(* ================================================================== *)
(** * Python values, exceptions and results *)
(* ================================================================== *)

Inductive exn : Type :=
| TypeError
| ValueError
| OverflowError
| AttributeError
| RequestException (url : string).

Inductive result (A : Type) : Type :=
| Ok (a : A)
| Raise (e : exn).

Arguments Ok {A} a.
Arguments Raise {A} e.

Definition bind {A B : Type} (r : result A) (k : A -> result B) : result B :=
  match r with
  | Ok a => k a
  | Raise e => Raise e
  end.

Notation "x <- r ;; k" := (bind r (fun x => k))
  (at level 61, r at next level, right associativity).

(** binary64 *)
Definition prec : Z := 53.
Definition emax : Z := 1024.
Definition float : Type := spec_float.

(** The values handed to the coercion helpers. *)
Inductive pyval : Type :=
| VNone
| VStr (s : string)
| VInt (z : Z)
| VFloat (f : float).

(** [a or b] on optional values, for the truth value [truthy] of the type. *)
Definition py_or {A : Type} (truthy : A -> bool) (a b : option A) : option A :=
  match a with
  | Some v => if truthy v then a else b
  | None => b
  end.

(** [a if a is not None else b] *)
Definition if_not_none {A : Type} (a b : option A) : option A :=
  match a with
  | Some _ => a
  | None => b
  end.

(** ** What a run leaves behind

    The trace of a run lists, in order, the rows committed to the database
    and the failures written to the console or to the log file.  The progress
    lines printed on the way are not part of the trace. *)
Inductive event (R : Type) : Type :=
| Inserted (r : R)
| SqlError (r : R) (e : exn)
| ItemError (url : option string) (e : exn)
| DetailFetchError (url : string) (e : exn)
| ListingFetchError (url : string) (e : exn).

Arguments Inserted {R} r.
Arguments SqlError {R} r e.
Arguments ItemError {R} url e.
Arguments DetailFetchError {R} url e.
Arguments ListingFetchError {R} url e.

(** How a loop that needs fuel in the model ends: it returns, an exception
    leaves it, or the fuel given was not enough to reach its end. *)
Inductive outcome (A : Type) : Type :=
| Returned (a : A)
| Crashed (e : exn)
| OutOfFuel.

Arguments Returned {A} a.
Arguments Crashed {A} e.
Arguments OutOfFuel {A}.

(** The rows committed during a run, in order. *)
Fixpoint inserted_rows {R : Type} (t : list (event R)) : list R :=
  match t with
  | [] => []
  | Inserted r :: t' => r :: inserted_rows t'
  | _ :: t' => inserted_rows t'
  end.

Definition str_truthy (s : string) : bool :=
  match s with EmptyString => false | String _ _ => true end.

(* ================================================================== *)
(** * Characters and strings of Python *)
(* ================================================================== *)

Module Py.

Definition code (c : ascii) : N := N_of_ascii c.

Definition in_range (lo hi : N) (c : ascii) : bool :=
  (N.leb lo (code c) && N.leb (code c) hi)%bool.

(** [str.isspace] on one character: TAB..CR, FS..US, space, NEL, NBSP. *)
Definition isspace (c : ascii) : bool :=
  (in_range 9 13 c || in_range 28 32 c
   || N.eqb (code c) 133 || N.eqb (code c) 160)%bool.

(** The decimal digits [0-9], what [\d] and [int] accept below 256. *)
Definition isdecimal (c : ascii) : bool := in_range 48 57 c.

(** [str.isdigit] on one character: the decimal digits and the superscript
    digits two, three and one. *)
Definition isdigit_char (c : ascii) : bool :=
  (isdecimal c || N.eqb (code c) 178 || N.eqb (code c) 179
   || N.eqb (code c) 185)%bool.

Definition isupper_char (c : ascii) : bool :=
  (in_range 65 90 c
   || (in_range 192 222 c && negb (N.eqb (code c) 215)))%bool.

Definition islower_ascii (c : ascii) : bool := in_range 97 122 c.

Definition lower_char (c : ascii) : ascii :=
  if isupper_char c then ascii_of_N (code c + 32) else c.

(** Upper-casing, for the characters below 128 (the only ones the scripts
    title-case: the entries of the two vocabularies). *)
Definition upper_ascii (c : ascii) : ascii :=
  if islower_ascii c then ascii_of_N (code c - 32) else c.

Definition iscased_ascii (c : ascii) : bool :=
  (in_range 65 90 c || in_range 97 122 c)%bool.

Definition digit_value (c : ascii) : Z := Z.of_N (code c) - 48.

(** ** Strings *)

Definition is_empty (s : string) : bool :=
  match s with EmptyString => true | String _ _ => false end.

Fixpoint str_forall (p : ascii -> bool) (s : string) : bool :=
  match s with
  | EmptyString => true
  | String c r => (p c && str_forall p r)%bool
  end.

Fixpoint str_exists (p : ascii -> bool) (s : string) : bool :=
  match s with
  | EmptyString => false
  | String c r => (p c || str_exists p r)%bool
  end.

Fixpoint smap (f : ascii -> ascii) (s : string) : string :=
  match s with
  | EmptyString => EmptyString
  | String c r => String (f c) (smap f r)
  end.

(** [s.lower()] *)
Definition lower (s : string) : string := smap lower_char s.

(** [s.title()]: a cased character is upper-cased when the previous
    character is not cased and lower-cased otherwise. *)
Fixpoint title_from (prev_cased : bool) (s : string) : string :=
  match s with
  | EmptyString => EmptyString
  | String c r =>
      String (if prev_cased then lower_char c else upper_ascii c)
             (title_from (iscased_ascii c) r)
  end.

Definition title (s : string) : string := title_from false s.

(** [s.isdigit()] *)
Definition isdigit (s : string) : bool :=
  (negb (is_empty s) && str_forall isdigit_char s)%bool.

Fixpoint lstrip_by (p : ascii -> bool) (s : string) : string :=
  match s with
  | EmptyString => EmptyString
  | String c r => if p c then lstrip_by p r else s
  end.

Fixpoint rstrip_by (p : ascii -> bool) (s : string) : string :=
  match s with
  | EmptyString => EmptyString
  | String c r =>
      match rstrip_by p r with
      | EmptyString => if p c then EmptyString else String c EmptyString
      | r' => String c r'
      end
  end.

Definition strip_by (p : ascii -> bool) (s : string) : string :=
  rstrip_by p (lstrip_by p s).

(** [s.strip()] *)
Definition strip (s : string) : string := strip_by isspace s.

Definition char_in (chars : string) (c : ascii) : bool :=
  str_exists (Ascii.eqb c) chars.

(** [s.strip(chars)] *)
Definition strip_chars (chars s : string) : string :=
  strip_by (char_in chars) s.

(** [s.split()]: the maximal runs of non-whitespace characters. *)
Fixpoint split_ws_from (cur s : string) : list string :=
  match s with
  | EmptyString => if is_empty cur then [] else [cur]
  | String c r =>
      if isspace c
      then (if is_empty cur then split_ws_from EmptyString r
            else cur :: split_ws_from EmptyString r)
      else split_ws_from (cur ++ String c EmptyString) r
  end.

Definition split_ws (s : string) : list string := split_ws_from EmptyString s.

Fixpoint startswith (p s : string) : bool :=
  match p, s with
  | EmptyString, _ => true
  | String a p', String b s' => (Ascii.eqb a b && startswith p' s')%bool
  | String _ _, EmptyString => false
  end.

Fixpoint drop (n : nat) (s : string) : string :=
  match n, s with
  | O, _ => s
  | S n', String _ r => drop n' r
  | S _, EmptyString => EmptyString
  end.

(** The leftmost occurrence of [sep] in [s]: the text before it and the
    text after it. *)
Fixpoint partition (sep s : string) : option (string * string) :=
  if startswith sep s then Some (EmptyString, drop (String.length sep) s)
  else
    match s with
    | EmptyString => None
    | String c r =>
        match partition sep r with
        | Some (a, b) => Some (String c a, b)
        | None => None
        end
    end.

(** [sub in s] *)
Definition contains (sub s : string) : bool :=
  match partition sub s with Some _ => true | None => false end.

(** [s.split(sep, 1)] for a non-empty separator. *)
Definition split1 (sep s : string) : list string :=
  match partition sep s with
  | Some (a, b) => [a; b]
  | None => [s]
  end.

(** [s.replace(old, new, 1)] for a non-empty [old]. *)
Definition replace1 (old new s : string) : string :=
  match partition old s with
  | Some (a, b) => a ++ new ++ b
  | None => s
  end.

(** [s.replace(old, new)] for a non-empty [old]: the occurrences are taken
    from left to right without overlap; [skip] counts the characters of the
    current occurrence still to be passed over. *)
Fixpoint replace_from (old new : string) (skip : nat) (s : string) : string :=
  match s with
  | EmptyString => EmptyString
  | String c r =>
      match skip with
      | S k => replace_from old new k r
      | O =>
          if startswith old s
          then new ++ replace_from old new (String.length old - 1) r
          else String c (replace_from old new 0 r)
      end
  end.

Definition replace (old new s : string) : string := replace_from old new 0 s.

End Py.

(* ================================================================== *)
(** * Numbers of Python: [int(...)] and [float(...)] *)
(* ================================================================== *)

Module Num.

Import Py.

Local Open Scope Z_scope.

Definition nan : float := S754_nan.
Definition zero (neg : bool) : float := S754_zero neg.
Definition infinity (neg : bool) : float := S754_infinity neg.

(** The double nearest to the integer [z] (ties to even). *)
Definition of_Z (z : Z) : float := binary_normalize prec emax z 0 false.

(** The double nearest to [m / 2^k]; [dyadic 41 3] is 5.125. *)
Definition dyadic (m : Z) (k : Z) : float :=
  binary_normalize prec emax m (- k) false.

Definition add (x y : float) : float := SFadd prec emax x y.
Definition div (x y : float) : float := SFdiv prec emax x y.
Definition mul (x y : float) : float := SFmul prec emax x y.

Definition is_nan (x : float) : bool :=
  match x with S754_nan => true | _ => false end.

Definition is_infinite (x : float) : bool :=
  match x with S754_infinity _ => true | _ => false end.

Definition is_zero (x : float) : bool :=
  match x with S754_zero _ => true | _ => false end.

(** [x < 0]: false for the two zeros and for NaN. *)
Definition is_negative (x : float) : bool :=
  match x with
  | S754_finite true _ _ | S754_infinity true => true
  | _ => false
  end.

(** A valid non-negative number: finite and not below zero. *)
Definition is_nonneg_number (x : float) : bool :=
  match x with
  | S754_zero _ | S754_finite false _ _ => true
  | _ => false
  end.

(** ** Decimal digit strings *)

Fixpoint digits_value_from (acc : Z) (s : string) : Z :=
  match s with
  | EmptyString => acc
  | String c r => digits_value_from (10 * acc + digit_value c) r
  end.

Definition digits_value (s : string) : Z := digits_value_from 0 s.

(** What follows a digit inside [digit (_? digit)*]: the further digits
    (underscores dropped) and the text left over. *)
Fixpoint digitpart_rest (s : string) : string * string :=
  match s with
  | EmptyString => (EmptyString, EmptyString)
  | String c r =>
      if isdecimal c then
        let '(d, t) := digitpart_rest r in (String c d, t)
      else if Ascii.eqb c "_" then
        match r with
        | String c' r' =>
            if isdecimal c' then
              let '(d, t) := digitpart_rest r' in (String c' d, t)
            else (EmptyString, s)
        | EmptyString => (EmptyString, s)
        end
      else (EmptyString, s)
  end.

Definition digitpart (s : string) : option (string * string) :=
  match s with
  | String c r =>
      if isdecimal c then
        let '(d, t) := digitpart_rest r in Some (String c d, t)
      else None
  | EmptyString => None
  end.

(** An optional sign: whether it is a minus, and the text after it. *)
Definition take_sign (s : string) : bool * string :=
  match s with
  | String c r =>
      if Ascii.eqb c "-" then (true, r)
      else if Ascii.eqb c "+" then (false, r)
      else (false, s)
  | EmptyString => (false, s)
  end.

(** The white space that [int] and [float] skip at the two ends of a text:
    TAB to CR and the space, and NEL and NBSP, which the conversion first
    turns into spaces. The separators FS to US, which [str.strip] removes,
    are not skipped: a text that begins or ends with one is refused. *)
Definition numeric_space (c : ascii) : bool :=
  (in_range 9 13 c || N.eqb (code c) 32
   || N.eqb (code c) 133 || N.eqb (code c) 160)%bool.

Definition numeric_strip (s : string) : string := strip_by numeric_space s.

(** The number of digits beyond which [int] refuses a decimal text
    ([sys.int_info.default_max_str_digits]); the scripts do not change it. *)
Definition max_str_digits : nat := 4300.

(** [int(s)] for a string, base 10: a text of more than [max_str_digits]
    digits, underscores and sign not counted, raises [ValueError]. *)
Definition int_of_str (s : string) : result Z :=
  let '(neg, body) := take_sign (numeric_strip s) in
  match digitpart body with
  | Some (d, EmptyString) =>
      if Nat.ltb max_str_digits (String.length d) then Raise ValueError
      else Ok (if neg then - digits_value d else digits_value d)
  | _ => Raise ValueError
  end.

(** ** Decimal literals of [float] *)

(** The double nearest to [m * 10^e] with the given sign. *)
Definition of_decimal (neg : bool) (m : Z) (e : Z) : float :=
  match m with
  | Zpos p =>
      match e with
      | Zneg k => div (S754_finite neg p 0)
                      (S754_finite false (Pos.pow 10 k) 0)
      | _ => binary_round prec emax neg (Z.to_pos (m * 10 ^ e)) 0
      end
  | _ => zero neg
  end.

Definition opt_digitpart (s : string) : string * string :=
  match digitpart s with
  | Some (d, t) => (d, t)
  | None => (EmptyString, s)
  end.

(** [[eE] [+-]? digitpart], when present. *)
Definition take_exponent (s : string) : option (Z * string) :=
  match s with
  | String c r =>
      if (Ascii.eqb c "e" || Ascii.eqb c "E")%bool then
        let '(neg, body) := take_sign r in
        match digitpart body with
        | Some (d, t) =>
            Some ((if neg then - digits_value d else digits_value d), t)
        | None => None
        end
      else Some (0, s)
  | EmptyString => Some (0, s)
  end.

(** The digits before the point, those after it, the exponent. *)
Definition decimal_literal (s : string) : option (string * string * Z) :=
  let '(ip, t1) := opt_digitpart s in
  let '(fp, t2) :=
    match t1 with
    | String c r => if Ascii.eqb c "." then opt_digitpart r
                    else (EmptyString, t1)
    | EmptyString => (EmptyString, t1)
    end in
  if (is_empty ip && is_empty fp)%bool then None
  else
    match take_exponent t2 with
    | Some (e, EmptyString) => Some (ip, fp, e)
    | _ => None
    end.

Definition string_eqb (a b : string) : bool := String.eqb a b.

(** [float(s)] for a string. *)
Definition float_of_str (s : string) : result float :=
  let '(neg, body) := take_sign (numeric_strip s) in
  let low := lower body in
  if (string_eqb low "inf" || string_eqb low "infinity")%bool
  then Ok (infinity neg)
  else if string_eqb low "nan" then Ok nan
  else
    match decimal_literal body with
    | Some (ip, fp, e) =>
        Ok (of_decimal neg (digits_value (ip ++ fp))
                       (e - Z.of_nat (String.length fp)))
    | None => Raise ValueError
    end.

(** [float(n)] for an integer. *)
Definition float_of_int (z : Z) : result float :=
  match of_Z z with
  | S754_infinity _ => Raise OverflowError
  | f => Ok f
  end.

(** [int(x)] for a float: truncation toward zero. *)
Definition int_of_float (x : float) : result Z :=
  match x with
  | S754_nan => Raise ValueError
  | S754_infinity _ => Raise OverflowError
  | S754_zero _ => Ok 0
  | S754_finite s m e =>
      let a := match e with
               | Zneg k => Z.pos m / 2 ^ Z.pos k
               | _ => Z.pos m * 2 ^ e
               end in
      Ok (if s then - a else a)
  end.

Definition py_float (v : pyval) : result float :=
  match v with
  | VNone => Raise TypeError
  | VStr s => float_of_str s
  | VInt z => float_of_int z
  | VFloat f => Ok f
  end.

Definition py_int (v : pyval) : result Z :=
  match v with
  | VNone => Raise TypeError
  | VStr s => int_of_str s
  | VInt z => Ok z
  | VFloat f => int_of_float f
  end.

(** Truth value of a float and of an integer. *)
Definition float_truthy (x : float) : bool := negb (is_zero x).
Definition int_truthy (z : Z) : bool := negb (Z.eqb z 0).

End Num.

(* ================================================================== *)
(** * The regular expressions of the scripts ([re.search], [re.findall]) *)
(* ================================================================== *)

Module Re.

Import Py.

(** The patterns of the scripts repeat character classes only; a pattern is
    built from classes, greedy repetitions of a class, sequences, greedy
    optional parts and numbered capture groups. *)
Inductive regex : Type :=
| Chr (p : ascii -> bool)
| Rep (p : ascii -> bool) (lo : nat) (hi : option nat)
| Seq (r1 r2 : regex)
| Opt (r : regex)
| Grp (i : nat) (r : regex).

Definition groups : Type := list (nat * string).

Fixpoint group (g : groups) (i : nat) : option string :=
  match g with
  | [] => None
  | (j, s) :: g' => if Nat.eqb i j then Some s else group g' i
  end.

Fixpoint take (n : nat) (s : string) : string :=
  match n, s with
  | S n', String c r => String c (take n' r)
  | _, _ => EmptyString
  end.

(** The text consumed between [s] and its suffix [t]. *)
Definition consumed (s t : string) : string :=
  take (String.length s - String.length t) s.

Definition may_take (hi : option nat) : bool :=
  match hi with Some O => false | _ => true end.

Section Matcher.
Variable A : Type.

(** Greedy repetition with backtracking: one more character is tried
    first, the continuation is tried on the shorter run afterwards. *)
Fixpoint rep (p : ascii -> bool) (lo : nat) (hi : option nat) (s : string)
         (k : string -> option A) : option A :=
  match s with
  | String c r =>
      if (p c && may_take hi)%bool then
        match rep p (pred lo) (option_map pred hi) r k with
        | Some a => Some a
        | None => match lo with O => k s | S _ => None end
        end
      else match lo with O => k s | S _ => None end
  | EmptyString => match lo with O => k s | S _ => None end
  end.

Fixpoint run (r : regex) (s : string) (g : groups)
         (k : string -> groups -> option A) : option A :=
  match r with
  | Chr p =>
      match s with
      | String c t => if p c then k t g else None
      | EmptyString => None
      end
  | Rep p lo hi => rep p lo hi s (fun t => k t g)
  | Seq r1 r2 => run r1 s g (fun t g' => run r2 t g' k)
  | Opt r1 =>
      match run r1 s g k with
      | Some a => Some a
      | None => k s g
      end
  | Grp i r1 => run r1 s g (fun t g' => k t ((i, consumed s t) :: g'))
  end.
End Matcher.

(** A match: the matched text, the groups, the text after the match. *)
Definition hit : Type := (string * groups * string)%type.

(** [pattern.match] at the start of [s]. *)
Definition match_here (r : regex) (s : string) : option hit :=
  run r s [] (fun t g => Some (consumed s t, g, t)).

(** [re.search]: the leftmost match. *)
Fixpoint search (r : regex) (s : string) : option hit :=
  match match_here r s with
  | Some h => Some h
  | None =>
      match s with
      | EmptyString => None
      | String _ s' => search r s'
      end
  end.

(** [re.findall] for a pattern that matches no empty text: the successive
    leftmost matches, each search starting where the previous match ended. *)
Fixpoint findall_fuel (fuel : nat) (r : regex) (s : string) : list hit :=
  match fuel with
  | O => []
  | S f =>
      match search r s with
      | None => []
      | Some (m, g, t) => (m, g, t) :: findall_fuel f r t
      end
  end.

Definition findall (r : regex) (s : string) : list hit :=
  findall_fuel (S (String.length s)) r s.

Definition whole (h : hit) : string := fst (fst h).
Definition group_of (h : hit) (i : nat) : option string := group (snd (fst h)) i.

(** Classes *)
Definition d : ascii -> bool := isdecimal.            (* \d *)
Definition ws : ascii -> bool := isspace.             (* \s *)
Definition lit (a : ascii) : ascii -> bool := Ascii.eqb a.
Definition one_of (chars : string) : ascii -> bool := char_in chars.
Definition none_of (chars : string) : ascii -> bool :=
  fun c => negb (char_in chars c).
Definition either (p q : ascii -> bool) : ascii -> bool :=
  fun c => (p c || q c)%bool.

Definition plus (p : ascii -> bool) : regex := Rep p 1 None.
Definition star (p : ascii -> bool) : regex := Rep p 0 None.
Definition exactly (n : nat) (p : ascii -> bool) : regex := Rep p n (Some n).
Definition opt_chr (p : ascii -> bool) : regex := Rep p 0 (Some 1).

Fixpoint seq (rs : list regex) : regex :=
  match rs with
  | [] => Rep (fun _ => false) 0 None
  | [r] => r
  | r :: rs' => Seq r (seq rs')
  end.

End Re.

(* ================================================================== *)
(** * famous_smoke_scraper.py: coercion helpers and parsers *)
(* ================================================================== *)

Module FamousSmoke.

Import Py.

(** [safe_decimal]: only [TypeError] and [ValueError] are caught. *)
Definition safe_decimal (value : pyval) : result (option float) :=
  match value with
  | VNone => Ok None
  | _ =>
      match Num.py_float value with
      | Ok f => Ok (Some f)
      | Raise TypeError | Raise ValueError => Ok None
      | Raise e => Raise e
      end
  end.

(** [safe_int] *)
Definition safe_int (value : pyval) : result (option Z) :=
  match value with
  | VNone => Ok None
  | _ =>
      match Num.py_int value with
      | Ok n => Ok (Some n)
      | Raise TypeError | Raise ValueError => Ok None
      | Raise e => Raise e
      end
  end.

(** [safe_str] *)
Definition safe_str (value : option string) : option string :=
  match value with
  | None => None
  | Some v => let s := strip v in if is_empty s then None else Some s
  end.

(** The [for p in parts] loop of [parse_quantity_packaging]. *)
Fixpoint first_digit_part (parts : list string) : result (option Z) :=
  match parts with
  | [] => Ok None
  | p :: rest =>
      if isdigit p then (n <- Num.int_of_str p ;; Ok (Some n))
      else first_digit_part rest
  end.

(** [parse_quantity_packaging] *)
Definition parse_quantity_packaging (text : option string)
  : result (option Z) :=
  match text with
  | None => Ok None
  | Some t => if is_empty t then Ok None else first_digit_part (split_ws t)
  end.

(** The [frac_map] of [parse_size] and its [.get(frac, 0.0)]. *)
Definition frac_map : list (string * float) :=
  [ ("1/4", Num.dyadic 1 2); ("1/2", Num.dyadic 1 1); ("3/4", Num.dyadic 3 2) ].

Fixpoint dict_get {V : Type} (d : list (string * V)) (k : string) (default : V)
  : V :=
  match d with
  | [] => default
  | (k', v) :: d' => if String.eqb k' k then v else dict_get d' k default
  end.

(** [base or 0] in a float addition: the integer 0 is converted to +0.0. *)
Definition or_zero (base : option float) : float :=
  match base with
  | Some b => if Num.float_truthy b then b else Num.zero false
  | None => Num.zero false
  end.

(** The inner [to_float_length] of [parse_size]. *)
Definition to_float_length (part : string) : result (option float) :=
  match split_ws part with
  | [p0] => safe_decimal (VStr p0)
  | [whole; frac] =>
      base <- safe_decimal (VStr whole) ;;
      Ok (Some (Num.add (or_zero base) (dict_get frac_map frac (Num.zero false))))
  | _ => Ok None
  end.

(** [parse_size] *)
Definition parse_size (size_text : option string)
  : result (option float * option Z) :=
  match size_text with
  | None => Ok (None, None)
  | Some t0 =>
      if (is_empty t0 || negb (contains "x" t0))%bool then Ok (None, None)
      else
        match map strip (split1 "x" (strip t0)) with
        | [length_part; ring_part] =>
            length <- to_float_length length_part ;;
            ring <- safe_int (VStr ring_part) ;;
            Ok (length, ring)
        | _ => Ok (None, None)
        end
  end.

(** ** Smart wrapper parsing *)

Definition WRAPPER_COLORS : list string :=
  [ "natural"; "maduro"; "oscuro"; "claro"; "double claro";
    "ems"; "sun grown"; "sungrown"; "colorado"; "colorado claro";
    "colorado maduro" ].

Definition WRAPPER_ORIGINS : list string :=
  [ "usa"; "united states"; "honduras"; "nicaragua"; "dominican";
    "dominican republic"; "mexico"; "ecuador"; "brazil"; "cameroon";
    "panama"; "costa rica" ].

(** [sorted(l, key=len, reverse=True)]: a stable sort, so entries of equal
    length keep their order in [l]. *)
Fixpoint insert_by_len (x : string) (l : list string) : list string :=
  match l with
  | [] => [x]
  | y :: l' =>
      if Nat.ltb (String.length x) (String.length y)
      then y :: insert_by_len x l'
      else x :: l
  end.

Definition sorted_by_len_desc (l : list string) : list string :=
  fold_right insert_by_len [] l.

(** The first entry of the list that occurs in [text]. *)
Definition first_hit (vocab : list string) (text : string) : option string :=
  find (fun c => contains c text) vocab.

Definition origin_name (o : string) : string :=
  if (String.eqb o "usa" || String.eqb o "united states")%bool then "USA"
  else if String.eqb o "dominican" then "Dominican Republic"
  else title o.

(** [smart_parse_wrapper]: (color, leaf, origin). *)
Definition smart_parse_wrapper (combined : string)
  : option string * option string * option string :=
  if is_empty combined then (None, None, None)
  else
    let text := lower combined in
    let color := option_map title
                   (first_hit (sorted_by_len_desc WRAPPER_COLORS) text) in
    let origin := option_map origin_name
                   (first_hit (sorted_by_len_desc WRAPPER_ORIGINS) text) in
    let leaf_candidate := combined in
    let leaf_candidate :=
      match color with
      | Some c => if is_empty c then leaf_candidate
                  else replace1 c "" leaf_candidate
      | None => leaf_candidate
      end in
    let leaf_candidate :=
      match origin with
      | Some o => if is_empty o then leaf_candidate
                  else replace1 o "" leaf_candidate
      | None => leaf_candidate
      end in
    let leaf_candidate := strip_chars " -," (replace "()" "" leaf_candidate) in
    (color, safe_str (Some leaf_candidate), origin).

(** ** The product detail page *)

(** What the selectors of [scrape_product_details] find on a product page:
    the text of the cell of each label of the specification table (when the
    table exists), whether the add-to-cart button and an out-of-stock text
    are there, and the [data-price-amount] attribute of the final-price
    element (when that element exists). *)
Record page : Type := {
  specs_table : option (string -> option string);
  has_tocart_button : bool;
  has_out_of_stock_text : bool;
  final_price_amount : option (option string)
}.

Record detail : Type := {
  d_brand : option string;
  d_country_of_origin : option string;
  d_wrapper_color : option string;
  d_wrapper_leaf : option string;
  d_wrapper_origin : option string;
  d_strength : option string;
  d_shape : option string;
  d_quantity_packaging : option string;
  d_size_length : option float;
  d_size_ring_gauge : option Z;
  d_filler : option string;
  d_binder : option string;
  d_profile : option string;
  d_stock_status : string;
  d_price_single : option float;
  d_price_bundle : option float;
  d_bundle_qty : option Z;
  d_price_box : option float;
  d_box_qty : option Z
}.

(** The inner [get_spec] *)
Definition get_spec (pg : page) (label : string) : option string :=
  match specs_table pg with
  | None => None
  | Some cells =>
      match cells label with
      | Some text => safe_str (Some text)
      | None => None
      end
  end.

Definition opt_truthy (s : option string) : bool :=
  match s with Some v => str_truthy v | None => false end.

(** [if cur is None and cand: cur = cand] *)
Definition fill (cur cand : option string) : option string :=
  match cur with
  | None => if opt_truthy cand then cand else cur
  | Some _ => cur
  end.

Definition of_opt_str (s : option string) : pyval :=
  match s with Some v => VStr v | None => VNone end.

Definition of_opt_float (f : option float) : pyval :=
  match f with Some v => VFloat v | None => VNone end.

Definition of_opt_int (z : option Z) : pyval :=
  match z with Some v => VInt v | None => VNone end.

(** The two quantity fields: [qty_number if quantity_packaging and "bundle"
    in quantity_packaging.lower() else None], and the same with "box". *)
Definition label_has (word : string) (quantity_packaging : option string)
  : bool :=
  match quantity_packaging with
  | Some q => (str_truthy q && contains word (lower q))%bool
  | None => false
  end.

(** [scrape_product_details], on the page that [get_soup] returned. *)
Definition scrape_page (pg : page) : result detail :=
  let brand := get_spec pg "Brand" in
  let country := get_spec pg "Country of Origin" in
  let wrapper_color := get_spec pg "Wrapper Color" in
  let wrapper_leaf := get_spec pg "Wrapper Leaf" in
  let wrapper_origin := get_spec pg "Wrapper Origin" in
  let wrapper_combined := get_spec pg "Wrapper" in
  let '(wrapper_color, wrapper_leaf, wrapper_origin) :=
    match wrapper_combined with
    | Some w =>
        if str_truthy w then
          let '(c_color, c_leaf, c_origin) := smart_parse_wrapper w in
          (fill wrapper_color c_color, fill wrapper_leaf c_leaf,
           fill wrapper_origin c_origin)
        else (wrapper_color, wrapper_leaf, wrapper_origin)
    | None => (wrapper_color, wrapper_leaf, wrapper_origin)
    end in
  let strength := get_spec pg "Strength" in
  let shape := get_spec pg "Cigar Shape" in
  let quantity_packaging := get_spec pg "Quantity per Packaging" in
  let size_text := get_spec pg "Cigar Size" in
  let filler := get_spec pg "Filler" in
  let binder := get_spec pg "Binder" in
  let profile := get_spec pg "Profile" in
  size <- (if opt_truthy size_text then parse_size size_text
           else Ok (None, None)) ;;
  qty_number <- parse_quantity_packaging quantity_packaging ;;
  let bundle_qty :=
    if label_has "bundle" quantity_packaging then qty_number else None in
  let box_qty :=
    if label_has "box" quantity_packaging then qty_number else None in
  let stock_status := "Unknown" in
  let stock_status :=
    if has_tocart_button pg then "In Stock" else stock_status in
  let stock_status :=
    if has_out_of_stock_text pg then "Out of Stock" else stock_status in
  price_single <-
    match final_price_amount pg with
    | Some amount => safe_decimal (of_opt_str amount)
    | None => Ok None
    end ;;
  Ok {| d_brand := brand;
        d_country_of_origin := country;
        d_wrapper_color := wrapper_color;
        d_wrapper_leaf := wrapper_leaf;
        d_wrapper_origin := wrapper_origin;
        d_strength := strength;
        d_shape := shape;
        d_quantity_packaging := quantity_packaging;
        d_size_length := fst size;
        d_size_ring_gauge := snd size;
        d_filler := filler;
        d_binder := binder;
        d_profile := profile;
        d_stock_status := stock_status;
        d_price_single := price_single;
        d_price_bundle := None;
        d_bundle_qty := bundle_qty;
        d_price_box := None;
        d_box_qty := box_qty |}.

(** ** Listing items, rows and the main pipeline *)

Record item : Type := {
  i_cigar_name : option string;
  i_url : string;
  i_rating : option float;
  i_review_count : option Z;
  i_price_single_card : option float
}.

Record row : Type := {
  retailer_name : option string;
  cigar_name : option string;
  brand : option string;
  size_length : option float;
  size_ring_gauge : option Z;
  wrapper_color : option string;
  wrapper_leaf : option string;
  wrapper_origin : option string;
  filler : option string;
  binder : option string;
  country_of_origin : option string;
  price_single : option float;
  price_bundle : option float;
  bundle_qty : option Z;
  price_box : option float;
  box_qty : option Z;
  stock_status : option string;
  rating : option float;
  review_count : option Z;
  url : option string;
  scrape_date : string;
  strength : option string;
  profile : option string;
  shape : option string
}.

(** The record that [main] builds from a listing item and its detail. *)
Definition make_record (scrape_date : string) (it : item) (dt : detail) : row :=
  {| retailer_name := Some "Famous Smoke";
     cigar_name := i_cigar_name it;
     brand := d_brand dt;
     size_length := d_size_length dt;
     size_ring_gauge := d_size_ring_gauge dt;
     wrapper_color := d_wrapper_color dt;
     wrapper_leaf := d_wrapper_leaf dt;
     wrapper_origin := d_wrapper_origin dt;
     filler := d_filler dt;
     binder := d_binder dt;
     country_of_origin := d_country_of_origin dt;
     price_single :=
       py_or Num.float_truthy (d_price_single dt) (i_price_single_card it);
     price_bundle := d_price_bundle dt;
     bundle_qty := d_bundle_qty dt;
     price_box := d_price_box dt;
     box_qty := d_box_qty dt;
     stock_status := Some (d_stock_status dt);
     rating := i_rating it;
     review_count := i_review_count it;
     url := Some (i_url it);
     scrape_date := scrape_date;
     strength := d_strength dt;
     profile := d_profile dt;
     shape := d_shape dt |}.

(** The coercions that [save_record_to_sql] applies before the INSERT. *)
Definition coerce_record (r : row) : result row :=
  sl <- safe_decimal (of_opt_float (size_length r)) ;;
  srg <- safe_int (of_opt_int (size_ring_gauge r)) ;;
  ps <- safe_decimal (of_opt_float (price_single r)) ;;
  pb <- safe_decimal (of_opt_float (price_bundle r)) ;;
  bq <- safe_int (of_opt_int (bundle_qty r)) ;;
  px <- safe_decimal (of_opt_float (price_box r)) ;;
  xq <- safe_int (of_opt_int (box_qty r)) ;;
  rt <- safe_decimal (of_opt_float (rating r)) ;;
  rc <- safe_int (of_opt_int (review_count r)) ;;
  Ok {| retailer_name := safe_str (retailer_name r);
        cigar_name := safe_str (cigar_name r);
        brand := safe_str (brand r);
        size_length := sl;
        size_ring_gauge := srg;
        wrapper_color := safe_str (wrapper_color r);
        wrapper_leaf := safe_str (wrapper_leaf r);
        wrapper_origin := safe_str (wrapper_origin r);
        filler := safe_str (filler r);
        binder := safe_str (binder r);
        country_of_origin := safe_str (country_of_origin r);
        price_single := ps;
        price_bundle := pb;
        bundle_qty := bq;
        price_box := px;
        box_qty := xq;
        stock_status := safe_str (stock_status r);
        rating := rt;
        review_count := rc;
        url := safe_str (url r);
        scrape_date := scrape_date r;
        strength := safe_str (strength r);
        profile := safe_str (profile r);
        shape := safe_str (shape r) |}.

Section Run.
(** The network and the database, as the run meets them. *)
Variable get_soup : string -> result page.
Variable scrape_listing_page : string -> result (list item * option string).
Variable execute_insert : row -> result unit.
Variable scrape_date : string.

(** [scrape_product_details] *)
Definition scrape_product_details (product_url : string) : result detail :=
  pg <- get_soup product_url ;;
  scrape_page pg.

(** [save_record_to_sql]: no exception is caught here. *)
Definition save_record_to_sql (record : row) : result row :=
  r <- coerce_record record ;;
  _ <- execute_insert r ;;
  Ok r.

(** The body of [for item in listing_records], with its [try]. *)
Definition scrape_item (it : item) : list (event row) :=
  match (dt <- scrape_product_details (i_url it) ;;
         save_record_to_sql (make_record scrape_date it dt)) with
  | Ok r => [Inserted r]
  | Raise e => [ItemError (Some (i_url it)) e]
  end.

Definition scrape_items (listing_records : list item) : list (event row) :=
  flat_map scrape_item listing_records.

(** The [while page_url] loop of [main]. *)
Fixpoint main_loop (fuel : nat) (page_url : option string)
  : list (event row) * outcome unit :=
  match fuel with
  | O => ([], OutOfFuel)
  | S fuel' =>
      if opt_truthy page_url then
        match scrape_listing_page (match page_url with
                                   | Some u => u
                                   | None => EmptyString
                                   end) with
        | Raise e => ([], Crashed e)
        | Ok (listing_records, next_page_url) =>
            let t := scrape_items listing_records in
            let '(t', o) := main_loop fuel' next_page_url in
            ((t ++ t')%list, o)
        end
      else ([], Returned tt)
  end.

Definition LISTING_URL : string := "https://www.famous-smoke.com/cigars".

Definition main (fuel : nat) : list (event row) * outcome unit :=
  main_loop fuel (Some LISTING_URL).
End Run.

End FamousSmoke.

(* ================================================================== *)
(** * atlantic_cigar_scraper.py *)
(* ================================================================== *)

Module Atlantic.

Import Py.

(** [str(n)] for a natural number. *)
Definition str_of_nat (n : nat) : string :=
  DecimalString.NilZero.string_of_uint (Nat.to_uint n).

(** [safe_float]: the bare [except] catches every exception. *)
Definition safe_float (v : pyval) : option float :=
  match Num.py_float v with
  | Ok f => Some f
  | Raise _ => None
  end.

(** [(\d+(\.\d+)?)\s*[xX]\s*(\d+(\.\d+)?)] *)
Definition size_pattern : Re.regex :=
  Re.seq [ Re.Grp 1 (Re.seq [Re.plus Re.d;
                             Re.Opt (Re.Grp 2 (Re.seq [Re.Chr (Re.lit ".");
                                                       Re.plus Re.d]))]);
           Re.star Re.ws; Re.Chr (Re.one_of "xX"); Re.star Re.ws;
           Re.Grp 3 (Re.seq [Re.plus Re.d;
                             Re.Opt (Re.Grp 4 (Re.seq [Re.Chr (Re.lit ".");
                                                       Re.plus Re.d]))]) ].

Definition parse_size (size_text : option string)
  : option float * option float :=
  match size_text with
  | None => (None, None)
  | Some t =>
      if is_empty t then (None, None)
      else
        match Re.search size_pattern t with
        | None => (None, None)
        | Some m => (safe_float (FamousSmoke.of_opt_str (Re.group_of m 1)),
                     safe_float (FamousSmoke.of_opt_str (Re.group_of m 3)))
        end
  end.

(** [\d+\.\d+] *)
Definition number_pattern : Re.regex :=
  Re.seq [Re.plus Re.d; Re.Chr (Re.lit "."); Re.plus Re.d].

Definition parse_price_range (price_text : option string) : option float :=
  match price_text with
  | None => None
  | Some t =>
      if is_empty t then None
      else
        match Re.findall number_pattern (replace "," "" t) with
        | [] => None
        | m :: _ => safe_float (VStr (Re.whole m))
        end
  end.

Definition money_to_float (text : option string) : option float :=
  match text with
  | None => None
  | Some t =>
      if is_empty t then None
      else
        match Re.findall number_pattern (replace "," "" t) with
        | [] => None
        | m :: _ => safe_float (VStr (Re.whole m))
        end
  end.

(** The dictionary that [parse_pdp] returns. *)
Record pdp : Type := {
  p_brand : option string;
  p_title : option string;
  p_rating : option Z;
  p_review_count : option Z;
  p_country : option string;
  p_shape : option string;
  p_strength : option string;
  p_size_length : option float;
  p_size_ring : option float;
  p_color : option string;
  p_binder : option string;
  p_filler : option string;
  p_wrapper_leaf : option string;
  p_price_box : option float;
  p_stock_status : option string;
  p_description : option string
}.

(** [{k: None for k in [...]}] *)
Definition all_none : pdp :=
  {| p_brand := None; p_title := None; p_rating := None;
     p_review_count := None; p_country := None; p_shape := None;
     p_strength := None; p_size_length := None; p_size_ring := None;
     p_color := None; p_binder := None; p_filler := None;
     p_wrapper_leaf := None; p_price_box := None; p_stock_status := None;
     p_description := None |}.

(** A product card of a listing page, as its selectors read it. *)
Record card : Type := {
  c_data_product_brand : option string;
  c_name : option string;
  c_href : option string;
  c_price_text : option string;
  c_summary_text : option string
}.

Record row : Type := {
  retailer_name : string;
  cigar_name : option string;
  brand : option string;
  size_length : option float;
  size_ring_gauge : option float;
  wrapper_color : option string;
  wrapper_leaf : option string;
  wrapper_origin : option string;
  filler : option string;
  binder : option string;
  country_of_origin : option string;
  price_per_stick : option float;
  price_per_bundle : option float;
  bundle_qty : option Z;
  price_per_box : option float;
  box_qty : option Z;
  stock_status : option string;
  rating : option Z;
  review_count : option Z;
  url : string;
  scrape_date : string;
  strength : option string;
  profile : option string;
  shape : option string;
  website_notes : option string
}.

Definition BASE_URL : string := "https://atlanticcigar.com".
Definition RETAILER_NAME : string := "Atlantic Cigar".

Definition STRENGTH_URLS : list (string * string) :=
  [ ("Mild",
     "https://atlanticcigar.com/cigars/all-cigars/?_bc_fsnf=1&Strength=Mild");
    ("Mild-Medium",
     "https://atlanticcigar.com/cigars/all-cigars/?_bc_fsnf=1&Strength=Mild-Medium");
    ("Medium",
     "https://atlanticcigar.com/cigars/all-cigars/?_bc_fsnf=1&Strength=Medium");
    ("Medium-Full",
     "https://atlanticcigar.com/cigars/all-cigars/?_bc_fsnf=1&Strength=Medium-Full");
    ("Full",
     "https://atlanticcigar.com/cigars/all-cigars/?_bc_fsnf=1&Strength=Full") ].

(** ["\n\n".join(parts) if parts else None] *)
Fixpoint join (sep : string) (parts : list string) : string :=
  match parts with
  | [] => EmptyString
  | [p] => p
  | p :: ps => p ++ sep ++ join sep ps
  end.

Definition newline : string := String (ascii_of_nat 10) EmptyString.

Definition notes_of (parts : list string) : option string :=
  match parts with
  | [] => None
  | _ => Some (join (newline ++ newline) parts)
  end.

Definition part_if_truthy (s : option string) : list string :=
  match s with
  | Some v => if str_truthy v then [v] else []
  | None => []
  end.

Section Run.
(** [fetch_soup] on a listing URL, with the product cards selected on the
    page; [fetch_soup] on a product URL, with the dictionary that the
    selections of [parse_pdp] build from the page. *)
Variable fetch_listing : string -> result (list card).
Variable fetch_pdp : string -> result pdp.
Variable execute_insert : row -> result unit.
(** [datetime.now().date().isoformat()] *)
Variable today : string.

(** [parse_pdp]: a failed fetch is logged and answered by [all_none]. *)
Definition parse_pdp (url : string) : pdp * list (event row) :=
  match fetch_pdp url with
  | Raise e => (all_none, [DetailFetchError url e])
  | Ok d => (d, [])
  end.

(** [save_record_to_sql]: a failed INSERT is logged, never raised. *)
Definition save_record_to_sql (record : row) : list (event row) :=
  match execute_insert record with
  | Ok _ => [Inserted record]
  | Raise e => [SqlError record e]
  end.

(** The body of [for card in product_cards], with its [try]; the second
    component tells whether [total_inserted] was incremented. *)
Definition scrape_card (strength_name : string) (c : card)
  : list (event row) * bool :=
  let grid_brand := py_or str_truthy (c_data_product_brand c) None in
  let grid_name := c_name c in
  match c_href c with
  | None => ([ItemError None AttributeError], false)
  | Some href =>
      let full_url := if startswith "/" href then BASE_URL ++ href
                      else href in
      let price_per_stick := parse_price_range (c_price_text c) in
      let summary_text := c_summary_text c in
      let '(pd, log) := parse_pdp full_url in
      let website_notes :=
        notes_of (part_if_truthy summary_text
                  ++ part_if_truthy (p_description pd))%list in
      let record :=
        {| retailer_name := RETAILER_NAME;
           cigar_name := py_or str_truthy (p_title pd) grid_name;
           brand := py_or str_truthy (p_brand pd) grid_brand;
           size_length := p_size_length pd;
           size_ring_gauge := p_size_ring pd;
           wrapper_color := p_color pd;
           wrapper_leaf := p_wrapper_leaf pd;
           wrapper_origin := None;
           filler := p_filler pd;
           binder := p_binder pd;
           country_of_origin := p_country pd;
           price_per_stick := price_per_stick;
           price_per_bundle := None;
           bundle_qty := None;
           price_per_box := p_price_box pd;
           box_qty := None;
           stock_status := p_stock_status pd;
           rating := p_rating pd;
           review_count := p_review_count pd;
           url := full_url;
           scrape_date := today;
           strength := py_or str_truthy (p_strength pd) (Some strength_name);
           profile := None;
           shape := p_shape pd;
           website_notes := website_notes |} in
      ((log ++ save_record_to_sql record)%list, true)
  end.

Fixpoint scrape_cards (strength_name : string) (cards : list card)
  : list (event row) * Z :=
  match cards with
  | [] => ([], 0%Z)
  | c :: cs =>
      let '(t, counted) := scrape_card strength_name c in
      let '(t', n) := scrape_cards strength_name cs in
      ((t ++ t')%list, ((if counted then 1 else 0) + n)%Z)
  end.

(** The [while True] loop of [scrape_strength_category], from [page]. *)
Fixpoint category_loop (fuel : nat) (strength_name base_url : string)
         (page : nat) : list (event row) * outcome Z :=
  match fuel with
  | O => ([], OutOfFuel)
  | S fuel' =>
      match fetch_listing (base_url ++ "&page=" ++ str_of_nat page) with
      | Raise e => ([], Crashed e)
      | Ok [] => ([], Returned 0%Z)
      | Ok product_cards =>
          let '(t, n) := scrape_cards strength_name product_cards in
          match category_loop fuel' strength_name base_url (S page) with
          | (t', Returned n') => ((t ++ t')%list, Returned (n + n')%Z)
          | (t', o) => ((t ++ t')%list, o)
          end
      end
  end.

Definition scrape_strength_category (fuel : nat)
           (strength_name base_url : string)
  : list (event row) * outcome Z :=
  category_loop fuel strength_name base_url 1.

(** The [for strength, url in STRENGTH_URLS.items()] loop of
    [run_scraper]: nothing is caught, so an exception that leaves one
    category leaves the loop. *)
Fixpoint run_categories (fuel : nat) (cats : list (string * string))
  : list (event row) * outcome Z :=
  match cats with
  | [] => ([], Returned 0%Z)
  | (strength, url) :: rest =>
      match scrape_strength_category fuel strength url with
      | (t, Returned n) =>
          match run_categories fuel rest with
          | (t', Returned n') => ((t ++ t')%list, Returned (n + n')%Z)
          | (t', o) => ((t ++ t')%list, o)
          end
      | (t, o) => (t, o)
      end
  end.

Definition run_scraper (fuel : nat) : list (event row) * outcome Z :=
  run_categories fuel STRENGTH_URLS.
End Run.

End Atlantic.

(* ================================================================== *)
(** * holts_cigar_scraper.py *)
(* ================================================================== *)

Module Holts.

Import Py.

Definition safe_float (v : pyval) : option float :=
  match Num.py_float v with
  | Ok f => Some f
  | Raise _ => None
  end.

(** [\d+\.\d+] *)
Definition number_pattern : Re.regex :=
  Re.seq [Re.plus Re.d; Re.Chr (Re.lit "."); Re.plus Re.d].

(** [parse_price_range] *)
Definition parse_price_range (price_text : option string) : option float :=
  match price_text with
  | None => None
  | Some t =>
      if is_empty t then None
      else
        match Re.findall number_pattern (replace "," "" t) with
        | [] => None
        | m :: _ => safe_float (VStr (Re.whole m))
        end
  end.

End Holts.

(* ================================================================== *)
(** * gotham_cigars_scraper.py *)
(* ================================================================== *)

Module Gotham.

Import Py.

Definition safe_float (v : pyval) : option float :=
  match Num.py_float v with
  | Ok f => Some f
  | Raise _ => None
  end.

(** ** The price of a category card *)

(** [\$\s*([\d,]+\.\d{2})] *)
Definition price_pattern : Re.regex :=
  Re.seq [ Re.Chr (Re.lit "$"); Re.star Re.ws;
           Re.Grp 1 (Re.seq [ Re.plus (Re.either Re.d (Re.lit ","));
                              Re.Chr (Re.lit "."); Re.exactly 2 Re.d ]) ].

Definition group1 (h : Re.hit) : string :=
  match Re.group_of h 1 with Some s => s | None => EmptyString end.

(** The [low_price] and [high_price] of [parse_category_card]. *)
Definition card_prices (price_text : option string)
  : option float * option float :=
  match price_text with
  | None => (None, None)
  | Some t =>
      if is_empty t then (None, None)
      else
        match map group1 (Re.findall price_pattern t) with
        | [] => (None, None)
        | [p] => (safe_float (VStr (replace "," "" p)), None)
        | p :: ps =>
            (safe_float (VStr (replace "," "" p)),
             safe_float (VStr (replace "," "" (last ps p))))
        end
  end.

(** ** The size cell of the specification table *)

(** One group around [\d+], [\s*], [\d*], [/?] and [\d*] in sequence. *)
Definition length_pattern : Re.regex :=
  Re.Grp 1 (Re.seq [ Re.plus Re.d; Re.star Re.ws; Re.star Re.d;
                     Re.opt_chr (Re.lit "/"); Re.star Re.d ]).

(** [[xX]\s*(\d+)] *)
Definition ring_pattern : Re.regex :=
  Re.seq [ Re.Chr (Re.one_of "xX"); Re.star Re.ws; Re.Grp 1 (Re.plus Re.d) ].

(** [\(([^)]+)\)] *)
Definition shape_pattern : Re.regex :=
  Re.seq [ Re.Chr (Re.lit "("); Re.Grp 1 (Re.plus (Re.none_of ")"));
           Re.Chr (Re.lit ")") ].

(** [s.split(sep)] for a separator of one character. *)
Fixpoint split_char_from (sep : ascii) (cur s : string) : list string :=
  match s with
  | EmptyString => [cur]
  | String c r =>
      if Ascii.eqb c sep then cur :: split_char_from sep EmptyString r
      else split_char_from sep (cur ++ String c EmptyString) r
  end.

Definition split_char (sep : ascii) (s : string) : list string :=
  split_char_from sep EmptyString s.

(** [float(parts[0]) / float(parts[1])] inside [try ... except: pass]:
    any exception, a division by zero included, leaves the field unset. *)
Definition quotient (parts : list string) : option float :=
  match parts with
  | p0 :: p1 :: _ =>
      match Num.float_of_str p0, Num.float_of_str p1 with
      | Ok num, Ok den =>
          if Num.is_zero den then None else Some (Num.div num den)
      | _, _ => None
      end
  | _ => None
  end.

(** The [if size_text:] block of [parse_specs_table]: the [size_length],
    [ring_gauge] and [shape] entries of the result. *)
Definition parse_size_cell (size_text : string)
  : option float * option Z * option string :=
  if is_empty size_text then (None, None, None)
  else
    let size_length :=
      match Re.search length_pattern size_text with
      | Some m_len =>
          let frac := replace " " "" (group1 m_len) in
          if contains "/" frac then quotient (split_char "/" frac)
          else safe_float (VStr frac)
      | None => None
      end in
    let ring_gauge :=
      match Re.search ring_pattern size_text with
      | Some m_rg => Some (Num.digits_value (group1 m_rg))
      | None => None
      end in
    let shape :=
      match Re.search shape_pattern size_text with
      | Some m_shape => Some (strip (group1 m_shape))
      | None => None
      end in
    (size_length, ring_gauge, shape).

(** ** Traversal *)

(** A card of a category page as [parse_category_card] reads it, and the
    dictionary that [parse_pdp] builds from a product page. *)
Record card : Type := {
  c_url : option string;
  c_name : option string;
  c_price_text : option string;
  c_rating : option float;
  c_review_count : Z
}.

Record pdp : Type := {
  p_cigar_name : option string;
  p_brand : option string;
  p_website_notes : option string;
  p_size_length : option float;
  p_ring_gauge : option Z;
  p_shape : option string;
  p_box_qty : option Z;
  p_bundle_qty : option Z;
  p_wrapper_leaf : option string;
  p_binder : option string;
  p_filler : option string;
  p_profile : option string;
  p_country_of_origin : option string;
  p_stock_status : string
}.

Record row : Type := {
  retailer_name : string;
  cigar_name : option string;
  brand : option string;
  size_length : option float;
  size_ring_gauge : option Z;
  wrapper_color : option string;
  wrapper_leaf : option string;
  wrapper_origin : option string;
  filler : option string;
  binder : option string;
  country_of_origin : option string;
  price_per_stick : option float;
  price_per_bundle : option float;
  bundle_qty : option Z;
  price_per_box : option float;
  box_qty : option Z;
  stock_status : string;
  rating : option float;
  review_count : Z;
  url : string;
  scrape_date : string;
  strength : string;
  profile : option string;
  shape : option string;
  website_notes : option string
}.

Definition RETAILER_NAME : string := "Gotham Cigars".

Definition STRENGTH_URLS : list (string * string) :=
  [ ("Mellow",
     "https://www.gothamcigars.com/mellow-cigars/?sort=bestselling&limit=100&mode=6");
    ("Mellow-to-Medium",
     "https://www.gothamcigars.com/mellow-to-medium-cigars/?sort=bestselling&limit=100&mode=6");
    ("Medium",
     "https://www.gothamcigars.com/medium-cigars/?sort=bestselling&limit=100&mode=6");
    ("Medium-to-Full",
     "https://www.gothamcigars.com/medium-to-full-cigars/?sort=bestselling&limit=100&mode=6");
    ("Full",
     "https://www.gothamcigars.com/full-bodied-cigars/?sort=bestselling&limit=100&mode=6") ].

Section Run.
(** [fetch_soup(base_url, params={"page": page})] with the cards selected
    on the page, and [fetch_soup] on a product URL with the dictionary
    that [parse_pdp] builds from it. *)
Variable fetch_category : string -> nat -> result (list card).
Variable fetch_pdp : string -> result pdp.
Variable execute_insert : row -> result unit.
Variable today : string.

Definition save_record_to_sql (record : row) : list (event row) :=
  match execute_insert record with
  | Ok _ => [Inserted record]
  | Raise e => [SqlError record e]
  end.

(** The body of [for card in iterate_category_pages(...)], with its
    [try]; the second component tells whether a record was counted. *)
Definition scrape_card (strength_name : string) (c : card)
  : list (event row) * bool :=
  match py_or str_truthy (c_url c) None with
  | None => ([], false)
  | Some full_url =>
      match fetch_pdp full_url with
      | Raise e => ([DetailFetchError full_url e], false)
      | Ok pd =>
          let price := fst (card_prices (c_price_text c)) in
          let record :=
            {| retailer_name := RETAILER_NAME;
               cigar_name := py_or str_truthy (p_cigar_name pd) (c_name c);
               brand := p_brand pd;
               size_length := p_size_length pd;
               size_ring_gauge := p_ring_gauge pd;
               wrapper_color := None;
               wrapper_leaf := p_wrapper_leaf pd;
               wrapper_origin := None;
               filler := p_filler pd;
               binder := p_binder pd;
               country_of_origin := p_country_of_origin pd;
               price_per_stick := None;
               price_per_bundle := None;
               bundle_qty := p_bundle_qty pd;
               price_per_box := price;
               box_qty := p_box_qty pd;
               stock_status := p_stock_status pd;
               rating := c_rating c;
               review_count := c_review_count c;
               url := full_url;
               scrape_date := today;
               strength := strength_name;
               profile := py_or str_truthy (p_profile pd) (Some strength_name);
               shape := p_shape pd;
               website_notes := p_website_notes pd |} in
          (save_record_to_sql record, true)
      end
  end.

Fixpoint scrape_cards (strength_name : string) (cards : list card)
  : list (event row) * Z :=
  match cards with
  | [] => ([], 0%Z)
  | c :: cs =>
      let '(t, counted) := scrape_card strength_name c in
      let '(t', n) := scrape_cards strength_name cs in
      ((t ++ t')%list, ((if counted then 1 else 0) + n)%Z)
  end.

(** [iterate_category_pages] driven by the [for] loop of
    [scrape_strength]: the cards of a page are handled before the next
    page is fetched; a failed fetch is logged and ends the category. The
    result is [None] when the fuel does not reach the end. *)
Fixpoint category_loop (fuel : nat) (strength_name base_url : string)
         (page : nat) : option (list (event row) * Z) :=
  match fuel with
  | O => None
  | S fuel' =>
      match fetch_category base_url page with
      | Raise e => Some ([ListingFetchError base_url e], 0%Z)
      | Ok [] => Some ([], 0%Z)
      | Ok cards =>
          let '(t, n) := scrape_cards strength_name cards in
          match category_loop fuel' strength_name base_url (S page) with
          | Some (t', n') => Some ((t ++ t')%list, (n + n')%Z)
          | None => None
          end
      end
  end.

Definition scrape_strength (fuel : nat) (strength_name base_url : string)
  : option (list (event row) * Z) :=
  category_loop fuel strength_name base_url 1.

(** The loop of [run_scraper] over the categories. *)
Fixpoint run_categories (fuel : nat) (cats : list (string * string))
  : option (list (event row) * Z) :=
  match cats with
  | [] => Some ([], 0%Z)
  | (strength, url) :: rest =>
      match scrape_strength fuel strength url with
      | Some (t, n) =>
          match run_categories fuel rest with
          | Some (t', n') => Some ((t ++ t')%list, (n + n')%Z)
          | None => None
          end
      | None => None
      end
  end.

Definition run_scraper (fuel : nat) : option (list (event row) * Z) :=
  run_categories fuel STRENGTH_URLS.
End Run.

End Gotham.

(* ================================================================== *)
(** * jrcigars_medium_to_full_scraper.py *)
(* ================================================================== *)

Module JR.

Import Py.

(** [safe_float]: [float(str(v).replace(",", "").strip())]. For a float
    [v], [str(v)] is the shortest text that [float] reads back as [v]; for an
    integer it is its decimal text. *)
Definition safe_float (v : pyval) : option float :=
  match v with
  | VNone => None
  | VStr s =>
      match Num.float_of_str (strip (replace "," "" s)) with
      | Ok f => Some f
      | Raise _ => None
      end
  | VInt z => Some (Num.of_decimal (Z.ltb z 0) (Z.abs z) 0)
  | VFloat f => Some f
  end.

Definition safe_str (v : option string) : option string :=
  match v with
  | None => None
  | Some t => let s := strip t in if is_empty s then None else Some s
  end.

(** A tile of a listing page, as the page script returns it. *)
Record item : Type := {
  i_url : option string;
  i_brand : option string;
  i_name : option string;
  i_size : option string;
  i_price : pyval
}.

(** The [data] dictionary of [scrape_detail_page]. *)
Record detail : Type := {
  d_description : option string;
  d_length : option string;
  d_ring : option string;
  d_shape : option string;
  d_wrapper_type : option string;
  d_binder : option string;
  d_filler : option string;
  d_origin : option string;
  d_strength : option string;
  d_wrapper_shade : option string
}.

Record row : Type := {
  retailer_name : string;
  cigar_name : option string;
  brand : option string;
  size_length : option float;
  size_ring_gauge : option float;
  wrapper_color : option string;
  wrapper_leaf : option string;
  wrapper_origin : option string;
  filler : option string;
  binder : option string;
  country_of_origin : option string;
  price_per_stick : option float;
  price_per_bundle : option float;
  bundle_qty : option Z;
  price_per_box : option float;
  box_qty : option Z;
  stock_status : string;
  rating : option float;
  review_count : option Z;
  url : string;
  scrape_date : string;
  strength : option string;
  profile : option string;
  shape : option string;
  website_notes : option string
}.

Definition BASE_URL : string := "https://www.jrcigars.com".
Definition RETAILER_NAME : string := "JR Cigars".
Definition START_URL : string :=
  "https://www.jrcigars.com/cigars-by-strength/medium-to-full-bodied-cigars/?sz=60".
Definition page_size : nat := 60.

Definition str_of_nat (n : nat) : string :=
  DecimalString.NilZero.string_of_uint (Nat.to_uint n).

Definition listing_url (start : nat) : string :=
  match start with
  | O => START_URL
  | _ => "https://www.jrcigars.com/cigars-by-strength/"
         ++ "medium-to-full-bodied-cigars/"
         ++ "?start=" ++ str_of_nat start ++ "&sz=" ++ str_of_nat page_size
  end.

(** The multiplication sign, code point 215. *)
Definition times : string := String (ascii_of_nat 215) EmptyString.

Definition of_opt_str (s : option string) : pyval :=
  match s with Some v => VStr v | None => VNone end.

(** [length_from_listing, ring_from_listing] *)
Definition size_from_listing (size_text : option string)
  : option string * option string :=
  match size_text with
  | Some t =>
      if (str_truthy t && contains times t)%bool then
        match map strip (split1 times t) with
        | [a; b] => (Some a, Some b)
        | _ => (None, None)
        end
      else (None, None)
  | None => (None, None)
  end.

Section Run.
(** The tiles that the browser finds at a listing URL, or the exception of
    the navigation; the fields that [scrape_detail_page] has filled when
    it returns, and the exception that interrupted it, if any. *)
Variable load_listing : string -> result (list item).
Variable load_detail : string -> detail * option exn.
Variable execute_insert : row -> result unit.
Variable today : string.

(** [scrape_listing_page]: an exception is logged and answered by []. *)
Definition scrape_listing_page (url : string)
  : list item * list (event row) :=
  match load_listing url with
  | Ok items => (items, [])
  | Raise e => ([], [ListingFetchError url e])
  end.

(** [scrape_detail_page] *)
Definition scrape_detail_page (url : string) : detail * list (event row) :=
  match load_detail url with
  | (data, None) => (data, [])
  | (data, Some e) => (data, [DetailFetchError url e])
  end.

Definition save_record_to_sql (record : row) : list (event row) :=
  match execute_insert record with
  | Ok _ => [Inserted record]
  | Raise e => [SqlError record e]
  end.

(** The first [while True] loop of [run_scraper]: [all_items] at its end,
    with what the listing fetches logged, or [None] when the fuel does not
    reach the end. *)
Fixpoint collect (fuel : nat) (start : nat)
  : option (list item * list (event row)) :=
  match fuel with
  | O => None
  | S fuel' =>
      let '(items, log) := scrape_listing_page (listing_url start) in
      match items with
      | [] => Some ([], log)
      | _ =>
          if Nat.ltb (List.length items) page_size then Some (items, log)
          else
            match collect fuel' (start + page_size) with
            | Some (more, log') =>
                Some ((items ++ more)%list, (log ++ log')%list)
            | None => None
            end
      end
  end.

(** The body of [for idx, item in enumerate(all_items, start=1)]. *)
Definition scrape_item (it : item) : list (event row) :=
  match py_or str_truthy (i_url it) None with
  | None => []
  | Some u =>
      let product_url := if startswith "/" u then BASE_URL ++ u else u in
      let '(dt, log) := scrape_detail_page product_url in
      let size_text := safe_str (i_size it) in
      let '(length_from_listing, ring_from_listing) :=
        size_from_listing size_text in
      let record :=
        {| retailer_name := RETAILER_NAME;
           cigar_name := safe_str (i_name it);
           brand := safe_str (i_brand it);
           size_length :=
             py_or Num.float_truthy
                   (safe_float (of_opt_str (d_length dt)))
                   (safe_float (of_opt_str length_from_listing));
           size_ring_gauge :=
             py_or Num.float_truthy
                   (safe_float (of_opt_str (d_ring dt)))
                   (safe_float (of_opt_str ring_from_listing));
           wrapper_color := safe_str (d_wrapper_shade dt);
           wrapper_leaf := safe_str (d_wrapper_type dt);
           wrapper_origin := None;
           filler := safe_str (d_filler dt);
           binder := safe_str (d_binder dt);
           country_of_origin := safe_str (d_origin dt);
           price_per_stick := safe_float (i_price it);
           price_per_bundle := None;
           bundle_qty := None;
           price_per_box := None;
           box_qty := None;
           stock_status := "Unknown";
           rating := None;
           review_count := None;
           url := product_url;
           scrape_date := today;
           strength := safe_str (d_strength dt);
           profile := None;
           shape := safe_str (d_shape dt);
           website_notes := safe_str (d_description dt) |} in
      (log ++ save_record_to_sql record)%list
  end.

(** [run_scraper]: the items collected, then one record per item. *)
Definition run_scraper (fuel : nat) : option (list (event row)) :=
  match collect fuel 0 with
  | Some (all_items, log) =>
      Some (log ++ flat_map scrape_item all_items)%list
  | None => None
  end.
End Run.

End JR.

(* ================================================================== *)
(** * cigars_daily_scraper.py: the reconciliation of [main] *)
(* ================================================================== *)

Module CigarsDaily.

(** [detail["product_title"] or item["name"]] *)
Definition cigar_name (product_title name : option string) : option string :=
  py_or str_truthy product_title name.

(** [detail["cigar_brand_attr"] or detail["breadcrumb_brand"] or item["brand"]] *)
Definition brand (cigar_brand_attr breadcrumb_brand item_brand : option string)
  : option string :=
  py_or str_truthy (py_or str_truthy cigar_brand_attr breadcrumb_brand)
        item_brand.

(** [detail["size_length"] if detail["size_length"] is not None
     else item["size_length"]] *)
Definition size_length (detail_size item_size : option float) : option float :=
  if_not_none detail_size item_size.

Definition size_ring_gauge (detail_ring item_ring : option Z) : option Z :=
  if_not_none detail_ring item_ring.

End CigarsDaily.

(* ================================================================== *)
(** * cigarbid_scraper.py: the reconciliation of [main] *)
(* ================================================================== *)

Module CigarBid.

(** [safe_decimal]: [float(value) if value is not None else None], every
    exception answered by [None]. *)
Definition safe_decimal (value : pyval) : option float :=
  match value with
  | VNone => None
  | _ =>
      match Num.py_float value with
      | Ok f => Some f
      | Raise _ => None
      end
  end.

(** The amount of a price text such as "$5.50": the dollar signs removed,
    then [safe_decimal]. *)
Definition amount (text : string) : option float :=
  safe_decimal (VStr (Py.replace "$" "" text)).

(** [detail["title_name"] or item["cigar_name"]] *)
Definition cigar_name (title_name item_name : option string) : option string :=
  py_or str_truthy title_name item_name.

(** [detail["size_length"] or item["size_length"]] *)
Definition size_length (detail_size item_size : option float) : option float :=
  py_or Num.float_truthy detail_size item_size.

(** [detail["size_ring_gauge"] or item["size_ring_gauge"]] *)
Definition size_ring (detail_ring item_ring : option Z) : option Z :=
  py_or Num.int_truthy detail_ring item_ring.

(** [item["bid_to_win"] or detail["starting_bid"]] *)
Definition price_per_stick (bid_to_win starting_bid : option float)
  : option float :=
  py_or Num.float_truthy bid_to_win starting_bid.

End CigarBid.

(* ================================================================== *)
(** * cigar_aficionado_scraper.py: [parse_fractional_length] *)
(* ================================================================== *)

Module Aficionado.

Import Py.

Definition safe_decimal (value : pyval) : option float :=
  match value with
  | VNone => None
  | _ =>
      match Num.py_float value with
      | Ok f => Some f
      | Raise _ => None
      end
  end.

Definition frac_map : list (string * float) :=
  [ ("1/4", Num.dyadic 1 2); ("1/2", Num.dyadic 1 1); ("3/4", Num.dyadic 3 2);
    ("1/8", Num.dyadic 1 3); ("3/8", Num.dyadic 3 3); ("5/8", Num.dyadic 5 3);
    ("7/8", Num.dyadic 7 3) ].

Definition double_quote : string := String (ascii_of_nat 34) EmptyString.

Definition parse_fractional_length (text : option string) : option float :=
  match text with
  | None => None
  | Some t0 =>
      if is_empty t0 then None
      else
        match split_ws (strip (replace double_quote "" t0)) with
        | [p0] => safe_decimal (VStr p0)
        | [p0; frac] =>
            Some (Num.add (FamousSmoke.or_zero (safe_decimal (VStr p0)))
                          (FamousSmoke.dict_get frac_map frac (Num.zero false)))
        | _ => None
        end
  end.

End Aficionado.

(* ================================================================== *)
(** * Further helpers of the scripts *)
(* ================================================================== *)

(** ** [re.sub] *)

Module ReSub.

Import Py Re.

(** [re.sub(pattern, repl, s)] for a pattern that matches no empty text and
    a replacement without group references: the text is read from left to
    right; where the pattern matches, the replacement is written and the
    reading goes on after the match, elsewhere the character is copied. *)
Fixpoint sub_fuel (fuel : nat) (r : regex) (repl s : string) : string :=
  match fuel with
  | O => s
  | S f =>
      match s with
      | EmptyString => EmptyString
      | String c s' =>
          match match_here r s with
          | Some (_, _, t) => repl ++ sub_fuel f r repl t
          | None => String c (sub_fuel f r repl s')
          end
      end
  end.

Definition sub (r : regex) (repl s : string) : string :=
  sub_fuel (S (String.length s)) r repl s.

End ReSub.

(** ** cigar_data_sheets.py *)

Module DataSheets.

Import Py.

(** The class [[^a-z0-9_]]. *)
Definition not_name_char (c : ascii) : bool :=
  negb (in_range 97 122 c || in_range 48 57 c || Ascii.eqb c "_").

(** [normalize] *)
Definition normalize (name : string) : string :=
  let name := lower name in
  let name := ReSub.sub (Re.plus Re.ws) "_" name in
  let name := ReSub.sub (Re.Chr not_name_char) "" name in
  name.

End DataSheets.

(** ** cigarbid_scraper.py: the dimensions of a lot *)

Module CigarBidText.

Import Py.

(** [safe_int]: [int(value) if value is not None else None], every
    exception answered by [None]. *)
Definition safe_int (value : pyval) : option Z :=
  match value with
  | VNone => None
  | _ =>
      match Num.py_int value with
      | Ok n => Some n
      | Raise _ => None
      end
  end.

Definition safe_str (value : option string) : option string :=
  match value with
  | None => None
  | Some v => let s := strip v in if is_empty s then None else Some s
  end.

(** [parse_dimensions] *)
Definition parse_dimensions (dim_text : option string)
  : option float * option Z :=
  match dim_text with
  | None => (None, None)
  | Some t =>
      if is_empty t then (None, None)
      else
        let cleaned :=
          replace " " "" (replace Aficionado.double_quote ""
                                  (strip_chars "()" t)) in
        if negb (contains "x" cleaned) then (None, None)
        else
          match split1 "x" cleaned with
          | [length_part; ring_part] =>
              (CigarBid.safe_decimal (VStr length_part),
               safe_int (VStr ring_part))
          | _ => (None, None)
          end
  end.

End CigarBidText.

(** ** holts_cigar_scraper.py: names and review counts *)

Module HoltsText.

Import Py.

(** [parse_size_from_name]; the pattern is the one of the size parser of
    atlantic_cigar_scraper.py, [(\d+(\.\d+)?)\s*[xX]\s*(\d+(\.\d+)?)]. *)
Definition parse_size_from_name (name_text : option string)
  : option string * option float * option float :=
  match name_text with
  | None => (None, None, None)
  | Some t =>
      if is_empty t then (None, None, None)
      else
        let text := Atlantic.join " " (split_ws t) in
        let parts := Gotham.split_char "-" text in
        let shape := option_map strip (hd_error parts) in
        let size_part :=
          match parts with
          | _ :: p1 :: _ => strip p1
          | _ => EmptyString
          end in
        match Re.search Atlantic.size_pattern size_part with
        | Some m =>
            (shape,
             Holts.safe_float (FamousSmoke.of_opt_str (Re.group_of m 1)),
             Holts.safe_float (FamousSmoke.of_opt_str (Re.group_of m 3)))
        | None => (shape, None, None)
        end
  end.

(** [(\d+)] *)
Definition count_pattern : Re.regex := Re.Grp 1 (Re.plus Re.d).

(** [parse_review_count]: the [int] call is not guarded. *)
Definition parse_review_count (text : option string) : result Z :=
  match text with
  | None => Ok 0%Z
  | Some t =>
      if is_empty t then Ok 0%Z
      else
        match Re.search count_pattern t with
        | Some m => Num.py_int (FamousSmoke.of_opt_str (Re.group_of m 1))
        | None => Ok 0%Z
        end
  end.

End HoltsText.

(** ** cigars_daily_scraper.py: the size inside a product name *)

Module CigarsDailyText.

Import Py.

Definition safe_decimal (value : pyval) : option float :=
  match value with
  | VNone => None
  | _ =>
      match Num.py_float value with
      | Ok f => Some f
      | Raise _ => None
      end
  end.

Definition safe_int (value : pyval) : option Z :=
  match value with
  | VNone => None
  | _ =>
      match Num.py_int value with
      | Ok n => Some n
      | Raise _ => None
      end
  end.

(** The multiplication sign, code point 215. *)
Definition times_sign : ascii := ascii_of_nat 215.

(** The pattern of [parse_size_from_name]: an opening parenthesis, group 1
    of digits and points, white space, [x] or the multiplication sign,
    white space, group 2 of digits, a closing parenthesis. *)
Definition size_pattern : Re.regex :=
  Re.seq [ Re.Chr (Re.lit "(");
           Re.Grp 1 (Re.plus (Re.either Re.d (Re.lit ".")));
           Re.star Re.ws;
           Re.Chr (Re.either (Re.lit "x") (Re.lit times_sign));
           Re.star Re.ws;
           Re.Grp 2 (Re.plus Re.d);
           Re.Chr (Re.lit ")") ].

(** [parse_size_from_name] *)
Definition parse_size_from_name (name : string) : option float * option Z :=
  match Re.search size_pattern name with
  | None => (None, None)
  | Some m => (safe_decimal (FamousSmoke.of_opt_str (Re.group_of m 1)),
               safe_int (FamousSmoke.of_opt_str (Re.group_of m 2)))
  end.

End CigarsDailyText.

(** ** cigar_aficionado_scraper.py: the wrapper line *)

Module AficionadoText.

Import Py.

(** [parse_wrapper_text]: (wrapper_country, wrapper_leaf). *)
Definition parse_wrapper_text (text : option string)
  : option string * option string :=
  match text with
  | None => (None, None)
  | Some t =>
      if is_empty t then (None, None)
      else
        match split_ws t with
        | [] => (None, None)
        | [p] => (Some p, None)
        | country :: rest => (Some country, Some (Atlantic.join " " rest))
        end
  end.

End AficionadoText.

(** ** cigar_aficionado_scraper.py: the run over the rating pages *)

Module AficionadoRun.

Import Py.

Definition BASE_URL : string := "https://www.cigaraficionado.com".

(** [SEARCH_URL.format(page=page)] *)
Definition search_url (page : nat) : string :=
  "https://www.cigaraficionado.com/ratings/search?"
  ++ "q=&page=" ++ Atlantic.str_of_nat page
  ++ "&score%5B0%5D=95+TO+100&score%5B1%5D=90+TO+94".

Definition safe_str (value : option string) : option string :=
  match value with
  | None => None
  | Some v => let s := strip v in if is_empty s then None else Some s
  end.

(** A [div.row] of a rating page as [parse_listing_block] selects from it:
    the text and the [href] attribute of its [h4 a] element, when it has
    one, and the text of its [.score-number] element. *)
Record block : Type := {
  b_name_el : option (string * option string);
  b_score : option string
}.

Record listing : Type := {
  l_cigar_name : option string;
  l_url : option string;
  l_rating : option float;
  l_brand : option string
}.

(** [parse_listing_block]: [BASE_URL + name_el.get("href")] raises
    [TypeError] when the attribute is missing. The name that [safe_str]
    returns has a first word, which is the brand. *)
Definition parse_listing_block (div : block) : result listing :=
  let rating :=
    match b_score div with
    | Some text => Aficionado.safe_decimal (VStr text)
    | None => None
    end in
  match b_name_el div with
  | Some (text, href) =>
      let cigar_name := safe_str (Some text) in
      match href with
      | None => Raise TypeError
      | Some h =>
          Ok {| l_cigar_name := cigar_name;
                l_url := Some (BASE_URL ++ h);
                l_rating := rating;
                l_brand := match cigar_name with
                           | Some n => hd_error (split_ws n)
                           | None => None
                           end |}
      end
  | None =>
      Ok {| l_cigar_name := None; l_url := None; l_rating := rating;
            l_brand := None |}
  end.

(** The dictionary that [scrape_detail_page] returns. *)
Record detail : Type := {
  d_size_length : option float;
  d_size_ring_gauge : option Z;
  d_strength : option string;
  d_shape : option string;
  d_filler : option string;
  d_binder : option string;
  d_wrapper_country : option string;
  d_wrapper_leaf : option string;
  d_country : option string;
  d_price : option float;
  d_website_notes : option string
}.

Record row : Type := {
  retailer_name : string;
  cigar_name : option string;
  brand : option string;
  size_length : option float;
  size_ring_gauge : option Z;
  wrapper_leaf : option string;
  wrapper_country : option string;
  filler : option string;
  binder : option string;
  country : option string;
  price : option float;
  rating : option float;
  url : string;
  scrape_date : string;
  strength : option string;
  shape : option string;
  website_notes : option string
}.

Definition make_record (today : string) (l : listing) (u : string)
           (dt : detail) : row :=
  {| retailer_name := "Cigar Aficionado";
     cigar_name := l_cigar_name l;
     brand := l_brand l;
     size_length := d_size_length dt;
     size_ring_gauge := d_size_ring_gauge dt;
     wrapper_leaf := d_wrapper_leaf dt;
     wrapper_country := d_wrapper_country dt;
     filler := d_filler dt;
     binder := d_binder dt;
     country := d_country dt;
     price := d_price dt;
     rating := l_rating l;
     url := u;
     scrape_date := today;
     strength := d_strength dt;
     shape := d_shape dt;
     website_notes := d_website_notes dt |}.

Section Run.
(** The blocks that a rating page shows, the dictionary read from a detail
    page, and the database, as the run meets them. *)
Variable get_listing : string -> result (list block).
Variable scrape_detail_page : string -> result detail.
Variable execute_insert : row -> result unit.
Variable today : string.

(** The body of [for div in cigar_divs], with its [try]: a block without
    link is passed over; every exception, the one of the INSERT included,
    is printed as an error of the block. *)
Definition scrape_block (div : block) : list (event row) :=
  match (l <- parse_listing_block div ;;
         match l_url l with
         | None => Ok None
         | Some u =>
             if str_truthy u then
               dt <- scrape_detail_page u ;;
               let record := make_record today l u dt in
               _ <- execute_insert record ;;
               Ok (Some record)
             else Ok None
         end) with
  | Ok (Some r) => [Inserted r]
  | Ok None => []
  | Raise e => [ItemError None e]
  end.

(** The [while True] loop of [main], from [page]: the fetch of the rating
    page is not guarded. *)
Fixpoint page_loop (fuel : nat) (page : nat)
  : list (event row) * outcome unit :=
  match fuel with
  | O => ([], OutOfFuel)
  | S fuel' =>
      match get_listing (search_url page) with
      | Raise e => ([], Crashed e)
      | Ok [] => ([], Returned tt)
      | Ok cigar_divs =>
          let t := flat_map scrape_block cigar_divs in
          let '(t', o) := page_loop fuel' (S page) in
          ((t ++ t')%list, o)
      end
  end.

Definition main (fuel : nat) : list (event row) * outcome unit :=
  page_loop fuel 1.
End Run.

End AficionadoRun.

(** ** gotham_cigars_scraper.py: the strength cell of the specification table *)

Module GothamProfile.

Import Py.

(** The text of the strength cell and, when it is empty, the [title] or
    the [alt] text of its image:
    [(img.get("title") or img.get("alt") or "").strip()]. *)
Definition strength_text_of (cell_text : string)
           (img : option (option string * option string)) : string :=
  if str_truthy cell_text then cell_text
  else
    match img with
    | Some (title, alt) =>
        match py_or str_truthy (py_or str_truthy title alt)
                    (Some EmptyString) with
        | Some s => strip s
        | None => EmptyString
        end
    | None => cell_text
    end.

(** The [if strength_text:] block of [parse_specs_table]: the [profile]
    entry of the result. *)
Definition profile_of (strength_text : string) : option string :=
  if str_truthy strength_text then
    Some (if (contains "Mellow" strength_text
              && contains "Medium" strength_text)%bool
          then "Mellow-to-Medium"
          else if contains "Mellow" strength_text then "Mellow"
          else if (contains "Full" strength_text
                   && contains "Medium" strength_text)%bool
          then "Medium-to-Full"
          else if contains "Full" strength_text then "Full"
          else if contains "Medium" strength_text then "Medium"
          else strength_text)
  else None.

End GothamProfile.

Unset Implicit Arguments.

(* ================================================================== *)
(** * Facts about characters and strings *)
(* ================================================================== *)

Module PyFacts.

Import Py.

(** A string of decimal digits, at least one. *)
Definition is_digits (s : string) : bool :=
  (negb (is_empty s) && str_forall isdecimal s)%bool.

(** A token: at least one character, none of them white space. *)
Definition is_token (s : string) : bool :=
  (negb (is_empty s) && str_forall (fun c => negb (isspace c)) s)%bool.

Definition has_char (a : ascii) (s : string) : bool :=
  str_exists (Ascii.eqb a) s.

Ltac each_char c :=
  destruct c as [[] [] [] [] [] [] [] []].

Lemma decimal_not_space (c : ascii) :
  isdecimal c = true -> isspace c = false.
Proof. each_char c; vm_compute; congruence. Qed.


Lemma decimal_not_sign (c : ascii) :
  isdecimal c = true ->
  Ascii.eqb c "-" = false /\ Ascii.eqb c "+" = false
  /\ Ascii.eqb c "_" = false /\ Ascii.eqb c "." = false.
Proof. each_char c; vm_compute; intuition congruence. Qed.

Lemma decimal_isdigit (c : ascii) :
  isdecimal c = true -> isdigit_char c = true.
Proof. unfold isdigit_char. intros ->. reflexivity. Qed.

Lemma decimal_value_range (c : ascii) :
  isdecimal c = true -> (0 <= digit_value c <= 9)%Z.
Proof. each_char c; vm_compute; intuition congruence. Qed.

Lemma decimal_lower (c : ascii) :
  isdecimal c = true -> lower_char c = c.
Proof. each_char c; vm_compute; congruence. Qed.

Lemma append_nil_r (s : string) : s ++ "" = s.
Proof. induction s; simpl; congruence. Qed.

Lemma append_assoc (a b c : string) : (a ++ b) ++ c = a ++ (b ++ c).
Proof. induction a; simpl; congruence. Qed.

Lemma length_append (a b : string) :
  String.length (a ++ b) = String.length a + String.length b.
Proof. induction a; simpl; congruence. Qed.

Lemma str_forall_app (p : ascii -> bool) (a b : string) :
  str_forall p (a ++ b) = (str_forall p a && str_forall p b)%bool.
Proof.
  induction a as [|c a IH]; simpl; [reflexivity|].
  rewrite IH. now rewrite andb_assoc.
Qed.

Lemma str_exists_app (p : ascii -> bool) (a b : string) :
  str_exists p (a ++ b) = (str_exists p a || str_exists p b)%bool.
Proof.
  induction a as [|c a IH]; simpl; [reflexivity|].
  rewrite IH. now rewrite orb_assoc.
Qed.

Lemma str_forall_impl (p q : ascii -> bool) (s : string) :
  (forall c, p c = true -> q c = true) ->
  str_forall p s = true -> str_forall q s = true.
Proof.
  intros H. induction s as [|c s IH]; simpl; [reflexivity|].
  intros [Hc Hs]%andb_true_iff. rewrite (H _ Hc). simpl. auto.
Qed.

Lemma str_forall_not_exists (p q : ascii -> bool) (s : string) :
  (forall c, p c = true -> q c = false) ->
  str_forall p s = true -> str_exists q s = false.
Proof.
  intros H. induction s as [|c s IH]; simpl; [reflexivity|].
  intros [Hc Hs]%andb_true_iff. rewrite (H _ Hc). simpl. auto.
Qed.

Lemma digits_no_space (s : string) :
  str_forall isdecimal s = true ->
  str_forall (fun c => negb (isspace c)) s = true.
Proof.
  apply str_forall_impl. intros c H. now rewrite (decimal_not_space _ H).
Qed.


Lemma digits_token (s : string) : is_digits s = true -> is_token s = true.
Proof.
  unfold is_digits, is_token. intros [H1 H2]%andb_true_iff.
  rewrite H1. simpl. now apply digits_no_space.
Qed.

Lemma digits_isdigit (s : string) : is_digits s = true -> isdigit s = true.
Proof.
  unfold is_digits, isdigit. intros [H1 H2]%andb_true_iff.
  rewrite H1. simpl. revert H2. apply str_forall_impl. exact decimal_isdigit.
Qed.

Lemma lower_digits (s : string) :
  str_forall isdecimal s = true -> lower s = s.
Proof.
  unfold lower. induction s as [|c s IH]; simpl; [reflexivity|].
  intros [Hc Hs]%andb_true_iff. now rewrite (decimal_lower _ Hc), IH.
Qed.

(** ** Stripping *)

Lemma rstrip_by_keep (p : ascii -> bool) (s : string) :
  str_forall (fun c => negb (p c)) s = true -> rstrip_by p s = s.
Proof.
  induction s as [|c s IH]; simpl; [reflexivity|].
  intros [Hc Hs]%andb_true_iff. rewrite (IH Hs).
  apply negb_true_iff in Hc. rewrite Hc. now destruct s.
Qed.

Lemma rstrip_by_all (p : ascii -> bool) (s : string) :
  str_forall p s = true -> rstrip_by p s = "".
Proof.
  induction s as [|c s IH]; simpl; [reflexivity|].
  intros [Hc Hs]%andb_true_iff. now rewrite (IH Hs), Hc.
Qed.

Lemma rstrip_by_app_keep (p : ascii -> bool) (a b : string) :
  rstrip_by p b <> "" -> rstrip_by p (a ++ b) = a ++ rstrip_by p b.
Proof.
  intros H. induction a as [|c a IH]; simpl; [reflexivity|].
  rewrite IH. destruct (a ++ rstrip_by p b) eqn:E; [|reflexivity].
  destruct a; simpl in E; [contradiction|discriminate].
Qed.

Lemma rstrip_by_app_drop (p : ascii -> bool) (a b : string) :
  str_forall p b = true -> rstrip_by p (a ++ b) = rstrip_by p a.
Proof.
  intros H. induction a as [|c a IH]; simpl.
  - now apply rstrip_by_all.
  - now rewrite IH.
Qed.

Lemma token_nonempty_rstrip (s : string) :
  is_token s = true -> rstrip_by isspace s = s /\ s <> "".
Proof.
  unfold is_token. intros [H1 H2]%andb_true_iff. split.
  - now apply rstrip_by_keep.
  - destruct s; [discriminate|congruence].
Qed.

Lemma token_lstrip (s r : string) :
  is_token s = true -> lstrip_by isspace (s ++ r) = s ++ r.
Proof.
  unfold is_token. destruct s as [|c s]; [discriminate|]. simpl.
  intros [Hc _]%andb_true_iff. apply negb_true_iff in Hc. now rewrite Hc.
Qed.

(** A text that starts with a token and ends with one is left unchanged. *)
Lemma strip_between_tokens (a m b : string) :
  is_token a = true -> is_token b = true ->
  strip (a ++ m ++ b) = a ++ m ++ b.
Proof.
  intros Ha Hb. unfold strip, strip_by. rewrite token_lstrip by assumption.
  destruct (token_nonempty_rstrip _ Hb) as [Hr Hn].
  rewrite <- append_assoc, rstrip_by_app_keep; rewrite Hr; auto.
Qed.

Lemma strip_token (a : string) : is_token a = true -> strip a = a.
Proof.
  intros Ha. unfold strip, strip_by.
  rewrite <- (append_nil_r a) at 1. rewrite token_lstrip by assumption.
  rewrite append_nil_r. now apply token_nonempty_rstrip.
Qed.

(** ** Splitting on white space *)

Lemma split_ws_from_token (cur w rest : string) :
  str_forall (fun c => negb (isspace c)) w = true ->
  split_ws_from cur (w ++ rest) = split_ws_from (cur ++ w) rest.
Proof.
  revert cur. induction w as [|c w IH]; intros cur; simpl.
  - now rewrite append_nil_r.
  - intros [Hc Hw]%andb_true_iff. apply negb_true_iff in Hc. rewrite Hc.
    rewrite IH by assumption. now rewrite append_assoc.
Qed.

Lemma split_ws_one (w : string) : is_token w = true -> split_ws w = [w].
Proof.
  unfold is_token. intros [H1 H2]%andb_true_iff. unfold split_ws.
  rewrite <- (append_nil_r w) at 1. rewrite split_ws_from_token by assumption.
  simpl. destruct w; [discriminate|reflexivity].
Qed.


(** ** Searching *)

Lemma partition_char (c : ascii) (a b : string) :
  has_char c a = false ->
  partition (String c "") (a ++ String c b) = Some (a, b).
Proof.
  unfold has_char. induction a as [|x a IH]; simpl.
  - intros _. now rewrite Ascii.eqb_refl.
  - intros [Hx Ha]%orb_false_iff. rewrite Hx. simpl. now rewrite IH.
Qed.

Lemma partition_none_char (c : ascii) (s : string) :
  has_char c s = false -> partition (String c "") s = None.
Proof.
  unfold has_char. induction s as [|x s IH]; simpl; [reflexivity|].
  intros [Hx Hs]%orb_false_iff. rewrite Hx. simpl. now rewrite IH.
Qed.

End PyFacts.

(* ================================================================== *)
(** * Facts about [int(...)] and [float(...)] *)
(* ================================================================== *)

Module NumFacts.

Import Py PyFacts Num.

Local Open Scope Z_scope.

Lemma digitpart_rest_digits (s : string) :
  str_forall isdecimal s = true -> digitpart_rest s = (s, "").
Proof.
  induction s as [|c s IH]; simpl; [reflexivity|].
  intros [Hc Hs]%andb_true_iff. now rewrite Hc, (IH Hs).
Qed.

Lemma digitpart_digits (s : string) :
  is_digits s = true -> digitpart s = Some (s, "").
Proof.
  unfold is_digits. destruct s as [|c s]; [discriminate|]. simpl.
  intros [Hc Hs]%andb_true_iff. now rewrite Hc, (digitpart_rest_digits _ Hs).
Qed.

Lemma digits_value_from_nonneg (s : string) (acc : Z) :
  str_forall isdecimal s = true -> 0 <= acc -> 0 <= digits_value_from acc s.
Proof.
  revert acc. induction s as [|c s IH]; intros acc;
    cbn [digits_value_from str_forall]; [auto|].
  intros [Hc Hs]%andb_true_iff Hacc. apply IH; [assumption|].
  pose proof (decimal_value_range _ Hc). lia.
Qed.

Lemma digits_value_nonneg (s : string) :
  str_forall isdecimal s = true -> 0 <= digits_value s.
Proof. intros H. apply digits_value_from_nonneg; [assumption|lia]. Qed.

Lemma take_sign_digits (s : string) :
  is_digits s = true -> take_sign s = (false, s).
Proof.
  unfold is_digits. destruct s as [|c s]; [discriminate|]. simpl.
  intros [Hc _]%andb_true_iff.
  destruct (decimal_not_sign _ Hc) as (H1 & H2 & _). now rewrite H1, H2.
Qed.

(** What [int] and [float] skip is white space for [str.strip] too. *)
Lemma numeric_space_is_space (c : ascii) :
  numeric_space c = true -> isspace c = true.
Proof. each_char c; vm_compute; congruence. Qed.

Lemma numeric_strip_token (a : string) :
  is_token a = true -> numeric_strip a = a.
Proof.
  unfold is_token. intros [Hne Ha]%andb_true_iff.
  assert (Hk : str_forall (fun c => negb (numeric_space c)) a = true).
  { apply (str_forall_impl (fun c => negb (isspace c))); [|exact Ha].
    intros c Hc. apply negb_true_iff in Hc. apply negb_true_iff.
    destruct (numeric_space c) eqn:E; [|reflexivity].
    apply numeric_space_is_space in E. congruence. }
  unfold numeric_strip, strip_by.
  destruct a as [|c a]; [discriminate|].
  pose proof Hk as Hk'. cbn [str_forall] in Hk'.
  apply andb_prop in Hk' as [Hc _]. apply negb_true_iff in Hc.
  cbn [lstrip_by]. rewrite Hc. now apply rstrip_by_keep.
Qed.

Lemma within_digit_limit (n : nat) :
  (n <= 4300)%nat -> Nat.ltb max_str_digits n = false.
Proof. intros H. apply Nat.ltb_ge. exact H. Qed.

Lemma beyond_digit_limit (n : nat) :
  (4300 < n)%nat -> Nat.ltb max_str_digits n = true.
Proof. intros H. apply Nat.ltb_lt. exact H. Qed.

(** [int] reads a run of digits as its decimal value, unless the run is
    longer than it accepts. *)
Lemma int_of_str_digits_any (s : string) :
  is_digits s = true ->
  int_of_str s
  = if Nat.ltb max_str_digits (String.length s) then Raise ValueError
    else Ok (digits_value s).
Proof.
  intros H. unfold int_of_str.
  rewrite (numeric_strip_token _ (digits_token _ H)), (take_sign_digits _ H).
  now rewrite (digitpart_digits _ H).
Qed.

Lemma int_of_str_digits (s : string) :
  is_digits s = true -> (String.length s <= 4300)%nat ->
  int_of_str s = Ok (digits_value s).
Proof.
  intros H Hl. rewrite (int_of_str_digits_any s H).
  now rewrite (within_digit_limit _ Hl).
Qed.

Lemma int_of_str_too_long (s : string) :
  is_digits s = true -> (4300 < String.length s)%nat ->
  int_of_str s = Raise ValueError.
Proof.
  intros H Hl. rewrite (int_of_str_digits_any s H).
  now rewrite (beyond_digit_limit _ Hl).
Qed.

Lemma of_decimal_integer (m : Z) : 0 <= m -> of_decimal false m 0 = of_Z m.
Proof.
  intros Hm. unfold of_decimal, of_Z, binary_normalize.
  destruct m as [|p|p]; [reflexivity| |lia].
  now rewrite Z.pow_0_r, Z.mul_1_r.
Qed.

Lemma digits_not_word (s w : string) :
  is_digits s = true -> str_forall isdecimal w = false ->
  string_eqb (lower s) w = false.
Proof.
  unfold is_digits. intros [_ Hs]%andb_true_iff Hw.
  rewrite (lower_digits _ Hs). unfold string_eqb.
  destruct (String.eqb s w) eqn:E; [|reflexivity].
  apply String.eqb_eq in E. congruence.
Qed.

Lemma decimal_literal_digits (s : string) :
  is_digits s = true -> decimal_literal s = Some (s, "", 0).
Proof.
  intros H. unfold decimal_literal, opt_digitpart.
  rewrite (digitpart_digits _ H). simpl.
  unfold is_digits in H. apply andb_true_iff in H as [H _].
  destruct s; [discriminate|reflexivity].
Qed.

(** [float] reads a run of digits as the double nearest to its value. *)
Lemma float_of_str_digits (s : string) :
  is_digits s = true -> float_of_str s = Ok (of_Z (digits_value s)).
Proof.
  intros H. unfold float_of_str.
  rewrite (numeric_strip_token _ (digits_token _ H)), (take_sign_digits _ H).
  rewrite (digits_not_word s "inf" H), (digits_not_word s "infinity" H),
    (digits_not_word s "nan" H) by reflexivity. simpl.
  rewrite (decimal_literal_digits _ H), append_nil_r. simpl.
  rewrite of_decimal_integer; [reflexivity|].
  apply digits_value_nonneg. unfold is_digits in H.
  now apply andb_true_iff in H.
Qed.

(** ** Sign and NaN of rounded values *)

(** The results that carry the sign [s] and are numbers or infinities. *)
Definition signed (s : bool) (x : float) : Prop :=
  match x with
  | S754_zero s' | S754_infinity s' | S754_finite s' _ _ => s' = s
  | S754_nan => False
  end.

Lemma shr_1_nonneg (mrs : shr_record) :
  0 <= shr_m mrs -> 0 <= shr_m (shr_1 mrs).
Proof.
  destruct mrs as [m r s]. simpl.
  destruct m as [|[p|p|]|[p|p|]]; simpl; lia.
Qed.

Lemma iter_pos_shr_1_nonneg (p : positive) (mrs : shr_record) :
  0 <= shr_m mrs -> 0 <= shr_m (iter_pos shr_1 p mrs).
Proof.
  revert mrs. induction p as [p IH|p IH|]; intros mrs H; simpl.
  - apply IH, IH, shr_1_nonneg, H.
  - apply IH, IH, H.
  - apply shr_1_nonneg, H.
Qed.

Lemma shr_nonneg (mrs : shr_record) (e n : Z) :
  0 <= shr_m mrs -> 0 <= shr_m (fst (shr mrs e n)).
Proof.
  intros H. destruct n; simpl; auto. now apply iter_pos_shr_1_nonneg.
Qed.

Lemma shr_record_of_loc_m (m : Z) (l : location) :
  shr_m (shr_record_of_loc m l) = m.
Proof. destruct l as [|[]]; reflexivity. Qed.

Lemma shr_fexp_nonneg (m e : Z) (l : location) :
  0 <= m -> 0 <= shr_m (fst (shr_fexp prec emax m e l)).
Proof.
  intros H. unfold shr_fexp. apply shr_nonneg.
  now rewrite shr_record_of_loc_m.
Qed.

Lemma round_nearest_even_nonneg (m : Z) (l : location) :
  0 <= m -> 0 <= round_nearest_even m l.
Proof.
  intros H. destruct l as [|[]]; simpl; try lia.
  destruct (Z.even m); lia.
Qed.

Lemma binary_round_aux_signed (s : bool) (m e : Z) (l : location) :
  0 <= m -> signed s (binary_round_aux prec emax s m e l).
Proof.
  intros H. unfold binary_round_aux.
  pose proof (shr_fexp_nonneg m e l H) as H1.
  destruct (shr_fexp prec emax m e l) as [mrs' e'] eqn:E1. simpl in H1.
  pose proof (round_nearest_even_nonneg _ (loc_of_shr_record mrs') H1) as H2.
  pose proof (shr_fexp_nonneg _ e' loc_Exact H2) as H3.
  destruct (shr_fexp prec emax _ e' loc_Exact) as [mrs'' e''] eqn:E2.
  simpl in H3.
  destruct (shr_m mrs'') as [|p|p]; [reflexivity| |lia].
  match goal with |- context [if ?b then _ else _] => destruct b end;
    reflexivity.
Qed.

Lemma binary_round_signed (s : bool) (m : positive) (e : Z) :
  signed s (binary_round prec emax s m e).
Proof.
  unfold binary_round.
  destruct (shl_align m e _) as [mz ez].
  apply binary_round_aux_signed. lia.
Qed.

Lemma div_eucl_nonneg (a b : Z) : 0 <= a -> 0 < b -> 0 <= fst (Z.div_eucl a b).
Proof.
  intros Ha Hb. change (fst (Z.div_eucl a b)) with (a / b).
  apply Z.div_pos; assumption.
Qed.

Lemma div_finite_signed (s : bool) (m1 m2 : positive) (e1 e2 : Z) :
  signed s (div (S754_finite s m1 e1) (S754_finite false m2 e2)).
Proof.
  unfold div, SFdiv.
  destruct (SFdiv_core_binary prec emax (Z.pos m1) e1 (Z.pos m2) e2)
    as [[mz ez] lz] eqn:E.
  rewrite xorb_false_r. apply binary_round_aux_signed.
  unfold SFdiv_core_binary in E.
  set (s' := (e1 - e2 - _)) in E.
  set (m' := match s' with Z0 => _ | Zpos _ => _ | Zneg _ => _ end) in E.
  assert (Hm : 0 <= m').
  { subst m'. destruct s'; try lia. apply Z.shiftl_nonneg. lia. }
  pose proof (div_eucl_nonneg _ _ Hm (Pos2Z.is_pos m2)) as Hq.
  destruct (Z.div_eucl m' (Z.pos m2)) as [q r]. simpl in Hq.
  inversion E. subst. exact Hq.
Qed.

(** A decimal literal is never read as NaN, and its sign is the sign
    written in front of it. *)
Lemma of_decimal_signed (s : bool) (m e : Z) : signed s (of_decimal s m e).
Proof.
  unfold of_decimal. destruct m as [|p|p]; try reflexivity.
  destruct e as [|k|k].
  - apply binary_round_signed.
  - apply binary_round_signed.
  - apply div_finite_signed.
Qed.

Lemma of_Z_signed (z : Z) : 0 <= z -> signed false (of_Z z).
Proof.
  intros H. unfold of_Z, binary_normalize.
  destruct z as [|p|p]; [reflexivity|apply binary_round_signed|lia].
Qed.

Lemma signed_false_props (x : float) :
  signed false x -> is_nan x = false /\ is_negative x = false.
Proof. destruct x as [s|s| |s m e]; simpl; intros H; subst; auto; contradiction. Qed.


End NumFacts.

(* ================================================================== *)
(** * famous_smoke_scraper.py: the size parser *)
(* ================================================================== *)

Module SizeFacts.

Import Py PyFacts Num NumFacts FamousSmoke.






Lemma digits_value_digits_nonneg (w : string) :
  is_digits w = true -> (0 <= digits_value w)%Z.
Proof.
  unfold is_digits. intros [_ H]%andb_true_iff. now apply digits_value_nonneg.
Qed.

Lemma or_zero_signed (x : float) : signed false x -> or_zero (Some x) = x.
Proof.
  destruct x as [s|s| |s m e]; simpl; intros H; subst;
    reflexivity || contradiction.
Qed.











End SizeFacts.




(* ================================================================== *)
(** * famous_smoke_scraper.py: the packaging quantity *)
(* ================================================================== *)

Module QuantityFacts.

Import Py PyFacts Num NumFacts FamousSmoke.

Lemma bind_ok {A B : Type} (r : result A) (k : A -> result B) (b : B) :
  bind r k = Ok b -> exists a, r = Ok a /\ k a = Ok b.
Proof. destruct r; simpl; [eauto|discriminate]. Qed.

(** A product page whose specification table has the one row
    "Quantity per Packaging", with the given text. *)
Definition page_with_quantity (text : string) : page :=
  {| specs_table :=
       Some (fun label => if String.eqb label "Quantity per Packaging"
                          then Some text else None);
     has_tocart_button := false;
     has_out_of_stock_text := false;
     final_price_amount := None |}.

(** The pair (bundle_qty, box_qty) of a scraped detail. *)
Definition quantities (r : result detail) : option (option Z * option Z) :=
  match r with
  | Ok d => Some (d_bundle_qty d, d_box_qty d)
  | Raise _ => None
  end.

Lemma lower_app (a b : string) : lower (a ++ b) = lower a ++ lower b.
Proof. unfold lower. induction a; simpl; congruence. Qed.

Lemma lower_is_digits (n : string) : is_digits n = true -> lower n = n.
Proof.
  unfold is_digits. intros [_ H]%andb_true_iff. now apply lower_digits.
Qed.

Lemma split_ws_cons (a r : string) :
  is_token a = true -> split_ws (a ++ " " ++ r) = a :: split_ws r.
Proof.
  unfold is_token. intros [H1 H2]%andb_true_iff. unfold split_ws.
  rewrite split_ws_from_token by assumption. simpl.
  destruct a; [discriminate|reflexivity].
Qed.

(** A word that starts with a character that is no digit does not occur in
    a run of digits. *)
Lemma partition_digits_none (c0 : ascii) (p n : string) :
  isdecimal c0 = false -> str_forall isdecimal n = true ->
  partition (String c0 p) n = None.
Proof.
  intros Hc. induction n as [|d n IH]; [reflexivity|].
  cbn [str_forall]. intros [Hd Hn]%andb_true_iff.
  cbn [partition startswith].
  destruct (Ascii.eqb_spec c0 d) as [E|_]; [congruence|].
  cbn [andb]. now rewrite (IH Hn).
Qed.

Lemma quantity_text (word n : string) :
  is_token word = true -> isdigit word = false -> is_digits n = true ->
  let text := word ++ " of " ++ n in
  get_spec (page_with_quantity text) "Quantity per Packaging" = Some text
  /\ parse_quantity_packaging (Some text)
     = (if Nat.ltb max_str_digits (String.length n) then Raise ValueError
        else Ok (Some (digits_value n))).
Proof.
  intros Hw Hd Hn text. pose proof (digits_token _ Hn) as Tn. split.
  - unfold get_spec, page_with_quantity, safe_str. cbn [specs_table].
    rewrite String.eqb_refl. subst text.
    rewrite (strip_between_tokens word " of " n Hw Tn).
    destruct word; [discriminate|reflexivity].
  - unfold parse_quantity_packaging. subst text.
    replace (word ++ " of " ++ n) with (word ++ " " ++ "of" ++ " " ++ n)
      by reflexivity.
    rewrite (split_ws_cons word _ Hw), (split_ws_cons "of" n eq_refl).
    rewrite (split_ws_one n Tn).
    cbn [first_digit_part]. rewrite Hd.
    change (isdigit "of") with false. cbv iota.
    rewrite (digits_isdigit _ Hn), (int_of_str_digits_any _ Hn).
    destruct word; [discriminate|].
    now destruct (Nat.ltb max_str_digits (String.length n)).
Qed.

Lemma scrape_quantity_page (text : string) (q : option Z) :
  get_spec (page_with_quantity text) "Quantity per Packaging" = Some text ->
  parse_quantity_packaging (Some text) = Ok q ->
  quantities (scrape_page (page_with_quantity text))
  = Some (if label_has "bundle" (Some text) then q else None,
          if label_has "box" (Some text) then q else None).
Proof.
  intros Hg Hq. unfold scrape_page. rewrite Hg, Hq.
  unfold get_spec, page_with_quantity. cbn [specs_table].
  change (String.eqb "Wrapper" "Quantity per Packaging") with false.
  change (String.eqb "Cigar Size" "Quantity per Packaging") with false.
  reflexivity.
Qed.

Lemma scrape_quantity_page_raises (text : string) (e : exn) :
  get_spec (page_with_quantity text) "Quantity per Packaging" = Some text ->
  parse_quantity_packaging (Some text) = Raise e ->
  scrape_page (page_with_quantity text) = Raise e.
Proof.
  intros Hg Hq. unfold scrape_page. rewrite Hg, Hq.
  unfold get_spec, page_with_quantity. cbn [specs_table].
  change (String.eqb "Wrapper" "Quantity per Packaging") with false.
  change (String.eqb "Cigar Size" "Quantity per Packaging") with false.
  reflexivity.
Qed.

Lemma contains_in_digits (c0 : ascii) (p n : string) :
  isdecimal c0 = false -> is_digits n = true ->
  partition (String c0 p) n = None.
Proof.
  unfold is_digits. intros Hc [_ H]%andb_true_iff.
  now apply partition_digits_none.
Qed.

Lemma quantity_text_short (word n : string) :
  is_token word = true -> isdigit word = false -> is_digits n = true ->
  (String.length n <= 4300)%nat ->
  let text := word ++ " of " ++ n in
  get_spec (page_with_quantity text) "Quantity per Packaging" = Some text
  /\ parse_quantity_packaging (Some text) = Ok (Some (digits_value n)).
Proof.
  intros Hw Hd Hn Hl text.
  destruct (quantity_text word n Hw Hd Hn) as [Hg Hq]. split; [exact Hg|].
  subst text. rewrite Hq. now rewrite (within_digit_limit _ Hl).
Qed.

Lemma box_of (n : string) :
  is_digits n = true -> (String.length n <= 4300)%nat ->
  quantities (scrape_page (page_with_quantity ("Box of " ++ n)))
  = Some (None, Some (digits_value n)).
Proof.
  intros Hn Hl.
  destruct (quantity_text_short "Box" n eq_refl eq_refl Hn Hl) as [Hg Hq].
  change ("Box of " ++ n) with ("Box" ++ " of " ++ n).
  rewrite (scrape_quantity_page _ _ Hg Hq).
  change ("Box" ++ " of " ++ n) with ("Box of " ++ n).
  unfold label_has, contains.
  rewrite lower_app, (lower_is_digits _ Hn).
  change (lower "Box of ") with "box of ".
  cbn - [isdecimal]. now rewrite (contains_in_digits "b" "undle" n eq_refl Hn).
Qed.

Lemma bundle_of (n : string) :
  is_digits n = true -> (String.length n <= 4300)%nat ->
  quantities (scrape_page (page_with_quantity ("Bundle of " ++ n)))
  = Some (Some (digits_value n), None).
Proof.
  intros Hn Hl.
  destruct (quantity_text_short "Bundle" n eq_refl eq_refl Hn Hl) as [Hg Hq].
  change ("Bundle of " ++ n) with ("Bundle" ++ " of " ++ n).
  rewrite (scrape_quantity_page _ _ Hg Hq).
  change ("Bundle" ++ " of " ++ n) with ("Bundle of " ++ n).
  unfold label_has, contains.
  rewrite lower_app, (lower_is_digits _ Hn).
  change (lower "Bundle of ") with "bundle of ".
  cbn - [isdecimal]. now rewrite (contains_in_digits "b" "ox" n eq_refl Hn).
Qed.

Lemma pack_of (n : string) :
  is_digits n = true -> (String.length n <= 4300)%nat ->
  quantities (scrape_page (page_with_quantity ("Pack of " ++ n)))
  = Some (None, None).
Proof.
  intros Hn Hl.
  destruct (quantity_text_short "Pack" n eq_refl eq_refl Hn Hl) as [Hg Hq].
  change ("Pack of " ++ n) with ("Pack" ++ " of " ++ n).
  rewrite (scrape_quantity_page _ _ Hg Hq).
  change ("Pack" ++ " of " ++ n) with ("Pack of " ++ n).
  unfold label_has, contains.
  rewrite lower_app, (lower_is_digits _ Hn).
  change (lower "Pack of ") with "pack of ".
  cbn - [isdecimal].
  now rewrite (contains_in_digits "b" "undle" n eq_refl Hn),
    (contains_in_digits "b" "ox" n eq_refl Hn).
Qed.

(** A number of more than 4300 digits is refused by [int], and the error
    leaves [scrape_product_details]. *)
Lemma too_long_of (word n : string) :
  is_token word = true -> isdigit word = false -> is_digits n = true ->
  (4300 < String.length n)%nat ->
  scrape_page (page_with_quantity (word ++ " of " ++ n)) = Raise ValueError.
Proof.
  intros Hw Hd Hn Hl.
  destruct (quantity_text word n Hw Hd Hn) as [Hg Hq].
  apply (scrape_quantity_page_raises _ _ Hg).
  rewrite Hq. now rewrite (beyond_digit_limit _ Hl).
Qed.

(** [sub in s] holds exactly when [s] is some text, then [sub], then some
    text. *)
Definition occurs_in (sub s : string) : Prop :=
  exists a b, s = a ++ sub ++ b.

Lemma startswith_prefix (p s : string) :
  startswith p s = true <-> exists r, s = p ++ r.
Proof.
  revert s. induction p as [|a p IH]; intros s.
  - split; [intros _; now exists s|reflexivity].
  - destruct s as [|b s]; cbn [startswith].
    + split; [discriminate|intros [r E]; discriminate].
    + rewrite andb_true_iff, IH. split.
      * intros [E%Ascii.eqb_eq [r ->]]. subst. now exists r.
      * intros [r E]. injection E as -> ->. split; [apply Ascii.eqb_refl|].
        now exists r.
Qed.

Lemma partition_occurs (sub s : string) :
  (exists x, partition sub s = Some x) <-> occurs_in sub s.
Proof.
  split.
  - induction s as [|c s IH].
    + cbn [partition]. destruct (startswith sub "") eqn:E.
      * intros _. apply startswith_prefix in E as [r E].
        exists "", r. exact E.
      * intros [x H]. discriminate.
    + cbn [partition]. destruct (startswith sub (String c s)) eqn:E.
      * intros _. apply startswith_prefix in E as [r E].
        exists "", r. exact E.
      * destruct (partition sub s) as [[a b]|]; [|intros [x H]; discriminate].
        intros _. destruct IH as (a' & b' & ->); [eauto|].
        now exists (String c a'), b'.
  - intros (a & b & ->). induction a as [|c a IH].
    + assert (E : startswith sub ("" ++ sub ++ b) = true)
        by (apply startswith_prefix; now exists b).
      destruct sub, b; cbn [append partition] in *; rewrite ?E; eauto.
    + cbn [append partition].
      destruct (startswith sub (String c (a ++ sub ++ b))); [eauto|].
      destruct IH as [[a' b'] ->]. eauto.
Qed.

Lemma contains_occurs (sub s : string) :
  contains sub s = true <-> occurs_in sub s.
Proof.
  rewrite <- partition_occurs. unfold contains.
  destruct (partition sub s); split; eauto; try discriminate.
  intros [x H]; discriminate.
Qed.

Lemma contains_not_occurs (sub s : string) :
  contains sub s = false <-> ~ occurs_in sub s.
Proof.
  rewrite <- contains_occurs. now destruct (contains sub s).
Qed.

(** What [get_spec] returns is a text that is not empty. *)
Lemma get_spec_truthy (pg : page) (label q : string) :
  get_spec pg label = Some q -> str_truthy q = true.
Proof.
  unfold get_spec, safe_str.
  destruct (specs_table pg) as [cells|]; [|discriminate].
  destruct (cells label) as [t|]; [|discriminate].
  destruct (strip t) as [|c r]; cbn; [discriminate|].
  intros E. injection E as <-. reflexivity.
Qed.

End QuantityFacts.

(** C7. In [scrape_product_details] the one number extracted from the
    "Quantity per Packaging" text goes to [bundle_qty] exactly when the
    lower-cased text contains "bundle" and to [box_qty] exactly when it
    contains "box"; a text with neither word, or no text at all, leaves both
    absent. "Box of 20" gives box 20 and no bundle, "Bundle of 10" gives
    bundle 10 and no box, "Pack of 5" gives neither, and the same holds for
    every number of at most 4300 digits, the most that [int] accepts; a
    longer number makes [int] raise ValueError out of the function. *)
Theorem packaging_quantity_routing (pg : FamousSmoke.page)
        (dt : FamousSmoke.detail) :
  FamousSmoke.scrape_page pg = Ok dt ->
  let label := FamousSmoke.get_spec pg "Quantity per Packaging" in
  (label = None ->
     FamousSmoke.d_bundle_qty dt = None /\ FamousSmoke.d_box_qty dt = None)
  /\ (forall q, label = Some q ->
        exists qty_number,
          FamousSmoke.parse_quantity_packaging (Some q) = Ok qty_number
          /\ (QuantityFacts.occurs_in "bundle" (Py.lower q) ->
              FamousSmoke.d_bundle_qty dt = qty_number)
          /\ (~ QuantityFacts.occurs_in "bundle" (Py.lower q) ->
              FamousSmoke.d_bundle_qty dt = None)
          /\ (QuantityFacts.occurs_in "box" (Py.lower q) ->
              FamousSmoke.d_box_qty dt = qty_number)
          /\ (~ QuantityFacts.occurs_in "box" (Py.lower q) ->
              FamousSmoke.d_box_qty dt = None)
          /\ (Py.contains "bundle" (Py.lower q) = true
              <-> QuantityFacts.occurs_in "bundle" (Py.lower q))
          /\ (Py.contains "box" (Py.lower q) = true
              <-> QuantityFacts.occurs_in "box" (Py.lower q)))
  /\ (forall n, PyFacts.is_digits n = true -> String.length n <= 4300 ->
        QuantityFacts.quantities
          (FamousSmoke.scrape_page
             (QuantityFacts.page_with_quantity ("Box of " ++ n)))
        = Some (None, Some (Num.digits_value n))
        /\ QuantityFacts.quantities
             (FamousSmoke.scrape_page
                (QuantityFacts.page_with_quantity ("Bundle of " ++ n)))
           = Some (Some (Num.digits_value n), None)
        /\ QuantityFacts.quantities
             (FamousSmoke.scrape_page
                (QuantityFacts.page_with_quantity ("Pack of " ++ n)))
           = Some (None, None))
  /\ (forall n, PyFacts.is_digits n = true -> 4300 < String.length n ->
        FamousSmoke.scrape_page
          (QuantityFacts.page_with_quantity ("Box of " ++ n))
        = Raise ValueError
        /\ FamousSmoke.scrape_page
             (QuantityFacts.page_with_quantity ("Bundle of " ++ n))
           = Raise ValueError
        /\ FamousSmoke.scrape_page
             (QuantityFacts.page_with_quantity ("Pack of " ++ n))
           = Raise ValueError)
  /\ QuantityFacts.quantities
       (FamousSmoke.scrape_page (QuantityFacts.page_with_quantity "Box of 20"))
     = Some (None, Some 20%Z)
  /\ QuantityFacts.quantities
       (FamousSmoke.scrape_page
          (QuantityFacts.page_with_quantity "Bundle of 10"))
     = Some (Some 10%Z, None)
  /\ QuantityFacts.quantities
       (FamousSmoke.scrape_page (QuantityFacts.page_with_quantity "Pack of 5"))
     = Some (None, None).
Proof.
  intros H label.
  assert (Hq : exists qty_number,
             FamousSmoke.parse_quantity_packaging label = Ok qty_number
             /\ FamousSmoke.d_bundle_qty dt
                = (if FamousSmoke.label_has "bundle" label
                   then qty_number else None)
             /\ FamousSmoke.d_box_qty dt
                = (if FamousSmoke.label_has "box" label
                   then qty_number else None)).
  { unfold FamousSmoke.scrape_page in H.
    destruct (match FamousSmoke.get_spec pg "Wrapper" with
              | Some w => _ | None => _ end) as [[wc wl] wo].
    apply QuantityFacts.bind_ok in H as (size & Hsize & H).
    apply QuantityFacts.bind_ok in H as (qty & Hqty & H).
    apply QuantityFacts.bind_ok in H as (price & Hprice & H).
    inversion H; subst; clear H. cbn. exists qty. auto. }
  destruct Hq as (qty & Hp & Hb & Hx).
  split; [|split; [|split; [|split]]].
  - intros E. rewrite E in Hb, Hx. now split.
  - intros q E. rewrite E in Hp, Hb, Hx. exists qty.
    unfold FamousSmoke.label_has in Hb, Hx.
    rewrite (QuantityFacts.get_spec_truthy pg _ q E) in Hb, Hx.
    cbn [andb] in Hb, Hx.
    split; [exact Hp|].
    split; [intros O%QuantityFacts.contains_occurs; now rewrite Hb, O|].
    split; [intros O%QuantityFacts.contains_not_occurs; now rewrite Hb, O|].
    split; [intros O%QuantityFacts.contains_occurs; now rewrite Hx, O|].
    split; [intros O%QuantityFacts.contains_not_occurs; now rewrite Hx, O|].
    split; apply QuantityFacts.contains_occurs.
  - intros n Hn Hl. repeat split.
    + now apply QuantityFacts.box_of.
    + now apply QuantityFacts.bundle_of.
    + now apply QuantityFacts.pack_of.
  - intros n Hn Hl. repeat split.
    + now apply (QuantityFacts.too_long_of "Box" n).
    + now apply (QuantityFacts.too_long_of "Bundle" n).
    + now apply (QuantityFacts.too_long_of "Pack" n).
  - repeat split; reflexivity.
Qed.

Lemma packaging_quantity_routing_witness :
  exists dt,
    FamousSmoke.scrape_page (QuantityFacts.page_with_quantity "Box of 20")
    = Ok dt
    /\ FamousSmoke.d_bundle_qty dt = None
    /\ FamousSmoke.d_box_qty dt = Some 20%Z.
Proof.
  eexists. split; [reflexivity|].
  match goal with
  | |- FamousSmoke.d_bundle_qty ?d = _ /\ _ =>
      destruct (packaging_quantity_routing
                  (QuantityFacts.page_with_quantity "Box of 20") d eq_refl)
        as (_ & Hs & _)
  end.
  destruct (Hs "Box of 20" eq_refl) as (q & Hq & _ & Hb & Hx & _).
  split.
  - apply Hb. apply QuantityFacts.contains_not_occurs. reflexivity.
  - vm_compute in Hq. injection Hq as <-. apply Hx.
    exists "", " of 20". reflexivity.
Defined.

(* ================================================================== *)
(** * famous_smoke_scraper.py: the wrapper decomposer *)
(* ================================================================== *)

Module WrapperFacts.

Import Py PyFacts FamousSmoke.

Definition color_of (combined : string) : option string :=
  fst (fst (smart_parse_wrapper combined)).

Definition leaf_of (combined : string) : option string :=
  snd (fst (smart_parse_wrapper combined)).

Definition origin_of (combined : string) : option string :=
  snd (smart_parse_wrapper combined).

(** The vocabulary entry occurs in the lower-cased text. *)
Definition mentions (entry combined : string) : bool :=
  contains entry (lower combined).

(** The orders in which the two vocabularies are tried. *)
Lemma colors_longest_first :
  sorted_by_len_desc WRAPPER_COLORS
  = [ "colorado maduro"; "colorado claro"; "double claro"; "sun grown";
      "sungrown"; "colorado"; "natural"; "maduro"; "oscuro"; "claro"; "ems" ].
Proof. reflexivity. Qed.

Lemma origins_longest_first :
  sorted_by_len_desc WRAPPER_ORIGINS
  = [ "dominican republic"; "united states"; "costa rica"; "nicaragua";
      "dominican"; "honduras"; "cameroon"; "ecuador"; "mexico"; "brazil";
      "panama"; "usa" ].
Proof. reflexivity. Qed.

Lemma color_of_eq (s : string) :
  color_of s
  = if is_empty s then None
    else option_map title
           (first_hit (sorted_by_len_desc WRAPPER_COLORS) (lower s)).
Proof. unfold color_of, smart_parse_wrapper. now destruct (is_empty s). Qed.

Lemma origin_of_eq (s : string) :
  origin_of s
  = if is_empty s then None
    else option_map origin_name
           (first_hit (sorted_by_len_desc WRAPPER_ORIGINS) (lower s)).
Proof. unfold origin_of, smart_parse_wrapper. now destruct (is_empty s). Qed.

Lemma mentions_nonempty (e s : string) :
  e <> "" -> mentions e s = true -> is_empty s = false.
Proof.
  intros He H. destruct s; [|reflexivity].
  unfold mentions, contains in H. destruct e; [congruence|discriminate].
Qed.

(** The hit is the first entry, in the order tried, that the text mentions:
    no entry before it occurs in the text. *)
Lemma first_hit_spec (vocab : list string) (text e : string) :
  first_hit vocab text = Some e ->
  exists before after,
    vocab = (before ++ e :: after)%list
    /\ contains e text = true
    /\ forall b, In b before -> contains b text = false.
Proof.
  unfold first_hit. induction vocab as [|x l IH]; [discriminate|].
  cbn [find]. destruct (contains x text) eqn:E.
  - intros [= <-]. exists [], l. repeat split; auto. intros b [].
  - intros H. destruct (IH H) as (before & after & -> & Hc & Hb).
    exists (x :: before), after. repeat split; auto.
    intros b [<-|Hin]; auto.
Qed.

Lemma first_hit_none (vocab : list string) (text : string) :
  first_hit vocab text = None ->
  forall e, In e vocab -> contains e text = false.
Proof.
  unfold first_hit. intros H e He.
  apply (find_none _ _ H e He).
Qed.

Lemma first_hit_head (x : string) (l : list string) (text : string) :
  contains x text = true -> first_hit (x :: l) text = Some x.
Proof. unfold first_hit. cbn [find]. now intros ->. Qed.

Lemma first_hit_skip (x : string) (l : list string) (text : string) :
  contains x text = false -> first_hit (x :: l) text = first_hit l text.
Proof. unfold first_hit. cbn [find]. now intros ->. Qed.

Lemma first_hit_in (vocab : list string) (text e : string) :
  first_hit vocab text = Some e -> In e vocab /\ contains e text = true.
Proof.
  unfold first_hit. intros H.
  exact (find_some (fun c => contains c text) vocab H).
Qed.

(** The color is the title-cased form of a vocabulary entry that the text
    mentions. *)
Lemma color_is_title_of_entry (s c : string) :
  color_of s = Some c ->
  exists e, In e WRAPPER_COLORS /\ mentions e s = true /\ c = title e.
Proof.
  rewrite color_of_eq. destruct (is_empty s); [discriminate|].
  destruct (first_hit _ _) as [e|] eqn:E; [|discriminate].
  intros [= <-]. apply first_hit_in in E as [Hin Hc].
  exists e. repeat split; auto.
  rewrite colors_longest_first in Hin. unfold WRAPPER_COLORS.
  cbn [In] in *. intuition.
Qed.

Definition canonical_colors : list string :=
  [ "Colorado Maduro"; "Colorado Claro"; "Double Claro"; "Sun Grown";
    "Sungrown"; "Colorado"; "Natural"; "Maduro"; "Oscuro"; "Claro"; "Ems" ].

Definition canonical_origins : list string :=
  [ "Dominican Republic"; "USA"; "Costa Rica"; "Nicaragua"; "Honduras";
    "Cameroon"; "Ecuador"; "Mexico"; "Brazil"; "Panama" ].

Lemma color_canonical (s c : string) :
  color_of s = Some c -> In c canonical_colors.
Proof.
  rewrite color_of_eq. destruct (is_empty s); [discriminate|].
  destruct (first_hit _ _) as [e|] eqn:E; [|discriminate].
  intros [= <-]. apply first_hit_in in E as [Hin _].
  rewrite colors_longest_first in Hin. cbn [In] in Hin.
  repeat (destruct Hin as [<-|Hin]; [vm_compute; tauto|]). destruct Hin.
Qed.

Lemma origin_canonical (s o : string) :
  origin_of s = Some o -> In o canonical_origins.
Proof.
  rewrite origin_of_eq. destruct (is_empty s); [discriminate|].
  destruct (first_hit _ _) as [e|] eqn:E; [|discriminate].
  intros [= <-]. apply first_hit_in in E as [Hin _].
  rewrite origins_longest_first in Hin. cbn [In] in Hin.
  repeat (destruct Hin as [<-|Hin]; [vm_compute; tauto|]). destruct Hin.
Qed.

(** The origin hit decides the origin returned. *)
Lemma origin_of_hit (s e : string) :
  is_empty s = false ->
  first_hit (sorted_by_len_desc WRAPPER_ORIGINS) (lower s) = Some e ->
  origin_of s = Some (origin_name e).
Proof. intros Hs H. now rewrite origin_of_eq, Hs, H. Qed.

Lemma colorado_maduro_first (s : string) :
  mentions "colorado maduro" s = true -> color_of s = Some "Colorado Maduro".
Proof.
  intros H. rewrite color_of_eq.
  rewrite (mentions_nonempty "colorado maduro" s); [|discriminate|exact H].
  rewrite colors_longest_first, first_hit_head; [reflexivity|exact H].
Qed.

(** [sorted(..., key=len, reverse=True)] puts longer entries first. *)
Definition not_shorter (a b : string) : Prop :=
  String.length b <= String.length a.

Lemma insert_by_len_Forall (P : string -> Prop) (x : string)
      (l : list string) :
  P x -> Forall P l -> Forall P (insert_by_len x l).
Proof.
  intros Hx Hl. induction Hl as [|y l Hy Hl IH]; cbn [insert_by_len].
  - constructor; auto.
  - destruct (Nat.ltb _ _); repeat constructor; auto.
Qed.

Lemma insert_by_len_sorted (x : string) (l : list string) :
  Sorted.StronglySorted not_shorter l ->
  Sorted.StronglySorted not_shorter (insert_by_len x l).
Proof.
  induction 1 as [|y l Hs IH Hy]; cbn [insert_by_len].
  - repeat constructor.
  - destruct (Nat.ltb_spec (String.length x) (String.length y)) as [Hlt|Hge].
    + constructor; [exact IH|].
      apply insert_by_len_Forall; [unfold not_shorter; lia|exact Hy].
    + constructor; [constructor; assumption|].
      constructor; [exact Hge|].
      apply (Forall_impl _ (P := not_shorter y)); [|exact Hy].
      unfold not_shorter. intros z Hz. lia.
Qed.

Lemma sorted_by_len_desc_sorted (l : list string) :
  Sorted.StronglySorted not_shorter (sorted_by_len_desc l).
Proof.
  unfold sorted_by_len_desc. induction l as [|x l IH]; cbn [fold_right].
  - constructor.
  - now apply insert_by_len_sorted.
Qed.

Lemma sorted_before_not_shorter (before after : list string) (e : string) :
  Sorted.StronglySorted not_shorter (before ++ e :: after)%list ->
  forall b, In b before -> String.length e <= String.length b.
Proof.
  induction before as [|x before IH]; intros Hs b Hin; [destruct Hin|].
  cbn [app] in Hs. apply Sorted.StronglySorted_inv in Hs as [Hs Hx].
  destruct Hin as [<-|Hin].
  - rewrite Forall_forall in Hx. apply (Hx e), in_or_app. right. now left.
  - now apply IH.
Qed.

End WrapperFacts.

(** The parts of C5 that hold: the longest entry is tried first, so every
    text that contains "colorado maduro" in any letter case gets the color
    "Colorado Maduro"; the color returned is the first entry, longest first,
    that the text mentions; and the two examples of the specification. *)
Lemma wrapper_longest_first (s c : string) :
  (WrapperFacts.mentions "colorado maduro" s = true ->
   WrapperFacts.color_of s = Some "Colorado Maduro")
  /\ (WrapperFacts.color_of s = Some c ->
      exists e before after,
        c = Py.title e
        /\ FamousSmoke.sorted_by_len_desc FamousSmoke.WRAPPER_COLORS
           = (before ++ e :: after)%list
        /\ WrapperFacts.mentions e s = true
        /\ (forall b, In b before -> WrapperFacts.mentions b s = false)
        /\ (forall b, In b before -> String.length e <= String.length b))
  /\ FamousSmoke.smart_parse_wrapper "Connecticut Broadleaf Maduro (USA)"
     = (Some "Maduro", Some "Connecticut Broadleaf", Some "USA")
  /\ FamousSmoke.smart_parse_wrapper "" = (None, None, None).
Proof.
  split; [apply WrapperFacts.colorado_maduro_first|].
  split; [|split; reflexivity].
  rewrite WrapperFacts.color_of_eq. destruct (Py.is_empty s); [discriminate|].
  destruct (FamousSmoke.first_hit _ _) as [e|] eqn:E; [|discriminate].
  intros [= <-].
  destruct (WrapperFacts.first_hit_spec _ _ _ E)
    as (before & after & Hv & Hc & Hb).
  exists e, before, after. repeat split; auto.
  intros b Hin.
  apply (WrapperFacts.sorted_before_not_shorter before after e); [|exact Hin].
  rewrite <- Hv. apply WrapperFacts.sorted_by_len_desc_sorted.
Qed.

(** C5 fails on the code for the leaf: the vocabularies are matched on
    the lower-cased text, but what is removed from the original text is the
    title-cased color and the canonical origin, so a color or origin written
    in another letter case (or under an alias) stays in the leaf. *)
Theorem wrapper_leaf_keeps_matched_words :
  FamousSmoke.smart_parse_wrapper "Connecticut Broadleaf maduro (usa)"
  = (Some "Maduro", Some "Connecticut Broadleaf maduro (usa)", Some "USA")
  /\ FamousSmoke.smart_parse_wrapper "CONNECTICUT BROADLEAF MADURO (USA)"
     = (Some "Maduro", Some "CONNECTICUT BROADLEAF MADURO", Some "USA")
  /\ FamousSmoke.smart_parse_wrapper "Habano (United States)"
     = (None, Some "Habano (United States)", Some "USA")
  /\ FamousSmoke.smart_parse_wrapper "Connecticut Broadleaf Maduro (USA)"
     = (Some "Maduro", Some "Connecticut Broadleaf", Some "USA").
Proof. repeat split; reflexivity. Qed.

(** C10 (as amended). The color returned by [smart_parse_wrapper] is the
    title-cased form of a vocabulary entry, and the origin returned is one of
    ten canonical names or absent. Which name is decided by the first origin
    entry, longest first, that the text mentions: "USA" when that entry is
    "united states" or "usa" (so for a text with "united states" and without
    "dominican republic", and for a text with "usa" and no other origin
    entry), "Dominican Republic" when it is "dominican republic" or
    "dominican" (so for a text with "dominican" and without "united states",
    "costa rica" and "nicaragua"), and the title-cased entry otherwise. *)
Theorem wrapper_outputs_canonical (s : string) :
  (forall c, WrapperFacts.color_of s = Some c ->
     In c WrapperFacts.canonical_colors
     /\ exists e, In e FamousSmoke.WRAPPER_COLORS
                  /\ WrapperFacts.mentions e s = true /\ c = Py.title e)
  /\ (forall o, WrapperFacts.origin_of s = Some o ->
        In o WrapperFacts.canonical_origins)
  /\ (WrapperFacts.mentions "dominican republic" s = true ->
      WrapperFacts.origin_of s = Some "Dominican Republic")
  /\ (WrapperFacts.mentions "united states" s = true ->
      WrapperFacts.mentions "dominican republic" s = false ->
      WrapperFacts.origin_of s = Some "USA")
  /\ (WrapperFacts.mentions "dominican" s = true ->
      WrapperFacts.mentions "united states" s = false ->
      WrapperFacts.mentions "costa rica" s = false ->
      WrapperFacts.mentions "nicaragua" s = false ->
      WrapperFacts.origin_of s = Some "Dominican Republic")
  /\ (WrapperFacts.mentions "usa" s = true ->
      (forall e, In e FamousSmoke.WRAPPER_ORIGINS -> e <> "usa" ->
                 WrapperFacts.mentions e s = false) ->
      WrapperFacts.origin_of s = Some "USA")
  /\ (forall e,
        FamousSmoke.first_hit
          (FamousSmoke.sorted_by_len_desc FamousSmoke.WRAPPER_ORIGINS)
          (Py.lower s) = Some e ->
        e <> "usa" -> e <> "united states" -> e <> "dominican" ->
        WrapperFacts.origin_of s = Some (Py.title e)).
Proof.
  split.
  { intros c Hc. split.
    - exact (WrapperFacts.color_canonical s c Hc).
    - exact (WrapperFacts.color_is_title_of_entry s c Hc). }
  split; [exact (WrapperFacts.origin_canonical s)|].
  assert (Hdr : WrapperFacts.mentions "dominican republic" s = true ->
                WrapperFacts.origin_of s = Some "Dominican Republic").
  { intros H. rewrite WrapperFacts.origin_of_eq.
    rewrite (WrapperFacts.mentions_nonempty "dominican republic" s);
      [|discriminate|exact H].
    rewrite WrapperFacts.origins_longest_first.
    rewrite WrapperFacts.first_hit_head; [reflexivity|exact H]. }
  split; [exact Hdr|].
  split.
  { intros Hus Hdr'. rewrite WrapperFacts.origin_of_eq.
    rewrite (WrapperFacts.mentions_nonempty "united states" s);
      [|discriminate|exact Hus].
    rewrite WrapperFacts.origins_longest_first.
    rewrite WrapperFacts.first_hit_skip by exact Hdr'.
    rewrite WrapperFacts.first_hit_head; [reflexivity|exact Hus]. }
  split.
  { intros Hd Hus Hcr Hn.
    destruct (WrapperFacts.mentions "dominican republic" s) eqn:E;
      [now apply Hdr|].
    rewrite WrapperFacts.origin_of_eq.
    rewrite (WrapperFacts.mentions_nonempty "dominican" s);
      [|discriminate|exact Hd].
    rewrite WrapperFacts.origins_longest_first.
    rewrite !WrapperFacts.first_hit_skip by assumption.
    rewrite WrapperFacts.first_hit_head; [reflexivity|exact Hd]. }
  split.
  { intros Hu Hothers. rewrite WrapperFacts.origin_of_eq.
    rewrite (WrapperFacts.mentions_nonempty "usa" s);
      [|discriminate|exact Hu].
    rewrite WrapperFacts.origins_longest_first.
    repeat (rewrite WrapperFacts.first_hit_skip;
            [|apply Hothers; [cbn; tauto|discriminate]]).
    rewrite WrapperFacts.first_hit_head; [reflexivity|exact Hu]. }
  intros e He H1 H2 H3. rewrite WrapperFacts.origin_of_eq.
  destruct s as [|a s]; [vm_compute in He; discriminate|].
  cbn [Py.is_empty]. rewrite He.
  cbn [option_map]. unfold FamousSmoke.origin_name.
  destruct (String.eqb_spec e "usa"); [contradiction|].
  destruct (String.eqb_spec e "united states"); [contradiction|].
  destruct (String.eqb_spec e "dominican"); [contradiction|].
  reflexivity.
Qed.

Lemma wrapper_outputs_canonical_witness :
  WrapperFacts.origin_of "Habano (United States)" = Some "USA".
Proof.
  apply (proj1 (proj2 (proj2 (proj2
           (wrapper_outputs_canonical "Habano (United States)")))));
    reflexivity.
Defined.

(** C10, as stated, fails: a text that contains "usa" gets another origin
    when a longer origin entry occurs in it too, and a text with "dominican"
    (and without "dominican republic") gets "Nicaragua" when it mentions
    that country as well. *)
Lemma wrapper_origin_counterexample :
  WrapperFacts.mentions "usa" "Nicaragua USA" = true
  /\ WrapperFacts.origin_of "Nicaragua USA" = Some "Nicaragua"
  /\ WrapperFacts.origin_of "Nicaragua USA" <> Some "USA"
  /\ WrapperFacts.mentions "dominican" "Dominican Nicaragua" = true
  /\ WrapperFacts.mentions "dominican republic" "Dominican Nicaragua" = false
  /\ WrapperFacts.origin_of "Dominican Nicaragua" = Some "Nicaragua"
  /\ WrapperFacts.origin_of "Dominican Nicaragua" <> Some "Dominican Republic".
Proof. repeat split; try reflexivity; discriminate. Qed.

(* ================================================================== *)
(** * The numeric coercion helpers *)
(* ================================================================== *)

Module CoercionFacts.

Import Py PyFacts Num NumFacts.

(** The sign and the body of a text, as [float] reads them: the white
    space that [float] skips is taken from the two ends (TAB, LF, VT, FF, CR,
    the space, NEL and NBSP; not the separators FS to US), then one sign. *)
Definition minus_sign (s : string) : bool :=
  fst (take_sign (numeric_strip s)).
Definition body (s : string) : string := snd (take_sign (numeric_strip s)).

(** The text spells NaN: "nan" in any letter case, after an optional sign,
    the white space above around it allowed. *)
Definition spells_nan (s : string) : bool := string_eqb (lower (body s)) "nan".

Definition spells_inf (s : string) : bool :=
  (string_eqb (lower (body s)) "inf"
   || string_eqb (lower (body s)) "infinity")%bool.

Lemma float_of_str_cases (s : string) :
  (spells_inf s = true /\ float_of_str s = Ok (infinity (minus_sign s)))
  \/ (spells_inf s = false /\ spells_nan s = true /\ float_of_str s = Ok nan)
  \/ (spells_inf s = false /\ spells_nan s = false
      /\ ((exists m e, float_of_str s = Ok (of_decimal (minus_sign s) m e))
          \/ float_of_str s = Raise ValueError)).
Proof.
  unfold spells_inf, spells_nan, body, minus_sign, float_of_str.
  destruct (take_sign (numeric_strip s)) as [neg b]. cbn [fst snd].
  destruct (string_eqb (lower b) "inf" || string_eqb (lower b) "infinity")%bool;
    [left; auto|right].
  destruct (string_eqb (lower b) "nan"); [left; auto|right].
  repeat split.
  destruct (decimal_literal b) as [[[ip fp] e]|]; [left; eauto|right; auto].
Qed.

(** [float] on a text raises nothing but [ValueError]. *)
Lemma float_of_str_raises (s : string) (e : exn) :
  float_of_str s = Raise e -> e = ValueError.
Proof.
  destruct (float_of_str_cases s)
    as [[_ H]|[(_ & _ & H)|(_ & _ & [(m & x & H)|H])]];
    rewrite H; congruence.
Qed.

Lemma signed_not_nan (b : bool) (x : float) : signed b x -> is_nan x = false.
Proof. destruct x; simpl; [reflexivity|reflexivity|contradiction|reflexivity]. Qed.

Lemma signed_negative (b : bool) (x : float) :
  signed b x -> is_negative x = true -> b = true.
Proof.
  destruct x as [s|s| |s m e]; simpl; intros H; subst; try discriminate;
    try contradiction; destruct b; auto.
Qed.

(** What [float] makes of a text that it accepts. *)
Lemma float_of_str_value (s : string) (v : float) :
  float_of_str s = Ok v ->
  (is_nan v = true <-> spells_nan s = true /\ spells_inf s = false)
  /\ (is_negative v = true -> minus_sign s = true)
  /\ (spells_inf s = true -> v = infinity (minus_sign s)).
Proof.
  intros Hv.
  destruct (float_of_str_cases s)
    as [[Hi H]|[(Hi & Hn & H)|(Hi & Hn & [(m & e & H)|H])]];
    rewrite H in Hv; try discriminate; injection Hv as <-;
    rewrite Hi; try rewrite Hn.
  - split; [cbn; intuition congruence|].
    split; [|reflexivity].
    cbn. destruct (minus_sign s); auto.
  - split; [cbn; intuition congruence|].
    split; [cbn; discriminate|discriminate].
  - pose proof (of_decimal_signed (minus_sign s) m e) as Hs.
    split; [rewrite (signed_not_nan _ _ Hs); intuition congruence|].
    split; [exact (signed_negative _ _ Hs)|discriminate].
Qed.

(** ** Plain decimal numbers: digits, a point, digits *)

Lemma digitpart_rest_stop (a rest : string) :
  str_forall isdecimal a = true ->
  match rest with
  | EmptyString => True
  | String c _ => isdecimal c = false /\ Ascii.eqb c "_" = false
  end ->
  digitpart_rest (a ++ rest) = (a, rest).
Proof.
  intros Ha Hr. induction a as [|c a IH]; cbn [append].
  - destruct rest as [|c r]; [reflexivity|].
    destruct Hr as [H1 H2]. cbn [digitpart_rest]. now rewrite H1, H2.
  - cbn [str_forall] in Ha. apply andb_true_iff in Ha as [Hc Ha].
    cbn [digitpart_rest]. now rewrite Hc, (IH Ha).
Qed.

Lemma digitpart_stop (a rest : string) :
  is_digits a = true ->
  match rest with
  | EmptyString => True
  | String c _ => isdecimal c = false /\ Ascii.eqb c "_" = false
  end ->
  digitpart (a ++ rest) = Some (a, rest).
Proof.
  unfold is_digits. destruct a as [|c a]; [discriminate|].
  cbn [is_empty negb andb str_forall]. intros [Hc Ha]%andb_true_iff Hr.
  cbn [append digitpart]. now rewrite Hc, (digitpart_rest_stop a rest Ha Hr).
Qed.

Lemma decimal_literal_point (a b : string) :
  is_digits a = true -> is_digits b = true ->
  decimal_literal (a ++ "." ++ b) = Some (a, b, 0%Z).
Proof.
  intros Ha Hb. unfold decimal_literal, opt_digitpart.
  rewrite (digitpart_stop a ("." ++ b) Ha) by (split; reflexivity).
  cbn [append]. change (Ascii.eqb "." ".") with true. cbv iota.
  rewrite (digitpart_digits b Hb).
  unfold is_digits in Ha. apply andb_true_iff in Ha as [Ha _].
  destruct a; [discriminate|reflexivity].
Qed.

Lemma is_digits_first (a : string) :
  is_digits a = true ->
  exists c r, a = String c r /\ isdecimal c = true.
Proof.
  unfold is_digits. destruct a as [|c r]; [discriminate|].
  cbn. intros [Hc _]%andb_true_iff. eauto.
Qed.

Lemma plain_decimal_token (a b : string) :
  is_digits a = true -> is_digits b = true -> is_token (a ++ "." ++ b) = true.
Proof.
  intros Ha Hb. pose proof (digits_token _ Ha) as Ta.
  pose proof (digits_token _ Hb) as Tb. unfold is_token in *.
  apply andb_true_iff in Ta as [Ta1 Ta2]. apply andb_true_iff in Tb as [_ Tb2].
  apply andb_true_iff. split.
  - destruct a; [discriminate|reflexivity].
  - rewrite str_forall_app, Ta2. cbn. exact Tb2.
Qed.

Lemma take_sign_first (c : ascii) (r : string) :
  isdecimal c = true -> take_sign (String c r) = (false, String c r).
Proof.
  intros Hc. cbn [take_sign].
  destruct (decimal_not_sign c Hc) as (H1 & H2 & _). now rewrite H1, H2.
Qed.

Lemma lower_first_not_word (c x : ascii) (r w : string) :
  isdecimal c = true -> isdecimal x = false ->
  string_eqb (lower (String c r)) (String x w) = false.
Proof.
  intros Hc Hx. unfold string_eqb, lower. cbn [smap String.eqb].
  rewrite (decimal_lower c Hc).
  destruct (Ascii.eqb_spec c x) as [E|_]; [congruence|reflexivity].
Qed.

(** [float] accepts [digits.digits] and reads it with a plus sign. *)
Lemma float_of_str_plain (a b : string) :
  is_digits a = true -> is_digits b = true ->
  float_of_str (a ++ "." ++ b)
  = Ok (of_decimal false (digits_value (a ++ b))
                   (0 - Z.of_nat (String.length b))).
Proof.
  intros Ha Hb. unfold float_of_str.
  rewrite (numeric_strip_token _ (plain_decimal_token a b Ha Hb)).
  pose proof (decimal_literal_point a b Ha Hb) as Hd.
  destruct (is_digits_first a Ha) as (c & r & -> & Hc).
  change (String c r ++ "." ++ b) with (String c (r ++ "." ++ b)) in *.
  rewrite (take_sign_first c _ Hc).
  rewrite !(lower_first_not_word c _ _ _ Hc) by reflexivity.
  cbn [orb]. now rewrite Hd.
Qed.

(** The body is a decimal literal: digits with an optional point and
    exponent, as [float] accepts them. *)
Definition spells_decimal (s : string) : bool :=
  match decimal_literal (body s) with Some _ => true | None => false end.

Lemma spells_nan_not_inf (s : string) :
  spells_nan s = true -> spells_inf s = false.
Proof.
  unfold spells_nan, spells_inf, string_eqb.
  intros E%String.eqb_eq. now rewrite E.
Qed.

(** The three ways in which [float] accepts a text, and the one in which
    it refuses it. *)
Lemma float_of_str_spelling (s : string) :
  (spells_nan s = true -> float_of_str s = Ok nan)
  /\ (spells_inf s = true -> float_of_str s = Ok (infinity (minus_sign s)))
  /\ (spells_nan s = false -> spells_inf s = false ->
      spells_decimal s = true ->
      exists m e, float_of_str s = Ok (of_decimal (minus_sign s) m e))
  /\ (spells_nan s = false -> spells_inf s = false ->
      spells_decimal s = false -> float_of_str s = Raise ValueError).
Proof.
  pose proof (spells_nan_not_inf s) as Hni.
  unfold spells_inf, spells_nan, spells_decimal, body, minus_sign,
    float_of_str in *.
  destruct (take_sign (numeric_strip s)) as [neg b]. cbn [fst snd] in *.
  destruct (string_eqb (lower b) "inf" || string_eqb (lower b) "infinity")%bool.
  - repeat split; try discriminate; try reflexivity.
    intros E. specialize (Hni E). discriminate.
  - destruct (string_eqb (lower b) "nan").
    + repeat split; try discriminate; reflexivity.
    + destruct (decimal_literal b) as [[[ip fp] e]|];
        repeat split; try discriminate; try reflexivity.
      intros _ _ _. eauto.
Qed.

End CoercionFacts.

(** C3 (as amended). On every text, [safe_float] and [safe_decimal] return
    what [float] makes of it and are absent exactly when [float] rejects it:
    when the text, without the white space that [float] skips at its two
    ends and without one leading sign, is neither "nan", "inf" or "infinity"
    in any letter case nor a decimal literal. They check no range. The
    result is NaN exactly for the spelling "nan", it is the infinity of the
    written sign for "inf" and "infinity", and it is below zero only for a
    text with a leading minus sign. White space is skipped around "nan"
    when it is a no-break space or a space, not when it is the separator
    of code point 28. So a text without a leading minus sign
    that does not spell NaN yields absent or a value that is neither NaN nor
    negative, and a run of digits with an optional fraction always yields
    such a value. *)
Theorem coercion_returns_what_float_reads (s : string) :
  FamousSmoke.safe_decimal (VStr s) = Ok (Atlantic.safe_float (VStr s))
  /\ (Atlantic.safe_float (VStr s) = None
      <-> Num.float_of_str s = Raise ValueError)
  /\ (Atlantic.safe_float (VStr s) = None
      <-> CoercionFacts.spells_nan s = false
          /\ CoercionFacts.spells_inf s = false
          /\ CoercionFacts.spells_decimal s = false)
  /\ ((exists v, Atlantic.safe_float (VStr s) = Some v
                 /\ Num.is_nan v = true)
      <-> CoercionFacts.spells_nan s = true)
  /\ (CoercionFacts.spells_nan s = true ->
      Atlantic.safe_float (VStr s) = Some Num.nan)
  /\ (CoercionFacts.spells_inf s = true ->
      Atlantic.safe_float (VStr s)
      = Some (Num.infinity (CoercionFacts.minus_sign s)))
  /\ (forall v, Atlantic.safe_float (VStr s) = Some v ->
        Num.is_negative v = true -> CoercionFacts.minus_sign s = true)
  /\ (CoercionFacts.minus_sign s = false ->
      CoercionFacts.spells_nan s = false ->
      Atlantic.safe_float (VStr s) = None
      \/ exists v, Atlantic.safe_float (VStr s) = Some v
                   /\ Num.is_nan v = false /\ Num.is_negative v = false)
  /\ Atlantic.safe_float (VStr (String (ascii_of_nat 160) " nan ")) = Some Num.nan
  /\ Atlantic.safe_float (VStr (String (ascii_of_nat 28) "nan")) = None
  /\ (forall a b, PyFacts.is_digits a = true -> PyFacts.is_digits b = true ->
        s = a \/ s = a ++ "." ++ b ->
        exists v, Atlantic.safe_float (VStr s) = Some v
                  /\ Num.is_nan v = false /\ Num.is_negative v = false).
Proof.
  assert (Hval : forall v, Atlantic.safe_float (VStr s) = Some v ->
                           Num.float_of_str s = Ok v).
  { unfold Atlantic.safe_float, Num.py_float.
    destruct (Num.float_of_str s); congruence. }
  assert (Hsome : forall v, Num.float_of_str s = Ok v ->
                            Atlantic.safe_float (VStr s) = Some v).
  { unfold Atlantic.safe_float, Num.py_float. now intros v ->. }
  assert (Hnone : Atlantic.safe_float (VStr s) = None
                  <-> Num.float_of_str s = Raise ValueError).
  { unfold Atlantic.safe_float, Num.py_float.
    destruct (Num.float_of_str s) as [f|e] eqn:E.
    - split; discriminate.
    - rewrite (CoercionFacts.float_of_str_raises s e E). tauto. }
  destruct (CoercionFacts.float_of_str_spelling s) as (Sn & Si & Sd & Sr).
  pose proof (CoercionFacts.spells_nan_not_inf s) as Hni.
  split.
  { unfold FamousSmoke.safe_decimal, Atlantic.safe_float, Num.py_float.
    destruct (Num.float_of_str s) as [f|e] eqn:E; [reflexivity|].
    now rewrite (CoercionFacts.float_of_str_raises s e E). }
  split; [exact Hnone|].
  split.
  { rewrite Hnone. split.
    - intros E.
      destruct (CoercionFacts.spells_nan s);
        [specialize (Sn eq_refl); congruence|].
      destruct (CoercionFacts.spells_inf s);
        [specialize (Si eq_refl); congruence|].
      destruct (CoercionFacts.spells_decimal s); [|auto].
      destruct (Sd eq_refl eq_refl eq_refl) as (m & e & H). congruence.
    - intros (H1 & H2 & H3). now apply Sr. }
  split.
  { split.
    - intros (v & Hv & Hnan).
      destruct (CoercionFacts.float_of_str_value s v (Hval v Hv))
        as (H1 & _). now apply H1.
    - intros E. exists Num.nan. split; [|reflexivity].
      now apply Hsome, Sn. }
  split; [intros E; now apply Hsome, Sn|].
  split; [intros E; now apply Hsome, Si|].
  split.
  { intros v Hv.
    now destruct (CoercionFacts.float_of_str_value s v (Hval v Hv))
      as (_ & H2 & _). }
  split.
  { intros Hm Hn. destruct (Atlantic.safe_float (VStr s)) as [v|] eqn:E;
      [right|left; reflexivity].
    exists v. split; [reflexivity|].
    destruct (CoercionFacts.float_of_str_value s v (Hval v eq_refl))
      as (H1 & H2 & _).
    split.
    - destruct (Num.is_nan v); [|reflexivity].
      destruct (proj1 H1 eq_refl) as [H _]. congruence.
    - destruct (Num.is_negative v); [|reflexivity].
      specialize (H2 eq_refl). congruence. }
  split; [reflexivity|]. split; [reflexivity|].
  intros a b Ha Hb [->| ->].
  - unfold Atlantic.safe_float, Num.py_float.
    rewrite (NumFacts.float_of_str_digits a Ha). eexists. split; [reflexivity|].
    apply NumFacts.signed_false_props, NumFacts.of_Z_signed.
    apply SizeFacts.digits_value_digits_nonneg, Ha.
  - unfold Atlantic.safe_float, Num.py_float.
    rewrite (CoercionFacts.float_of_str_plain a b Ha Hb).
    eexists. split; [reflexivity|].
    apply NumFacts.signed_false_props, NumFacts.of_decimal_signed.
Qed.

Lemma coercion_returns_what_float_reads_witness :
  exists v, Atlantic.safe_float (VStr "8.53") = Some v
            /\ Num.is_nan v = false /\ Num.is_negative v = false.
Proof.
  apply (proj2 (proj2 (proj2 (proj2 (proj2 (proj2 (proj2 (proj2 (proj2 (proj2
           (coercion_returns_what_float_reads "8.53"))))))))))
           "8" "53" eq_refl eq_refl).
  right. reflexivity.
Defined.

(** C3, as stated, fails: [float] accepts the texts "nan", "inf" and "-1",
    and the helpers return its NaN, its infinity and its negative number. *)
Lemma coercion_nan_counterexample :
  Atlantic.safe_float (VStr "nan") = Some Num.nan
  /\ FamousSmoke.safe_decimal (VStr "nan") = Ok (Some Num.nan)
  /\ Num.is_nan Num.nan = true
  /\ Atlantic.safe_float (VStr "inf") = Some (Num.infinity false)
  /\ FamousSmoke.safe_decimal (VStr "inf") = Ok (Some (Num.infinity false))
  /\ (exists v, Atlantic.safe_float (VStr "-1") = Some v
                /\ FamousSmoke.safe_decimal (VStr "-1") = Ok (Some v)
                /\ Num.is_negative v = true).
Proof.
  repeat split; try reflexivity.
  eexists. repeat split; reflexivity.
Qed.

(* ================================================================== *)
(** * The number pattern of the price parsers *)
(* ================================================================== *)

Module RegexFacts.

Import Py PyFacts Re.

(** The longest prefix of characters of a class, and the rest. *)
Fixpoint span (p : ascii -> bool) (s : string) : string * string :=
  match s with
  | EmptyString => (EmptyString, EmptyString)
  | String c r =>
      if p c then let '(a, t) := span p r in (String c a, t)
      else (EmptyString, s)
  end.

Lemma span_app (p : ascii -> bool) (s : string) :
  fst (span p s) ++ snd (span p s) = s.
Proof.
  induction s as [|c r IH]; [reflexivity|]. cbn [span].
  destruct (p c); [|reflexivity].
  destruct (span p r) as [a t]. cbn in *. now rewrite IH.
Qed.

Lemma span_all (p : ascii -> bool) (s : string) :
  str_forall p (fst (span p s)) = true.
Proof.
  induction s as [|c r IH]; [reflexivity|]. cbn [span].
  destruct (p c) eqn:E; [|reflexivity].
  destruct (span p r) as [a t]. cbn in *. now rewrite E, IH.
Qed.

Lemma span_rest (p : ascii -> bool) (s : string) :
  match snd (span p s) with
  | EmptyString => True
  | String c _ => p c = false
  end.
Proof.
  induction s as [|c r IH]; [exact I|]. cbn [span].
  destruct (p c) eqn:E; [|exact E].
  destruct (span p r) as [a t]. exact IH.
Qed.

(** The prefix [a] of class [p], followed by a text that does not go on
    with a character of the class. *)
Lemma span_run (p : ascii -> bool) (a rest : string) :
  str_forall p a = true ->
  match rest with
  | EmptyString => True
  | String c _ => p c = false
  end ->
  span p (a ++ rest) = (a, rest).
Proof.
  intros Ha Hr. induction a as [|c a IH]; cbn [append].
  - destruct rest as [|c r]; [reflexivity|]. cbn [span]. now rewrite Hr.
  - cbn [str_forall] in Ha. apply andb_true_iff in Ha as [Hc Ha].
    cbn [span]. now rewrite Hc, (IH Ha).
Qed.

(** A greedy repetition followed by something that cannot start with a
    character of the class: backing off never helps, so the run taken is
    the longest one. *)
Lemma rep_then_other (A : Type) (p : ascii -> bool) (k : string -> option A)
      (s : string) (lo : nat) :
  (forall c t, p c = true -> k (String c t) = None) ->
  rep p lo None s k
  = if Nat.leb lo (String.length (fst (span p s)))
    then k (snd (span p s)) else None.
Proof.
  intros Hk. revert lo. induction s as [|c r IH]; intros lo.
  - cbn. destruct lo; reflexivity.
  - cbn [rep span may_take option_map]. destruct (p c) eqn:E.
    + cbn [andb]. rewrite (IH (pred lo)).
      destruct (span p r) as [a t]. cbn [fst snd String.length].
      destruct lo as [|l]; cbn [pred Nat.leb].
      * destruct (k t); [reflexivity|]. now apply Hk.
      * destruct (Nat.leb l (String.length a)); [|reflexivity].
        now destruct (k t).
    + cbn [andb fst snd String.length]. now destruct lo.
Qed.

(** A greedy repetition at the end of a pattern takes the longest run. *)
Lemma rep_last (A : Type) (p : ascii -> bool) (f : string -> A)
      (s : string) (lo : nat) :
  rep p lo None s (fun t => Some (f t))
  = if Nat.leb lo (String.length (fst (span p s)))
    then Some (f (snd (span p s))) else None.
Proof.
  revert lo. induction s as [|c r IH]; intros lo.
  - cbn. destruct lo; reflexivity.
  - cbn [rep span may_take option_map]. destruct (p c) eqn:E.
    + cbn [andb]. rewrite (IH (pred lo)).
      destruct (span p r) as [a t]. cbn [fst snd String.length].
      destruct lo as [|l]; cbn [pred Nat.leb]; [reflexivity|].
      now destruct (Nat.leb l (String.length a)).
    + cbn [andb fst snd String.length]. now destruct lo.
Qed.

Lemma take_app (x t : string) : take (String.length x) (x ++ t) = x.
Proof. induction x as [|c x IH]; cbn; [now destruct t|now rewrite IH]. Qed.

Lemma consumed_app (x t : string) : consumed (x ++ t) t = x.
Proof.
  unfold consumed. rewrite length_append.
  replace (String.length x + String.length t - String.length t)
    with (String.length x) by lia.
  apply take_app.
Qed.

(** ** digits, a point, digits *)

Definition number_pattern : regex :=
  seq [plus d; Chr (lit "."); plus d].

(** The number that starts a text: its digits before the point, its digits
    after the point and the text that follows. *)
Definition number_at (s : string) : option (string * string * string) :=
  let '(a, r1) := span isdecimal s in
  if is_empty a then None
  else
    match r1 with
    | String c r2 =>
        if Ascii.eqb "." c then
          let '(b, r3) := span isdecimal r2 in
          if is_empty b then None else Some (a, b, r3)
        else None
    | EmptyString => None
    end.

Lemma leb_1_length (a : string) :
  Nat.leb 1 (String.length a) = negb (is_empty a).
Proof. now destruct a. Qed.

Lemma match_here_number (s : string) :
  match_here number_pattern s
  = match number_at s with
    | Some (a, b, r) => Some (a ++ "." ++ b, [], r)
    | None => None
    end.
Proof.
  unfold match_here, number_pattern, seq, plus, d. cbn [run].
  rewrite rep_then_other.
  2:{ intros c t Hc. unfold lit.
      destruct (Ascii.eqb_spec "." c) as [<-|_]; [discriminate|reflexivity]. }
  unfold number_at.
  pose proof (span_app isdecimal s) as Hs.
  destruct (span isdecimal s) as [a r1]. cbn [fst snd] in *.
  rewrite leb_1_length. destruct (is_empty a); [reflexivity|]. cbn [negb].
  destruct r1 as [|c r2]; [reflexivity|]. unfold lit.
  destruct (Ascii.eqb_spec "." c) as [<-|_]; [|reflexivity].
  rewrite (rep_last _ _ (fun t => (consumed s t, @nil (nat * string), t))).
  pose proof (span_app isdecimal r2) as Hr.
  destruct (span isdecimal r2) as [b r3]. cbn [fst snd] in *.
  rewrite leb_1_length. destruct (is_empty b); [reflexivity|]. cbn [negb].
  f_equal. f_equal. f_equal.
  rewrite <- Hs, <- Hr.
  replace (a ++ String "." (b ++ r3)) with ((a ++ "." ++ b) ++ r3)
    by (rewrite !append_assoc; reflexivity).
  apply consumed_app.
Qed.

(** A digit, a point and a digit somewhere in the text. *)
Definition starts_point_digit (s : string) : bool :=
  match s with
  | String c1 (String c2 _) => (Ascii.eqb "." c1 && isdecimal c2)%bool
  | _ => false
  end.

Fixpoint has_number (s : string) : bool :=
  match s with
  | EmptyString => false
  | String c r => ((isdecimal c && starts_point_digit r) || has_number r)%bool
  end.

Lemma has_number_cons (c : ascii) (r : string) :
  has_number (String c r)
  = ((isdecimal c && starts_point_digit r) || has_number r)%bool.
Proof. reflexivity. Qed.

Lemma number_at_has_number (s a b r : string) :
  number_at s = Some (a, b, r) -> has_number s = true.
Proof.
  unfold number_at.
  pose proof (span_app isdecimal s) as Hs.
  pose proof (span_all isdecimal s) as Ha.
  destruct (span isdecimal s) as [a' r1]. cbn [fst snd] in *.
  destruct a' as [|c0 a']; [discriminate|]. cbn [is_empty].
  destruct r1 as [|c r2]; [discriminate|].
  destruct (Ascii.eqb_spec "." c) as [<-|_]; [|discriminate].
  pose proof (span_all isdecimal r2) as Hb.
  pose proof (span_app isdecimal r2) as Hr.
  destruct (span isdecimal r2) as [b' r3]. cbn [fst snd] in *.
  destruct b' as [|d b']; [discriminate|]. intros _.
  subst s r2. clear - Ha Hb.
  cbn [str_forall] in Hb. apply andb_true_iff in Hb as [Hd _].
  revert c0 Ha. induction a' as [|c1 a' IH]; intros c0 Ha.
  - cbn in Ha. apply andb_true_iff in Ha as [Hc _].
    cbn. now rewrite Hc, Hd.
  - cbn [str_forall] in Ha. apply andb_true_iff in Ha as [_ Ha].
    specialize (IH c1 Ha). cbn [append] in IH |- *.
    rewrite has_number_cons, IH. apply orb_true_r.
Qed.

Lemma number_at_start (c : ascii) (r : string) :
  isdecimal c = true -> starts_point_digit r = true ->
  exists a b t, number_at (String c r) = Some (a, b, t).
Proof.
  intros Hc Hr. unfold starts_point_digit in Hr.
  destruct r as [|c1 [|c2 r]]; try discriminate.
  apply andb_true_iff in Hr as [H1 H2].
  apply Ascii.eqb_eq in H1. subst c1.
  unfold number_at. cbn [span]. rewrite Hc.
  change (isdecimal ".") with false. cbv iota. cbn [is_empty].
  change (Ascii.eqb "." ".") with true. cbv iota.
  cbn [span]. rewrite H2. destruct (span isdecimal r) as [b t].
  cbn [is_empty]. eauto.
Qed.

(** [re.search] finds a number exactly when the text has a digit, a point
    and a digit in a row. *)
Lemma search_number_none (s : string) :
  search number_pattern s = None <-> has_number s = false.
Proof.
  induction s as [|c r IH].
  - cbn. tauto.
  - cbn [search]. rewrite match_here_number. cbn [has_number]. split.
    + destruct (number_at (String c r)) as [[[a b] t]|] eqn:E; [discriminate|].
      intros H. apply IH in H. rewrite H, orb_false_r.
      destruct (isdecimal c) eqn:Hc; [|reflexivity].
      destruct (starts_point_digit r) eqn:Hr; [|reflexivity].
      destruct (number_at_start c r Hc Hr) as (a & b & t & Hn). congruence.
    + intros H.
      destruct (number_at (String c r)) as [[[a b] t]|] eqn:E.
      * apply number_at_has_number in E. cbn [has_number] in E. congruence.
      * apply IH. apply orb_false_iff in H. tauto.
Qed.

(** What [re.search] finds is a number: digits, a point, digits. *)
Lemma search_number_some (s : string) (h : hit) :
  search number_pattern s = Some h ->
  exists a b, whole h = a ++ "." ++ b
              /\ is_digits a = true /\ is_digits b = true.
Proof.
  induction s as [|c r IH].
  - cbn. discriminate.
  - cbn [search]. rewrite match_here_number.
    destruct (number_at (String c r)) as [[[a b] t]|] eqn:E.
    + intros [= <-]. exists a, b. split; [reflexivity|].
      unfold number_at in E.
      pose proof (span_all isdecimal (String c r)) as Ha.
      destruct (span isdecimal (String c r)) as [a' r1]. cbn [fst] in Ha.
      destruct (is_empty a') eqn:Ea; [discriminate|].
      destruct r1 as [|c1 r2]; [discriminate|].
      destruct (Ascii.eqb "." c1); [|discriminate].
      pose proof (span_all isdecimal r2) as Hb.
      destruct (span isdecimal r2) as [b' r3]. cbn [fst] in Hb.
      destruct (is_empty b') eqn:Eb; [discriminate|].
      injection E as <- <- <-. unfold is_digits.
      now rewrite Ea, Eb, Ha, Hb.
    + destruct r as [|c' r']; [cbn; discriminate|]. exact IH.
Qed.

(** No match starts at a character that is no digit. *)
Lemma search_skip (pre t : string) :
  str_exists isdecimal pre = false ->
  search number_pattern (pre ++ t) = search number_pattern t.
Proof.
  induction pre as [|c pre IH]; [reflexivity|].
  cbn [str_exists]. intros [Hc Hp]%orb_false_iff.
  cbn [append search]. rewrite match_here_number.
  unfold number_at. cbn [span]. rewrite Hc. cbn [is_empty].
  now apply IH.
Qed.

(** The number at the start of a text, when no digit follows it. *)
Lemma search_number_here (a b rest : string) :
  is_digits a = true -> is_digits b = true ->
  match rest with
  | EmptyString => True
  | String c _ => isdecimal c = false
  end ->
  search number_pattern (a ++ "." ++ b ++ rest)
  = Some (a ++ "." ++ b, [], rest).
Proof.
  intros Ha Hb Hr.
  assert (Hn : number_at (a ++ "." ++ b ++ rest) = Some (a, b, rest)).
  { unfold number_at. unfold is_digits in Ha, Hb.
    apply andb_true_iff in Ha as [Ha1 Ha2].
    apply andb_true_iff in Hb as [Hb1 Hb2].
    rewrite (span_run isdecimal a ("." ++ b ++ rest) Ha2) by reflexivity.
    apply negb_true_iff in Ha1. rewrite Ha1. cbn [append].
    change (Ascii.eqb "." ".") with true. cbv iota.
    rewrite (span_run isdecimal b rest Hb2 Hr).
    apply negb_true_iff in Hb1. now rewrite Hb1. }
  destruct (a ++ "." ++ b ++ rest) eqn:E.
  - destruct a; [discriminate|discriminate].
  - cbn [search]. rewrite match_here_number, Hn. reflexivity.
Qed.

Lemma findall_first (r : regex) (s : string) :
  match findall r s with
  | [] => search r s = None
  | h :: _ => search r s = Some h
  end.
Proof.
  unfold findall. cbn [findall_fuel].
  destruct (search r s) as [[[m g] t]|]; reflexivity.
Qed.

(** A text without commas is left as it is by [replace(",", "")]. *)
Lemma replace_absent_char (c : ascii) (s : string) :
  has_char c s = false -> replace (String c "") "" s = s.
Proof.
  unfold replace, has_char. induction s as [|x s IH]; [reflexivity|].
  cbn [str_exists replace_from startswith].
  intros [Hx Hs]%orb_false_iff. rewrite Hx. cbn [andb]. now rewrite IH.
Qed.

End RegexFacts.

(* ================================================================== *)
(** * holts_cigar_scraper.py: the price parser *)
(* ================================================================== *)

Module PriceFacts.

Import Py PyFacts Num NumFacts Re RegexFacts.

(** The text in which [parse_price_range] looks for numbers. *)
Definition without_commas (t : string) : string := replace "," "" t.

Lemma safe_float_plain (a b : string) :
  is_digits a = true -> is_digits b = true ->
  Holts.safe_float (VStr (a ++ "." ++ b))
  = Some (of_decimal false (digits_value (a ++ b))
                     (0 - Z.of_nat (String.length b))).
Proof.
  intros Ha Hb. unfold Holts.safe_float, py_float.
  now rewrite (CoercionFacts.float_of_str_plain a b Ha Hb).
Qed.

Lemma parse_price_range_eq (t : string) :
  Holts.parse_price_range (Some t)
  = match search number_pattern (without_commas t) with
    | Some h => Holts.safe_float (VStr (whole h))
    | None => None
    end.
Proof.
  unfold Holts.parse_price_range, without_commas.
  change Holts.number_pattern with number_pattern.
  destruct t as [|c t]; [reflexivity|]. cbn [is_empty].
  pose proof (findall_first number_pattern (replace "," "" (String c t))) as H.
  destruct (findall _ _) as [|h l]; now rewrite H.
Qed.

Lemma parse_price_range_none (t : string) :
  Holts.parse_price_range (Some t) = None
  <-> has_number (without_commas t) = false.
Proof.
  rewrite parse_price_range_eq, <- search_number_none.
  destruct (search number_pattern (without_commas t)) as [h|] eqn:E;
    [|tauto].
  destruct (search_number_some _ h E) as (a & b & -> & Ha & Hb).
  rewrite (safe_float_plain a b Ha Hb). split; discriminate.
Qed.

Lemma parse_price_range_some (t : string) (v : float) :
  Holts.parse_price_range (Some t) = Some v ->
  exists a b,
    is_digits a = true /\ is_digits b = true
    /\ v = of_decimal false (digits_value (a ++ b))
                      (0 - Z.of_nat (String.length b))
    /\ is_nan v = false /\ is_negative v = false.
Proof.
  rewrite parse_price_range_eq.
  destruct (search number_pattern (without_commas t)) as [h|] eqn:E;
    [|discriminate].
  destruct (search_number_some _ h E) as (a & b & -> & Ha & Hb).
  rewrite (safe_float_plain a b Ha Hb). intros [= <-].
  exists a, b. repeat split; auto;
    apply (signed_false_props _ (of_decimal_signed false _ _)).
Qed.

Lemma parse_price_range_first (t pre a b rest : string) :
  is_digits a = true -> is_digits b = true ->
  str_exists isdecimal pre = false ->
  match rest with
  | EmptyString => True
  | String c _ => isdecimal c = false
  end ->
  without_commas t = pre ++ a ++ "." ++ b ++ rest ->
  Holts.parse_price_range (Some t)
  = Some (of_decimal false (digits_value (a ++ b))
                     (0 - Z.of_nat (String.length b))).
Proof.
  intros Ha Hb Hp Hr Ht. rewrite parse_price_range_eq, Ht.
  rewrite (search_skip pre _ Hp), (search_number_here a b rest Ha Hb Hr).
  cbn [whole fst]. now apply safe_float_plain.
Qed.

(** ** The first number of a text *)

(** The text begins with digits, a point and digits. *)
Definition number_starts (s : string) : Prop :=
  exists x y z, is_digits x = true /\ is_digits y = true
                /\ s = x ++ "." ++ y ++ z.

(** No number begins in [pre], read with [m] after it. *)
Definition none_starts_in (pre m : string) : Prop :=
  forall p1 p2, pre = p1 ++ p2 -> p2 <> "" -> ~ number_starts (p2 ++ m).

Lemma number_at_sound (s a b r : string) :
  number_at s = Some (a, b, r) ->
  s = a ++ "." ++ b ++ r /\ is_digits a = true /\ is_digits b = true
  /\ match r with
     | EmptyString => True
     | String c _ => isdecimal c = false
     end.
Proof.
  unfold number_at.
  pose proof (span_app isdecimal s) as Hs.
  pose proof (span_all isdecimal s) as Ha.
  destruct (span isdecimal s) as [a' r1]. cbn [fst snd] in *.
  destruct (is_empty a') eqn:Ea; [discriminate|].
  destruct r1 as [|c r2]; [discriminate|].
  destruct (Ascii.eqb_spec "." c) as [<-|_]; [|discriminate].
  pose proof (span_app isdecimal r2) as Hr.
  pose proof (span_all isdecimal r2) as Hb.
  pose proof (span_rest isdecimal r2) as Hrest.
  destruct (span isdecimal r2) as [b' r3]. cbn [fst snd] in *.
  destruct (is_empty b') eqn:Eb; [discriminate|].
  intros [= <- <- <-]. unfold is_digits. rewrite Ea, Eb, Ha, Hb.
  repeat split; [|exact Hrest]. now rewrite <- Hs, <- Hr.
Qed.

Lemma number_at_complete (s : string) :
  number_starts s -> number_at s <> None.
Proof.
  intros (x & y & z & Hx & Hy & ->).
  unfold number_at. unfold is_digits in Hx, Hy.
  apply andb_true_iff in Hx as [Hx1 Hx2].
  apply andb_true_iff in Hy as [Hy1 Hy2].
  rewrite (span_run isdecimal x ("." ++ y ++ z) Hx2) by reflexivity.
  apply negb_true_iff in Hx1. rewrite Hx1. cbn [append].
  change (Ascii.eqb "." ".") with true. cbv iota.
  destruct y as [|c y]; [discriminate|].
  cbn [str_forall] in Hy2. apply andb_true_iff in Hy2 as [Hc _].
  cbn [append span]. rewrite Hc.
  destruct (span isdecimal (y ++ z)) as [b t].
  cbn [is_empty]. discriminate.
Qed.

(** [re.search] passes over a prefix in which no number begins. *)
Lemma search_number_leftmost (pre m : string) :
  none_starts_in pre m ->
  search number_pattern (pre ++ m) = search number_pattern m.
Proof.
  induction pre as [|c pre IH]; intros H; [reflexivity|].
  cbn [append search]. rewrite match_here_number.
  destruct (number_at (String c (pre ++ m))) as [[[a b] r]|] eqn:E.
  - exfalso. apply (H "" (String c pre) eq_refl); [discriminate|].
    apply number_at_sound in E as (E1 & Ha & Hb & _). now exists a, b, r.
  - apply IH. intros p1 p2 -> Hp2. exact (H (String c p1) p2 eq_refl Hp2).
Qed.

(** What [re.search] finds is the first number of the text. *)
Lemma search_number_first (s : string) (h : hit) :
  search number_pattern s = Some h ->
  exists pre a b rest,
    s = pre ++ a ++ "." ++ b ++ rest
    /\ is_digits a = true /\ is_digits b = true
    /\ match rest with
       | EmptyString => True
       | String c _ => isdecimal c = false
       end
    /\ none_starts_in pre (a ++ "." ++ b ++ rest)
    /\ h = (a ++ "." ++ b, [], rest).
Proof.
  induction s as [|c r IH].
  - cbn. discriminate.
  - cbn [search]. rewrite match_here_number.
    destruct (number_at (String c r)) as [[[a b] t]|] eqn:E.
    + intros [= <-]. apply number_at_sound in E as (E1 & Ha & Hb & Hr).
      exists "", a, b, t.
      split; [exact E1|]. split; [exact Ha|]. split; [exact Hb|].
      split; [exact Hr|]. split; [|reflexivity].
      intros p1 p2 Hp Hp2.
      destruct p1; [cbn in Hp; subst; contradiction|discriminate].
    + intros Hs.
      destruct (IH Hs) as (pre & a & b & rest & -> & Ha & Hb & Hr & Hl & ->).
      exists (String c pre), a, b, rest.
      split; [reflexivity|]. split; [exact Ha|]. split; [exact Hb|].
      split; [exact Hr|]. split; [|reflexivity].
      intros p1 p2 Hp Hp2 Hn. destruct p1 as [|c1 p1].
      * cbn [append] in Hp. subst p2.
        apply number_at_complete in Hn. exact (Hn E).
      * injection Hp as -> ->. exact (Hl p1 p2 eq_refl Hp2 Hn).
Qed.

Lemma search_number_nowhere (p s : string) :
  search number_pattern (p ++ s) = None -> ~ number_starts s.
Proof.
  induction p as [|c p IH].
  - cbn [append]. intros Hs Hn. apply number_at_complete in Hn.
    destruct s as [|c r]; cbn [search] in Hs; rewrite match_here_number in Hs;
      destruct (number_at _) as [[[a b] t]|]; congruence.
  - cbn [append search]. rewrite match_here_number.
    destruct (number_at _) as [[[a b] t]|]; [discriminate|exact IH].
Qed.

(** No number begins in a prefix without digits. *)
Lemma no_digit_none_starts (pre m : string) :
  str_exists isdecimal pre = false -> none_starts_in pre m.
Proof.
  intros Hp p1 p2 -> Hp2 (x & y & z & Hx & _ & E).
  destruct p2 as [|c p2]; [contradiction|].
  assert (Hc : isdecimal c = false).
  { clear - Hp. induction p1 as [|d p1 IH]; cbn [append str_exists] in Hp.
    - now apply orb_false_iff in Hp as [Hc _].
    - apply orb_false_iff in Hp as [_ Hp]. now apply IH. }
  unfold is_digits in Hx. apply andb_true_iff in Hx as [Hx1 Hx2].
  destruct x as [|d x]; [discriminate|].
  cbn [str_forall] in Hx2. apply andb_true_iff in Hx2 as [Hd _].
  cbn [append] in E. injection E as -> _. congruence.
Qed.

(** A test for [none_starts_in]: no place of [pre] is the start of a
    number. *)
Fixpoint none_starts_inb (pre m : string) : bool :=
  match pre with
  | EmptyString => true
  | String _ p =>
      match number_at (pre ++ m) with
      | Some _ => false
      | None => none_starts_inb p m
      end
  end.

Lemma none_starts_in_check (pre m : string) :
  none_starts_inb pre m = true -> none_starts_in pre m.
Proof.
  induction pre as [|c pre IH]; intros H p1 p2 Hp Hp2 Hn.
  - destruct p1; [cbn in Hp; subst; contradiction|discriminate].
  - cbn [none_starts_inb] in H.
    destruct (number_at (String c pre ++ m)) as [x|] eqn:E; [discriminate|].
    destruct p1 as [|c1 p1].
    + cbn [append] in Hp. subst p2.
      apply number_at_complete in Hn. exact (Hn E).
    + injection Hp as -> ->. exact (IH H p1 p2 eq_refl Hp2 Hn).
Qed.

Lemma parse_price_range_leftmost (t pre a b rest : string) :
  is_digits a = true -> is_digits b = true ->
  match rest with
  | EmptyString => True
  | String c _ => isdecimal c = false
  end ->
  none_starts_in pre (a ++ "." ++ b ++ rest) ->
  without_commas t = pre ++ a ++ "." ++ b ++ rest ->
  Holts.parse_price_range (Some t)
  = Some (of_decimal false (digits_value (a ++ b))
                     (0 - Z.of_nat (String.length b))).
Proof.
  intros Ha Hb Hr Hl Ht. rewrite parse_price_range_eq, Ht.
  rewrite (search_number_leftmost pre _ Hl),
    (search_number_here a b rest Ha Hb Hr).
  cbn [whole fst]. now apply safe_float_plain.
Qed.

Lemma parse_price_range_decomposes (t : string) (v : float) :
  Holts.parse_price_range (Some t) = Some v ->
  exists pre a b rest,
    without_commas t = pre ++ a ++ "." ++ b ++ rest
    /\ is_digits a = true /\ is_digits b = true
    /\ match rest with
       | EmptyString => True
       | String c _ => isdecimal c = false
       end
    /\ none_starts_in pre (a ++ "." ++ b ++ rest)
    /\ v = of_decimal false (digits_value (a ++ b))
                      (0 - Z.of_nat (String.length b)).
Proof.
  rewrite parse_price_range_eq.
  destruct (search number_pattern (without_commas t)) as [h|] eqn:E;
    [|discriminate].
  destruct (search_number_first _ h E)
    as (pre & a & b & rest & Ht & Ha & Hb & Hr & Hl & ->).
  cbn [whole fst]. rewrite (safe_float_plain a b Ha Hb). intros [= <-].
  exists pre, a, b, rest. auto 7.
Qed.

Lemma parse_price_range_absent (t : string) :
  Holts.parse_price_range (Some t) = None
  <-> forall p s, without_commas t = p ++ s -> ~ number_starts s.
Proof.
  split.
  - rewrite parse_price_range_none, <- search_number_none.
    intros Hs p s E. rewrite E in Hs. exact (search_number_nowhere p s Hs).
  - intros H. destruct (Holts.parse_price_range (Some t)) as [v|] eqn:E;
      [|reflexivity].
    destruct (parse_price_range_decomposes t v E)
      as (pre & a & b & rest & Ht & Ha & Hb & _).
    exfalso. apply (H pre _ Ht). now exists a, b, rest.
Qed.

End PriceFacts.

(** C4 (as amended). [parse_price_range] removes the commas and returns the
    first text of the form digits, point, digits, with one or more digits
    after the point (not exactly two): when the text without commas is some
    text in which no such number begins, then digits, a point and digits
    that no digit follows, the price is that number, whatever the number of
    its decimals; and every price that is returned is found in this way. The
    result is absent exactly when no number begins anywhere in the text
    without commas, that is when it has no digit, point and digit in a row,
    and a price that is present is neither NaN nor negative.
    "$8.53 - $10.89" yields 8.53, "2 for $8.53" yields 8.53 and "Contact for
    price" yields absent, while "$8.5" yields 8.5 and "$1.234" yields 1.234.
    The pattern of the Gotham cards asks for a dollar sign and takes two
    decimals: "$8.5" and "8.53" yield absent there and "$1.234" yields
    1.23. *)
Theorem price_is_first_number (t pre a b rest : string) :
  PyFacts.is_digits a = true ->
  PyFacts.is_digits b = true ->
  match rest with
  | EmptyString => True
  | String c _ => Py.isdecimal c = false
  end ->
  (forall p1 p2, pre = p1 ++ p2 -> p2 <> "" ->
     ~ PriceFacts.number_starts (p2 ++ a ++ "." ++ b ++ rest)) ->
  PriceFacts.without_commas t = pre ++ a ++ "." ++ b ++ rest ->
  Holts.parse_price_range (Some t)
  = Some (Num.of_decimal false (Num.digits_value (a ++ b))
                         (0 - Z.of_nat (String.length b)))
  /\ (forall u v,
        Holts.parse_price_range (Some u) = Some v ->
        exists pre' a' b' rest',
          PriceFacts.without_commas u = pre' ++ a' ++ "." ++ b' ++ rest'
          /\ PyFacts.is_digits a' = true /\ PyFacts.is_digits b' = true
          /\ match rest' with
             | EmptyString => True
             | String c _ => Py.isdecimal c = false
             end
          /\ (forall p1 p2, pre' = p1 ++ p2 -> p2 <> "" ->
                ~ PriceFacts.number_starts (p2 ++ a' ++ "." ++ b' ++ rest'))
          /\ v = Num.of_decimal false (Num.digits_value (a' ++ b'))
                                (0 - Z.of_nat (String.length b')))
  /\ (forall pre' m p1 p2,
        Py.str_exists Py.isdecimal pre' = false ->
        pre' = p1 ++ p2 -> p2 <> "" -> ~ PriceFacts.number_starts (p2 ++ m))
  /\ (forall u, Holts.parse_price_range (Some u) = None
                <-> forall p s, PriceFacts.without_commas u = p ++ s ->
                                ~ PriceFacts.number_starts s)
  /\ (forall u, Holts.parse_price_range (Some u) = None
                <-> RegexFacts.has_number (PriceFacts.without_commas u) = false)
  /\ (forall u v, Holts.parse_price_range (Some u) = Some v ->
                  Num.is_nan v = false /\ Num.is_negative v = false)
  /\ Holts.parse_price_range None = None
  /\ Holts.parse_price_range (Some "$8.53 - $10.89")
     = Some (Num.of_decimal false 853 (-2))
  /\ Holts.parse_price_range (Some "2 for $8.53")
     = Some (Num.of_decimal false 853 (-2))
  /\ Holts.parse_price_range (Some "Contact for price") = None
  /\ Holts.parse_price_range (Some "$1,234.56")
     = Some (Num.of_decimal false 123456 (-2))
  /\ Holts.parse_price_range (Some "$8.5")
     = Some (Num.of_decimal false 85 (-1))
  /\ Holts.parse_price_range (Some "$1.234")
     = Some (Num.of_decimal false 1234 (-3))
  /\ Gotham.card_prices (Some "$8.53 - $10.89")
     = (Some (Num.of_decimal false 853 (-2)),
        Some (Num.of_decimal false 1089 (-2)))
  /\ Gotham.card_prices (Some "Contact for price") = (None, None)
  /\ Gotham.card_prices (Some "$8.5") = (None, None)
  /\ Gotham.card_prices (Some "8.53") = (None, None)
  /\ Gotham.card_prices (Some "$1.234")
     = (Some (Num.of_decimal false 123 (-2)), None).
Proof.
  intros Ha Hb Hr Hl Ht.
  split; [now apply (PriceFacts.parse_price_range_leftmost t pre a b rest)|].
  split; [exact PriceFacts.parse_price_range_decomposes|].
  split.
  { intros pre' m p1 p2 Hp. now apply PriceFacts.no_digit_none_starts. }
  split; [exact PriceFacts.parse_price_range_absent|].
  split; [exact PriceFacts.parse_price_range_none|].
  split.
  { intros u v Hv.
    destruct (PriceFacts.parse_price_range_some u v Hv)
      as (x & y & _ & _ & _ & H1 & H2). auto. }
  repeat split; reflexivity.
Qed.

Lemma price_is_first_number_witness :
  Holts.parse_price_range (Some "2 for $8.53")
  = Some (Num.of_decimal false (Num.digits_value ("8" ++ "53"))
                         (0 - Z.of_nat (String.length "53"))).
Proof.
  apply (price_is_first_number "2 for $8.53" "2 for $" "8" "53" ""
           eq_refl eq_refl I); [|reflexivity].
  apply (PriceFacts.none_starts_in_check "2 for $"). reflexivity.
Defined.

(** C4, as stated, fails: a number with one decimal or with three is a
    price for [parse_price_range], which asks for no fixed number of
    decimals. *)
Lemma price_decimals_counterexample :
  Holts.parse_price_range (Some "$8.5") = Some (Num.of_decimal false 85 (-1))
  /\ Holts.parse_price_range (Some "$8.5") <> None
  /\ Holts.parse_price_range (Some "$1.234")
     = Some (Num.of_decimal false 1234 (-3))
  /\ Holts.parse_price_range (Some "$1.234") <> None.
Proof. repeat split; try reflexivity; discriminate. Qed.

(* ================================================================== *)
(** * Reconciliation of candidates *)
(* ================================================================== *)

(** Where the first candidate wins. In cigars_daily_scraper.py the sizes are
    chosen with [is not None], so a present first candidate is always taken;
    the names and brands are chosen with [or], which takes a present first
    candidate whenever it is not the empty text (the candidates come out of
    [safe_str] and are never empty). With [absent, "Maduro"] the result is
    "Maduro", with ["Natural", "Maduro"] it is "Natural". *)
Lemma first_present_candidate (x y : option float) (n m : option Z)
      (a b c : option string) (v : float) (k : Z) (t : string) :
  CigarsDaily.size_length (Some v) y = Some v
  /\ CigarsDaily.size_length None y = y
  /\ CigarsDaily.size_ring_gauge (Some k) m = Some k
  /\ CigarsDaily.size_ring_gauge None m = m
  /\ (t <> "" -> CigarsDaily.cigar_name (Some t) b = Some t)
  /\ CigarsDaily.cigar_name None b = b
  /\ (t <> "" -> CigarsDaily.brand (Some t) b c = Some t)
  /\ (t <> "" -> CigarsDaily.brand None (Some t) c = Some t)
  /\ CigarsDaily.brand None None c = c
  /\ (t <> "" -> CigarBid.cigar_name (Some t) b = Some t)
  /\ (Num.is_zero v = false -> CigarBid.size_length (Some v) y = Some v)
  /\ (k <> 0%Z -> CigarBid.size_ring (Some k) m = Some k)
  /\ CigarsDaily.cigar_name None (Some "Maduro") = Some "Maduro"
  /\ CigarsDaily.cigar_name (Some "Natural") (Some "Maduro") = Some "Natural".
Proof.
  repeat split; try reflexivity.
  - intros Ht. destruct t; [contradiction|reflexivity].
  - intros Ht. destruct t; [contradiction|reflexivity].
  - intros Ht. destruct t; [contradiction|reflexivity].
  - intros Ht. destruct t; [contradiction|reflexivity].
  - intros Hv. unfold CigarBid.size_length, py_or, Num.float_truthy.
    now rewrite Hv.
  - intros Hk. unfold CigarBid.size_ring, py_or, Num.int_truthy.
    destruct (Z.eqb_spec k 0); [contradiction|reflexivity].
Qed.

(** C6 fails on cigarbid_scraper.py: its [main] chooses the sizes and the
    price with [or], for which a present first candidate equal to zero counts
    as absent, so the later candidate is taken. cigars_daily_scraper.py
    chooses the same fields with [is not None] and keeps the zero. *)
Theorem cigarbid_zero_candidate_is_skipped :
  CigarBid.amount "$0.00" = Some (Num.zero false)
  /\ CigarBid.amount "$1.00" = Some (Num.of_Z 1)
  /\ CigarBid.price_per_stick (CigarBid.amount "$0.00")
                              (CigarBid.amount "$1.00")
     = Some (Num.of_Z 1)
  /\ CigarBid.size_length (Some (Num.zero false)) (Some (Num.of_Z 4))
     = Some (Num.of_Z 4)
  /\ CigarBid.size_ring (Some 0%Z) (Some 52%Z) = Some 52%Z
  /\ CigarsDaily.size_length (Some (Num.zero false)) (Some (Num.of_Z 4))
     = Some (Num.zero false)
  /\ CigarsDaily.size_ring_gauge (Some 0%Z) (Some 52%Z) = Some 0%Z.
Proof. repeat split; reflexivity. Qed.

(* ================================================================== *)
(** * Detail fetch failures *)
(* ================================================================== *)

Module DetailFacts.

(** The failures written during a run: every event that is no insertion. *)
Fixpoint failure_count {R : Type} (t : list (event R)) : nat :=
  match t with
  | [] => 0
  | Inserted _ :: t' => failure_count t'
  | _ :: t' => S (failure_count t')
  end.

Lemma inserted_rows_app {R : Type} (t u : list (event R)) :
  inserted_rows (t ++ u)%list = (inserted_rows t ++ inserted_rows u)%list.
Proof.
  induction t as [|ev t IH]; [reflexivity|].
  destruct ev; cbn; now rewrite IH.
Qed.

Lemma failure_count_app {R : Type} (t u : list (event R)) :
  failure_count (t ++ u)%list = failure_count t + failure_count u.
Proof.
  induction t as [|ev t IH]; [reflexivity|].
  destruct ev; cbn; now rewrite IH.
Qed.

Section Famous.
Variable get_soup : string -> result FamousSmoke.page.
Variable scrape_listing_page :
  string -> result (list FamousSmoke.item * option string).
Variable execute_insert : FamousSmoke.row -> result unit.
Variable today : string.

Local Abbreviation scrape_item := (FamousSmoke.scrape_item get_soup execute_insert today).
Local Abbreviation scrape_items :=
  (FamousSmoke.scrape_items get_soup execute_insert today).

(** The item is scraped and its row is committed. *)
Definition succeeds (it : FamousSmoke.item) : Prop :=
  exists r, scrape_item it = [Inserted r].

Lemma scrape_items_app (l1 l2 : list FamousSmoke.item) :
  scrape_items (l1 ++ l2)%list = (scrape_items l1 ++ scrape_items l2)%list.
Proof. unfold FamousSmoke.scrape_items. apply flat_map_app. Qed.

Lemma scrape_item_fetch_failure (it : FamousSmoke.item) (e : exn) :
  get_soup (FamousSmoke.i_url it) = Raise e ->
  scrape_item it = [ItemError (Some (FamousSmoke.i_url it)) e].
Proof.
  intros H. unfold FamousSmoke.scrape_item, FamousSmoke.scrape_product_details.
  now rewrite H.
Qed.

Lemma scrape_items_around (before after : list FamousSmoke.item)
      (it : FamousSmoke.item) :
  scrape_items (before ++ it :: after)%list
  = (scrape_items before ++ scrape_item it ++ scrape_items after)%list.
Proof.
  rewrite scrape_items_app. unfold FamousSmoke.scrape_items at 2.
  cbn [flat_map]. reflexivity.
Qed.

Lemma all_succeed (l : list FamousSmoke.item) :
  Forall succeeds l ->
  failure_count (scrape_items l) = 0
  /\ List.length (inserted_rows (scrape_items l)) = List.length l.
Proof.
  induction 1 as [|it l [r Hr] _ [IH1 IH2]]; [split; reflexivity|].
  unfold FamousSmoke.scrape_items in *. cbn [flat_map]. rewrite Hr.
  cbn. rewrite IH1, IH2. split; reflexivity.
Qed.

Lemma one_failure (before after : list FamousSmoke.item)
      (it : FamousSmoke.item) (e : exn) :
  get_soup (FamousSmoke.i_url it) = Raise e ->
  Forall succeeds (before ++ after)%list ->
  failure_count (scrape_items (before ++ it :: after)%list) = 1
  /\ List.length (inserted_rows (scrape_items (before ++ it :: after)%list))
     = List.length before + List.length after.
Proof.
  intros He Hall. apply Forall_app in Hall as [Hb Ha].
  destruct (all_succeed before Hb) as [B1 B2].
  destruct (all_succeed after Ha) as [A1 A2].
  rewrite scrape_items_around, (scrape_item_fetch_failure it e He).
  rewrite !failure_count_app, !inserted_rows_app, !length_app.
  cbn. rewrite B1, B2, A1, A2. split; lia.
Qed.

Lemma main_loop_step (fuel : nat) (u : string)
      (items : list FamousSmoke.item) (next : option string) :
  u <> "" ->
  scrape_listing_page u = Ok (items, next) ->
  FamousSmoke.main_loop get_soup scrape_listing_page execute_insert today
                        (S fuel) (Some u)
  = ((scrape_items items
      ++ fst (FamousSmoke.main_loop get_soup scrape_listing_page
                                    execute_insert today fuel next))%list,
     snd (FamousSmoke.main_loop get_soup scrape_listing_page
                                execute_insert today fuel next)).
Proof.
  intros Hu Hl. cbn [FamousSmoke.main_loop].
  destruct u; [contradiction|]. cbn [FamousSmoke.opt_truthy str_truthy].
  rewrite Hl. now destruct (FamousSmoke.main_loop _ _ _ _ fuel next).
Qed.
End Famous.

Section AtlanticCards.
Variable fetch_pdp : string -> result Atlantic.pdp.
Variable execute_insert : Atlantic.row -> result unit.
Variable today : string.

Local Abbreviation scrape_card := (Atlantic.scrape_card fetch_pdp execute_insert today).
Local Abbreviation scrape_cards := (Atlantic.scrape_cards fetch_pdp execute_insert today).

Definition full_url (href : string) : string :=
  if Py.startswith "/" href then Atlantic.BASE_URL ++ href else href.

(** The record of a card whose product page could not be fetched: the
    listing values, and nothing from the product page. *)
Definition listing_only (strength_name : string) (c : Atlantic.card)
           (href : string) : Atlantic.row :=
  {| Atlantic.retailer_name := Atlantic.RETAILER_NAME;
     Atlantic.cigar_name := Atlantic.c_name c;
     Atlantic.brand := py_or str_truthy (Atlantic.c_data_product_brand c) None;
     Atlantic.size_length := None;
     Atlantic.size_ring_gauge := None;
     Atlantic.wrapper_color := None;
     Atlantic.wrapper_leaf := None;
     Atlantic.wrapper_origin := None;
     Atlantic.filler := None;
     Atlantic.binder := None;
     Atlantic.country_of_origin := None;
     Atlantic.price_per_stick :=
       Atlantic.parse_price_range (Atlantic.c_price_text c);
     Atlantic.price_per_bundle := None;
     Atlantic.bundle_qty := None;
     Atlantic.price_per_box := None;
     Atlantic.box_qty := None;
     Atlantic.stock_status := None;
     Atlantic.rating := None;
     Atlantic.review_count := None;
     Atlantic.url := full_url href;
     Atlantic.scrape_date := today;
     Atlantic.strength := Some strength_name;
     Atlantic.profile := None;
     Atlantic.shape := None;
     Atlantic.website_notes :=
       Atlantic.notes_of (Atlantic.part_if_truthy (Atlantic.c_summary_text c))
  |}.

Lemma scrape_card_fetch_failure (strength_name : string) (c : Atlantic.card)
      (href : string) (e : exn) :
  Atlantic.c_href c = Some href ->
  fetch_pdp (full_url href) = Raise e ->
  scrape_card strength_name c
  = ((DetailFetchError (full_url href) e
      :: Atlantic.save_record_to_sql execute_insert
           (listing_only strength_name c href))%list, true).
Proof.
  intros Hh He. unfold Atlantic.scrape_card, Atlantic.parse_pdp.
  rewrite Hh. fold (full_url href). rewrite He.
  cbn [Atlantic.all_none Atlantic.p_description Atlantic.p_title
       Atlantic.p_brand Atlantic.p_strength app].
  unfold listing_only. rewrite app_nil_r. reflexivity.
Qed.

Lemma scrape_cards_app (strength_name : string) (l1 l2 : list Atlantic.card) :
  fst (scrape_cards strength_name (l1 ++ l2)%list)
  = (fst (scrape_cards strength_name l1)
     ++ fst (scrape_cards strength_name l2))%list.
Proof.
  induction l1 as [|c l1 IH]; [reflexivity|].
  cbn [app Atlantic.scrape_cards].
  destruct (scrape_card strength_name c) as [t counted].
  destruct (scrape_cards strength_name (l1 ++ l2)%list) as [t1 n1].
  destruct (scrape_cards strength_name l1) as [t2 n2].
  cbn [fst] in *. now rewrite IH, app_assoc.
Qed.

Lemma scrape_cards_cons (strength_name : string) (c : Atlantic.card)
      (l : list Atlantic.card) :
  fst (scrape_cards strength_name (c :: l))
  = (fst (scrape_card strength_name c)
     ++ fst (scrape_cards strength_name l))%list.
Proof.
  cbn [Atlantic.scrape_cards].
  destruct (scrape_card strength_name c) as [t counted].
  now destruct (scrape_cards strength_name l) as [t1 n1].
Qed.
End AtlanticCards.

End DetailFacts.

(** ** Two runs of ten items whose fifth detail fetch fails *)

Module TenItems.

Definition numbers : list string :=
  ["1"; "2"; "3"; "4"; "5"; "6"; "7"; "8"; "9"; "10"].

(** famous_smoke_scraper.py *)

Definition blank_page : FamousSmoke.page :=
  {| FamousSmoke.specs_table := None;
     FamousSmoke.has_tocart_button := true;
     FamousSmoke.has_out_of_stock_text := false;
     FamousSmoke.final_price_amount := None |}.

Definition item_of (n : string) : FamousSmoke.item :=
  {| FamousSmoke.i_cigar_name := Some ("Cigar " ++ n);
     FamousSmoke.i_url := "https://www.famous-smoke.com/cigar-" ++ n;
     FamousSmoke.i_rating := None;
     FamousSmoke.i_review_count := None;
     FamousSmoke.i_price_single_card := None |}.

Definition items : list FamousSmoke.item := map item_of numbers.

Definition get_soup (url : string) : result FamousSmoke.page :=
  if String.eqb url "https://www.famous-smoke.com/cigar-5"
  then Raise (RequestException url) else Ok blank_page.

Definition scrape_listing_page (url : string)
  : result (list FamousSmoke.item * option string) :=
  Ok (items, None).

Definition insert_ok {R : Type} (r : R) : result unit := Ok tt.

Definition famous_run : list (event FamousSmoke.row) * outcome unit :=
  FamousSmoke.main get_soup scrape_listing_page insert_ok "2026-01-15" 2.

(** atlantic_cigar_scraper.py *)

Definition card_of (n : string) : Atlantic.card :=
  {| Atlantic.c_data_product_brand := Some "Brand";
     Atlantic.c_name := Some ("Cigar " ++ n);
     Atlantic.c_href := Some ("/cigar-" ++ n);
     Atlantic.c_price_text := Some "$8.53 - $10.89";
     Atlantic.c_summary_text := None |}.

Definition cards : list Atlantic.card := map card_of numbers.

Definition mild_url : string :=
  "https://atlanticcigar.com/cigars/all-cigars/?_bc_fsnf=1&Strength=Mild".

Definition fetch_listing (url : string) : result (list Atlantic.card) :=
  if String.eqb url (mild_url ++ "&page=1") then Ok cards else Ok [].

Definition a_pdp : Atlantic.pdp :=
  {| Atlantic.p_brand := Some "Brand"; Atlantic.p_title := Some "Title";
     Atlantic.p_rating := Some 0%Z; Atlantic.p_review_count := Some 0%Z;
     Atlantic.p_country := None; Atlantic.p_shape := None;
     Atlantic.p_strength := None; Atlantic.p_size_length := None;
     Atlantic.p_size_ring := None; Atlantic.p_color := None;
     Atlantic.p_binder := None; Atlantic.p_filler := None;
     Atlantic.p_wrapper_leaf := None; Atlantic.p_price_box := None;
     Atlantic.p_stock_status := Some "Unknown";
     Atlantic.p_description := None |}.

Definition fetch_pdp (url : string) : result Atlantic.pdp :=
  if String.eqb url "https://atlanticcigar.com/cigar-5"
  then Raise (RequestException url) else Ok a_pdp.

Definition atlantic_run : list (event Atlantic.row) * outcome Z :=
  Atlantic.scrape_strength_category fetch_listing fetch_pdp insert_ok
                                    "2026-01-15" 2 "Mild" mild_url.

End TenItems.

(** C2 (as amended). In famous_smoke_scraper.py an item whose detail fetch
    fails is skipped: the failure is printed once, no record is emitted for
    it, and the items before and after it are handled as they are without
    it, as are the following pages; when every other item succeeds, a page of
    ten items whose fifth fetch fails gives nine records and one failure. In
    atlantic_cigar_scraper.py the failure is logged once by [parse_pdp],
    which answers with a dictionary of absent values, and the record of the
    item is emitted all the same, with the listing values only: the same ten
    items give ten records and one failure. *)
Theorem detail_fetch_failure_handling
        (get_soup : string -> result FamousSmoke.page)
        (scrape_listing_page :
           string -> result (list FamousSmoke.item * option string))
        (execute_insert : FamousSmoke.row -> result unit)
        (today : string)
        (before after : list FamousSmoke.item) (it : FamousSmoke.item)
        (e : exn)
        (fetch_pdp : string -> result Atlantic.pdp)
        (atlantic_insert : Atlantic.row -> result unit)
        (strength_name href : string) (c : Atlantic.card) (e' : exn) :
  get_soup (FamousSmoke.i_url it) = Raise e ->
  Forall (DetailFacts.succeeds get_soup execute_insert today)
         (before ++ after)%list ->
  Atlantic.c_href c = Some href ->
  fetch_pdp (DetailFacts.full_url href) = Raise e' ->
  atlantic_insert (DetailFacts.listing_only today strength_name c href)
  = Ok tt ->
  let scrape_items := FamousSmoke.scrape_items get_soup execute_insert today in
  scrape_items (before ++ it :: after)%list
  = (scrape_items before
     ++ [ItemError (Some (FamousSmoke.i_url it)) e]
     ++ scrape_items after)%list
  /\ inserted_rows (scrape_items (before ++ it :: after)%list)
     = (inserted_rows (scrape_items before)
        ++ inserted_rows (scrape_items after))%list
  /\ DetailFacts.failure_count (scrape_items (before ++ it :: after)%list) = 1
  /\ List.length (inserted_rows (scrape_items (before ++ it :: after)%list))
     = List.length before + List.length after
  /\ (forall fuel u items next,
        u <> "" -> scrape_listing_page u = Ok (items, next) ->
        fst (FamousSmoke.main_loop get_soup scrape_listing_page
                                   execute_insert today (S fuel) (Some u))
        = (scrape_items items
           ++ fst (FamousSmoke.main_loop get_soup scrape_listing_page
                                         execute_insert today fuel next))%list)
  /\ Atlantic.scrape_card fetch_pdp atlantic_insert today strength_name c
     = ([DetailFetchError (DetailFacts.full_url href) e';
         Inserted (DetailFacts.listing_only today strength_name c href)],
        true)
  /\ snd TenItems.famous_run = Returned tt
  /\ List.length (inserted_rows (fst TenItems.famous_run)) = 9
  /\ DetailFacts.failure_count (fst TenItems.famous_run) = 1
  /\ map FamousSmoke.url (inserted_rows (fst TenItems.famous_run))
     = map (fun n => Some ("https://www.famous-smoke.com/cigar-" ++ n))
           ["1"; "2"; "3"; "4"; "6"; "7"; "8"; "9"; "10"]
  /\ snd TenItems.atlantic_run = Returned 10%Z
  /\ List.length (inserted_rows (fst TenItems.atlantic_run)) = 10
  /\ DetailFacts.failure_count (fst TenItems.atlantic_run) = 1.
Proof.
  intros He Hall Hh He' Hins scrape_items. subst scrape_items.
  pose proof (DetailFacts.scrape_items_around get_soup execute_insert today
                before after it) as Haround.
  rewrite (DetailFacts.scrape_item_fetch_failure get_soup execute_insert
             today it e He) in Haround.
  destruct (DetailFacts.one_failure get_soup execute_insert today
              before after it e He Hall) as [H1 H2].
  split; [exact Haround|].
  split.
  { rewrite Haround, !DetailFacts.inserted_rows_app. reflexivity. }
  split; [exact H1|]. split; [exact H2|].
  split.
  { intros fuel u items next Hu Hl.
    now rewrite (DetailFacts.main_loop_step get_soup scrape_listing_page
                   execute_insert today fuel u items next Hu Hl). }
  split.
  { rewrite (DetailFacts.scrape_card_fetch_failure fetch_pdp atlantic_insert
               today strength_name c href e' Hh He').
    unfold Atlantic.save_record_to_sql. now rewrite Hins. }
  repeat split; vm_compute; reflexivity.
Qed.

Lemma detail_fetch_failure_handling_witness :
  DetailFacts.failure_count
    (FamousSmoke.scrape_items TenItems.get_soup TenItems.insert_ok
       "2026-01-15" TenItems.items) = 1
  /\ Atlantic.scrape_card TenItems.fetch_pdp TenItems.insert_ok "2026-01-15"
       "Mild" (TenItems.card_of "5")
     = ([DetailFetchError "https://atlanticcigar.com/cigar-5"
           (RequestException "https://atlanticcigar.com/cigar-5");
         Inserted (DetailFacts.listing_only "2026-01-15" "Mild"
                     (TenItems.card_of "5") "/cigar-5")], true).
Proof.
  assert (Hall : Forall (DetailFacts.succeeds TenItems.get_soup
                           TenItems.insert_ok "2026-01-15")
                        (map TenItems.item_of ["1"; "2"; "3"; "4"]
                         ++ map TenItems.item_of
                              ["6"; "7"; "8"; "9"; "10"])%list).
  { repeat constructor; eexists; vm_compute; reflexivity. }
  destruct (detail_fetch_failure_handling
              TenItems.get_soup TenItems.scrape_listing_page
              TenItems.insert_ok "2026-01-15"
              (map TenItems.item_of ["1"; "2"; "3"; "4"])
              (map TenItems.item_of ["6"; "7"; "8"; "9"; "10"])
              (TenItems.item_of "5")
              (RequestException "https://www.famous-smoke.com/cigar-5")
              TenItems.fetch_pdp TenItems.insert_ok "Mild" "/cigar-5"
              (TenItems.card_of "5")
              (RequestException "https://atlanticcigar.com/cigar-5")
              eq_refl Hall eq_refl eq_refl eq_refl)
    as (_ & _ & H3 & _ & _ & H6 & _).
  split; [exact H3|exact H6].
Defined.

(** C2, as stated, fails on atlantic_cigar_scraper.py: of ten items whose
    fifth detail fetch throws, all ten are emitted, the fifth with the
    values of its listing card. *)
Lemma detail_failure_counterexample :
  TenItems.fetch_pdp "https://atlanticcigar.com/cigar-5"
  = Raise (RequestException "https://atlanticcigar.com/cigar-5")
  /\ List.length (inserted_rows (fst TenItems.atlantic_run)) = 10
  /\ List.length (inserted_rows (fst TenItems.atlantic_run)) <> 9
  /\ DetailFacts.failure_count (fst TenItems.atlantic_run) = 1
  /\ nth_error (map Atlantic.url (inserted_rows (fst TenItems.atlantic_run))) 4
     = Some "https://atlanticcigar.com/cigar-5".
Proof. repeat split; try (vm_compute; reflexivity). vm_compute. discriminate. Qed.

(* ================================================================== *)
(** * Pagination *)
(* ================================================================== *)

Module PaginationFacts.

Section JRPages.
Variable load_listing : string -> result (list JR.item).
Variable load_detail : string -> JR.detail * option exn.
Variable execute_insert : JR.row -> result unit.
Variable today : string.

(** The tiles and the log of the listing page number [k] (from 0). *)
Definition items_at (k : nat) : list JR.item :=
  fst (JR.scrape_listing_page load_listing
         (JR.listing_url (k * JR.page_size))).

Definition log_at (k : nat) : list (event JR.row) :=
  snd (JR.scrape_listing_page load_listing
         (JR.listing_url (k * JR.page_size))).

(** The pages [first .. first + n - 1] are full and the next one is not. *)
Definition full_until (first n : nat) : Prop :=
  (forall k, first <= k < first + n ->
             JR.page_size <= List.length (items_at k))
  /\ List.length (items_at (first + n)) < JR.page_size.

Lemma page_at (k : nat) :
  JR.scrape_listing_page load_listing (JR.listing_url (k * JR.page_size))
  = (items_at k, log_at k).
Proof.
  unfold items_at, log_at. now destruct (JR.scrape_listing_page _ _).
Qed.

Lemma collect_from (n first fuel : nat) :
  full_until first n -> n < fuel ->
  JR.collect load_listing fuel (first * JR.page_size)
  = Some (flat_map items_at (seq first (S n)),
          flat_map log_at (seq first (S n))).
Proof.
  revert first fuel. induction n as [|n IH]; intros first fuel [Hfull Hlast] Hf;
    (destruct fuel as [|fuel]; [lia|]); cbn [JR.collect]; rewrite page_at.
  - rewrite Nat.add_0_r in Hlast. cbn [seq flat_map]. rewrite !app_nil_r.
    destruct (items_at first) as [|i items]; [reflexivity|].
    apply Nat.ltb_lt in Hlast. now rewrite Hlast.
  - assert (H0 : JR.page_size <= List.length (items_at first))
      by (apply Hfull; lia).
    assert (Hnext : JR.collect load_listing fuel
                      (first * JR.page_size + JR.page_size)
                    = Some (flat_map items_at (seq (S first) (S n)),
                            flat_map log_at (seq (S first) (S n)))).
    { replace (first * JR.page_size + JR.page_size)
        with (S first * JR.page_size) by (cbn [Nat.mul]; lia).
      apply IH; [|lia]. split.
      - intros k Hk. apply Hfull. lia.
      - replace (S first + n) with (first + S n) by lia. exact Hlast. }
    rewrite Hnext.
    change (seq first (S (S n))) with (first :: seq (S first) (S n)).
    cbn [flat_map].
    destruct (items_at first) as [|i items];
      [unfold JR.page_size in H0; cbn in H0; lia|].
    apply Nat.ltb_ge in H0. now rewrite H0.
Qed.

(** The URL under which the record of a tile is stored, when the tile has
    a URL. *)
Definition product_url (it : JR.item) : list string :=
  match py_or str_truthy (JR.i_url it) None with
  | Some u => [if Py.startswith "/" u then JR.BASE_URL ++ u else u]
  | None => []
  end.

Lemma emitted_urls (l : list JR.item) :
  (forall r, execute_insert r = Ok tt) ->
  map JR.url (inserted_rows
                (flat_map (JR.scrape_item load_detail execute_insert today) l))
  = flat_map product_url l.
Proof.
  intros Hins. induction l as [|it l IH]; [reflexivity|].
  cbn [flat_map]. rewrite DetailFacts.inserted_rows_app, map_app, IH.
  f_equal. unfold JR.scrape_item, product_url.
  destruct (py_or str_truthy (JR.i_url it) None) as [u|]; [|reflexivity].
  unfold JR.scrape_detail_page.
  destruct (load_detail _) as [dt [e|]];
    destruct (JR.size_from_listing _) as [a b];
    unfold JR.save_record_to_sql; rewrite Hins; reflexivity.
Qed.
End JRPages.

Section AtlanticPages.
Variable fetch_listing : string -> result (list Atlantic.card).
Variable fetch_pdp : string -> result Atlantic.pdp.
Variable execute_insert : Atlantic.row -> result unit.
Variable today : string.
Variable strength_name base_url : string.
Variable pages : nat -> list Atlantic.card.

Definition page_url (k : nat) : string :=
  base_url ++ "&page=" ++ Atlantic.str_of_nat k.

Definition page_trace (k : nat) : list (event Atlantic.row) :=
  fst (Atlantic.scrape_cards fetch_pdp execute_insert today strength_name
         (pages k)).

(** The pages [first .. first + n - 1] have cards, the next one has none. *)
Definition cards_until (first n : nat) : Prop :=
  (forall k, first <= k < first + n ->
             fetch_listing (page_url k) = Ok (pages k) /\ pages k <> [])
  /\ fetch_listing (page_url (first + n)) = Ok [].

Lemma category_loop_from (n first fuel : nat) :
  cards_until first n -> n < fuel ->
  exists total,
    Atlantic.category_loop fetch_listing fetch_pdp execute_insert today
                           fuel strength_name base_url first
    = (flat_map page_trace (seq first n), Returned total).
Proof.
  revert first fuel. induction n as [|n IH]; intros first fuel [Hp Hlast] Hf;
    (destruct fuel as [|fuel]; [lia|]); cbn [Atlantic.category_loop].
  - rewrite Nat.add_0_r in Hlast. fold (page_url first). rewrite Hlast.
    eexists. reflexivity.
  - destruct (Hp first ltac:(lia)) as [Hfetch Hne].
    fold (page_url first). rewrite Hfetch.
    destruct (IH (S first) fuel) as [total Ht]; [|lia|].
    { split.
      - intros k Hk. apply Hp. lia.
      - replace (S first + n) with (first + S n) by lia. exact Hlast. }
    rewrite Ht. cbn [seq flat_map].
    change (page_trace first)
      with (fst (Atlantic.scrape_cards fetch_pdp execute_insert today
                   strength_name (pages first))).
    destruct (pages first) as [|c cs]; [congruence|].
    destruct (Atlantic.scrape_cards _ _ _ _ (c :: cs)) as [t m].
    eexists. reflexivity.
Qed.
End AtlanticPages.

End PaginationFacts.

(** ** Three listing pages of JR Cigars *)

Module ThreePages.

Definition tile (page k : nat) : JR.item :=
  {| JR.i_url := Some ("/cigar-" ++ JR.str_of_nat page ++ "-"
                       ++ JR.str_of_nat k);
     JR.i_brand := Some "Brand";
     JR.i_name := Some "Name";
     JR.i_size := None;
     JR.i_price := VNone |}.

Definition full_page (page : nat) : list JR.item :=
  map (tile page) (seq 1 JR.page_size).

(** Two full pages, nothing on the third. *)
Definition load_listing (url : string) : result (list JR.item) :=
  if String.eqb url (JR.listing_url 0) then Ok (full_page 1)
  else if String.eqb url (JR.listing_url 60) then Ok (full_page 2)
  else Ok [].

(** One tile on the first page. *)
Definition load_short (url : string) : result (list JR.item) :=
  if String.eqb url (JR.listing_url 0) then Ok [tile 1 1] else Ok [].

Definition no_detail : JR.detail :=
  {| JR.d_description := None; JR.d_length := None; JR.d_ring := None;
     JR.d_shape := None; JR.d_wrapper_type := None; JR.d_binder := None;
     JR.d_filler := None; JR.d_origin := None; JR.d_strength := None;
     JR.d_wrapper_shade := None |}.

Definition load_detail (url : string) : JR.detail * option exn :=
  (no_detail, None).

Definition urls_of (t : option (list (event JR.row))) : list string :=
  match t with
  | Some evs => map JR.url (inserted_rows evs)
  | None => []
  end.

End ThreePages.

(** C8 (as amended). When the listing pages before some page are full and
    that page has fewer tiles than the page size (none at all included), the
    pagination loop of jrcigars_medium_to_full_scraper.py ends at that page
    for every fuel beyond the page count, and what it has collected is the
    tiles of the pages up to and including that page, in order and once
    each: the short page still contributes its tiles. One record is then
    emitted for every collected tile that has a URL. The loop of
    atlantic_cigar_scraper.py ends at the first page without cards, and its
    trace is the traces of the pages before it, in order. With two full
    pages and an empty third page, the 120 tiles of the first two pages are
    emitted, no URL twice. *)
Theorem pagination_ends_at_first_short_page
        (load_listing : string -> result (list JR.item))
        (load_detail : string -> JR.detail * option exn)
        (execute_insert : JR.row -> result unit)
        (today : string) (n fuel : nat)
        (fetch_listing : string -> result (list Atlantic.card))
        (fetch_pdp : string -> result Atlantic.pdp)
        (atlantic_insert : Atlantic.row -> result unit)
        (strength_name base_url : string)
        (pages : nat -> list Atlantic.card) (m atlantic_fuel : nat) :
  PaginationFacts.full_until load_listing 0 n ->
  n < fuel ->
  (forall r, execute_insert r = Ok tt) ->
  PaginationFacts.cards_until fetch_listing base_url pages 1 m ->
  m < atlantic_fuel ->
  let collected :=
    flat_map (PaginationFacts.items_at load_listing) (seq 0 (S n)) in
  JR.collect load_listing fuel 0
  = Some (collected,
          flat_map (PaginationFacts.log_at load_listing) (seq 0 (S n)))
  /\ (exists t,
        JR.run_scraper load_listing load_detail execute_insert today fuel
        = Some t
        /\ map JR.url (inserted_rows t)
           = flat_map PaginationFacts.product_url collected)
  /\ (exists total,
        Atlantic.scrape_strength_category fetch_listing fetch_pdp
          atlantic_insert today atlantic_fuel strength_name base_url
        = (flat_map (PaginationFacts.page_trace fetch_pdp atlantic_insert
                       today strength_name pages) (seq 1 m),
           Returned total))
  /\ JR.collect ThreePages.load_listing 3 0
     = Some ((ThreePages.full_page 1 ++ ThreePages.full_page 2)%list, [])
  /\ List.length
       (ThreePages.urls_of
          (JR.run_scraper ThreePages.load_listing ThreePages.load_detail
             TenItems.insert_ok "2026-01-15" 3)) = 120
  /\ NoDup (ThreePages.urls_of
              (JR.run_scraper ThreePages.load_listing ThreePages.load_detail
                 TenItems.insert_ok "2026-01-15" 3)).
Proof.
  intros Hfull Hfuel Hins Hcards Hafuel collected. subst collected.
  pose proof (PaginationFacts.collect_from load_listing n 0 fuel Hfull Hfuel)
    as Hc.
  change (0 * JR.page_size) with 0 in Hc.
  split; [exact Hc|].
  split.
  { unfold JR.run_scraper. rewrite Hc. eexists. split; [reflexivity|].
    rewrite DetailFacts.inserted_rows_app, map_app.
    rewrite (PaginationFacts.emitted_urls load_detail execute_insert today
               _ Hins).
    assert (Hlog : forall l,
               inserted_rows (flat_map (PaginationFacts.log_at load_listing) l)
               = []).
    { induction l as [|k l IH]; [reflexivity|]. cbn [flat_map].
      rewrite DetailFacts.inserted_rows_app, IH, app_nil_r.
      unfold PaginationFacts.log_at, JR.scrape_listing_page.
      now destruct (load_listing _). }
    now rewrite Hlog. }
  split.
  { unfold Atlantic.scrape_strength_category.
    exact (PaginationFacts.category_loop_from fetch_listing fetch_pdp
             atlantic_insert today strength_name base_url pages m 1
             atlantic_fuel Hcards Hafuel). }
  split; [vm_compute; reflexivity|].
  split; [vm_compute; reflexivity|].
  match goal with
  | |- NoDup ?l =>
      assert (Hl : nodup string_dec l = l) by (vm_compute; reflexivity);
      rewrite <- Hl; apply NoDup_nodup
  end.
Qed.

Lemma pagination_ends_at_first_short_page_witness :
  JR.collect ThreePages.load_listing 3 0
  = Some (flat_map (PaginationFacts.items_at ThreePages.load_listing)
            [0; 1; 2],
          flat_map (PaginationFacts.log_at ThreePages.load_listing)
            [0; 1; 2])
  /\ exists total,
       TenItems.atlantic_run
       = (fst (Atlantic.scrape_cards TenItems.fetch_pdp TenItems.insert_ok
                 "2026-01-15" "Mild" TenItems.cards) ++ [],
          Returned total)%list.
Proof.
  assert (Hfull : PaginationFacts.full_until ThreePages.load_listing 0 2).
  { split.
    - intros k Hk. apply Nat.leb_le.
      destruct k as [|[|k]]; [vm_compute; reflexivity ..|lia].
    - apply Nat.ltb_lt. vm_compute. reflexivity. }
  assert (Hcards : PaginationFacts.cards_until TenItems.fetch_listing
                     TenItems.mild_url
                     (fun k => if Nat.eqb k 1 then TenItems.cards else [])
                     1 1).
  { split.
    - intros k Hk. assert (k = 1) as -> by lia.
      split; [vm_compute; reflexivity|vm_compute; discriminate].
    - vm_compute. reflexivity. }
  destruct (pagination_ends_at_first_short_page
              ThreePages.load_listing ThreePages.load_detail
              TenItems.insert_ok "2026-01-15" 2 3
              TenItems.fetch_listing TenItems.fetch_pdp TenItems.insert_ok
              "Mild" TenItems.mild_url
              (fun k => if Nat.eqb k 1 then TenItems.cards else [])
              1 2 Hfull (le_n 3) (fun r => eq_refl) Hcards (le_n 2))
    as (H1 & _ & H3 & _).
  split; [exact H1|exact H3].
Defined.

(** C8, as stated, fails on jrcigars_medium_to_full_scraper.py: a first page
    with one tile, fewer than the page size of 60, ends the loop, and the
    tile of that terminating page is collected and a record emitted for it,
    where the pages before the terminating page hold no item at all. *)
Lemma pagination_short_page_counterexample :
  List.length (PaginationFacts.items_at ThreePages.load_short 0)
  < JR.page_size
  /\ JR.collect ThreePages.load_short 1 0
     = Some ([ThreePages.tile 1 1], [])
  /\ flat_map (PaginationFacts.items_at ThreePages.load_short) (seq 0 0) = []
  /\ ThreePages.urls_of
       (JR.run_scraper ThreePages.load_short ThreePages.load_detail
          TenItems.insert_ok "2026-01-15" 1)
     = ["https://www.jrcigars.com/cigar-1-1"]
  /\ ThreePages.urls_of
       (JR.run_scraper ThreePages.load_short ThreePages.load_detail
          TenItems.insert_ok "2026-01-15" 1)
     <> flat_map PaginationFacts.product_url
          (flat_map (PaginationFacts.items_at ThreePages.load_short)
             (seq 0 0)).
Proof.
  split; [apply Nat.ltb_lt; vm_compute; reflexivity|].
  repeat split; try (vm_compute; reflexivity).
  vm_compute. discriminate.
Qed.

(* ================================================================== *)
(** * Listing fetch failures *)
(* ================================================================== *)

Module ListingFacts.

Section AtlanticRun.
Variable fetch_listing : string -> result (list Atlantic.card).
Variable fetch_pdp : string -> result Atlantic.pdp.
Variable execute_insert : Atlantic.row -> result unit.
Variable today : string.

(** The pages [first .. first + n - 1] have cards and the fetch of the next
    one raises [e]. *)
Definition cards_then_failure (base_url : string)
           (pages : nat -> list Atlantic.card) (first n : nat) (e : exn)
  : Prop :=
  (forall k, first <= k < first + n ->
             fetch_listing (PaginationFacts.page_url base_url k)
             = Ok (pages k) /\ pages k <> [])
  /\ fetch_listing (PaginationFacts.page_url base_url (first + n)) = Raise e.

Lemma category_loop_crash (strength_name base_url : string)
      (pages : nat -> list Atlantic.card) (e : exn) (n first fuel : nat) :
  cards_then_failure base_url pages first n e -> n < fuel ->
  Atlantic.category_loop fetch_listing fetch_pdp execute_insert today
                         fuel strength_name base_url first
  = (flat_map (PaginationFacts.page_trace fetch_pdp execute_insert today
                 strength_name pages) (seq first n),
     Crashed e).
Proof.
  revert first fuel. induction n as [|n IH]; intros first fuel [Hp Hlast] Hf;
    (destruct fuel as [|fuel]; [lia|]); cbn [Atlantic.category_loop].
  - rewrite Nat.add_0_r in Hlast.
    fold (PaginationFacts.page_url base_url first). rewrite Hlast.
    reflexivity.
  - destruct (Hp first ltac:(lia)) as [Hfetch Hne].
    fold (PaginationFacts.page_url base_url first). rewrite Hfetch.
    rewrite (IH (S first) fuel); [| |lia].
    + cbn [seq flat_map].
      change (PaginationFacts.page_trace fetch_pdp execute_insert today
                strength_name pages first)
        with (fst (Atlantic.scrape_cards fetch_pdp execute_insert today
                     strength_name (pages first))).
      destruct (pages first) as [|c cs]; [congruence|].
      destruct (Atlantic.scrape_cards _ _ _ _ (c :: cs)) as [t m].
      reflexivity.
    + split.
      * intros k Hk. apply Hp. lia.
      * replace (S first + n) with (first + S n) by lia. exact Hlast.
Qed.

(** An exception that leaves one category leaves the loop over the
    categories: the categories after it are not looked at. *)
Lemma run_categories_crash (fuel : nat) (strength url : string)
      (rest : list (string * string)) (t : list (event Atlantic.row))
      (e : exn) :
  Atlantic.scrape_strength_category fetch_listing fetch_pdp execute_insert
    today fuel strength url = (t, Crashed e) ->
  Atlantic.run_categories fetch_listing fetch_pdp execute_insert today fuel
    ((strength, url) :: rest) = (t, Crashed e).
Proof. intros H. cbn [Atlantic.run_categories]. now rewrite H. Qed.

Lemma run_categories_app (fuel : nat) (before rest : list (string * string))
      (t : list (event Atlantic.row)) (n : Z) :
  Atlantic.run_categories fetch_listing fetch_pdp execute_insert today fuel
    before = (t, Returned n) ->
  Atlantic.run_categories fetch_listing fetch_pdp execute_insert today fuel
    (before ++ rest)%list
  = match Atlantic.run_categories fetch_listing fetch_pdp execute_insert
            today fuel rest with
    | (t', Returned n') => ((t ++ t')%list, Returned (n + n')%Z)
    | (t', o) => ((t ++ t')%list, o)
    end.
Proof.
  revert t n. induction before as [|[s u] before IH]; intros t n H.
  - cbn in H. injection H as <- <-. cbn [app].
    destruct (Atlantic.run_categories _ _ _ _ _ rest) as [t' [n'| |]];
      reflexivity.
  - cbn [app Atlantic.run_categories] in H |- *.
    destruct (Atlantic.scrape_strength_category _ _ _ _ _ s u)
      as [t0 [n0| |]]; try discriminate.
    destruct (Atlantic.run_categories _ _ _ _ _ before)
      as [t1 [n1| |]] eqn:Hb; try discriminate.
    injection H as <- <-. rewrite (IH t1 n1 eq_refl).
    destruct (Atlantic.run_categories _ _ _ _ _ rest) as [t' [n'| |]];
      rewrite <- ?app_assoc, ?Z.add_assoc; reflexivity.
Qed.
End AtlanticRun.

Section GothamRun.
Variable fetch_category : string -> nat -> result (list Gotham.card).
Variable fetch_pdp : string -> result Gotham.pdp.
Variable execute_insert : Gotham.row -> result unit.
Variable today : string.

(** A category whose first listing fetch raises is logged once and the
    loop over the categories goes on with the next one. *)
Lemma run_categories_failure (fuel : nat) (strength url : string)
      (rest : list (string * string)) (e : exn) :
  fetch_category url 1 = Raise e ->
  Gotham.run_categories fetch_category fetch_pdp execute_insert today
    (S fuel) ((strength, url) :: rest)
  = match Gotham.run_categories fetch_category fetch_pdp execute_insert
            today (S fuel) rest with
    | Some (t', n') => Some (ListingFetchError url e :: t', n')
    | None => None
    end.
Proof.
  intros H. cbn [Gotham.run_categories].
  unfold Gotham.scrape_strength. cbn [Gotham.category_loop]. rewrite H.
  destruct (Gotham.run_categories _ _ _ _ (S fuel) rest) as [[t' n']|];
    reflexivity.
Qed.
End GothamRun.

End ListingFacts.

(** ** A run whose first category cannot be listed *)

Module FailingListing.

Definition medium_url : string :=
  "https://atlanticcigar.com/cigars/all-cigars/?_bc_fsnf=1&Strength=Medium".

(** The listing of the first category, Mild, is unreachable; the category
    Medium has one page of ten cards. *)
Definition fetch_listing (url : string) : result (list Atlantic.card) :=
  if String.eqb url (TenItems.mild_url ++ "&page=1")
  then Raise (RequestException url)
  else if String.eqb url (medium_url ++ "&page=1") then Ok TenItems.cards
  else Ok [].

Definition fetch_pdp (url : string) : result Atlantic.pdp :=
  Ok TenItems.a_pdp.

Definition atlantic_run : list (event Atlantic.row) * outcome Z :=
  Atlantic.run_scraper fetch_listing fetch_pdp TenItems.insert_ok
                       "2026-01-15" 2.

Definition medium_alone : list (event Atlantic.row) * outcome Z :=
  Atlantic.scrape_strength_category fetch_listing fetch_pdp
    TenItems.insert_ok "2026-01-15" 2 "Medium" medium_url.

(** gotham_cigars_scraper.py, in the same situation. *)

Definition mellow_url : string :=
  "https://www.gothamcigars.com/mellow-cigars/?sort=bestselling&limit=100&mode=6".

Definition gotham_medium_url : string :=
  "https://www.gothamcigars.com/medium-cigars/?sort=bestselling&limit=100&mode=6".

Definition gotham_card (n : string) : Gotham.card :=
  {| Gotham.c_url := Some ("https://www.gothamcigars.com/cigar-" ++ n);
     Gotham.c_name := Some ("Cigar " ++ n);
     Gotham.c_price_text := Some "$8.53";
     Gotham.c_rating := None;
     Gotham.c_review_count := 0%Z |}.

Definition gotham_pdp : Gotham.pdp :=
  {| Gotham.p_cigar_name := Some "Title"; Gotham.p_brand := Some "Brand";
     Gotham.p_website_notes := None; Gotham.p_size_length := None;
     Gotham.p_ring_gauge := None; Gotham.p_shape := None;
     Gotham.p_box_qty := None; Gotham.p_bundle_qty := None;
     Gotham.p_wrapper_leaf := None; Gotham.p_binder := None;
     Gotham.p_filler := None; Gotham.p_profile := None;
     Gotham.p_country_of_origin := None;
     Gotham.p_stock_status := "Unknown" |}.

Definition fetch_category (base_url : string) (page : nat)
  : result (list Gotham.card) :=
  if String.eqb base_url mellow_url then Raise (RequestException base_url)
  else if String.eqb base_url gotham_medium_url && Nat.eqb page 1
       then Ok (map gotham_card TenItems.numbers)
       else Ok [].

Definition gotham_fetch_pdp (url : string) : result Gotham.pdp :=
  Ok gotham_pdp.

Definition gotham_run : option (list (event Gotham.row) * Z) :=
  Gotham.run_scraper fetch_category gotham_fetch_pdp TenItems.insert_ok
                     "2026-01-15" 2.

Definition gotham_trace : list (event Gotham.row) :=
  match gotham_run with
  | Some (t, _) => t
  | None => []
  end.

End FailingListing.

(** C9. In gotham_cigars_scraper.py a listing fetch that raises is logged
    and ends its category only: the loop over the categories goes on with
    the next one. In atlantic_cigar_scraper.py nothing catches the exception
    of the listing fetch of [scrape_strength_category]: when the pages of a
    category have cards up to one whose fetch raises, the exception leaves
    that category and the loop of [run_scraper] over the categories with
    it, whatever categories follow, and what has been emitted is what the
    categories and pages before it gave. With the listing of Mild
    unreachable and ten cards under Medium, the run ends with the exception
    and no record, where Medium alone gives ten records; the same situation
    in gotham_cigars_scraper.py gives one logged failure and ten records. *)
Theorem atlantic_listing_failure_ends_the_run
        (fetch_listing : string -> result (list Atlantic.card))
        (fetch_pdp : string -> result Atlantic.pdp)
        (execute_insert : Atlantic.row -> result unit)
        (today : string) (fuel n : nat)
        (before rest : list (string * string))
        (strength url : string) (pages : nat -> list Atlantic.card)
        (e : exn) (t : list (event Atlantic.row)) (total : Z)
        (fetch_category : string -> nat -> result (list Gotham.card))
        (gotham_pdp : string -> result Gotham.pdp)
        (gotham_insert : Gotham.row -> result unit)
        (gotham_rest : list (string * string))
        (gotham_strength gotham_url : string) (e' : exn) :
  Atlantic.run_categories fetch_listing fetch_pdp execute_insert today fuel
    before = (t, Returned total) ->
  ListingFacts.cards_then_failure fetch_listing url pages 1 n e ->
  n < fuel ->
  fetch_category gotham_url 1 = Raise e' ->
  Atlantic.run_categories fetch_listing fetch_pdp execute_insert today fuel
    (before ++ (strength, url) :: rest)%list
  = ((t ++ flat_map (PaginationFacts.page_trace fetch_pdp execute_insert
                       today strength pages) (seq 1 n))%list,
     Crashed e)
  /\ Gotham.run_categories fetch_category gotham_pdp gotham_insert today
       (S fuel) ((gotham_strength, gotham_url) :: gotham_rest)
     = match Gotham.run_categories fetch_category gotham_pdp gotham_insert
               today (S fuel) gotham_rest with
       | Some (t', n') => Some (ListingFetchError gotham_url e' :: t', n')
       | None => None
       end
  /\ FailingListing.atlantic_run
     = ([], Crashed (RequestException
                       (TenItems.mild_url ++ "&page=1")))
  /\ inserted_rows (fst FailingListing.atlantic_run) = []
  /\ snd FailingListing.medium_alone = Returned 10%Z
  /\ List.length (inserted_rows (fst FailingListing.medium_alone)) = 10
  /\ hd_error FailingListing.gotham_trace
     = Some (ListingFetchError FailingListing.mellow_url
               (RequestException FailingListing.mellow_url))
  /\ option_map snd FailingListing.gotham_run = Some 10%Z
  /\ List.length (inserted_rows FailingListing.gotham_trace) = 10.
Proof.
  intros Hbefore Hpages Hfuel Hg.
  split.
  { rewrite (ListingFacts.run_categories_app fetch_listing fetch_pdp
               execute_insert today fuel before _ t total Hbefore).
    rewrite (ListingFacts.run_categories_crash fetch_listing fetch_pdp
               execute_insert today fuel strength url rest _ e
               (ListingFacts.category_loop_crash fetch_listing fetch_pdp
                  execute_insert today strength url pages e n 1 fuel
                  Hpages Hfuel)).
    reflexivity. }
  split.
  { exact (ListingFacts.run_categories_failure fetch_category gotham_pdp
             gotham_insert today fuel gotham_strength gotham_url
             gotham_rest e' Hg). }
  repeat split; vm_compute; reflexivity.
Qed.

Lemma atlantic_listing_failure_ends_the_run_witness :
  Atlantic.run_categories FailingListing.fetch_listing
    FailingListing.fetch_pdp TenItems.insert_ok "2026-01-15" 2
    ([] ++ ("Mild", TenItems.mild_url)
        :: [("Medium", FailingListing.medium_url)])%list
  = (([] ++ [])%list,
     Crashed (RequestException (TenItems.mild_url ++ "&page=1"))).
Proof.
  assert (Hpages : ListingFacts.cards_then_failure
                     FailingListing.fetch_listing TenItems.mild_url
                     (fun _ => []) 1 0
                     (RequestException (TenItems.mild_url ++ "&page=1"))).
  { split; [intros k Hk; lia|vm_compute; reflexivity]. }
  assert (Hg : FailingListing.fetch_category FailingListing.mellow_url 1
               = Raise (RequestException FailingListing.mellow_url))
    by (vm_compute; reflexivity).
  exact (proj1 (atlantic_listing_failure_ends_the_run
                  FailingListing.fetch_listing FailingListing.fetch_pdp
                  TenItems.insert_ok "2026-01-15" 2 0 []
                  [("Medium", FailingListing.medium_url)]
                  "Mild" TenItems.mild_url (fun _ => [])
                  (RequestException (TenItems.mild_url ++ "&page=1"))
                  [] 0%Z
                  FailingListing.fetch_category
                  FailingListing.gotham_fetch_pdp TenItems.insert_ok
                  [] "Mellow" FailingListing.mellow_url
                  (RequestException FailingListing.mellow_url)
                  eq_refl Hpages (le_S 1 1 (le_n 1)) Hg)).
Defined.

(* ================================================================== *)
(** * What the totals of a run count *)
(* ================================================================== *)

Module CountFacts.

(** The records handed to the INSERT statement during a run, in order,
    whether the statement succeeded or not. *)
Fixpoint submitted {R : Type} (t : list (event R)) : list R :=
  match t with
  | [] => []
  | Inserted r :: t' => r :: submitted t'
  | SqlError r _ :: t' => r :: submitted t'
  | _ :: t' => submitted t'
  end.

Lemma submitted_app {R : Type} (t u : list (event R)) :
  submitted (t ++ u)%list = (submitted t ++ submitted u)%list.
Proof.
  induction t as [|ev t IH]; [reflexivity|].
  destruct ev; cbn; now rewrite IH.
Qed.

Lemma inserted_le_submitted {R : Type} (t : list (event R)) :
  List.length (inserted_rows t) <= List.length (submitted t).
Proof.
  induction t as [|ev t IH]; [apply le_n|].
  destruct ev; cbn; lia.
Qed.

Definition count_of (counted : bool) : Z := if counted then 1%Z else 0%Z.

Section AtlanticCount.
Variable fetch_listing : string -> result (list Atlantic.card).
Variable fetch_pdp : string -> result Atlantic.pdp.
Variable execute_insert : Atlantic.row -> result unit.
Variable today : string.

Lemma atlantic_card (strength_name : string) (c : Atlantic.card) :
  count_of (snd (Atlantic.scrape_card fetch_pdp execute_insert today
                   strength_name c))
  = Z.of_nat (List.length
                (submitted (fst (Atlantic.scrape_card fetch_pdp
                                   execute_insert today strength_name c)))).
Proof.
  unfold Atlantic.scrape_card.
  destruct (Atlantic.c_href c) as [href|]; [|reflexivity].
  unfold Atlantic.parse_pdp, Atlantic.save_record_to_sql.
  destruct (fetch_pdp _) as [pd|e]; cbn [fst snd];
    rewrite submitted_app; destruct (execute_insert _); reflexivity.
Qed.

Lemma atlantic_cards (strength_name : string) (cards : list Atlantic.card) :
  snd (Atlantic.scrape_cards fetch_pdp execute_insert today strength_name
         cards)
  = Z.of_nat (List.length
                (submitted (fst (Atlantic.scrape_cards fetch_pdp
                                   execute_insert today strength_name
                                   cards)))).
Proof.
  induction cards as [|c cs IH]; [reflexivity|].
  cbn [Atlantic.scrape_cards].
  pose proof (atlantic_card strength_name c) as Hc.
  destruct (Atlantic.scrape_card _ _ _ _ c) as [t counted].
  destruct (Atlantic.scrape_cards _ _ _ _ cs) as [t' n].
  cbn [fst snd] in *. rewrite submitted_app, length_app, Nat2Z.inj_add.
  unfold count_of in Hc. rewrite <- Hc, IH. reflexivity.
Qed.

Lemma atlantic_loop (strength_name base_url : string) (fuel page : nat)
      (t : list (event Atlantic.row)) (n : Z) :
  Atlantic.category_loop fetch_listing fetch_pdp execute_insert today fuel
    strength_name base_url page = (t, Returned n) ->
  n = Z.of_nat (List.length (submitted t)).
Proof.
  revert page t n. induction fuel as [|fuel IH]; intros page t n H;
    cbn [Atlantic.category_loop] in H; [discriminate|].
  destruct (fetch_listing _) as [[|c cs]|e]; try discriminate.
  - injection H as <- <-. reflexivity.
  - pose proof (atlantic_cards strength_name (c :: cs)) as Hc.
    destruct (Atlantic.scrape_cards _ _ _ _ (c :: cs)) as [t0 n0].
    destruct (Atlantic.category_loop _ _ _ _ fuel _ _ _)
      as [t1 [n1| |]] eqn:Hl; try discriminate.
    injection H as <- <-. cbn [fst snd] in Hc.
    rewrite submitted_app, length_app, Nat2Z.inj_add, Hc.
    now rewrite (IH _ _ _ Hl).
Qed.
End AtlanticCount.

Section GothamCount.
Variable fetch_category : string -> nat -> result (list Gotham.card).
Variable fetch_pdp : string -> result Gotham.pdp.
Variable execute_insert : Gotham.row -> result unit.
Variable today : string.

Lemma gotham_card (strength_name : string) (c : Gotham.card) :
  count_of (snd (Gotham.scrape_card fetch_pdp execute_insert today
                   strength_name c))
  = Z.of_nat (List.length
                (submitted (fst (Gotham.scrape_card fetch_pdp
                                   execute_insert today strength_name c)))).
Proof.
  unfold Gotham.scrape_card.
  destruct (py_or str_truthy (Gotham.c_url c) None) as [u|]; [|reflexivity].
  destruct (fetch_pdp u) as [pd|e]; [|reflexivity].
  unfold Gotham.save_record_to_sql. cbn [fst snd].
  destruct (execute_insert _); reflexivity.
Qed.

Lemma gotham_cards (strength_name : string) (cards : list Gotham.card) :
  snd (Gotham.scrape_cards fetch_pdp execute_insert today strength_name
         cards)
  = Z.of_nat (List.length
                (submitted (fst (Gotham.scrape_cards fetch_pdp
                                   execute_insert today strength_name
                                   cards)))).
Proof.
  induction cards as [|c cs IH]; [reflexivity|].
  cbn [Gotham.scrape_cards].
  pose proof (gotham_card strength_name c) as Hc.
  destruct (Gotham.scrape_card _ _ _ _ c) as [t counted].
  destruct (Gotham.scrape_cards _ _ _ _ cs) as [t' n].
  cbn [fst snd] in *. rewrite submitted_app, length_app, Nat2Z.inj_add.
  unfold count_of in Hc. rewrite <- Hc, IH. reflexivity.
Qed.

Lemma gotham_loop (strength_name base_url : string) (fuel page : nat)
      (t : list (event Gotham.row)) (n : Z) :
  Gotham.category_loop fetch_category fetch_pdp execute_insert today fuel
    strength_name base_url page = Some (t, n) ->
  n = Z.of_nat (List.length (submitted t)).
Proof.
  revert page t n. induction fuel as [|fuel IH]; intros page t n H;
    cbn [Gotham.category_loop] in H; [discriminate|].
  destruct (fetch_category _ _) as [[|c cs]|e].
  - injection H as <- <-. reflexivity.
  - pose proof (gotham_cards strength_name (c :: cs)) as Hc.
    destruct (Gotham.scrape_cards _ _ _ _ (c :: cs)) as [t0 n0].
    destruct (Gotham.category_loop _ _ _ _ fuel _ _ _)
      as [[t1 n1]|] eqn:Hl; try discriminate.
    injection H as <- <-. cbn [fst snd] in Hc.
    rewrite submitted_app, length_app, Nat2Z.inj_add, Hc.
    now rewrite (IH _ _ _ Hl).
  - injection H as <- <-. reflexivity.
Qed.

Lemma gotham_categories (fuel : nat) (cats : list (string * string))
      (t : list (event Gotham.row)) (n : Z) :
  Gotham.run_categories fetch_category fetch_pdp execute_insert today fuel
    cats = Some (t, n) ->
  n = Z.of_nat (List.length (submitted t)).
Proof.
  revert t n. induction cats as [|[s u] cats IH]; intros t n H;
    cbn [Gotham.run_categories] in H.
  - injection H as <- <-. reflexivity.
  - unfold Gotham.scrape_strength in H.
    destruct (Gotham.category_loop _ _ _ _ fuel s u 1) as [[t0 n0]|] eqn:Hl;
      try discriminate.
    destruct (Gotham.run_categories _ _ _ _ fuel cats) as [[t1 n1]|];
      try discriminate.
    injection H as <- <-.
    rewrite submitted_app, length_app, Nat2Z.inj_add.
    now rewrite (gotham_loop _ _ _ _ _ _ Hl), (IH _ _ eq_refl).
Qed.
End GothamCount.

Section AtlanticCategories.
Variable fetch_listing : string -> result (list Atlantic.card).
Variable fetch_pdp : string -> result Atlantic.pdp.
Variable execute_insert : Atlantic.row -> result unit.
Variable today : string.

Lemma atlantic_categories (fuel : nat) (cats : list (string * string))
      (t : list (event Atlantic.row)) (n : Z) :
  Atlantic.run_categories fetch_listing fetch_pdp execute_insert today fuel
    cats = (t, Returned n) ->
  n = Z.of_nat (List.length (submitted t)).
Proof.
  revert t n. induction cats as [|[s u] cats IH]; intros t n H;
    cbn [Atlantic.run_categories] in H.
  - injection H as <- <-. reflexivity.
  - unfold Atlantic.scrape_strength_category in H.
    destruct (Atlantic.category_loop _ _ _ _ fuel s u 1)
      as [t0 [n0| |]] eqn:Hl; try discriminate.
    destruct (Atlantic.run_categories _ _ _ _ fuel cats)
      as [t1 [n1| |]]; try discriminate.
    injection H as <- <-.
    rewrite submitted_app, length_app, Nat2Z.inj_add.
    now rewrite (atlantic_loop _ _ _ _ _ _ _ _ _ _ Hl), (IH _ _ eq_refl).
Qed.
End AtlanticCategories.

End CountFacts.

(** ** A database that refuses every INSERT *)

Module FailingInserts.

Definition insert_fails {R : Type} (r : R) : result unit :=
  Raise (RequestException "INSERT").

Definition atlantic_run : list (event Atlantic.row) * outcome Z :=
  Atlantic.run_scraper TenItems.fetch_listing FailingListing.fetch_pdp
                       insert_fails "2026-01-15" 2.

Definition gotham_fetch_category (base_url : string) (page : nat)
  : result (list Gotham.card) :=
  if String.eqb base_url FailingListing.gotham_medium_url && Nat.eqb page 1
  then Ok (map FailingListing.gotham_card TenItems.numbers)
  else Ok [].

Definition gotham_run : option (list (event Gotham.row) * Z) :=
  Gotham.run_scraper gotham_fetch_category FailingListing.gotham_fetch_pdp
                     insert_fails "2026-01-15" 2.

Definition gotham_trace : list (event Gotham.row) :=
  match gotham_run with
  | Some (t, _) => t
  | None => []
  end.

End FailingInserts.

(** The total that a run of atlantic_cigar_scraper.py or of
    gotham_cigars_scraper.py prints as its rows inserted is the number of
    records handed to the INSERT statement, whether the statement succeeded
    or was answered by a logged SQL error: [total_inserted] is incremented
    after [save_record_to_sql], which swallows the exception. The rows
    inserted are never more than that total, and with a database that
    refuses every INSERT a category of ten cards reports ten rows with none
    inserted. *)
Theorem run_total_counts_submitted_records
        (fetch_listing : string -> result (list Atlantic.card))
        (fetch_pdp : string -> result Atlantic.pdp)
        (execute_insert : Atlantic.row -> result unit)
        (fetch_category : string -> nat -> result (list Gotham.card))
        (gotham_pdp : string -> result Gotham.pdp)
        (gotham_insert : Gotham.row -> result unit)
        (today : string) (fuel : nat)
        (t : list (event Atlantic.row)) (n : Z)
        (t' : list (event Gotham.row)) (n' : Z) :
  Atlantic.run_scraper fetch_listing fetch_pdp execute_insert today fuel
  = (t, Returned n) ->
  Gotham.run_scraper fetch_category gotham_pdp gotham_insert today fuel
  = Some (t', n') ->
  n = Z.of_nat (List.length (CountFacts.submitted t))
  /\ (Z.of_nat (List.length (inserted_rows t)) <= n)%Z
  /\ n' = Z.of_nat (List.length (CountFacts.submitted t'))
  /\ (Z.of_nat (List.length (inserted_rows t')) <= n')%Z
  /\ snd FailingInserts.atlantic_run = Returned 10%Z
  /\ inserted_rows (fst FailingInserts.atlantic_run) = []
  /\ option_map snd FailingInserts.gotham_run = Some 10%Z
  /\ option_map (fun r => inserted_rows (fst r)) FailingInserts.gotham_run
     = Some [].
Proof.
  intros Ha Hg.
  pose proof (CountFacts.atlantic_categories _ _ _ _ _ _ _ _ Ha) as Hn.
  pose proof (CountFacts.gotham_categories _ _ _ _ _ _ _ _ Hg) as Hn'.
  pose proof (CountFacts.inserted_le_submitted t).
  pose proof (CountFacts.inserted_le_submitted t').
  repeat split; try assumption; try lia; vm_compute; reflexivity.
Qed.

Lemma run_total_counts_submitted_records_witness :
  10%Z = Z.of_nat (List.length
                     (CountFacts.submitted
                        (fst FailingInserts.atlantic_run)))
  /\ 10%Z = Z.of_nat (List.length
                        (CountFacts.submitted FailingInserts.gotham_trace)).
Proof.
  assert (Ha : FailingInserts.atlantic_run
               = (fst FailingInserts.atlantic_run, Returned 10%Z))
    by (vm_compute; reflexivity).
  assert (Hg : FailingInserts.gotham_run
               = Some (FailingInserts.gotham_trace, 10%Z))
    by (vm_compute; reflexivity).
  destruct (run_total_counts_submitted_records
              TenItems.fetch_listing FailingListing.fetch_pdp
              FailingInserts.insert_fails
              FailingInserts.gotham_fetch_category
              FailingListing.gotham_fetch_pdp FailingInserts.insert_fails
              "2026-01-15" 2
              (fst FailingInserts.atlantic_run) 10%Z
              FailingInserts.gotham_trace 10%Z Ha Hg)
    as (H1 & _ & H3 & _).
  split; [exact H1|exact H3].
Defined.

(* ================================================================== *)
(** * The records of a run of jrcigars_medium_to_full_scraper.py *)
(* ================================================================== *)

Module TileFacts.

(** The detail pages that reported an exception during a run. *)
Fixpoint detail_failures {R : Type} (t : list (event R)) : list string :=
  match t with
  | [] => []
  | DetailFetchError u _ :: t' => u :: detail_failures t'
  | _ :: t' => detail_failures t'
  end.

Lemma detail_failures_app {R : Type} (t u : list (event R)) :
  detail_failures (t ++ u)%list
  = (detail_failures t ++ detail_failures u)%list.
Proof.
  induction t as [|ev t IH]; [reflexivity|].
  destruct ev; cbn; now rewrite IH.
Qed.

Section Tiles.
Variable load_listing : string -> result (list JR.item).
Variable load_detail : string -> JR.detail * option exn.
Variable execute_insert : JR.row -> result unit.
Variable today : string.

(** The product URL of a tile when its detail page reports an exception. *)
Definition failing_url (it : JR.item) : list string :=
  match PaginationFacts.product_url it with
  | [u] => match snd (load_detail u) with Some _ => [u] | None => [] end
  | _ => []
  end.

Lemma scrape_item_submitted (it : JR.item) :
  map JR.url (CountFacts.submitted
                (JR.scrape_item load_detail execute_insert today it))
  = PaginationFacts.product_url it
  /\ detail_failures (JR.scrape_item load_detail execute_insert today it)
     = failing_url it.
Proof.
  unfold JR.scrape_item, failing_url, PaginationFacts.product_url.
  destruct (py_or str_truthy (JR.i_url it) None) as [u|];
    [|split; reflexivity].
  unfold JR.scrape_detail_page.
  destruct (load_detail _) as [dt [e|]];
    destruct (JR.size_from_listing _) as [a b];
    unfold JR.save_record_to_sql; destruct (execute_insert _);
    split; reflexivity.
Qed.

Lemma scrape_items_submitted (items : list JR.item) :
  map JR.url (CountFacts.submitted
                (flat_map (JR.scrape_item load_detail execute_insert today)
                          items))
  = flat_map PaginationFacts.product_url items
  /\ detail_failures
       (flat_map (JR.scrape_item load_detail execute_insert today) items)
     = flat_map failing_url items.
Proof.
  induction items as [|it items [IH1 IH2]]; [split; reflexivity|].
  cbn [flat_map].
  rewrite CountFacts.submitted_app, map_app, detail_failures_app, IH1, IH2.
  destruct (scrape_item_submitted it) as [-> ->]. split; reflexivity.
Qed.

Lemma collect_log (fuel start : nat) (items : list JR.item)
      (log : list (event JR.row)) :
  JR.collect load_listing fuel start = Some (items, log) ->
  CountFacts.submitted log = [] /\ detail_failures log = [].
Proof.
  revert start items log.
  induction fuel as [|fuel IH]; intros start items log H;
    cbn [JR.collect] in H; [discriminate|].
  unfold JR.scrape_listing_page in H.
  destruct (load_listing _) as [[|i its]|e].
  - injection H as <- <-. split; reflexivity.
  - destruct (Nat.ltb _ _).
    + injection H as <- <-. split; reflexivity.
    + destruct (JR.collect _ fuel _) as [[more log']|] eqn:Hc;
        [|discriminate].
      injection H as <- <-. exact (IH _ _ _ Hc).
  - injection H as <- <-. split; reflexivity.
Qed.

Lemma full_page_log (k : nat) :
  JR.page_size <= List.length (PaginationFacts.items_at load_listing k) ->
  PaginationFacts.log_at load_listing k = [].
Proof.
  unfold PaginationFacts.items_at, PaginationFacts.log_at,
    JR.scrape_listing_page.
  destruct (load_listing _); [reflexivity|].
  cbn. unfold JR.page_size. lia.
Qed.

Lemma full_pages_log (n first : nat) :
  (forall k, first <= k < first + n ->
             JR.page_size
             <= List.length (PaginationFacts.items_at load_listing k)) ->
  flat_map (PaginationFacts.log_at load_listing) (seq first n) = [].
Proof.
  revert first. induction n as [|n IH]; intros first H; [reflexivity|].
  cbn [seq flat_map]. rewrite full_page_log by (apply H; lia).
  apply IH. intros k Hk. apply H. lia.
Qed.
End Tiles.

End TileFacts.

(** A run of jrcigars_medium_to_full_scraper.py that ends hands every
    collected tile that has a URL to the INSERT statement exactly once, in
    the order of the listing, under the absolute form of its URL: neither an
    exception on the detail page of a tile (logged once, the fields read so
    far kept) nor a refused INSERT of another record drops a record, and a
    tile without URL is passed over without a log entry. *)
Theorem jr_every_tile_with_url_is_submitted
        (load_listing : string -> result (list JR.item))
        (load_detail : string -> JR.detail * option exn)
        (execute_insert : JR.row -> result unit)
        (today : string) (fuel : nat) (t : list (event JR.row)) :
  JR.run_scraper load_listing load_detail execute_insert today fuel
  = Some t ->
  exists items log,
    JR.collect load_listing fuel 0 = Some (items, log)
    /\ map JR.url (CountFacts.submitted t)
       = flat_map PaginationFacts.product_url items
    /\ TileFacts.detail_failures t
       = flat_map (TileFacts.failing_url load_detail) items.
Proof.
  unfold JR.run_scraper. intros H.
  destruct (JR.collect load_listing fuel 0) as [[items log]|] eqn:Hc;
    [|discriminate].
  injection H as <-. exists items, log. split; [reflexivity|].
  destruct (TileFacts.collect_log _ _ _ _ _ Hc) as [Hs Hd].
  destruct (TileFacts.scrape_items_submitted load_detail execute_insert
              today items) as [H1 H2].
  rewrite CountFacts.submitted_app, TileFacts.detail_failures_app, Hs, Hd.
  split; [exact H1|exact H2].
Qed.

(** ** A tile whose detail page and INSERT both fail *)

Module FailingTile.

Definition load_detail (url : string) : JR.detail * option exn :=
  (ThreePages.no_detail, Some (RequestException url)).

Definition trace : list (event JR.row) :=
  match JR.run_scraper ThreePages.load_short load_detail
          FailingInserts.insert_fails "2026-01-15" 1 with
  | Some t => t
  | None => []
  end.

(** Two full pages, then a listing page that cannot be loaded. *)
Definition load_listing (url : string) : result (list JR.item) :=
  if String.eqb url (JR.listing_url 0) then Ok (ThreePages.full_page 1)
  else if String.eqb url (JR.listing_url 60) then Ok (ThreePages.full_page 2)
  else Raise (RequestException url).

End FailingTile.

Lemma jr_every_tile_with_url_is_submitted_witness :
  map JR.url (CountFacts.submitted FailingTile.trace)
  = ["https://www.jrcigars.com/cigar-1-1"]
  /\ TileFacts.detail_failures FailingTile.trace
     = ["https://www.jrcigars.com/cigar-1-1"]
  /\ inserted_rows FailingTile.trace = [].
Proof.
  assert (Hrun : JR.run_scraper ThreePages.load_short FailingTile.load_detail
                   FailingInserts.insert_fails "2026-01-15" 1
                 = Some FailingTile.trace) by (vm_compute; reflexivity).
  destruct (jr_every_tile_with_url_is_submitted
              ThreePages.load_short FailingTile.load_detail
              FailingInserts.insert_fails "2026-01-15" 1 FailingTile.trace
              Hrun) as (items & log & Hc & Hs & Hd).
  assert (Hi : items = [ThreePages.tile 1 1])
    by (vm_compute in Hc; now injection Hc as <- _).
  subst items. split; [exact Hs|]. split; [exact Hd|].
  vm_compute. reflexivity.
Defined.

(** In jrcigars_medium_to_full_scraper.py a listing page that cannot be
    loaded is logged once and read as a page without tiles, which ends the
    pagination: when the pages before it are full, the run ends, its trace
    is that one failure followed by what the tiles of the pages before give,
    and those tiles are all handled. The failure is not told apart from the
    end of the listing. *)
Theorem jr_listing_failure_ends_pagination
        (load_listing : string -> result (list JR.item))
        (load_detail : string -> JR.detail * option exn)
        (execute_insert : JR.row -> result unit)
        (today : string) (n fuel : nat) (e : exn) :
  (forall k, k < n ->
             JR.page_size
             <= List.length (PaginationFacts.items_at load_listing k)) ->
  load_listing (JR.listing_url (n * JR.page_size)) = Raise e ->
  n < fuel ->
  JR.run_scraper load_listing load_detail execute_insert today fuel
  = Some (ListingFetchError (JR.listing_url (n * JR.page_size)) e
          :: flat_map (JR.scrape_item load_detail execute_insert today)
               (flat_map (PaginationFacts.items_at load_listing)
                         (seq 0 n))).
Proof.
  intros Hfull Hfail Hfuel.
  assert (Hitems : PaginationFacts.items_at load_listing n = [])
    by (unfold PaginationFacts.items_at, JR.scrape_listing_page;
        now rewrite Hfail).
  assert (Hlog : PaginationFacts.log_at load_listing n
                 = [ListingFetchError (JR.listing_url (n * JR.page_size)) e])
    by (unfold PaginationFacts.log_at, JR.scrape_listing_page;
        now rewrite Hfail).
  assert (Hu : PaginationFacts.full_until load_listing 0 n).
  { split.
    - intros k Hk. apply Hfull. lia.
    - cbn [Nat.add]. rewrite Hitems. unfold JR.page_size. cbn. lia. }
  pose proof (PaginationFacts.collect_from load_listing n 0 fuel Hu Hfuel)
    as Hc.
  change (0 * JR.page_size) with 0 in Hc.
  unfold JR.run_scraper. rewrite Hc.
  rewrite !seq_S, !flat_map_app. cbn [Nat.add flat_map].
  rewrite Hitems, Hlog, !app_nil_r.
  rewrite (TileFacts.full_pages_log load_listing n 0)
    by (intros k Hk; apply Hfull; lia).
  reflexivity.
Qed.

Lemma jr_listing_failure_ends_pagination_witness :
  option_map (fun t => (hd_error t, List.length (inserted_rows t)))
    (JR.run_scraper FailingTile.load_listing ThreePages.load_detail
       TenItems.insert_ok "2026-01-15" 3)
  = Some (Some (ListingFetchError (JR.listing_url 120)
                  (RequestException (JR.listing_url 120))), 120).
Proof.
  assert (Hfull : forall k, k < 2 ->
            JR.page_size
            <= List.length
                 (PaginationFacts.items_at FailingTile.load_listing k)).
  { intros k Hk. apply Nat.leb_le.
    destruct k as [|[|k]]; [vm_compute; reflexivity ..|lia]. }
  rewrite (jr_listing_failure_ends_pagination
             FailingTile.load_listing ThreePages.load_detail
             TenItems.insert_ok "2026-01-15" 2 3
             (RequestException (JR.listing_url 120))
             Hfull eq_refl (le_n 3)).
  vm_compute. reflexivity.
Defined.

(* ================================================================== *)
(** * Stripped strings *)
(* ================================================================== *)

Module StripFacts.

Import Py PyFacts.

(** No character of the class at either end. *)
Definition trimmed (p : ascii -> bool) (s : string) : Prop :=
  lstrip_by p s = s /\ rstrip_by p s = s.

Lemma rstrip_by_idem (p : ascii -> bool) (s : string) :
  rstrip_by p (rstrip_by p s) = rstrip_by p s.
Proof.
  induction s as [|c r IH]; [reflexivity|].
  cbn [rstrip_by]. destruct (rstrip_by p r) as [|d r'] eqn:Hr.
  - destruct (p c) eqn:Hc; [reflexivity|]. cbn [rstrip_by]. now rewrite Hc.
  - cbn [rstrip_by]. cbn [rstrip_by] in IH. now rewrite IH.
Qed.

Lemma rstrip_by_head (p : ascii -> bool) (c : ascii) (r : string) :
  p c = false -> exists r', rstrip_by p (String c r) = String c r'.
Proof.
  intros Hc. cbn [rstrip_by]. destruct (rstrip_by p r) as [|d r'].
  - rewrite Hc. now exists "".
  - now exists (String d r').
Qed.

Lemma lstrip_by_head (p : ascii -> bool) (s : string) :
  match lstrip_by p s with
  | EmptyString => True
  | String c _ => p c = false
  end.
Proof.
  induction s as [|c r IH]; [exact I|].
  cbn [lstrip_by]. destruct (p c) eqn:Hc; [exact IH|exact Hc].
Qed.

Lemma strip_by_trimmed (p : ascii -> bool) (s : string) :
  trimmed p (strip_by p s).
Proof.
  unfold trimmed, strip_by. split; [|apply rstrip_by_idem].
  pose proof (lstrip_by_head p s) as Hh.
  destruct (lstrip_by p s) as [|c r]; [reflexivity|].
  destruct (rstrip_by_head p c r Hh) as [r' ->].
  cbn [lstrip_by]. now rewrite Hh.
Qed.

Lemma strip_by_idem (p : ascii -> bool) (s : string) :
  strip_by p (strip_by p s) = strip_by p s.
Proof.
  destruct (strip_by_trimmed p s) as [Hl Hr].
  unfold strip_by at 1. now rewrite Hl, Hr.
Qed.

Lemma strip_idem (s : string) : strip (strip s) = strip s.
Proof. apply strip_by_idem. Qed.

(** A text field as the database receives it: absent, or not empty and
    without white space at either end. *)
Definition clean (o : option string) : Prop :=
  match o with
  | None => True
  | Some s => s <> "" /\ trimmed isspace s
  end.

Lemma safe_str_clean (v : option string) : clean (FamousSmoke.safe_str v).
Proof.
  destruct v as [v|]; [|exact I]. unfold FamousSmoke.safe_str.
  destruct (strip v) as [|c r] eqn:Hs; [exact I|].
  cbn [is_empty clean]. split; [discriminate|].
  rewrite <- Hs. apply strip_by_trimmed.
Qed.

Lemma safe_str_idem (v : option string) :
  FamousSmoke.safe_str (FamousSmoke.safe_str v) = FamousSmoke.safe_str v.
Proof.
  destruct v as [v|]; [|reflexivity].
  change (FamousSmoke.safe_str (Some v))
    with (if is_empty (strip v) then None else Some (strip v)).
  destruct (strip v) as [|c r] eqn:Hs; [reflexivity|].
  cbn [is_empty]. unfold FamousSmoke.safe_str.
  rewrite <- Hs, strip_idem, Hs. reflexivity.
Qed.

Lemma safe_str_blank (v : string) :
  str_forall isspace v = true -> FamousSmoke.safe_str (Some v) = None.
Proof.
  intros Hv. unfold FamousSmoke.safe_str, strip, strip_by.
  assert (Hl : lstrip_by isspace v = "").
  { induction v as [|c r IH]; [reflexivity|].
    cbn [str_forall] in Hv. apply andb_prop in Hv as [Hc Hr].
    cbn [lstrip_by]. rewrite Hc. now apply IH. }
  now rewrite Hl.
Qed.

(** ** What [strip] keeps *)

Lemma lstrip_by_split (p : ascii -> bool) (s : string) :
  exists lead, s = lead ++ lstrip_by p s /\ str_forall p lead = true.
Proof.
  induction s as [|c r IH]; [now exists ""|].
  cbn [lstrip_by]. destruct (p c) eqn:Hc; [|now exists ""].
  destruct IH as (lead & E & Hl). exists (String c lead).
  cbn [append str_forall]. rewrite Hc, Hl. split; [now rewrite <- E|reflexivity].
Qed.

Lemma rstrip_by_split (p : ascii -> bool) (s : string) :
  exists trail, s = rstrip_by p s ++ trail /\ str_forall p trail = true.
Proof.
  induction s as [|c r IH]; [now exists ""|].
  destruct IH as (trail & E & Ht). cbn [rstrip_by].
  destruct (rstrip_by p r) as [|d r'].
  - cbn [append] in E. subst r. destruct (p c) eqn:Hc.
    + exists (String c trail). cbn [append str_forall]. now rewrite Hc, Ht.
    + now exists trail.
  - exists trail. cbn [append] in *. now rewrite <- E.
Qed.

Lemma rstrip_by_last (p : ascii -> bool) (s r : string) (c : ascii) :
  rstrip_by p s = r ++ String c "" -> p c = false.
Proof.
  revert r. induction s as [|a s IH]; intros r.
  - cbn [rstrip_by]. destruct r; discriminate.
  - cbn [rstrip_by]. destruct (rstrip_by p s) as [|d r'].
    + destruct (p a) eqn:Ha; [destruct r; discriminate|].
      destruct r as [|x r]; cbn [append].
      * now intros [= <-].
      * intros [= _ E]. destruct r; discriminate.
    + destruct r as [|x r]; cbn [append]; [discriminate|].
      intros [= _ E]. exact (IH r E).
Qed.

(** [core] is [s] without the white space at its two ends: white space
    before it, white space after it, and none at its first or last
    place. *)
Definition stripped_of (s core : string) : Prop :=
  exists lead trail,
    s = lead ++ core ++ trail
    /\ str_forall isspace lead = true
    /\ str_forall isspace trail = true
    /\ (forall c r, core = String c r -> isspace c = false)
    /\ (forall r c, core = r ++ String c "" -> isspace c = false).

Lemma strip_stripped_of (s : string) : stripped_of s (strip s).
Proof.
  unfold strip, strip_by.
  destruct (lstrip_by_split isspace s) as (lead & E1 & Hl).
  destruct (rstrip_by_split isspace (lstrip_by isspace s))
    as (trail & E2 & Ht).
  exists lead, trail. split; [now rewrite <- E2|].
  split; [exact Hl|]. split; [exact Ht|]. split.
  - intros c r E.
    pose proof (proj1 (strip_by_trimmed isspace s)) as Hf.
    unfold strip_by in Hf. rewrite E in Hf.
    pose proof (lstrip_by_head isspace (String c r)) as Hh.
    now rewrite Hf in Hh.
  - intros r c. apply rstrip_by_last.
Qed.

(** How a text field is stored: an absent field stays absent, a text that
    is white space only becomes absent, and every other text is stored
    without the white space at its two ends. *)
Definition stored (o o' : option string) : Prop :=
  match o with
  | None => o' = None
  | Some s =>
      exists core, stripped_of s core
                   /\ ((core = "" /\ o' = None)
                       \/ (core <> "" /\ o' = Some core))
  end.

Lemma safe_str_stored (v : option string) :
  stored v (FamousSmoke.safe_str v).
Proof.
  destruct v as [v|]; [|reflexivity]. cbn [stored FamousSmoke.safe_str].
  exists (strip v). split; [apply strip_stripped_of|].
  destruct (strip v) as [|c r]; cbn [is_empty];
    [left; now split|right; split; [discriminate|reflexivity]].
Qed.

End StripFacts.

(** The coercions that [save_record_to_sql] of famous_smoke_scraper.py
    applies to the record that [main] builds never fail and change nothing
    when applied again: the numbers and the date are kept as they are, and
    every text field is stored as absent when it is absent, empty or white
    space only, and otherwise as its text without the white space at the
    two ends, which is then not empty. *)
Theorem famous_record_coercion_is_idempotent (r : FamousSmoke.row) :
  exists r',
    FamousSmoke.coerce_record r = Ok r'
    /\ FamousSmoke.coerce_record r' = Ok r'
    /\ FamousSmoke.size_length r' = FamousSmoke.size_length r
    /\ FamousSmoke.size_ring_gauge r' = FamousSmoke.size_ring_gauge r
    /\ FamousSmoke.price_single r' = FamousSmoke.price_single r
    /\ FamousSmoke.price_bundle r' = FamousSmoke.price_bundle r
    /\ FamousSmoke.bundle_qty r' = FamousSmoke.bundle_qty r
    /\ FamousSmoke.price_box r' = FamousSmoke.price_box r
    /\ FamousSmoke.box_qty r' = FamousSmoke.box_qty r
    /\ FamousSmoke.rating r' = FamousSmoke.rating r
    /\ FamousSmoke.review_count r' = FamousSmoke.review_count r
    /\ FamousSmoke.scrape_date r' = FamousSmoke.scrape_date r
    /\ Forall (fun field : FamousSmoke.row -> option string =>
                 StripFacts.stored (field r) (field r'))
         [ FamousSmoke.retailer_name; FamousSmoke.cigar_name;
           FamousSmoke.brand; FamousSmoke.wrapper_color;
           FamousSmoke.wrapper_leaf; FamousSmoke.wrapper_origin;
           FamousSmoke.filler; FamousSmoke.binder;
           FamousSmoke.country_of_origin; FamousSmoke.stock_status;
           FamousSmoke.url; FamousSmoke.strength;
           FamousSmoke.profile; FamousSmoke.shape ]
    /\ Forall StripFacts.clean
         [ FamousSmoke.retailer_name r'; FamousSmoke.cigar_name r';
           FamousSmoke.brand r'; FamousSmoke.wrapper_color r';
           FamousSmoke.wrapper_leaf r'; FamousSmoke.wrapper_origin r';
           FamousSmoke.filler r'; FamousSmoke.binder r';
           FamousSmoke.country_of_origin r'; FamousSmoke.stock_status r';
           FamousSmoke.url r'; FamousSmoke.strength r';
           FamousSmoke.profile r'; FamousSmoke.shape r' ]
    /\ (forall blank, Py.str_forall Py.isspace blank = true ->
                      FamousSmoke.safe_str (Some blank) = None).
Proof.
  assert (Hd : forall x, FamousSmoke.safe_decimal (FamousSmoke.of_opt_float x)
                         = Ok x) by (intros [x|]; reflexivity).
  assert (Hi : forall z, FamousSmoke.safe_int (FamousSmoke.of_opt_int z)
                         = Ok z) by (intros [z|]; reflexivity).
  eexists. split.
  { unfold FamousSmoke.coerce_record. rewrite !Hd, !Hi. reflexivity. }
  split.
  { unfold FamousSmoke.coerce_record. cbn [bind].
    cbn [FamousSmoke.retailer_name FamousSmoke.cigar_name FamousSmoke.brand
         FamousSmoke.size_length FamousSmoke.size_ring_gauge
         FamousSmoke.wrapper_color FamousSmoke.wrapper_leaf
         FamousSmoke.wrapper_origin FamousSmoke.filler FamousSmoke.binder
         FamousSmoke.country_of_origin FamousSmoke.price_single
         FamousSmoke.price_bundle FamousSmoke.bundle_qty
         FamousSmoke.price_box FamousSmoke.box_qty FamousSmoke.stock_status
         FamousSmoke.rating FamousSmoke.review_count FamousSmoke.url
         FamousSmoke.scrape_date FamousSmoke.strength FamousSmoke.profile
         FamousSmoke.shape].
    rewrite !Hd, !Hi, !StripFacts.safe_str_idem. reflexivity. }
  cbn [FamousSmoke.retailer_name FamousSmoke.cigar_name FamousSmoke.brand
       FamousSmoke.size_length FamousSmoke.size_ring_gauge
       FamousSmoke.wrapper_color FamousSmoke.wrapper_leaf
       FamousSmoke.wrapper_origin FamousSmoke.filler FamousSmoke.binder
       FamousSmoke.country_of_origin FamousSmoke.price_single
       FamousSmoke.price_bundle FamousSmoke.bundle_qty
       FamousSmoke.price_box FamousSmoke.box_qty FamousSmoke.stock_status
       FamousSmoke.rating FamousSmoke.review_count FamousSmoke.url
       FamousSmoke.scrape_date FamousSmoke.strength FamousSmoke.profile
       FamousSmoke.shape].
  repeat (split; [reflexivity|]).
  split.
  { repeat constructor; apply StripFacts.safe_str_stored. }
  split; [|exact StripFacts.safe_str_blank].
  repeat constructor; apply StripFacts.safe_str_clean.
Qed.

(* ================================================================== *)
(** * Words, joins and removed characters *)
(* ================================================================== *)

Module TextFacts.

Import Py PyFacts.

(** [s] without the occurrences of the character [c]. *)
Fixpoint remove_char (c : ascii) (s : string) : string :=
  match s with
  | EmptyString => EmptyString
  | String a r =>
      if Ascii.eqb c a then remove_char c r else String a (remove_char c r)
  end.

Lemma replace_char (c : ascii) (s : string) :
  replace (String c "") "" s = remove_char c s.
Proof.
  unfold replace. induction s as [|a r IH]; [reflexivity|].
  cbn [replace_from startswith remove_char String.length Nat.sub].
  destruct (Ascii.eqb c a); cbn [andb]; now rewrite IH.
Qed.

Lemma remove_char_app (c : ascii) (a b : string) :
  remove_char c (a ++ b) = remove_char c a ++ remove_char c b.
Proof.
  induction a as [|x a IH]; [reflexivity|].
  cbn [append remove_char]. destruct (Ascii.eqb c x); cbn [append];
    now rewrite IH.
Qed.

Lemma remove_char_absent (c : ascii) (s : string) :
  has_char c s = false -> remove_char c s = s.
Proof.
  unfold has_char. induction s as [|a r IH]; [reflexivity|].
  cbn [str_exists remove_char]. intros [Ha Hr]%orb_false_iff.
  rewrite Ha. now rewrite IH.
Qed.

Lemma remove_char_gone (c : ascii) (s : string) :
  has_char c (remove_char c s) = false.
Proof.
  unfold has_char. induction s as [|a r IH]; [reflexivity|].
  cbn [remove_char]. destruct (Ascii.eqb c a) eqn:Ha; [exact IH|].
  cbn [str_exists]. now rewrite Ha.
Qed.

Lemma has_char_app (c : ascii) (a b : string) :
  has_char c (a ++ b) = (has_char c a || has_char c b)%bool.
Proof. apply str_exists_app. Qed.

(** ** Words *)

Definition no_space (s : string) : bool :=
  str_forall (fun c => negb (isspace c)) s.

Lemma split_ws_from_tokens (s cur : string) :
  no_space cur = true ->
  Forall (fun w => is_token w = true) (split_ws_from cur s).
Proof.
  revert cur. induction s as [|c r IH]; intros cur Hcur;
    cbn [split_ws_from].
  - destruct cur as [|x cur]; [constructor|].
    constructor; [|constructor]. exact Hcur.
  - destruct (isspace c) eqn:Hc.
    + destruct cur as [|x cur]; cbn [is_empty].
      * now apply IH.
      * constructor; [exact Hcur|]. now apply IH.
    + apply IH. unfold no_space. rewrite str_forall_app.
      unfold no_space in Hcur. rewrite Hcur. cbn. now rewrite Hc.
Qed.

Lemma split_ws_tokens (s : string) :
  Forall (fun w => is_token w = true) (split_ws s).
Proof. now apply split_ws_from_tokens. Qed.

Lemma split_ws_join (words : list string) :
  Forall (fun w => is_token w = true) words ->
  split_ws (Atlantic.join " " words) = words.
Proof.
  induction 1 as [|w words Hw Hws IH]; [reflexivity|].
  destruct words as [|w2 words].
  - cbn [Atlantic.join]. now apply split_ws_one.
  - change (Atlantic.join " " (w :: w2 :: words))
      with (w ++ " " ++ Atlantic.join " " (w2 :: words)).
    unfold is_token in Hw. apply andb_true_iff in Hw as [Hne Hns].
    unfold split_ws. rewrite split_ws_from_token by exact Hns.
    cbn [append split_ws_from].
    change (isspace " ") with true. cbv iota.
    destruct w as [|c w]; [discriminate|]. cbn [is_empty].
    f_equal. exact IH.
Qed.

Lemma join_tokens_trimmed (words : list string) :
  Forall (fun w => is_token w = true) words -> words <> [] ->
  strip (Atlantic.join " " words) = Atlantic.join " " words.
Proof.
  intros H Hne. induction H as [|w words Hw Hws IH]; [contradiction|].
  destruct words as [|w2 words].
  - cbn [Atlantic.join]. now apply strip_token.
  - change (Atlantic.join " " (w :: w2 :: words))
      with (w ++ " " ++ Atlantic.join " " (w2 :: words)).
    set (rest := Atlantic.join " " (w2 :: words)) in *.
    assert (Hrest : strip rest = rest) by (apply IH; discriminate).
    unfold strip, strip_by.
    rewrite (token_lstrip w (" " ++ rest) Hw).
    assert (Hr : rstrip_by isspace rest = rest).
    { destruct (StripFacts.strip_by_trimmed isspace rest) as [_ Hr].
      fold (strip rest) in Hr. now rewrite Hrest in Hr. }
    assert (Hnonempty : rest <> "").
    { inversion Hws as [|x l Hx Hl]; subst. unfold rest.
      destruct w2 as [|c w2]; [discriminate|].
      destruct words; cbn; discriminate. }
    rewrite rstrip_by_app_keep.
    + rewrite rstrip_by_app_keep; [now rewrite Hr|now rewrite Hr].
    + rewrite rstrip_by_app_keep; [|now rewrite Hr].
      rewrite Hr. discriminate.
Qed.

End TextFacts.

(** [parse_wrapper_text] of cigar_aficionado_scraper.py reads the first word
    of the wrapper line as the country and the remaining words, joined by
    single spaces, as the leaf: a line without a word gives neither, a line
    of one word gives the country alone, and otherwise the country is the
    first word of the line and the leaf is the text made of its other
    words with one space between them, so that the words of the line are
    the country followed by the words of the leaf; the leaf is not empty
    and has no white space at either end. A leaf is never returned without
    a country, and an absent line gives neither. *)
Theorem wrapper_text_is_first_word_and_rest (t : string) :
  match AficionadoText.parse_wrapper_text (Some t) with
  | (None, None) => Py.split_ws t = []
  | (Some country, None) => Py.split_ws t = [country]
  | (Some country, Some leaf) =>
      Py.split_ws t = country :: Py.split_ws leaf
      /\ Py.split_ws leaf <> []
      /\ Py.strip leaf = leaf
      /\ Py.split_ws (country ++ " " ++ leaf) = Py.split_ws t
      /\ leaf = Atlantic.join " " (List.tl (Py.split_ws t))
      /\ (2 <= List.length (Py.split_ws t))
      /\ List.hd_error (Py.split_ws t) = Some country
  | (None, Some _) => False
  end
  /\ AficionadoText.parse_wrapper_text None = (None, None)
  /\ AficionadoText.parse_wrapper_text (Some "Ecuador  Connecticut Shade ")
     = (Some "Ecuador", Some "Connecticut Shade").
Proof.
  split; [|split; reflexivity].
  unfold AficionadoText.parse_wrapper_text.
  destruct t as [|c t]; [reflexivity|]. cbn [Py.is_empty].
  pose proof (TextFacts.split_ws_tokens (String c t)) as Htok.
  destruct (Py.split_ws (String c t)) as [|country [|w rest]];
    [reflexivity|reflexivity|].
  inversion Htok as [|x l Hcountry Hrest]; subst.
  rewrite (TextFacts.split_ws_join (w :: rest) Hrest).
  split; [reflexivity|]. split; [discriminate|].
  split; [apply TextFacts.join_tokens_trimmed; [exact Hrest|discriminate]|].
  split; [exact (TextFacts.split_ws_join (country :: w :: rest) Htok)|].
  split; [reflexivity|]. split; [cbn [List.length]; lia|reflexivity].
Qed.

(* ================================================================== *)
(** * cigar_aficionado_scraper.py: lengths in inches *)
(* ================================================================== *)

Module InchFacts.

Import Py PyFacts Num NumFacts.

(** The inch mark. *)
Definition inch : ascii := ascii_of_nat 34.

Lemma digits_no_inch (w : string) :
  is_digits w = true -> has_char inch w = false.
Proof.
  unfold is_digits. intros [_ H]%andb_true_iff. unfold has_char.
  apply (str_forall_not_exists isdecimal); [|exact H].
  intros c Hc. each_char c; vm_compute in Hc |- *; congruence.
Qed.

(** What [parse_fractional_length] splits: the text without inch marks,
    when it is made of words without inch mark that single spaces
    separate and an inch mark ends it. *)
Lemma words_of_length (words : list string) :
  Forall (fun w => is_token w = true) words -> words <> [] ->
  Forall (fun w => has_char inch w = false) words ->
  split_ws (strip (replace Aficionado.double_quote ""
                     (Atlantic.join " " words ++ Aficionado.double_quote)))
  = words.
Proof.
  intros Htok Hne Hq.
  change Aficionado.double_quote with (String inch "").
  rewrite TextFacts.replace_char, TextFacts.remove_char_app.
  assert (Hj : has_char inch (Atlantic.join " " words) = false).
  { clear Htok Hne. induction Hq as [|w ws Hw Hws IH]; [reflexivity|].
    destruct ws as [|w2 ws]; [exact Hw|].
    change (Atlantic.join " " (w :: w2 :: ws))
      with (w ++ " " ++ Atlantic.join " " (w2 :: ws)).
    rewrite !TextFacts.has_char_app, Hw, IH. reflexivity. }
  rewrite (TextFacts.remove_char_absent _ _ Hj).
  change (TextFacts.remove_char inch (String inch "")) with "".
  rewrite append_nil_r.
  rewrite (TextFacts.join_tokens_trimmed words Htok Hne).
  exact (TextFacts.split_ws_join words Htok).
Qed.

Lemma aficionado_decimal_digits (w : string) :
  is_digits w = true ->
  Aficionado.safe_decimal (VStr w) = Some (of_Z (digits_value w)).
Proof.
  intros H. unfold Aficionado.safe_decimal, py_float.
  now rewrite (float_of_str_digits w H).
Qed.

Lemma not_blank (w rest : string) :
  is_digits w = true -> is_empty (w ++ rest) = false.
Proof. destruct w; [discriminate|reflexivity]. Qed.

End InchFacts.

(** [parse_fractional_length] of cigar_aficionado_scraper.py, on a length
    written as a whole number of inches, a space, a fraction and the inch
    mark, returns the whole number plus the entry of its table for the
    fraction, which holds the quarters, the half and the eighths; a fraction
    that the table does not hold adds nothing, without a warning. A whole
    number alone is returned as it is, and a length of three words or more
    is answered by no length at all. *)
Theorem aficionado_length_adds_table_fraction (w f : string) :
  PyFacts.is_digits w = true ->
  PyFacts.is_token f = true ->
  PyFacts.has_char InchFacts.inch f = false ->
  Aficionado.parse_fractional_length
    (Some (w ++ " " ++ f ++ Aficionado.double_quote))
  = Some (Num.add (Num.of_Z (Num.digits_value w))
                  (FamousSmoke.dict_get Aficionado.frac_map f
                                        (Num.zero false)))
  /\ Aficionado.parse_fractional_length
       (Some (w ++ Aficionado.double_quote))
     = Some (Num.of_Z (Num.digits_value w))
  /\ (forall g, PyFacts.is_token g = true ->
                PyFacts.has_char InchFacts.inch g = false ->
                Aficionado.parse_fractional_length
                  (Some (w ++ " " ++ f ++ " " ++ g
                           ++ Aficionado.double_quote)) = None)
  /\ map (fun k => FamousSmoke.dict_get Aficionado.frac_map k
                                        (Num.zero false))
         ["1/8"; "3/8"; "5/8"; "7/8"; "1/3"]
     = [Num.dyadic 1 3; Num.dyadic 3 3; Num.dyadic 5 3; Num.dyadic 7 3;
        Num.zero false]
  /\ Aficionado.parse_fractional_length
       (Some ("5 1/8" ++ Aficionado.double_quote))
     = Some (Num.dyadic 41 3)
  /\ Aficionado.parse_fractional_length
       (Some ("5 1/3" ++ Aficionado.double_quote))
     = Some (Num.of_Z 5).
Proof.
  intros Hw Hf Hq.
  pose proof (PyFacts.digits_token w Hw) as Hwt.
  pose proof (InchFacts.digits_no_inch w Hw) as Hwq.
  split.
  { unfold Aficionado.parse_fractional_length.
    rewrite (InchFacts.not_blank w _ Hw).
    change (w ++ " " ++ f ++ Aficionado.double_quote)
      with (w ++ " " ++ (f ++ Aficionado.double_quote)).
    rewrite <- (PyFacts.append_assoc " " f), <- (PyFacts.append_assoc w).
    change (w ++ " " ++ f) with (Atlantic.join " " [w; f]).
    rewrite InchFacts.words_of_length;
      [|repeat constructor; assumption|discriminate
       |repeat constructor; assumption].
    rewrite (InchFacts.aficionado_decimal_digits w Hw).
    rewrite SizeFacts.or_zero_signed; [reflexivity|].
    apply NumFacts.of_Z_signed.
    now apply SizeFacts.digits_value_digits_nonneg. }
  split.
  { unfold Aficionado.parse_fractional_length.
    rewrite (InchFacts.not_blank w _ Hw).
    change w with (Atlantic.join " " [w]) at 1.
    rewrite InchFacts.words_of_length;
      [|repeat constructor; assumption|discriminate
       |repeat constructor; assumption].
    exact (InchFacts.aficionado_decimal_digits w Hw). }
  split.
  { intros g Hg Hgq. unfold Aficionado.parse_fractional_length.
    rewrite (InchFacts.not_blank w _ Hw).
    replace (w ++ " " ++ f ++ " " ++ g ++ Aficionado.double_quote)
      with (Atlantic.join " " [w; f; g] ++ Aficionado.double_quote)
      by (cbn [Atlantic.join];
          now rewrite !PyFacts.append_assoc).
    rewrite InchFacts.words_of_length;
      [reflexivity|repeat constructor; assumption|discriminate
      |repeat constructor; assumption]. }
  repeat split; vm_compute; reflexivity.
Qed.

Lemma aficionado_length_adds_table_fraction_witness :
  Aficionado.parse_fractional_length
    (Some ("6" ++ " " ++ "7/8" ++ Aficionado.double_quote))
  = Some (Num.add (Num.of_Z (Num.digits_value "6"))
                  (FamousSmoke.dict_get Aficionado.frac_map "7/8"
                                        (Num.zero false))).
Proof.
  exact (proj1 (aficionado_length_adds_table_fraction "6" "7/8"
                  eq_refl eq_refl eq_refl)).
Defined.

(* ================================================================== *)
(** * cigarbid_scraper.py: the dimensions of a lot *)
(* ================================================================== *)

Module DimensionFacts.

Import Py PyFacts Num NumFacts.

(** A digit or a point. *)
Definition plain (c : ascii) : bool := (isdecimal c || Ascii.eqb c ".")%bool.

Lemma plain_other (c : ascii) :
  plain c = true ->
  char_in "()" c = false /\ Ascii.eqb InchFacts.inch c = false
  /\ Ascii.eqb " " c = false /\ Ascii.eqb "x" c = false.
Proof. each_char c; vm_compute; intros; repeat split; congruence. Qed.

Lemma plain_absent (a : ascii) (s : string) :
  (forall c, plain c = true -> Ascii.eqb a c = false) ->
  str_forall plain s = true -> has_char a s = false.
Proof.
  intros Ha Hs. unfold has_char.
  exact (str_forall_not_exists plain (Ascii.eqb a) s Ha Hs).
Qed.

Lemma digits_plain (s : string) :
  is_digits s = true -> str_forall plain s = true /\ s <> "".
Proof.
  unfold is_digits. intros [Hne Hs]%andb_true_iff. split.
  - apply (str_forall_impl isdecimal); [|exact Hs].
    intros c Hc. unfold plain. now rewrite Hc.
  - destruct s; [discriminate|discriminate].
Qed.

Lemma decimal_plain (a b : string) :
  is_digits a = true -> is_digits b = true ->
  str_forall plain (a ++ "." ++ b) = true /\ a ++ "." ++ b <> "".
Proof.
  intros Ha Hb. destruct (digits_plain a Ha) as [Hpa Hna].
  destruct (digits_plain b Hb) as [Hpb _]. split.
  - rewrite !str_forall_app, Hpa, Hpb. reflexivity.
  - destruct a; [contradiction|discriminate].
Qed.

(** The text that [parse_dimensions] splits at its [x]. *)
Definition cleaned (t : string) : string :=
  replace " " "" (replace Aficionado.double_quote "" (strip_chars "()" t)).

Lemma cleaned_lot (L r : string) :
  str_forall plain L = true -> L <> "" ->
  str_forall plain r = true -> r <> "" ->
  cleaned ("(" ++ L ++ Aficionado.double_quote ++ "x" ++ r ++ ")")
  = L ++ "x" ++ r.
Proof.
  intros HL HnL Hr Hnr. unfold cleaned, strip_chars, strip_by.
  assert (Hkeep : forall s, str_forall plain s = true ->
            str_forall (fun c => negb (char_in "()" c)) s = true).
  { intros s. apply str_forall_impl. intros c Hc.
    now rewrite (proj1 (plain_other c Hc)). }
  assert (Hl : lstrip_by (char_in "()")
                 ("(" ++ L ++ Aficionado.double_quote ++ "x" ++ r ++ ")")
               = L ++ Aficionado.double_quote ++ "x" ++ r ++ ")").
  { destruct L as [|c L]; [contradiction|].
    cbn [str_forall] in HL. apply andb_prop in HL as [Hc _].
    cbn [append lstrip_by]. change (char_in "()" "(") with true. cbv iota.
    cbn [lstrip_by]. now rewrite (proj1 (plain_other c Hc)). }
  rewrite Hl.
  replace (L ++ Aficionado.double_quote ++ "x" ++ r ++ ")")
    with (((L ++ Aficionado.double_quote ++ "x") ++ r) ++ ")")
    by now rewrite !append_assoc.
  rewrite rstrip_by_app_drop by reflexivity.
  rewrite rstrip_by_app_keep
    by (rewrite (rstrip_by_keep _ r (Hkeep r Hr)); exact Hnr).
  rewrite (rstrip_by_keep _ r (Hkeep r Hr)).
  change (Aficionado.double_quote ++ "x") with (String InchFacts.inch "x").
  change Aficionado.double_quote with (String InchFacts.inch "").
  rewrite !TextFacts.replace_char.
  assert (Hi : forall s, str_forall plain s = true ->
                         has_char InchFacts.inch s = false)
    by (intros s; apply plain_absent; intros c Hc; apply plain_other, Hc).
  assert (Hs : forall s, str_forall plain s = true ->
                         has_char " " s = false)
    by (intros s; apply plain_absent; intros c Hc; apply plain_other, Hc).
  rewrite !TextFacts.remove_char_app.
  rewrite (TextFacts.remove_char_absent _ L (Hi L HL)),
    (TextFacts.remove_char_absent _ r (Hi r Hr)).
  change (TextFacts.remove_char InchFacts.inch (String InchFacts.inch "x"))
    with "x".
  rewrite ?TextFacts.remove_char_app.
  rewrite (TextFacts.remove_char_absent _ L (Hs L HL)),
    (TextFacts.remove_char_absent _ r (Hs r Hr)).
  change (TextFacts.remove_char " " "x") with "x".
  now rewrite append_assoc.
Qed.

Lemma parse_dimensions_cleaned (t L r : string) :
  t <> "" -> cleaned t = L ++ "x" ++ r -> has_char "x" L = false ->
  CigarBidText.parse_dimensions (Some t)
  = (CigarBid.safe_decimal (VStr L), CigarBidText.safe_int (VStr r)).
Proof.
  intros Ht Hc Hx. unfold CigarBidText.parse_dimensions.
  destruct t as [|c t]; [contradiction|]. cbn [is_empty].
  fold (cleaned (String c t)). rewrite Hc.
  unfold contains, split1.
  change (L ++ "x" ++ r) with (L ++ String "x" r).
  now rewrite (partition_char "x" L r Hx).
Qed.

Lemma parse_dimensions_no_x (t : string) :
  has_char "x" t = false ->
  CigarBidText.parse_dimensions (Some t) = (None, None).
Proof.
  intros Hx. unfold CigarBidText.parse_dimensions.
  destruct (is_empty t); [reflexivity|].
  assert (Hs : forall p s, has_char "x" s = false ->
                           has_char "x" (lstrip_by p s) = false
                           /\ has_char "x" (rstrip_by p s) = false).
  { intros p s. unfold has_char. induction s as [|c s IH]; [now split|].
    cbn [str_exists]. intros [Hc Hr]%orb_false_iff.
    destruct (IH Hr) as [IHl IHr]. split.
    - cbn [lstrip_by]. destruct (p c); [exact IHl|].
      cbn [str_exists]. now rewrite Hc, Hr.
    - cbn [rstrip_by]. destruct (rstrip_by p s) as [|d s'].
      + destruct (p c); [reflexivity|]. cbn [str_exists]. now rewrite Hc.
      + cbn [str_exists] in IHr |- *. now rewrite Hc, IHr. }
  assert (Hr : forall a s, has_char "x" s = false ->
                           has_char "x" (TextFacts.remove_char a s) = false).
  { intros a s. unfold has_char. induction s as [|c s IH]; [reflexivity|].
    cbn [str_exists TextFacts.remove_char].
    intros [Hc Hrest]%orb_false_iff.
    destruct (Ascii.eqb a c); [now apply IH|].
    cbn [str_exists]. rewrite Hc. now apply IH. }
  change Aficionado.double_quote with (String InchFacts.inch "").
  rewrite !TextFacts.replace_char.
  unfold contains.
  rewrite partition_none_char; [reflexivity|].
  apply Hr, Hr. unfold strip_chars, strip_by.
  apply Hs. now apply Hs.
Qed.

End DimensionFacts.

(** [parse_dimensions] of cigarbid_scraper.py reads the dimensions of a lot,
    written between parentheses as a length with the inch mark, an [x] and a
    ring gauge, as the double nearest to the length and the gauge as an
    integer; the length may be a whole number or have decimals. A text
    without a lower-case [x], an upper-case one included, gives neither
    value. (The gauge is bounded by the number of digits that [int]
    accepts.) *)
Theorem cigarbid_dimensions_of_lot (a b r : string) :
  PyFacts.is_digits a = true ->
  PyFacts.is_digits b = true ->
  PyFacts.is_digits r = true ->
  String.length r <= 4300 ->
  CigarBidText.parse_dimensions
    (Some ("(" ++ (a ++ "." ++ b) ++ Aficionado.double_quote ++ "x" ++ r
               ++ ")"))
  = (Some (Num.of_decimal false (Num.digits_value (a ++ b))
                          (0 - Z.of_nat (String.length b))),
     Some (Num.digits_value r))
  /\ CigarBidText.parse_dimensions
       (Some ("(" ++ a ++ Aficionado.double_quote ++ "x" ++ r ++ ")"))
     = (Some (Num.of_Z (Num.digits_value a)), Some (Num.digits_value r))
  /\ (forall t, PyFacts.has_char "x" t = false ->
                CigarBidText.parse_dimensions (Some t) = (None, None))
  /\ CigarBidText.parse_dimensions
       (Some ("(4.0" ++ Aficionado.double_quote ++ "x52)"))
     = (Some (Num.of_Z 4), Some 52%Z)
  /\ CigarBidText.parse_dimensions
       (Some ("(4.0" ++ Aficionado.double_quote ++ "X52)"))
     = (None, None).
Proof.
  intros Ha Hb Hr Hlen.
  destruct (DimensionFacts.decimal_plain a b Ha Hb) as [HL HnL].
  destruct (DimensionFacts.digits_plain a Ha) as [Hpa Hna].
  destruct (DimensionFacts.digits_plain r Hr) as [Hpr Hnr].
  assert (Hint : CigarBidText.safe_int (VStr r) = Some (Num.digits_value r))
    by (unfold CigarBidText.safe_int, Num.py_int;
        now rewrite (NumFacts.int_of_str_digits r Hr Hlen)).
  split.
  { rewrite (DimensionFacts.parse_dimensions_cleaned _ (a ++ "." ++ b) r).
    - rewrite Hint. f_equal.
      exact (PriceFacts.safe_float_plain a b Ha Hb).
    - discriminate.
    - now apply DimensionFacts.cleaned_lot.
    - apply DimensionFacts.plain_absent; [|exact HL].
      intros c Hc. apply DimensionFacts.plain_other, Hc. }
  split.
  { rewrite (DimensionFacts.parse_dimensions_cleaned _ a r).
    - rewrite Hint. f_equal.
      exact (InchFacts.aficionado_decimal_digits a Ha).
    - discriminate.
    - now apply DimensionFacts.cleaned_lot.
    - apply DimensionFacts.plain_absent; [|exact Hpa].
      intros c Hc. apply DimensionFacts.plain_other, Hc. }
  split; [exact DimensionFacts.parse_dimensions_no_x|].
  split; vm_compute; reflexivity.
Qed.

Lemma cigarbid_dimensions_of_lot_witness :
  CigarBidText.parse_dimensions
    (Some ("(" ++ ("6" ++ "." ++ "25") ++ Aficionado.double_quote ++ "x"
               ++ "54" ++ ")"))
  = (Some (Num.of_decimal false (Num.digits_value ("6" ++ "25"))
                          (0 - Z.of_nat (String.length "25"))),
     Some (Num.digits_value "54")).
Proof.
  apply (cigarbid_dimensions_of_lot "6" "25" "54" eq_refl eq_refl eq_refl).
  cbn. lia.
Defined.

(* ================================================================== *)
(** * famous_smoke_scraper.py: the number of a packaging text *)
(* ================================================================== *)

Module DigitWordFacts.

Import Py PyFacts Num NumFacts.

Lemma digit_char_cases (c : ascii) :
  isdigit_char c = true ->
  isspace c = false /\ Ascii.eqb c "-" = false /\ Ascii.eqb c "+" = false
  /\ Ascii.eqb c "_" = false.
Proof. each_char c; vm_compute; intros; repeat split; congruence. Qed.

(** On a word of digit characters, [digit (_? digit)*] stops at the first
    character that is no decimal digit. *)
Lemma digitpart_rest_stops (s : string) :
  str_forall isdigit_char s = true -> str_forall isdecimal s = false ->
  snd (digitpart_rest s) <> "".
Proof.
  induction s as [|c s IH]; [discriminate|].
  cbn [str_forall digitpart_rest]. intros [Hc Hs]%andb_true_iff Hd.
  destruct (isdecimal c) eqn:Hdc.
  - cbn [andb] in Hd. specialize (IH Hs Hd).
    destruct (digitpart_rest s) as [d t]. exact IH.
  - destruct (digit_char_cases c Hc) as (_ & _ & _ & Hu).
    rewrite Hu. discriminate.
Qed.

Lemma int_of_digit_word (p : string) :
  isdigit p = true -> (String.length p <= 4300)%nat ->
  int_of_str p
  = if str_forall isdecimal p then Ok (digits_value p) else Raise ValueError.
Proof.
  unfold isdigit. intros [Hne Hp]%andb_true_iff Hlen.
  destruct (str_forall isdecimal p) eqn:Hd.
  - apply int_of_str_digits; [|exact Hlen].
    unfold is_digits. now rewrite Hne, Hd.
  - unfold int_of_str.
    assert (Htok : is_token p = true).
    { unfold is_token. rewrite Hne. cbn [andb].
      apply (str_forall_impl isdigit_char); [|exact Hp].
      intros c Hc. now rewrite (proj1 (digit_char_cases c Hc)). }
    rewrite (numeric_strip_token p Htok).
    destruct p as [|c p]; [discriminate|].
    cbn [str_forall] in Hp, Hd. apply andb_prop in Hp as [Hc Hp].
    destruct (digit_char_cases c Hc) as (_ & Hm & Hpl & _).
    unfold take_sign. rewrite Hm, Hpl. cbn [digitpart].
    destruct (isdecimal c) eqn:Hdc; [|reflexivity].
    cbn [andb] in Hd.
    pose proof (digitpart_rest_stops p Hp Hd) as Hstop.
    destruct (digitpart_rest p) as [d t]. cbn [snd] in Hstop.
    destruct t; [contradiction|reflexivity].
Qed.

Lemma first_digit_part_find (parts : list string) :
  (forall p, In p parts -> (String.length p <= 4300)%nat) ->
  FamousSmoke.first_digit_part parts
  = match find isdigit parts with
    | None => Ok None
    | Some p =>
        if str_forall isdecimal p then Ok (Some (digits_value p))
        else Raise ValueError
    end.
Proof.
  induction parts as [|p parts IH]; [reflexivity|]. intros Hlen.
  cbn [FamousSmoke.first_digit_part find].
  destruct (isdigit p) eqn:Hp.
  - rewrite (int_of_digit_word p Hp (Hlen p (or_introl eq_refl))).
    destruct (str_forall isdecimal p); reflexivity.
  - apply IH. intros q Hq. apply Hlen. now right.
Qed.

(** No word of a text is longer than the text. *)
Lemma split_ws_from_length (s cur p : string) :
  In p (split_ws_from cur s) ->
  (String.length p <= String.length cur + String.length s)%nat.
Proof.
  revert cur. induction s as [|c r IH]; intros cur; cbn [split_ws_from].
  - destruct (is_empty cur); [intros []|].
    intros [<-|[]]. lia.
  - cbn [String.length]. destruct (isspace c).
    + destruct (is_empty cur).
      * intros H%IH. cbn [String.length] in H. lia.
      * intros [<-|H%IH]; [lia|]. cbn [String.length] in H. lia.
    + intros H%IH. rewrite length_append in H. cbn [String.length] in H. lia.
Qed.

Lemma split_ws_length (s p : string) :
  In p (split_ws s) -> (String.length p <= String.length s)%nat.
Proof. intros H. exact (split_ws_from_length s "" p H). Qed.

(** The superscript two, code point 178. *)
Definition superscript_two : string := String (ascii_of_nat 178) EmptyString.

(** A product page whose only specification is its packaging. *)
Definition packaging_page (quantity : string) : FamousSmoke.page :=
  {| FamousSmoke.specs_table :=
       Some (fun label =>
               if String.eqb label "Quantity per Packaging"
               then Some quantity else None);
     FamousSmoke.has_tocart_button := true;
     FamousSmoke.has_out_of_stock_text := false;
     FamousSmoke.final_price_amount := None |}.

End DigitWordFacts.

(** [parse_quantity_packaging] of famous_smoke_scraper.py looks at the first
    word of the packaging text that [str.isdigit] accepts, and at no other:
    without such a word there is no quantity; when the word is made of
    decimal digits the quantity is its value; when it holds a superscript
    digit, which [str.isdigit] accepts and [int] refuses, the function
    raises [ValueError], and [main] then reports the item as failed and
    emits no record for it. (The text is bounded by the number of digits
    that [int] accepts.) *)
Theorem packaging_quantity_is_first_digit_word (t : string) :
  String.length t <= 4300 ->
  FamousSmoke.parse_quantity_packaging (Some t)
  = match find Py.isdigit (Py.split_ws t) with
    | None => Ok None
    | Some p =>
        if Py.str_forall Py.isdecimal p
        then Ok (Some (Num.digits_value p))
        else Raise ValueError
    end
  /\ FamousSmoke.parse_quantity_packaging (Some "Box of 20 or 25")
     = Ok (Some 20%Z)
  /\ FamousSmoke.parse_quantity_packaging
       (Some ("Box of 2" ++ DigitWordFacts.superscript_two))
     = Raise ValueError
  /\ FamousSmoke.scrape_item
       (fun _ => Ok (DigitWordFacts.packaging_page
                       ("Box of 2" ++ DigitWordFacts.superscript_two)))
       TenItems.insert_ok "2026-01-15" (TenItems.item_of "1")
     = [ItemError (Some "https://www.famous-smoke.com/cigar-1") ValueError]
  /\ inserted_rows
       (FamousSmoke.scrape_item
          (fun _ => Ok (DigitWordFacts.packaging_page "Box of 20"))
          TenItems.insert_ok "2026-01-15" (TenItems.item_of "1"))
     <> [].
Proof.
  intros Hlen. split.
  { unfold FamousSmoke.parse_quantity_packaging.
    destruct t as [|c t]; [reflexivity|]. cbn [Py.is_empty].
    apply DigitWordFacts.first_digit_part_find.
    intros p Hp%DigitWordFacts.split_ws_length. lia. }
  repeat split; try (vm_compute; reflexivity).
  vm_compute. discriminate.
Qed.

Lemma packaging_quantity_is_first_digit_word_witness :
  FamousSmoke.parse_quantity_packaging (Some "Bundle of 10")
  = match find Py.isdigit (Py.split_ws "Bundle of 10") with
    | None => Ok None
    | Some p =>
        if Py.str_forall Py.isdecimal p
        then Ok (Some (Num.digits_value p))
        else Raise ValueError
    end.
Proof.
  apply (packaging_quantity_is_first_digit_word "Bundle of 10").
  cbn. lia.
Defined.

(* ================================================================== *)
(** * What a match of the pattern engine means *)
(* ================================================================== *)

Module ReFacts.

Import Py PyFacts Re RegexFacts.

(** [denotes r s g t g']: the pattern [r] can match the text between [s]
    and its suffix [t], turning the groups [g] into [g']. *)
Fixpoint denotes (r : regex) (s : string) (g : groups) (t : string)
         (g' : groups) : Prop :=
  match r with
  | Chr p => exists c, s = String c t /\ p c = true /\ g' = g
  | Rep p lo hi =>
      exists x, s = x ++ t /\ str_forall p x = true
                /\ lo <= String.length x
                /\ match hi with
                   | Some h => String.length x <= h
                   | None => True
                   end
                /\ g' = g
  | Seq r1 r2 =>
      exists u g1, denotes r1 s g u g1 /\ denotes r2 u g1 t g'
  | Opt r1 => denotes r1 s g t g' \/ (t = s /\ g' = g)
  | Grp i r1 =>
      exists g1, denotes r1 s g t g1 /\ g' = (i, consumed s t) :: g1
  end.

Lemma rep_sound (A : Type) (p : ascii -> bool) (k : string -> option A)
      (a : A) (s : string) :
  forall lo hi,
    rep p lo hi s k = Some a ->
    exists x t, s = x ++ t /\ str_forall p x = true
                /\ lo <= String.length x
                /\ match hi with
                   | Some h => String.length x <= h
                   | None => True
                   end
                /\ k t = Some a.
Proof.
  assert (Hzero : forall lo hi u,
            match lo with O => k u | S _ => None end = Some a ->
            exists x t, u = x ++ t /\ str_forall p x = true
                        /\ lo <= String.length x
                        /\ match hi with
                           | Some h => String.length x <= h
                           | None => True
                           end
                        /\ k t = Some a).
  { intros lo hi u H. destruct lo; [|discriminate].
    exists "", u. repeat split; try assumption; try reflexivity.
    destruct hi; [apply Nat.le_0_l|exact I]. }
  induction s as [|c r IH]; intros lo hi H; cbn [rep] in H.
  - now apply Hzero.
  - destruct (p c && may_take hi)%bool eqn:Hc; [|now apply Hzero].
    apply andb_prop in Hc as [Hpc Hmay].
    destruct (rep p (pred lo) (option_map pred hi) r k) as [a'|] eqn:Hr;
      [|now apply Hzero].
    injection H as ->.
    destruct (IH _ _ Hr) as (x & t & -> & Hx & Hlo & Hhi & Hk).
    exists (String c x), t. cbn [append str_forall String.length].
    rewrite Hpc, Hx. repeat split; try assumption; try reflexivity.
    + lia.
    + destruct hi as [[|h]|]; cbn in Hmay, Hhi |- *;
        [discriminate|lia|exact I].
Qed.

Lemma run_sound (A : Type) (r : regex) :
  forall (s : string) (g : groups) (k : string -> groups -> option A)
         (a : A),
    run r s g k = Some a ->
    exists t g', denotes r s g t g' /\ k t g' = Some a.
Proof.
  induction r as [p|p lo hi|r1 IH1 r2 IH2|r1 IH1|i r1 IH1];
    intros s g k a H; cbn [run] in H; cbn [denotes].
  - destruct s as [|c t]; [discriminate|].
    destruct (p c) eqn:Hc; [|discriminate].
    exists t, g. split; [|exact H]. now exists c.
  - destruct (rep_sound _ _ _ _ _ _ _ H) as (x & t & Hs & Hx & Hlo & Hhi & Hk).
    exists t, g. split; [|exact Hk]. now exists x.
  - destruct (IH1 _ _ _ _ H) as (u & g1 & H1 & Hk).
    destruct (IH2 _ _ _ _ Hk) as (t & g' & H2 & Hk').
    exists t, g'. split; [|exact Hk']. now exists u, g1.
  - destruct (run r1 s g k) as [a'|] eqn:Hr.
    + injection H as ->. destruct (IH1 _ _ _ _ Hr) as (t & g' & H1 & Hk).
      exists t, g'. split; [now left|exact Hk].
    + exists s, g. split; [now right|exact H].
  - destruct (IH1 _ _ _ _ H) as (t & g1 & H1 & Hk).
    exists t, ((i, consumed s t) :: g1). split; [|exact Hk]. now exists g1.
Qed.

Lemma denotes_suffix (r : regex) :
  forall s g t g', denotes r s g t g' -> exists x, s = x ++ t.
Proof.
  induction r as [p|p lo hi|r1 IH1 r2 IH2|r1 IH1|i r1 IH1];
    intros s g t g' H; cbn [denotes] in H.
  - destruct H as (c & -> & _). now exists (String c "").
  - destruct H as (x & -> & _). now exists x.
  - destruct H as (u & g1 & H1 & H2).
    destruct (IH1 _ _ _ _ H1) as (x & ->).
    destruct (IH2 _ _ _ _ H2) as (y & ->).
    exists (x ++ y). now rewrite append_assoc.
  - destruct H as [H|[-> _]]; [exact (IH1 _ _ _ _ H)|now exists ""].
  - destruct H as (g1 & H1 & _). exact (IH1 _ _ _ _ H1).
Qed.

Lemma match_here_sound (r : regex) (s : string) (h : hit) :
  match_here r s = Some h ->
  exists t g, h = (consumed s t, g, t) /\ denotes r s [] t g.
Proof.
  unfold match_here. intros H.
  destruct (run_sound _ _ _ _ _ _ H) as (t & g & Hd & Hk).
  injection Hk as <-. now exists t, g.
Qed.

Lemma search_sound (r : regex) (s : string) (h : hit) :
  search r s = Some h ->
  exists pre s', s = pre ++ s' /\ match_here r s' = Some h.
Proof.
  induction s as [|c s IH]; cbn [search]; intros H.
  - destruct (match_here r "") eqn:Hm; [|discriminate].
    injection H as ->. now exists "", "".
  - destruct (match_here r (String c s)) eqn:Hm.
    + injection H as ->. now exists "", (String c s).
    + destruct (IH H) as (pre & s' & -> & Hs).
      now exists (String c pre), s'.
Qed.

(** ** Showing a match *)

(** The text does not go on with a character of the class. *)
Definition stops (p : ascii -> bool) (t : string) : Prop :=
  match t with
  | EmptyString => True
  | String c _ => p c = false
  end.

Lemma rep_greedy (A : Type) (p : ascii -> bool) (k : string -> option A)
      (a : A) (x t : string) :
  forall lo,
    str_forall p x = true -> stops p t -> lo <= String.length x ->
    k t = Some a ->
    rep p lo None (x ++ t) k = Some a.
Proof.
  induction x as [|c x IH]; intros lo Hx Ht Hlo Hk.
  - cbn [append]. cbn [String.length] in Hlo.
    assert (lo = 0) as -> by lia.
    destruct t as [|c t]; cbn [rep]; [exact Hk|].
    cbn [stops] in Ht. rewrite Ht. exact Hk.
  - cbn [str_forall] in Hx. apply andb_prop in Hx as [Hc Hx].
    cbn [append rep]. rewrite Hc. cbn [andb may_take option_map].
    rewrite (IH (pred lo) Hx Ht); [reflexivity| |exact Hk].
    cbn [String.length] in Hlo. lia.
Qed.

Lemma search_here (r : regex) (s : string) (h : hit) :
  match_here r s = Some h -> search r s = Some h.
Proof. intros H. destruct s; cbn [search]; now rewrite H. Qed.

(** A pattern that cannot start at the characters of the class [q] is
    searched for after a prefix of such characters. *)
Lemma search_after (r : regex) (q : ascii -> bool) (pre s : string) :
  (forall c t, q c = true -> match_here r (String c t) = None) ->
  str_forall q pre = true ->
  search r (pre ++ s) = search r s.
Proof.
  intros Hq. induction pre as [|c pre IH]; [reflexivity|].
  cbn [str_forall]. intros [Hc Hpre]%andb_true_iff.
  cbn [append search]. rewrite (Hq c _ Hc). now apply IH.
Qed.

Lemma search_nowhere (r : regex) (q : ascii -> bool) (s : string) :
  (forall c t, q c = true -> match_here r (String c t) = None) ->
  match_here r "" = None ->
  str_forall q s = true ->
  search r s = None.
Proof.
  intros Hq He Hs. rewrite <- (append_nil_r s).
  rewrite (search_after r q s "" Hq Hs). cbn [search]. now rewrite He.
Qed.

Lemma consumed_self (s : string) : consumed s s = "".
Proof. unfold consumed. rewrite Nat.sub_diag. now destruct s. Qed.

End ReFacts.

(* ================================================================== *)
(** * cigar_data_sheets.py: the file name of a sheet *)
(* ================================================================== *)

Module NormalizeFacts.

Import Py PyFacts Re RegexFacts.

(** The characters that stay: [a-z0-9_]. *)
Definition name_char (c : ascii) : bool := negb (DataSheets.not_name_char c).

(** The characters of the class, in order. *)
Fixpoint keep (q : ascii -> bool) (s : string) : string :=
  match s with
  | EmptyString => EmptyString
  | String c r => if q c then String c (keep q r) else keep q r
  end.

(** Every run of white space replaced by one underscore; [in_run] tells
    that the previous character was white space. *)
Fixpoint collapse_from (in_run : bool) (s : string) : string :=
  match s with
  | EmptyString => EmptyString
  | String c r =>
      if isspace c
      then (if in_run then collapse_from true r
            else String "_" (collapse_from true r))
      else String c (collapse_from false r)
  end.

Lemma keep_all (q : ascii -> bool) (s : string) :
  str_forall q (keep q s) = true.
Proof.
  induction s as [|c r IH]; [reflexivity|].
  cbn [keep]. destruct (q c) eqn:Hc; [|exact IH].
  cbn [str_forall]. now rewrite Hc, IH.
Qed.

Lemma keep_same (q : ascii -> bool) (s : string) :
  str_forall q s = true -> keep q s = s.
Proof.
  induction s as [|c r IH]; [reflexivity|].
  cbn [str_forall keep]. intros [Hc Hr]%andb_true_iff.
  now rewrite Hc, IH.
Qed.

Lemma sub_chr (p : ascii -> bool) (s : string) :
  forall fuel, String.length s < fuel ->
               ReSub.sub_fuel fuel (Chr p) "" s
               = keep (fun c => negb (p c)) s.
Proof.
  induction s as [|c r IH]; intros fuel Hf;
    (destruct fuel as [|fuel]; [inversion Hf|]); [reflexivity|].
  cbn [ReSub.sub_fuel keep]. unfold match_here. cbn [run].
  cbn [String.length] in Hf.
  destruct (p c); cbn [negb append]; rewrite IH by lia; reflexivity.
Qed.

Lemma match_here_plus (p : ascii -> bool) (s : string) :
  match_here (plus p) s
  = if Nat.leb 1 (String.length (fst (span p s)))
    then Some (consumed s (snd (span p s)), [], snd (span p s))
    else None.
Proof.
  unfold match_here, plus. cbn [run].
  exact (rep_last _ p (fun t => (consumed s t, @nil (nat * string), t)) s 1).
Qed.

Lemma span_length (p : ascii -> bool) (s : string) :
  String.length (snd (span p s)) <= String.length s.
Proof.
  rewrite <- (span_app p s) at 2. rewrite length_append. lia.
Qed.

Lemma collapse_run (s : string) :
  collapse_from true s = collapse_from false (snd (span isspace s)).
Proof.
  induction s as [|c r IH]; [reflexivity|].
  cbn [collapse_from span]. destruct (isspace c) eqn:Hc.
  - rewrite IH. now destruct (span isspace r).
  - cbn [snd collapse_from]. now rewrite Hc.
Qed.

Lemma sub_spaces (fuel : nat) :
  forall s, String.length s < fuel ->
            ReSub.sub_fuel fuel (plus ws) "_" s = collapse_from false s.
Proof.
  induction fuel as [|fuel IH]; intros s Hf; [inversion Hf|].
  destruct s as [|c r]; [reflexivity|].
  cbn [ReSub.sub_fuel]. rewrite match_here_plus.
  unfold ws. cbn [span collapse_from]. cbn [String.length] in Hf.
  destruct (isspace c) eqn:Hc.
  - pose proof (span_length isspace r) as Hl.
    destruct (span isspace r) as [a t] eqn:Hsp. cbn [fst snd String.length].
    cbn [Nat.leb]. cbn [snd] in Hl.
    rewrite IH by lia. rewrite collapse_run, Hsp. reflexivity.
  - cbn [fst String.length Nat.leb]. rewrite IH by lia. reflexivity.
Qed.

Lemma normalize_eq (s : string) :
  DataSheets.normalize s = keep name_char (collapse_from false (lower s)).
Proof.
  unfold DataSheets.normalize, ReSub.sub.
  rewrite sub_spaces by apply Nat.lt_succ_diag_r.
  rewrite sub_chr by apply Nat.lt_succ_diag_r.
  reflexivity.
Qed.

Lemma name_char_plain (c : ascii) :
  name_char c = true -> lower_char c = c /\ isspace c = false.
Proof. each_char c; vm_compute; intros; split; congruence. Qed.

Lemma name_fixed (y : string) :
  str_forall name_char y = true ->
  lower y = y /\ forall b, collapse_from b y = y.
Proof.
  induction y as [|c r IH]; [now split|].
  cbn [str_forall]. intros [Hc Hr]%andb_true_iff.
  destruct (name_char_plain c Hc) as [Hl Hs]. destruct (IH Hr) as [IH1 IH2].
  split.
  - unfold lower in *. cbn [smap]. now rewrite Hl, IH1.
  - intros b. cbn [collapse_from]. now rewrite Hs, IH2.
Qed.

End NormalizeFacts.

(** [normalize] of cigar_data_sheets.py, which names the CSV file of a
    sheet, returns the lower-cased name with every run of white space
    replaced by one underscore and every character outside [a-z0-9_] then
    removed. Its result holds only characters of [a-z0-9_], and normalising
    it again changes nothing. Different sheet names can be given the same
    file name, and a name without letters, digits or space is given the
    empty one. *)
Theorem sheet_name_normalisation (s : string) :
  DataSheets.normalize s
  = NormalizeFacts.keep NormalizeFacts.name_char
      (NormalizeFacts.collapse_from false (Py.lower s))
  /\ Py.str_forall (fun c => negb (DataSheets.not_name_char c))
                   (DataSheets.normalize s) = true
  /\ DataSheets.normalize (DataSheets.normalize s) = DataSheets.normalize s
  /\ DataSheets.normalize "Price  List 2024" = "price_list_2024"
  /\ DataSheets.normalize "Sheet-1" = DataSheets.normalize "Sheet1"
  /\ DataSheets.normalize "(!)" = "".
Proof.
  split; [apply NormalizeFacts.normalize_eq|].
  assert (Hall : Py.str_forall NormalizeFacts.name_char
                   (DataSheets.normalize s) = true)
    by (rewrite NormalizeFacts.normalize_eq; apply NormalizeFacts.keep_all).
  split; [exact Hall|]. split.
  - rewrite (NormalizeFacts.normalize_eq (DataSheets.normalize s)).
    destruct (NormalizeFacts.name_fixed _ Hall) as [-> ->].
    now apply NormalizeFacts.keep_same.
  - repeat split; vm_compute; reflexivity.
Qed.

(* ================================================================== *)
(** * holts_cigar_scraper.py: the number of reviews *)
(* ================================================================== *)

Module ReviewFacts.

Import Py PyFacts Re RegexFacts ReFacts Num NumFacts.

Definition not_decimal (c : ascii) : bool := negb (isdecimal c).

(** The first run of decimal digits of a text, empty when it has none. *)
Definition first_number (t : string) : string :=
  fst (span isdecimal (snd (span not_decimal t))).

Lemma match_here_count (s : string) :
  match_here HoltsText.count_pattern s
  = if Nat.leb 1 (String.length (fst (span isdecimal s)))
    then Some (fst (span isdecimal s), [(1, fst (span isdecimal s))],
               snd (span isdecimal s))
    else None.
Proof.
  assert (Hc : consumed s (snd (span isdecimal s)) = fst (span isdecimal s)).
  { rewrite <- (span_app isdecimal s) at 1. now rewrite consumed_app. }
  unfold match_here, HoltsText.count_pattern, plus. cbn [run].
  etransitivity;
    [exact (rep_last _ d
              (fun t => (consumed s t, [(1, consumed s t)], t)) s 1)|].
  unfold d. now rewrite Hc.
Qed.

Lemma count_not_here (c : ascii) (t : string) :
  not_decimal c = true -> match_here HoltsText.count_pattern (String c t) = None.
Proof.
  unfold not_decimal. intros Hc%negb_true_iff.
  rewrite match_here_count. cbn [span]. now rewrite Hc.
Qed.

Lemma search_count (t : string) :
  search HoltsText.count_pattern t
  = match first_number t with
    | EmptyString => None
    | run => Some (run, [(1, run)],
                   snd (span isdecimal (snd (span not_decimal t))))
    end.
Proof.
  unfold first_number.
  rewrite <- (span_app not_decimal t) at 1.
  rewrite (search_after _ not_decimal _ _ count_not_here
             (span_all not_decimal t)).
  pose proof (span_rest not_decimal t) as Hrest.
  destruct (snd (span not_decimal t)) as [|c u]; [reflexivity|].
  unfold not_decimal in Hrest. apply negb_false_iff in Hrest.
  pose proof (match_here_count (String c u)) as Hm.
  cbn [span] in Hm |- *. rewrite Hrest in Hm |- *.
  destruct (span isdecimal u) as [a r].
  cbn [fst snd String.length Nat.leb] in Hm |- *.
  exact (search_here _ _ _ Hm).
Qed.

Lemma first_number_digits (t : string) :
  str_forall isdecimal (first_number t) = true.
Proof. apply span_all. Qed.

Lemma parse_review_count_any (t : string) :
  HoltsText.parse_review_count (Some t)
  = if Nat.ltb max_str_digits (String.length (first_number t))
    then Raise ValueError
    else Ok (digits_value (first_number t)).
Proof.
  unfold HoltsText.parse_review_count.
  destruct t as [|c t]; [reflexivity|]. cbn [is_empty].
  rewrite search_count.
  pose proof (first_number_digits (String c t)) as Hd.
  destruct (first_number (String c t)) as [|x run] eqn:Hf; [reflexivity|].
  unfold group_of. cbn [fst snd group Nat.eqb FamousSmoke.of_opt_str py_int].
  apply int_of_str_digits_any. unfold is_digits. now rewrite Hd.
Qed.

Lemma span_parts_length (p : ascii -> bool) (s : string) :
  (String.length (fst (span p s)) <= String.length s)%nat
  /\ (String.length (snd (span p s)) <= String.length s)%nat.
Proof.
  rewrite <- (span_app p s) at 2 4. rewrite length_append. lia.
Qed.

Lemma first_number_length (t : string) :
  (String.length (first_number t) <= String.length t)%nat.
Proof.
  unfold first_number.
  pose proof (proj1 (span_parts_length isdecimal (snd (span not_decimal t)))).
  pose proof (proj2 (span_parts_length not_decimal t)). lia.
Qed.

Lemma parse_review_count_eq (t : string) :
  (String.length (first_number t) <= 4300)%nat ->
  HoltsText.parse_review_count (Some t) = Ok (digits_value (first_number t)).
Proof.
  intros H. rewrite parse_review_count_any.
  now rewrite (within_digit_limit _ H).
Qed.

Lemma first_number_run (a rest : string) :
  is_digits a = true -> first_number (a ++ "," ++ rest) = a.
Proof.
  intros Ha. unfold first_number.
  unfold is_digits in Ha. apply andb_prop in Ha as [Hne Hd].
  destruct a as [|c a]; [discriminate|].
  cbn [str_forall] in Hd. apply andb_prop in Hd as [Hc Hd].
  cbn [append span]. unfold not_decimal at 1.
  rewrite Hc. cbn [negb snd span]. rewrite Hc.
  change (a ++ String "," rest) with (a ++ "," ++ rest).
  rewrite (span_run isdecimal a ("," ++ rest) Hd); reflexivity.
Qed.

End ReviewFacts.

(** [parse_review_count] of holts_cigar_scraper.py returns the value of the
    first run of decimal digits of the text and 0 when the text has no
    digit; the result is never negative. What follows the run is not read, a
    thousands separator included: 1,234 reviews are counted as one. The
    [int] call is not guarded: it accepts a run of at most 4300 digits, so
    the function does not raise on a text of at most 4300 characters, and a
    longer run makes it raise ValueError. *)
Theorem review_count_is_first_digit_run (t : string) :
  String.length t <= 4300 ->
  HoltsText.parse_review_count (Some t)
  = Ok (Num.digits_value (ReviewFacts.first_number t))
  /\ (0 <= Num.digits_value (ReviewFacts.first_number t))%Z
  /\ (forall a rest,
        PyFacts.is_digits a = true ->
        ReviewFacts.first_number (a ++ "," ++ rest) = a
        /\ (String.length a <= 4300 ->
            HoltsText.parse_review_count (Some (a ++ "," ++ rest))
            = Ok (Num.digits_value a))
        /\ (4300 < String.length a ->
            HoltsText.parse_review_count (Some (a ++ "," ++ rest))
            = Raise ValueError))
  /\ (forall u,
        HoltsText.parse_review_count (Some u)
        = if Nat.ltb Num.max_str_digits
               (String.length (ReviewFacts.first_number u))
          then Raise ValueError
          else Ok (Num.digits_value (ReviewFacts.first_number u)))
  /\ HoltsText.parse_review_count (Some "11 Reviews") = Ok 11%Z
  /\ HoltsText.parse_review_count (Some "1,234 Reviews") = Ok 1%Z
  /\ HoltsText.parse_review_count (Some "No reviews yet") = Ok 0%Z
  /\ HoltsText.parse_review_count None = Ok 0%Z.
Proof.
  intros Hlen. split.
  { apply ReviewFacts.parse_review_count_eq.
    pose proof (ReviewFacts.first_number_length t). lia. }
  split.
  { apply NumFacts.digits_value_nonneg, ReviewFacts.first_number_digits. }
  split.
  { intros a rest Ha.
    pose proof (ReviewFacts.first_number_run a rest Ha) as Hf.
    split; [exact Hf|]. split; intros Hl.
    - rewrite ReviewFacts.parse_review_count_eq; rewrite Hf;
        [reflexivity|exact Hl].
    - rewrite ReviewFacts.parse_review_count_any, Hf.
      now rewrite (NumFacts.beyond_digit_limit _ Hl). }
  split; [exact ReviewFacts.parse_review_count_any|].
  repeat split; vm_compute; reflexivity.
Qed.

Lemma review_count_is_first_digit_run_witness :
  HoltsText.parse_review_count (Some "27 Reviews")
  = Ok (Num.digits_value (ReviewFacts.first_number "27 Reviews")).
Proof.
  apply (review_count_is_first_digit_run "27 Reviews").
  cbn. lia.
Defined.

(* ================================================================== *)
(** * The size pattern of atlantic_cigar_scraper.py and holts_cigar_scraper.py *)
(* ================================================================== *)

Module SizePatternFacts.

Import Py PyFacts Re RegexFacts ReFacts Num NumFacts.

(** [(\d+(\.\d+)?)] as the groups [i] and [j]. *)
Definition number (i j : nat) : regex :=
  Grp i (seq [plus d; Opt (Grp j (seq [Chr (lit "."); plus d]))]).

Lemma size_pattern_eq :
  Atlantic.size_pattern
  = seq [number 1 2; star ws; Chr (one_of "xX"); star ws; number 3 4].
Proof. reflexivity. Qed.

(** A text of the form [digits] or [digits.digits], with what group [j]
    holds after it has been matched. *)
Inductive is_number (j : nat) : string -> groups -> Prop :=
| whole_number a :
    is_digits a = true -> is_number j a []
| decimal_number a b :
    is_digits a = true -> is_digits b = true ->
    is_number j (a ++ "." ++ b) [(j, "." ++ b)].

(** The text does not go on with a digit or a point. *)
Definition ends_number (t : string) : Prop :=
  stops (fun c => (isdecimal c || Ascii.eqb "." c)%bool) t.

Lemma ends_number_stops (t : string) : ends_number t -> stops d t.
Proof.
  destruct t as [|c t]; [trivial|]. cbn [ends_number stops].
  now intros [H _]%orb_false_iff.
Qed.

Lemma digits_parts (a : string) :
  is_digits a = true -> str_forall d a = true /\ 1 <= String.length a.
Proof.
  unfold is_digits. intros [Hne Hd]%andb_true_iff. split; [exact Hd|].
  destruct a; [discriminate|cbn; lia].
Qed.

Lemma run_number (A : Type) (i j : nat) (n : string) (gs : groups)
      (t : string) (g : groups) (k : string -> groups -> option A)
      (res : A) :
  is_number j n gs -> ends_number t ->
  k t ((i, n) :: gs ++ g)%list = Some res ->
  run (number i j) (n ++ t) g k = Some res.
Proof.
  intros Hn Ht Hk. unfold number, plus. cbn [seq run].
  destruct Hn as [a Ha|a b Ha Hb].
  - destruct (digits_parts a Ha) as [Hda Hla].
    apply rep_greedy; [exact Hda|now apply ends_number_stops|exact Hla|].
    rewrite consumed_app. cbn [app] in Hk.
    destruct t as [|c t]; [exact Hk|].
    cbn [ends_number stops] in Ht. apply orb_false_iff in Ht as [_ Hp].
    unfold lit. now rewrite Hp.
  - destruct (digits_parts a Ha) as [Hda Hla].
    destruct (digits_parts b Hb) as [Hdb Hlb].
    rewrite append_assoc.
    apply rep_greedy; [exact Hda|reflexivity|exact Hla|].
    change (("." ++ b) ++ t) with (String "." (b ++ t)).
    cbv iota. change (lit "." ".") with true. cbv iota.
    rewrite (rep_greedy _ d _ res b t 1 Hdb (ends_number_stops t Ht) Hlb);
      [reflexivity|].
    change (String "." (b ++ t)) with (("." ++ b) ++ t).
    rewrite consumed_app.
    replace (a ++ ("." ++ b) ++ t) with ((a ++ "." ++ b) ++ t)
      by now rewrite !append_assoc.
    rewrite consumed_app. exact Hk.
Qed.

Lemma denotes_number (i j : nat) (s : string) (g : groups) (t : string)
      (g' : groups) :
  denotes (number i j) s g t g' ->
  exists n gs, is_number j n gs /\ s = n ++ t
               /\ g' = ((i, n) :: gs ++ g)%list.
Proof.
  unfold number, plus, d. cbn [seq denotes].
  intros (g1 & (u & g2 & (a & Hs & Ha & Hla & _ & Hg2)
                & [(g3 & (v & g4 & (c & Hu & Hc & Hg4)
                               & (b & Hv & Hb & Hlb & _ & Hg3)) & Hg1)
                  |[Ht Hg1]]) & Hg').
  - subst. unfold lit in Hc. apply Ascii.eqb_eq in Hc. subst c.
    exists (a ++ "." ++ b), [(j, "." ++ b)].
    assert (Hda : is_digits a = true)
      by (unfold is_digits; rewrite Ha; destruct a; [cbn in Hla; lia|easy]).
    assert (Hdb : is_digits b = true)
      by (unfold is_digits; rewrite Hb; destruct b; [cbn in Hlb; lia|easy]).
    split; [now constructor|].
    replace (a ++ String "." (b ++ t)) with ((a ++ "." ++ b) ++ t)
      by now rewrite !append_assoc.
    split; [reflexivity|]. rewrite consumed_app.
    change (String "." (b ++ t)) with (("." ++ b) ++ t).
    now rewrite consumed_app.
  - subst. exists a, [].
    assert (Hda : is_digits a = true)
      by (unfold is_digits; rewrite Ha; destruct a; [cbn in Hla; lia|easy]).
    split; [now constructor|]. split; [reflexivity|].
    now rewrite consumed_app.
Qed.

Lemma is_number_head (j : nat) (n : string) (gs : groups) :
  is_number j n gs -> exists c r, n = String c r /\ isdecimal c = true.
Proof.
  intros [a Ha|a b Ha Hb]; unfold is_digits in Ha;
    apply andb_prop in Ha as [Hne Hd];
    (destruct a as [|c a]; [discriminate|]);
    cbn [str_forall] in Hd; apply andb_prop in Hd as [Hc _];
    cbn [append]; eauto.
Qed.

Lemma space_stops (sp rest : string) (c : ascii) :
  str_forall isspace sp = true ->
  (isdecimal c || Ascii.eqb "." c)%bool = false ->
  ends_number (sp ++ String c rest).
Proof.
  intros Hsp Hc. destruct sp as [|x sp]; [exact Hc|].
  cbn [str_forall] in Hsp. apply andb_prop in Hsp as [Hx _].
  cbn [append ends_number stops].
  revert Hx. each_char x; vm_compute; congruence.
Qed.

(** The match of the size pattern at the start of a text that begins with
    a number, white space, [x] or [X], white space and a second number. *)
Lemma match_here_size (n1 n3 sp1 sp2 rest : string) (gs1 gs3 : groups)
      (xc : ascii) :
  is_number 2 n1 gs1 -> is_number 4 n3 gs3 ->
  str_forall isspace sp1 = true -> str_forall isspace sp2 = true ->
  one_of "xX" xc = true -> ends_number rest ->
  match_here Atlantic.size_pattern
             (n1 ++ sp1 ++ String xc (sp2 ++ n3 ++ rest))
  = Some (n1 ++ sp1 ++ String xc (sp2 ++ n3),
          ((3, n3) :: gs3 ++ (1, n1) :: gs1)%list, rest).
Proof.
  intros H1 H3 Hs1 Hs2 Hx Hrest.
  assert (Hxc : isspace xc = false
                /\ (isdecimal xc || Ascii.eqb "." xc)%bool = false).
  { revert Hx. each_char xc; vm_compute; intros; split; congruence. }
  destruct Hxc as [Hxs Hxd].
  destruct (is_number_head _ _ _ H3) as (c3 & r3 & Hn3 & Hc3).
  unfold match_here. rewrite size_pattern_eq. cbn [seq run].
  apply (run_number _ 1 2 n1 gs1); [exact H1|now apply space_stops|].
  unfold star, ws.
  apply rep_greedy; [exact Hs1|exact Hxs|apply Nat.le_0_l|].
  rewrite Hx.
  apply rep_greedy;
    [exact Hs2
    |rewrite Hn3; cbn [append stops]; now apply decimal_not_space
    |apply Nat.le_0_l|].
  apply (run_number _ 3 4 n3 gs3); [exact H3|exact Hrest|].
  rewrite app_nil_r. f_equal. f_equal. f_equal.
  replace (n1 ++ sp1 ++ String xc (sp2 ++ n3 ++ rest))
    with ((n1 ++ sp1 ++ String xc (sp2 ++ n3)) ++ rest).
  - apply consumed_app.
  - rewrite !append_assoc. cbn [append]. now rewrite !append_assoc.
Qed.

Lemma size_not_here (c : ascii) (t : string) :
  isdecimal c = false -> match_here Atlantic.size_pattern (String c t) = None.
Proof.
  intros Hc. unfold match_here. rewrite size_pattern_eq.
  unfold number, plus, d. cbn [seq run rep].
  now rewrite Hc.
Qed.

(** What a match of the size pattern holds in its groups 1 and 3. *)
Lemma search_size_groups (t : string) (m : hit) :
  search Atlantic.size_pattern t = Some m ->
  exists n1 gs1 n3 gs3,
    is_number 2 n1 gs1 /\ is_number 4 n3 gs3
    /\ group_of m 1 = Some n1 /\ group_of m 3 = Some n3.
Proof.
  intros Hs.
  destruct (search_sound _ _ _ Hs) as (pre & s' & _ & Hm).
  destruct (match_here_sound _ _ _ Hm) as (u & g & -> & Hd).
  rewrite size_pattern_eq in Hd. cbn [seq denotes] in Hd.
  destruct Hd as (u1 & g1 & Hn1 & u2 & g2 & (x2 & _ & _ & _ & _ & Hg2)
                  & u3 & g3 & (c & _ & _ & Hg3)
                  & u4 & g4 & (x4 & _ & _ & _ & _ & Hg4) & Hn3).
  subst g2 g3 g4.
  destruct (denotes_number _ _ _ _ _ _ Hn1) as (n1 & gs1 & H1 & _ & ->).
  destruct (denotes_number _ _ _ _ _ _ Hn3) as (n3 & gs3 & H3 & _ & ->).
  exists n1, gs1, n3, gs3. split; [exact H1|]. split; [exact H3|].
  unfold group_of. cbn [fst snd]. split; [|reflexivity].
  destruct H3; reflexivity.
Qed.

Lemma float_of_number (j : nat) (n : string) (gs : groups) :
  is_number j n gs ->
  exists f, float_of_str n = Ok f /\ signed false f.
Proof.
  intros [a Ha|a b Ha Hb].
  - rewrite (float_of_str_digits a Ha). eexists. split; [reflexivity|].
    apply of_Z_signed. now apply SizeFacts.digits_value_digits_nonneg.
  - rewrite (CoercionFacts.float_of_str_plain a b Ha Hb).
    eexists. split; [reflexivity|]. apply of_decimal_signed.
Qed.

End SizePatternFacts.

Module AtlanticSizeFacts.

Import Py PyFacts Re RegexFacts ReFacts Num NumFacts SizePatternFacts.

Lemma not_empty_app (x y : string) :
  y <> "" -> is_empty (x ++ y) = false.
Proof. destruct x; [destruct y; [contradiction|reflexivity]|reflexivity]. Qed.

Lemma number_not_empty (j : nat) (n : string) (gs : groups) (t : string) :
  is_number j n gs -> n ++ t <> "".
Proof.
  intros H. destruct (is_number_head _ _ _ H) as (c & r & -> & _).
  discriminate.
Qed.

Lemma group_1_of_size (n1 n3 : string) (gs1 gs3 : groups) :
  is_number 4 n3 gs3 ->
  group ((3, n3) :: gs3 ++ (1, n1) :: gs1)%list 1 = Some n1.
Proof. intros []; reflexivity. Qed.

(** The size pattern found after a prefix without digit. *)
Lemma search_size_form (pre n1 n3 sp1 sp2 rest : string) (gs1 gs3 : groups)
      (xc : ascii) :
  str_forall ReviewFacts.not_decimal pre = true ->
  is_number 2 n1 gs1 -> is_number 4 n3 gs3 ->
  str_forall isspace sp1 = true -> str_forall isspace sp2 = true ->
  one_of "xX" xc = true -> ends_number rest ->
  exists m,
    search Atlantic.size_pattern
           (pre ++ n1 ++ sp1 ++ String xc (sp2 ++ n3 ++ rest)) = Some m
    /\ group_of m 1 = Some n1 /\ group_of m 3 = Some n3.
Proof.
  intros Hpre H1 H3 Hs1 Hs2 Hx Hrest.
  rewrite (search_after _ ReviewFacts.not_decimal pre);
    [|intros c t Hc; apply size_not_here;
      now apply negb_true_iff in Hc|exact Hpre].
  rewrite (search_here _ _ _
             (match_here_size n1 n3 sp1 sp2 rest gs1 gs3 xc
                              H1 H3 Hs1 Hs2 Hx Hrest)).
  eexists. split; [reflexivity|].
  unfold group_of. cbn [fst snd]. split; [|reflexivity].
  now apply group_1_of_size.
Qed.

Lemma parse_size_form (pre n1 n3 sp1 sp2 rest : string) (gs1 gs3 : groups)
      (xc : ascii) :
  str_forall ReviewFacts.not_decimal pre = true ->
  is_number 2 n1 gs1 -> is_number 4 n3 gs3 ->
  str_forall isspace sp1 = true -> str_forall isspace sp2 = true ->
  one_of "xX" xc = true -> ends_number rest ->
  Atlantic.parse_size
    (Some (pre ++ n1 ++ sp1 ++ String xc (sp2 ++ n3 ++ rest)))
  = (Atlantic.safe_float (VStr n1), Atlantic.safe_float (VStr n3)).
Proof.
  intros Hpre H1 H3 Hs1 Hs2 Hx Hrest. unfold Atlantic.parse_size.
  rewrite not_empty_app by (now apply (number_not_empty 2 n1 gs1)).
  destruct (search_size_form pre n1 n3 sp1 sp2 rest gs1 gs3 xc
              Hpre H1 H3 Hs1 Hs2 Hx Hrest) as (m & -> & -> & ->).
  reflexivity.
Qed.

Lemma safe_float_whole (a : string) :
  is_digits a = true ->
  Atlantic.safe_float (VStr a) = Some (of_Z (digits_value a)).
Proof.
  intros Ha. unfold Atlantic.safe_float, py_float.
  now rewrite (float_of_str_digits a Ha).
Qed.

Lemma parse_size_both_or_neither (text : option string) :
  Atlantic.parse_size text = (None, None)
  \/ exists l r, Atlantic.parse_size text = (Some l, Some r)
                 /\ signed false l /\ signed false r.
Proof.
  unfold Atlantic.parse_size. destruct text as [t|]; [|now left].
  destruct (is_empty t); [now left|].
  destruct (search Atlantic.size_pattern t) as [m|] eqn:Hs; [|now left].
  destruct (search_size_groups t m Hs)
    as (n1 & gs1 & n3 & gs3 & H1 & H3 & -> & ->).
  destruct (float_of_number _ _ _ H1) as (l & Hl & Hsl).
  destruct (float_of_number _ _ _ H3) as (r & Hr & Hsr).
  right. exists l, r. unfold Atlantic.safe_float.
  cbn [FamousSmoke.of_opt_str py_float]. now rewrite Hl, Hr.
Qed.

End AtlanticSizeFacts.

(** [parse_size] of atlantic_cigar_scraper.py finds the first place of the
    text where a number, optional white space, [x] or [X], optional white
    space and a second number follow one another, and returns the two
    numbers as doubles: a whole length, or one with decimals, that follows
    a text without digit is read as written. For every text the function
    returns both values or neither, and a value it returns is a number,
    never NaN and never negative. *)
Theorem atlantic_size_both_or_neither
        (pre a b sp1 sp2 rest : string) (xc : ascii) :
  Py.str_forall ReviewFacts.not_decimal pre = true ->
  PyFacts.is_digits a = true ->
  PyFacts.is_digits b = true ->
  Py.str_forall Py.isspace sp1 = true ->
  Py.str_forall Py.isspace sp2 = true ->
  xc = "x"%char \/ xc = "X"%char ->
  SizePatternFacts.ends_number rest ->
  Atlantic.parse_size
    (Some (pre ++ a ++ sp1 ++ String xc (sp2 ++ b ++ rest)))
  = (Some (Num.of_Z (Num.digits_value a)),
     Some (Num.of_Z (Num.digits_value b)))
  /\ (forall c,
        PyFacts.is_digits c = true ->
        Atlantic.parse_size
          (Some (pre ++ (a ++ "." ++ c) ++ sp1
                     ++ String xc (sp2 ++ b ++ rest)))
        = (Some (Num.of_decimal false (Num.digits_value (a ++ c))
                                (0 - Z.of_nat (String.length c))),
           Some (Num.of_Z (Num.digits_value b))))
  /\ (forall text,
        Atlantic.parse_size text = (None, None)
        \/ exists l r,
             Atlantic.parse_size text = (Some l, Some r)
             /\ Num.is_nan l = false /\ Num.is_negative l = false
             /\ Num.is_nan r = false /\ Num.is_negative r = false)
  /\ Atlantic.parse_size (Some "6 x 60")
     = (Some (Num.of_Z 6), Some (Num.of_Z 60))
  /\ Atlantic.parse_size (Some "Robusto") = (None, None)
  /\ Atlantic.parse_size (Some "") = (None, None).
Proof.
  intros Hpre Ha Hb Hs1 Hs2 Hx Hrest.
  assert (Hxc : Re.one_of "xX" xc = true) by (destruct Hx; now subst).
  split.
  { rewrite (AtlanticSizeFacts.parse_size_form pre a b sp1 sp2 rest [] [] xc
               Hpre (SizePatternFacts.whole_number 2 a Ha)
               (SizePatternFacts.whole_number 4 b Hb) Hs1 Hs2 Hxc Hrest).
    now rewrite !AtlanticSizeFacts.safe_float_whole. }
  split.
  { intros c Hc.
    rewrite (AtlanticSizeFacts.parse_size_form pre (a ++ "." ++ c) b sp1 sp2
               rest _ [] xc Hpre
               (SizePatternFacts.decimal_number 2 a c Ha Hc)
               (SizePatternFacts.whole_number 4 b Hb) Hs1 Hs2 Hxc Hrest).
    rewrite (AtlanticSizeFacts.safe_float_whole b Hb).
    f_equal. exact (PriceFacts.safe_float_plain a c Ha Hc). }
  split.
  { intros text.
    destruct (AtlanticSizeFacts.parse_size_both_or_neither text)
      as [H|(l & r & H & Hl & Hr)]; [now left|right].
    exists l, r. split; [exact H|].
    destruct (NumFacts.signed_false_props l Hl).
    destruct (NumFacts.signed_false_props r Hr). auto. }
  repeat split; vm_compute; reflexivity.
Qed.

Lemma atlantic_size_both_or_neither_witness :
  Atlantic.parse_size
    (Some ("Size: " ++ "7" ++ " " ++ String "x" (" " ++ "54" ++ " in")))
  = (Some (Num.of_Z (Num.digits_value "7")),
     Some (Num.of_Z (Num.digits_value "54"))).
Proof.
  exact (proj1 (atlantic_size_both_or_neither
                  "Size: " "7" "54" " " " " " in" "x"
                  eq_refl eq_refl eq_refl eq_refl eq_refl
                  (or_introl eq_refl) eq_refl)).
Defined.

(* ================================================================== *)
(** * holts_cigar_scraper.py: shape and size in a product name *)
(* ================================================================== *)

Module HoltsNameFacts.

Import Py PyFacts Re RegexFacts ReFacts Num NumFacts SizePatternFacts.

Lemma join_app (sep : string) (l1 l2 : list string) :
  l1 <> [] -> l2 <> [] ->
  Atlantic.join sep (l1 ++ l2)%list
  = Atlantic.join sep l1 ++ sep ++ Atlantic.join sep l2.
Proof.
  intros H1 H2. induction l1 as [|w l1 IH]; [contradiction|].
  destruct l1 as [|w2 l1].
  - destruct l2 as [|v l2]; [contradiction|reflexivity].
  - change (Atlantic.join sep ((w :: w2 :: l1) ++ l2)%list)
      with (w ++ sep ++ Atlantic.join sep ((w2 :: l1) ++ l2)%list).
    rewrite IH by discriminate.
    change (Atlantic.join sep (w :: w2 :: l1))
      with (w ++ sep ++ Atlantic.join sep (w2 :: l1)).
    now rewrite !append_assoc.
Qed.

Lemma split_char_from_skip (sep : ascii) (L cur rest : string) :
  has_char sep L = false ->
  Gotham.split_char_from sep cur (L ++ rest)
  = Gotham.split_char_from sep (cur ++ L) rest.
Proof.
  unfold has_char. revert cur.
  induction L as [|c L IH]; intros cur H.
  - now rewrite append_nil_r.
  - cbn [str_exists] in H. apply orb_false_iff in H as [Hc HL].
    cbn [append Gotham.split_char_from].
    rewrite Ascii.eqb_sym, Hc, (IH _ HL). now rewrite append_assoc.
Qed.

Lemma split_char_two (sep : ascii) (L R : string) :
  has_char sep L = false -> has_char sep R = false ->
  Gotham.split_char sep (L ++ String sep R) = [L; R].
Proof.
  intros HL HR. unfold Gotham.split_char.
  rewrite (split_char_from_skip sep L "" _ HL).
  cbn [append Gotham.split_char_from]. rewrite Ascii.eqb_refl.
  rewrite <- (append_nil_r R) at 1.
  rewrite (split_char_from_skip sep R "" "" HR). reflexivity.
Qed.

Lemma trimmed_head (s : string) :
  strip s = s -> s <> "" ->
  exists c r, s = String c r /\ isspace c = false.
Proof.
  intros Hs Hne.
  destruct (StripFacts.strip_by_trimmed isspace s) as [Hl _].
  fold (strip s) in Hl. rewrite Hs in Hl.
  pose proof (StripFacts.lstrip_by_head isspace s) as Hh.
  rewrite Hl in Hh. destruct s as [|c r]; [contradiction|]. eauto.
Qed.

Lemma strip_pad (s : string) :
  strip s = s -> s <> "" ->
  strip (" " ++ s) = s /\ strip (s ++ " ") = s.
Proof.
  intros Hs Hne.
  destruct (trimmed_head s Hs Hne) as (c & r & -> & Hc).
  destruct (StripFacts.strip_by_trimmed isspace (String c r)) as [_ Hr].
  fold (strip (String c r)) in Hr. rewrite Hs in Hr.
  split.
  - unfold strip, strip_by. cbn [append lstrip_by].
    change (isspace " ") with true. cbv iota. cbn [lstrip_by].
    now rewrite Hc.
  - unfold strip, strip_by. cbn [append lstrip_by]. rewrite Hc.
    change (String c (r ++ " ")) with (String c r ++ " ").
    rewrite rstrip_by_app_drop by reflexivity. exact Hr.
Qed.

Lemma join_no_char (c : ascii) (words : list string) :
  Ascii.eqb c " " = false ->
  Forall (fun w => has_char c w = false) words ->
  has_char c (Atlantic.join " " words) = false.
Proof.
  intros Hc. induction 1 as [|w ws Hw Hws IH]; [reflexivity|].
  destruct ws as [|w2 ws]; [exact Hw|].
  change (Atlantic.join " " (w :: w2 :: ws))
    with (w ++ " " ++ Atlantic.join " " (w2 :: ws)).
  rewrite !TextFacts.has_char_app, Hw, IH.
  unfold has_char. cbn [str_exists]. now rewrite Hc.
Qed.

Lemma digits_no_hyphen (w : string) :
  is_digits w = true -> has_char "-" w = false.
Proof.
  unfold is_digits. intros [_ H]%andb_true_iff. unfold has_char.
  apply (str_forall_not_exists isdecimal); [|exact H].
  intros c Hc. each_char c; vm_compute in Hc |- *; congruence.
Qed.

Lemma safe_float_digits (a : string) :
  is_digits a = true ->
  Holts.safe_float (VStr a) = Some (of_Z (digits_value a)).
Proof.
  intros Ha. unfold Holts.safe_float, py_float.
  now rewrite (float_of_str_digits a Ha).
Qed.

(** The name as [parse_size_from_name] cuts it: the words of the shape,
    a hyphen, and the two numbers around an [x]. *)
Lemma name_parts (words : list string) (a b : string) :
  Forall (fun w => is_token w = true) words -> words <> [] ->
  Forall (fun w => has_char "-" w = false) words ->
  is_digits a = true -> is_digits b = true ->
  Gotham.split_char "-"
    (Atlantic.join " " (words ++ ["-"; a; "x"; b])%list)
  = [Atlantic.join " " words ++ " "; " " ++ a ++ " x " ++ b].
Proof.
  intros Htok Hne Hhy Ha Hb.
  rewrite join_app by (assumption || discriminate).
  cbn [Atlantic.join].
  replace (Atlantic.join " " words ++ " " ++ "-" ++ " " ++ a ++ " "
             ++ "x" ++ " " ++ b)
    with ((Atlantic.join " " words ++ " ")
            ++ String "-" (" " ++ a ++ " x " ++ b))
    by (rewrite !append_assoc; reflexivity).
  apply split_char_two.
  - rewrite TextFacts.has_char_app, (join_no_char "-" words eq_refl Hhy).
    reflexivity.
  - change (" " ++ a ++ " x " ++ b) with (" " ++ a ++ " x " ++ b).
    rewrite !TextFacts.has_char_app, (digits_no_hyphen a Ha),
      (digits_no_hyphen b Hb). reflexivity.
Qed.

Lemma parse_name_both_or_neither (name_text : option string) :
  match HoltsText.parse_size_from_name name_text with
  | (_, None, None) => True
  | (_, Some l, Some r) => signed false l /\ signed false r
  | _ => False
  end.
Proof.
  unfold HoltsText.parse_size_from_name.
  destruct name_text as [t|]; [|exact I].
  destruct (is_empty t); [exact I|].
  destruct (search Atlantic.size_pattern _) as [m|] eqn:Hs; [|exact I].
  destruct (search_size_groups _ m Hs)
    as (n1 & gs1 & n3 & gs3 & H1 & H3 & -> & ->).
  destruct (float_of_number _ _ _ H1) as (l & Hl & Hsl).
  destruct (float_of_number _ _ _ H3) as (r & Hr & Hsr).
  unfold Holts.safe_float. cbn [FamousSmoke.of_opt_str py_float].
  rewrite Hl, Hr. now split.
Qed.

End HoltsNameFacts.

(** [parse_size_from_name] of holts_cigar_scraper.py, on a product name
    whose words are those of a shape without hyphen, a hyphen, a whole
    number, [x] and a second whole number, returns the shape with its
    words separated by single spaces and the two numbers as doubles,
    whatever white space separates the words. It returns a length and a
    ring gauge together or neither. The size is only looked for between
    the first and the second hyphen: a hyphen inside the shape loses it. *)
Theorem holts_name_gives_shape_and_size
        (t : string) (words : list string) (a b : string) :
  Py.split_ws t = (words ++ ["-"; a; "x"; b])%list ->
  words <> [] ->
  Forall (fun w => PyFacts.has_char "-" w = false) words ->
  PyFacts.is_digits a = true ->
  PyFacts.is_digits b = true ->
  HoltsText.parse_size_from_name (Some t)
  = (Some (Atlantic.join " " words),
     Some (Num.of_Z (Num.digits_value a)),
     Some (Num.of_Z (Num.digits_value b)))
  /\ (forall name_text,
        match HoltsText.parse_size_from_name name_text with
        | (_, None, None) => True
        | (_, Some l, Some r) =>
            Num.is_nan l = false /\ Num.is_negative l = false
            /\ Num.is_nan r = false /\ Num.is_negative r = false
        | _ => False
        end)
  /\ HoltsText.parse_size_from_name (Some "Gordo - 6 x 60")
     = (Some "Gordo", Some (Num.of_Z 6), Some (Num.of_Z 60))
  /\ HoltsText.parse_size_from_name (Some "Double-Corona - 6 x 60")
     = (Some "Double", None, None)
  /\ HoltsText.parse_size_from_name None = (None, None, None).
Proof.
  intros Hsplit Hne Hhy Ha Hb.
  pose proof (TextFacts.split_ws_tokens t) as Htok. rewrite Hsplit in Htok.
  apply Forall_app in Htok as [Hwords _].
  split.
  { unfold HoltsText.parse_size_from_name.
    destruct t as [|c0 t0];
      [destruct words; discriminate Hsplit|].
    cbn [Py.is_empty]. rewrite Hsplit.
    rewrite (HoltsNameFacts.name_parts words a b Hwords Hne Hhy Ha Hb).
    cbn [hd_error option_map].
    pose proof (TextFacts.join_tokens_trimmed words Hwords Hne) as Hshape.
    assert (Hsne : Atlantic.join " " words <> "").
    { destruct words as [|w ws]; [contradiction|].
      inversion Hwords as [|x l Hw Hws]; subst.
      destruct w as [|c w]; [discriminate|].
      destruct ws; cbn; discriminate. }
    rewrite (proj2 (HoltsNameFacts.strip_pad _ Hshape Hsne)).
    assert (Hsize : Py.strip (a ++ " x " ++ b) = a ++ " x " ++ b)
      by (apply PyFacts.strip_between_tokens;
          now apply PyFacts.digits_token).
    assert (Hsz : a ++ " x " ++ b <> "")
      by (destruct a; [discriminate|discriminate]).
    rewrite (proj1 (HoltsNameFacts.strip_pad _ Hsize Hsz)).
    destruct (AtlanticSizeFacts.search_size_form "" a b " " " " "" [] [] "x"
                eq_refl (SizePatternFacts.whole_number 2 a Ha)
                (SizePatternFacts.whole_number 4 b Hb)
                eq_refl eq_refl eq_refl I) as (m & Hm & H1 & H3).
    cbn [append] in Hm. rewrite PyFacts.append_nil_r in Hm.
    change (a ++ " x " ++ b) with (a ++ String " " (String "x" (String " " b))).
    rewrite Hm, H1, H3. cbn [FamousSmoke.of_opt_str].
    now rewrite !HoltsNameFacts.safe_float_digits. }
  split.
  { intros name_text.
    pose proof (HoltsNameFacts.parse_name_both_or_neither name_text) as H.
    destruct (HoltsText.parse_size_from_name name_text)
      as [[shape [l|]] [r|]]; try exact H; try exact I.
    destruct H as [Hl Hr].
    destruct (NumFacts.signed_false_props l Hl).
    destruct (NumFacts.signed_false_props r Hr). auto. }
  repeat split; vm_compute; reflexivity.
Qed.

Lemma holts_name_gives_shape_and_size_witness :
  HoltsText.parse_size_from_name (Some "Double  Corona -  7 x 54")
  = (Some "Double Corona", Some (Num.of_Z 7), Some (Num.of_Z 54)).
Proof.
  exact (proj1 (holts_name_gives_shape_and_size
                  "Double  Corona -  7 x 54" ["Double"; "Corona"] "7" "54"
                  eq_refl ltac:(discriminate)
                  ltac:(repeat constructor) eq_refl eq_refl)).
Defined.

(* ================================================================== *)
(** * cigars_daily_scraper.py: the size inside a product name *)
(* ================================================================== *)

Module DailyNameFacts.

Import Py PyFacts Re RegexFacts ReFacts Num NumFacts.

(** The class [[\d\.]]. *)
Definition number_char : ascii -> bool := either d (lit ".").

(** The class [[x×]]. *)
Definition times_char : ascii -> bool :=
  either (lit "x") (lit CigarsDailyText.times_sign).

Definition not_open (c : ascii) : bool := negb (Ascii.eqb "(" c).

Lemma daily_pattern_eq :
  CigarsDailyText.size_pattern
  = seq [ Chr (lit "("); Grp 1 (plus number_char); star ws;
          Chr times_char; star ws; Grp 2 (plus d); Chr (lit ")") ].
Proof. reflexivity. Qed.

Lemma daily_not_here (c : ascii) (t : string) :
  not_open c = true ->
  match_here CigarsDailyText.size_pattern (String c t) = None.
Proof.
  unfold not_open. intros Hc%negb_true_iff.
  unfold match_here. rewrite daily_pattern_eq. cbn [seq run].
  unfold lit at 1. now rewrite Hc.
Qed.

Lemma times_char_cases (xc : ascii) :
  times_char xc = true ->
  isspace xc = false /\ number_char xc = false.
Proof. each_char xc; vm_compute; intros; split; congruence. Qed.

Lemma space_not_number (c : ascii) :
  isspace c = true -> number_char c = false.
Proof. each_char c; vm_compute; congruence. Qed.

(** The match at an opening parenthesis that is followed by a number, an
    [x] or a multiplication sign, digits and a closing parenthesis. *)
Lemma match_here_daily (n sp1 sp2 r post : string) (xc : ascii) :
  str_forall number_char n = true -> n <> "" ->
  str_forall isspace sp1 = true -> str_forall isspace sp2 = true ->
  times_char xc = true -> is_digits r = true ->
  match_here CigarsDailyText.size_pattern
             ("(" ++ n ++ sp1 ++ String xc (sp2 ++ r ++ ")" ++ post))
  = Some ("(" ++ n ++ sp1 ++ String xc (sp2 ++ r ++ ")"),
          [(2, r); (1, n)], post).
Proof.
  intros Hn Hne Hs1 Hs2 Hx Hr.
  destruct (times_char_cases xc Hx) as [Hxs Hxn].
  destruct (SizePatternFacts.digits_parts r Hr) as [Hdr Hlr].
  unfold match_here. rewrite daily_pattern_eq.
  unfold plus, star. cbn [seq run append].
  change (lit "(" "(") with true. cbv iota.
  apply rep_greedy; [exact Hn| |destruct n; [contradiction|cbn; lia]|].
  { destruct sp1 as [|c sp1]; [exact Hxn|].
    cbn [str_forall] in Hs1. apply andb_prop in Hs1 as [Hc _].
    cbn [append stops]. now apply space_not_number. }
  apply rep_greedy; [exact Hs1|exact Hxs|apply Nat.le_0_l|].
  rewrite Hx.
  apply rep_greedy; [exact Hs2| |apply Nat.le_0_l|].
  { unfold is_digits in Hr. apply andb_prop in Hr as [Hne' Hd].
    destruct r as [|c r]; [discriminate|].
    cbn [str_forall] in Hd. apply andb_prop in Hd as [Hc _].
    cbn [append stops]. now apply decimal_not_space. }
  apply rep_greedy; [exact Hdr|reflexivity|exact Hlr|].
  change (")" ++ post) with (String ")" post). cbv iota.
  change (lit ")" ")") with true. cbv iota.
  rewrite (consumed_app r (String ")" post)).
  rewrite (consumed_app n (sp1 ++ String xc (sp2 ++ r ++ String ")" post))).
  replace (String "(" (n ++ sp1 ++ String xc (sp2 ++ r ++ String ")" post)))
    with (String "(" (n ++ sp1 ++ String xc (sp2 ++ r ++ ")")) ++ post).
  - now rewrite consumed_app.
  - cbn [append]. f_equal. rewrite !append_assoc. cbn [append].
    rewrite !append_assoc. reflexivity.
Qed.

(** What a match holds in its groups. *)
Lemma search_daily_groups (t : string) (m : hit) :
  search CigarsDailyText.size_pattern t = Some m ->
  exists n r, str_forall number_char n = true /\ n <> ""
              /\ is_digits r = true
              /\ group_of m 1 = Some n /\ group_of m 2 = Some r
              /\ (String.length r <= String.length t)%nat.
Proof.
  intros Hs.
  destruct (search_sound _ _ _ Hs) as (pre & s' & Ht & Hm).
  destruct (match_here_sound _ _ _ Hm) as (u & g & -> & Hd).
  rewrite daily_pattern_eq in Hd. unfold plus, star, d in Hd.
  cbn [seq denotes] in Hd.
  destruct Hd as (u1 & g1 & (c1 & E1 & _ & Hg1)
                  & u2 & g2 & (g2' & (n & Hu1 & Hn & Hln & _ & Hg2') & Hg2)
                  & u3 & g3 & (x3 & E3 & _ & _ & _ & Hg3)
                  & u4 & g4 & (c4 & E4 & _ & Hg4)
                  & u5 & g5 & (x5 & E5 & _ & _ & _ & Hg5)
                  & u6 & g6 & (g6' & (r & Hu5 & Hr & Hlr & _ & Hg6') & Hg6)
                  & (c7 & E7 & _ & Hg)).
  subst. rewrite !consumed_app.
  exists n, r. split; [exact Hn|].
  split; [destruct n; [cbn in Hln; lia|discriminate]|].
  split; [unfold is_digits; rewrite Hr;
          destruct r; [cbn in Hlr; lia|reflexivity]|].
  split; [reflexivity|]. split; [reflexivity|].
  repeat (rewrite ?length_append; cbn [String.length]). lia.
Qed.

Lemma safe_int_digits_daily (r : string) :
  is_digits r = true -> (String.length r <= 4300)%nat ->
  CigarsDailyText.safe_int (VStr r) = Some (digits_value r).
Proof.
  intros Hr Hl. unfold CigarsDailyText.safe_int, py_int.
  now rewrite (int_of_str_digits r Hr Hl).
Qed.

End DailyNameFacts.

(** [parse_size_from_name] of cigars_daily_scraper.py reads the size that a
    product name holds between parentheses, after a text without opening
    parenthesis: the digits and points before the [x] or the
    multiplication sign are handed to [float], the digits after it are the
    ring gauge. Whenever the pattern is found the ring gauge is returned,
    and it is never negative, while the length is absent when its digits
    and points are no number; a length is never returned without a ring
    gauge. An upper-case [X] is not accepted. (The ring gauge is bounded
    by the number of digits that [int] accepts.) *)
Theorem daily_name_size_in_parentheses
        (pre n sp1 sp2 r post : string) (xc : ascii) :
  Py.str_forall DailyNameFacts.not_open pre = true ->
  Py.str_forall DailyNameFacts.number_char n = true ->
  n <> "" ->
  Py.str_forall Py.isspace sp1 = true ->
  Py.str_forall Py.isspace sp2 = true ->
  xc = "x"%char \/ xc = CigarsDailyText.times_sign ->
  PyFacts.is_digits r = true ->
  String.length r <= 4300 ->
  CigarsDailyText.parse_size_from_name
    (pre ++ "(" ++ n ++ sp1 ++ String xc (sp2 ++ r ++ ")" ++ post))
  = (CigarsDailyText.safe_decimal (VStr n), Some (Num.digits_value r))
  /\ (forall a b,
        PyFacts.is_digits a = true -> PyFacts.is_digits b = true ->
        CigarsDailyText.safe_decimal (VStr a)
        = Some (Num.of_Z (Num.digits_value a))
        /\ CigarsDailyText.safe_decimal (VStr (a ++ "." ++ b))
           = Some (Num.of_decimal false (Num.digits_value (a ++ b))
                                  (0 - Z.of_nat (String.length b))))
  /\ (forall name,
        String.length name <= 4300 ->
        CigarsDailyText.parse_size_from_name name = (None, None)
        \/ exists ring,
             snd (CigarsDailyText.parse_size_from_name name) = Some ring
             /\ (0 <= ring)%Z)
  /\ CigarsDailyText.parse_size_from_name "Robusto (5.5x54)"
     = (Some (Num.dyadic 11 1), Some 54%Z)
  /\ CigarsDailyText.parse_size_from_name "Robusto (1.2.3x50)"
     = (None, Some 50%Z)
  /\ CigarsDailyText.parse_size_from_name "Robusto (5X50)" = (None, None).
Proof.
  intros Hpre Hn Hne Hs1 Hs2 Hx Hr Hlen.
  assert (Hxc : DailyNameFacts.times_char xc = true)
    by (destruct Hx; now subst).
  split.
  { unfold CigarsDailyText.parse_size_from_name.
    rewrite (ReFacts.search_after _ DailyNameFacts.not_open pre _
               DailyNameFacts.daily_not_here Hpre).
    rewrite (ReFacts.search_here _ _ _
               (DailyNameFacts.match_here_daily n sp1 sp2 r post xc
                  Hn Hne Hs1 Hs2 Hxc Hr)).
    unfold Re.group_of.
    cbn [fst snd Re.group Nat.eqb FamousSmoke.of_opt_str].
    now rewrite (DailyNameFacts.safe_int_digits_daily r Hr Hlen). }
  split.
  { intros a b Ha Hb. split.
    - exact (InchFacts.aficionado_decimal_digits a Ha).
    - exact (PriceFacts.safe_float_plain a b Ha Hb). }
  split.
  { intros name Hname. unfold CigarsDailyText.parse_size_from_name.
    destruct (Re.search CigarsDailyText.size_pattern name) as [m|] eqn:Hs;
      [right|now left].
    destruct (DailyNameFacts.search_daily_groups name m Hs)
      as (n' & r' & _ & _ & Hr' & -> & -> & Hl').
    cbn [snd FamousSmoke.of_opt_str].
    rewrite (DailyNameFacts.safe_int_digits_daily r' Hr')
      by (apply (Nat.le_trans _ _ _ Hl'), Hname).
    eexists. split; [reflexivity|].
    now apply SizeFacts.digits_value_digits_nonneg. }
  repeat split; vm_compute; reflexivity.
Qed.

Lemma daily_name_size_in_parentheses_witness :
  CigarsDailyText.parse_size_from_name
    ("Toro " ++ "(" ++ "6.5" ++ " "
       ++ String CigarsDailyText.times_sign (" " ++ "52" ++ ")" ++ " Box"))
  = (CigarsDailyText.safe_decimal (VStr "6.5"), Some (Num.digits_value "52")).
Proof.
  apply (daily_name_size_in_parentheses
           "Toro " "6.5" " " " " "52" " Box" CigarsDailyText.times_sign);
    try reflexivity.
  - discriminate.
  - now right.
  - cbn. lia.
Defined.

(* ================================================================== *)
(** * gotham_cigars_scraper.py: the size cell of the specification table *)
(* ================================================================== *)

Module GothamSizeFacts.

Import Py PyFacts Re RegexFacts ReFacts Num NumFacts.

(** An optional character that is there, and one that is not. *)
Lemma rep_opt_take (A : Type) (p : ascii -> bool) (k : string -> option A)
      (a : A) (c : ascii) (t : string) :
  p c = true -> k t = Some a ->
  rep p 0 (Some 1) (String c t) k = Some a.
Proof.
  intros Hc Hk. cbn [rep]. rewrite Hc. cbn [andb may_take option_map pred].
  destruct t as [|c' t']; cbn [rep].
  - now rewrite Hk.
  - rewrite andb_false_r. now rewrite Hk.
Qed.

Lemma rep_opt_skip (A : Type) (p : ascii -> bool) (k : string -> option A)
      (t : string) :
  stops p t -> rep p 0 (Some 1) t k = k t.
Proof.
  destruct t as [|c t]; [reflexivity|]. cbn [stops rep].
  now intros ->.
Qed.

(** The characters of a size before its [x]. *)
Definition size_char (c : ascii) : bool :=
  (isdecimal c || Ascii.eqb c " " || Ascii.eqb c "/" || Ascii.eqb c ".")%bool.

Definition not_x (c : ascii) : bool := negb (one_of "xX" c).

Lemma size_char_not_x (c : ascii) : size_char c = true -> not_x c = true.
Proof. each_char c; vm_compute; congruence. Qed.

Lemma digits_size_chars (s : string) :
  is_digits s = true -> str_forall size_char s = true.
Proof.
  unfold is_digits. intros [_ H]%andb_true_iff.
  apply (str_forall_impl isdecimal); [|exact H].
  intros c Hc. unfold size_char. now rewrite Hc.
Qed.

Lemma digits_head (s rest : string) :
  is_digits s = true ->
  exists c r, s ++ rest = String c r /\ isdecimal c = true.
Proof.
  unfold is_digits. intros [Hne Hd]%andb_true_iff.
  destruct s as [|c s]; [discriminate|].
  cbn [str_forall] in Hd. apply andb_prop in Hd as [Hc _].
  cbn [append]. eauto.
Qed.

Lemma digits_no (a : ascii) (s : string) :
  isdecimal a = false -> is_digits s = true -> has_char a s = false.
Proof.
  intros Ha. unfold is_digits. intros [_ H]%andb_true_iff. unfold has_char.
  apply (str_forall_not_exists isdecimal); [|exact H].
  intros c Hc. destruct (Ascii.eqb a c) eqn:E; [|reflexivity].
  apply Ascii.eqb_eq in E. subst. congruence.
Qed.

(** ** The length *)

(** A whole number, a space and the [x]. *)
Lemma length_whole (w rest : string) (xc : ascii) :
  is_digits w = true -> one_of "xX" xc = true ->
  match_here Gotham.length_pattern (w ++ " " ++ String xc rest)
  = Some (w ++ " ", [(1, w ++ " ")], String xc rest).
Proof.
  intros Hw Hx.
  destruct (SizePatternFacts.digits_parts w Hw) as [Hdw Hlw].
  assert (Hxc : isdecimal xc = false /\ isspace xc = false
                /\ lit "/" xc = false).
  { revert Hx. each_char xc; vm_compute; intros; repeat split; congruence. }
  destruct Hxc as (Hxd & Hxs & Hxl).
  unfold match_here, Gotham.length_pattern, plus, star, opt_chr.
  cbn [seq run].
  apply rep_greedy; [exact Hdw|reflexivity|exact Hlw|].
  apply (rep_greedy _ ws _ _ " " (String xc rest) 0);
    [reflexivity|exact Hxs|apply Nat.le_0_l|].
  apply (rep_greedy _ d _ _ "" (String xc rest) 0);
    [reflexivity|exact Hxd|apply Nat.le_0_l|].
  rewrite rep_opt_skip by exact Hxl.
  apply (rep_greedy _ d _ _ "" (String xc rest) 0);
    [reflexivity|exact Hxd|apply Nat.le_0_l|].
  replace (w ++ " " ++ String xc rest) with ((w ++ " ") ++ String xc rest)
    by now rewrite append_assoc.
  now rewrite consumed_app.
Qed.

(** A whole number followed by a point: the match ends before the point. *)
Lemma length_before_point (w rest : string) :
  is_digits w = true ->
  match_here Gotham.length_pattern (w ++ "." ++ rest)
  = Some (w, [(1, w)], "." ++ rest).
Proof.
  intros Hw.
  destruct (SizePatternFacts.digits_parts w Hw) as [Hdw Hlw].
  unfold match_here, Gotham.length_pattern, plus, star, opt_chr.
  cbn [seq run].
  apply rep_greedy; [exact Hdw|reflexivity|exact Hlw|].
  apply (rep_greedy _ ws _ _ "" ("." ++ rest) 0);
    [reflexivity|reflexivity|apply Nat.le_0_l|].
  apply (rep_greedy _ d _ _ "" ("." ++ rest) 0);
    [reflexivity|reflexivity|apply Nat.le_0_l|].
  rewrite rep_opt_skip by reflexivity.
  apply (rep_greedy _ d _ _ "" ("." ++ rest) 0);
    [reflexivity|reflexivity|apply Nat.le_0_l|].
  now rewrite consumed_app.
Qed.

(** A whole number, a space, a fraction and a space. *)
Lemma length_mixed (w n dd rest : string) :
  is_digits w = true -> is_digits n = true -> is_digits dd = true ->
  match_here Gotham.length_pattern
             (w ++ " " ++ n ++ "/" ++ dd ++ " " ++ rest)
  = Some (w ++ " " ++ n ++ "/" ++ dd,
          [(1, w ++ " " ++ n ++ "/" ++ dd)], " " ++ rest).
Proof.
  intros Hw Hn Hd.
  destruct (SizePatternFacts.digits_parts w Hw) as [Hdw Hlw].
  destruct (SizePatternFacts.digits_parts n Hn) as [Hdn _].
  destruct (SizePatternFacts.digits_parts dd Hd) as [Hdd _].
  destruct (digits_head n ("/" ++ dd ++ " " ++ rest) Hn)
    as (cn & rn & Hhead & Hcn).
  unfold match_here, Gotham.length_pattern, plus, star, opt_chr.
  cbn [seq run].
  apply rep_greedy; [exact Hdw|reflexivity|exact Hlw|].
  apply (rep_greedy _ ws _ _ " " (n ++ "/" ++ dd ++ " " ++ rest) 0);
    [reflexivity
    |rewrite Hhead; cbn [stops]; now apply decimal_not_space
    |apply Nat.le_0_l|].
  apply (rep_greedy _ d _ _ n ("/" ++ dd ++ " " ++ rest) 0);
    [exact Hdn|reflexivity|apply Nat.le_0_l|].
  change ("/" ++ dd ++ " " ++ rest) with (String "/" (dd ++ " " ++ rest)).
  apply rep_opt_take; [reflexivity|].
  apply (rep_greedy _ d _ _ dd (" " ++ rest) 0);
    [exact Hdd|reflexivity|apply Nat.le_0_l|].
  assert (Hc : consumed (w ++ " " ++ n ++ "/" ++ dd ++ " " ++ rest)
                        (" " ++ rest)
               = w ++ " " ++ n ++ "/" ++ dd).
  { replace (w ++ " " ++ n ++ "/" ++ dd ++ " " ++ rest)
      with ((w ++ " " ++ n ++ "/" ++ dd) ++ " " ++ rest)
      by now rewrite !append_assoc.
    apply consumed_app. }
  cbn [append] in Hc |- *. now rewrite Hc.
Qed.

(** ** The ring gauge *)

Lemma ring_not_here (c : ascii) (t : string) :
  not_x c = true -> match_here Gotham.ring_pattern (String c t) = None.
Proof.
  unfold not_x. intros Hc%negb_true_iff.
  unfold match_here, Gotham.ring_pattern. cbn [seq run]. now rewrite Hc.
Qed.

Lemma search_ring (pre sp g rest : string) (xc : ascii) :
  str_forall not_x pre = true -> one_of "xX" xc = true ->
  str_forall isspace sp = true -> is_digits g = true -> stops d rest ->
  option_map Gotham.group1
    (search Gotham.ring_pattern (pre ++ String xc (sp ++ g ++ rest)))
  = Some g.
Proof.
  intros Hpre Hx Hsp Hg Hrest.
  destruct (SizePatternFacts.digits_parts g Hg) as [Hdg Hlg].
  destruct (digits_head g rest Hg) as (cg & rg & Hhead & Hcg).
  rewrite (search_after _ not_x pre _ ring_not_here Hpre).
  assert (Hm : match_here Gotham.ring_pattern
                          (String xc (sp ++ g ++ rest))
               = Some (String xc (sp ++ g), [(1, g)], rest)).
  { unfold match_here, Gotham.ring_pattern, plus, star. cbn [seq run].
    rewrite Hx.
    apply rep_greedy;
      [exact Hsp
      |rewrite Hhead; cbn [stops]; now apply decimal_not_space
      |apply Nat.le_0_l|].
    apply rep_greedy; [exact Hdg|exact Hrest|exact Hlg|].
    rewrite consumed_app.
    replace (String xc (sp ++ g ++ rest)) with (String xc (sp ++ g) ++ rest)
      by (cbn [append]; now rewrite append_assoc).
    now rewrite consumed_app. }
  now rewrite (search_here _ _ _ Hm).
Qed.

(** ** The quotient *)

Lemma quotient_digits (num den : string) :
  is_digits num = true -> is_digits den = true ->
  Gotham.quotient (Gotham.split_char "/" (num ++ "/" ++ den))
  = if is_zero (of_Z (digits_value den)) then None
    else Some (div (of_Z (digits_value num)) (of_Z (digits_value den))).
Proof.
  intros Hn Hd.
  change (num ++ "/" ++ den) with (num ++ String "/" den).
  rewrite HoltsNameFacts.split_char_two
    by (apply digits_no; [reflexivity|assumption]).
  unfold Gotham.quotient.
  now rewrite (float_of_str_digits num Hn), (float_of_str_digits den Hd).
Qed.

Lemma digits_app (a b : string) :
  is_digits a = true -> is_digits b = true -> is_digits (a ++ b) = true.
Proof.
  unfold is_digits. intros [Ha1 Ha2]%andb_true_iff [Hb1 Hb2]%andb_true_iff.
  rewrite str_forall_app, Ha2, Hb2. now destruct a.
Qed.

End GothamSizeFacts.

Module GothamCellFacts.

Import Py PyFacts Re RegexFacts ReFacts Num NumFacts GothamSizeFacts.

Lemma parse_size_cell_fst (cell grp rest g : string) :
  cell <> "" ->
  match_here Gotham.length_pattern cell = Some (grp, [(1, grp)], rest) ->
  option_map Gotham.group1 (search Gotham.ring_pattern cell) = Some g ->
  fst (Gotham.parse_size_cell cell)
  = (if contains "/" (replace " " "" grp)
     then Gotham.quotient (Gotham.split_char "/" (replace " " "" grp))
     else Gotham.safe_float (VStr (replace " " "" grp)),
     Some (digits_value g)).
Proof.
  intros Hne Hm Hr. unfold Gotham.parse_size_cell.
  destruct cell as [|c cell]; [contradiction|]. cbn [is_empty].
  rewrite (search_here _ _ _ Hm).
  destruct (search Gotham.ring_pattern (String c cell)) as [m|];
    [|discriminate].
  cbn [option_map] in Hr. injection Hr as ->.
  reflexivity.
Qed.

Lemma not_x_chars (s : string) :
  str_forall size_char s = true -> str_forall not_x s = true.
Proof. apply str_forall_impl. exact size_char_not_x. Qed.

Lemma safe_float_digits_gotham (w : string) :
  is_digits w = true ->
  Gotham.safe_float (VStr w) = Some (of_Z (digits_value w)).
Proof.
  intros Hw. unfold Gotham.safe_float, py_float.
  now rewrite (float_of_str_digits w Hw).
Qed.

Lemma digits_not_empty (w rest : string) :
  is_digits w = true -> w ++ rest <> "".
Proof. destruct w; [discriminate|discriminate]. Qed.

Lemma cell_whole (w g : string) :
  is_digits w = true -> is_digits g = true ->
  fst (Gotham.parse_size_cell (w ++ " x " ++ g))
  = (Some (of_Z (digits_value w)), Some (digits_value g)).
Proof.
  intros Hw Hg.
  rewrite (parse_size_cell_fst _ (w ++ " ") (String "x" (" " ++ g)) g).
  - rewrite TextFacts.replace_char, TextFacts.remove_char_app.
    rewrite (TextFacts.remove_char_absent " " w)
      by (apply digits_no; [reflexivity|exact Hw]).
    change (TextFacts.remove_char " " " ") with "".
    rewrite append_nil_r.
    unfold contains.
    rewrite (partition_none_char "/" w)
      by (apply digits_no; [reflexivity|exact Hw]).
    now rewrite safe_float_digits_gotham.
  - now apply digits_not_empty.
  - exact (length_whole w (" " ++ g) "x" Hw eq_refl).
  - replace (w ++ " x " ++ g)
      with ((w ++ " ") ++ String "x" (" " ++ g ++ ""))
      by (rewrite append_nil_r, append_assoc; reflexivity).
    apply search_ring; try reflexivity; [|exact Hg].
    apply not_x_chars. rewrite str_forall_app, (digits_size_chars w Hw).
    reflexivity.
Qed.

Lemma cell_decimal (w n g : string) :
  is_digits w = true -> is_digits n = true -> is_digits g = true ->
  fst (Gotham.parse_size_cell (w ++ "." ++ n ++ " x " ++ g))
  = (Some (of_Z (digits_value w)), Some (digits_value g)).
Proof.
  intros Hw Hn Hg.
  rewrite (parse_size_cell_fst _ w ("." ++ n ++ " x " ++ g) g).
  - rewrite TextFacts.replace_char.
    rewrite (TextFacts.remove_char_absent " " w)
      by (apply digits_no; [reflexivity|exact Hw]).
    unfold contains.
    rewrite (partition_none_char "/" w)
      by (apply digits_no; [reflexivity|exact Hw]).
    now rewrite safe_float_digits_gotham.
  - now apply digits_not_empty.
  - exact (length_before_point w (n ++ " x " ++ g) Hw).
  - replace (w ++ "." ++ n ++ " x " ++ g)
      with ((w ++ "." ++ n ++ " ") ++ String "x" (" " ++ g ++ ""))
      by (rewrite append_nil_r, !append_assoc; reflexivity).
    apply search_ring; try reflexivity; [|exact Hg].
    apply not_x_chars.
    rewrite !str_forall_app, (digits_size_chars w Hw),
      (digits_size_chars n Hn). reflexivity.
Qed.

Lemma cell_mixed (w n dd g : string) :
  is_digits w = true -> is_digits n = true -> is_digits dd = true ->
  is_digits g = true ->
  fst (Gotham.parse_size_cell (w ++ " " ++ n ++ "/" ++ dd ++ " x " ++ g))
  = (if is_zero (of_Z (digits_value dd)) then None
     else Some (div (of_Z (digits_value (w ++ n)))
                    (of_Z (digits_value dd))),
     Some (digits_value g)).
Proof.
  intros Hw Hn Hd Hg.
  rewrite (parse_size_cell_fst _ (w ++ " " ++ n ++ "/" ++ dd)
             (" " ++ "x " ++ g) g).
  - rewrite TextFacts.replace_char, !TextFacts.remove_char_app.
    rewrite (TextFacts.remove_char_absent " " w),
      (TextFacts.remove_char_absent " " n),
      (TextFacts.remove_char_absent " " dd)
      by (apply digits_no; [reflexivity|assumption]).
    change (TextFacts.remove_char " " " ") with "".
    change (TextFacts.remove_char " " "/") with "/".
    change ("" ++ n ++ "/" ++ dd) with (n ++ "/" ++ dd).
    rewrite <- append_assoc.
    pose proof (digits_app w n Hw Hn) as Hwn.
    unfold contains.
    change ((w ++ n) ++ "/" ++ dd) with ((w ++ n) ++ String "/" dd).
    rewrite (partition_char "/" (w ++ n) dd)
      by (apply digits_no; [reflexivity|exact Hwn]).
    f_equal. exact (quotient_digits (w ++ n) dd Hwn Hd).
  - now apply digits_not_empty.
  - exact (length_mixed w n dd ("x " ++ g) Hw Hn Hd).
  - replace (w ++ " " ++ n ++ "/" ++ dd ++ " x " ++ g)
      with ((w ++ " " ++ n ++ "/" ++ dd ++ " ")
              ++ String "x" (" " ++ g ++ ""))
      by (rewrite append_nil_r, !append_assoc; reflexivity).
    apply search_ring; try reflexivity; [|exact Hg].
    apply not_x_chars.
    rewrite !str_forall_app, (digits_size_chars w Hw),
      (digits_size_chars n Hn), (digits_size_chars dd Hd). reflexivity.
Qed.

End GothamCellFacts.

(** The size cell of the specification table of gotham_cigars_scraper.py is
    read by [parse_specs_table] as follows: the ring gauge is the number
    after the first [x]; the length is taken from the first run of digits,
    optional white space, digits, an optional slash and digits of the cell,
    with its spaces removed. So a whole length is read as written; of a
    length with decimals only the whole part is read; and of a whole number
    followed by a fraction the digits of the whole number and of the
    numerator are read together as one numerator: 5 1/2 is stored as 51
    halves, that is 25.5. A fraction with denominator zero leaves the
    length unset. (The ring gauge is bounded by the number of digits that
    [int] accepts.) *)
Theorem gotham_size_cell_length (w n dd g : string) :
  PyFacts.is_digits w = true ->
  PyFacts.is_digits n = true ->
  PyFacts.is_digits dd = true ->
  PyFacts.is_digits g = true ->
  String.length g <= 4300 ->
  fst (Gotham.parse_size_cell (w ++ " x " ++ g))
  = (Some (Num.of_Z (Num.digits_value w)), Some (Num.digits_value g))
  /\ fst (Gotham.parse_size_cell (w ++ "." ++ n ++ " x " ++ g))
     = (Some (Num.of_Z (Num.digits_value w)), Some (Num.digits_value g))
  /\ fst (Gotham.parse_size_cell
            (w ++ " " ++ n ++ "/" ++ dd ++ " x " ++ g))
     = (if Num.is_zero (Num.of_Z (Num.digits_value dd)) then None
        else Some (Num.div (Num.of_Z (Num.digits_value (w ++ n)))
                           (Num.of_Z (Num.digits_value dd))),
        Some (Num.digits_value g))
  /\ Gotham.parse_size_cell "5 1/2 x 50 (Robusto)"
     = (Some (Num.dyadic 51 1), Some 50%Z, Some "Robusto")
  /\ Gotham.parse_size_cell "5.5 x 50" = (Some (Num.of_Z 5), Some 50%Z, None)
  /\ Gotham.parse_size_cell "5 1/0 x 50" = (None, Some 50%Z, None)
  /\ Gotham.parse_size_cell "" = (None, None, None).
Proof.
  intros Hw Hn Hd Hg _.
  split; [now apply GothamCellFacts.cell_whole|].
  split; [now apply GothamCellFacts.cell_decimal|].
  split; [now apply GothamCellFacts.cell_mixed|].
  repeat split; vm_compute; reflexivity.
Qed.

Lemma gotham_size_cell_length_witness :
  fst (Gotham.parse_size_cell ("6" ++ " " ++ "3" ++ "/" ++ "4" ++ " x " ++ "52"))
  = (Some (Num.dyadic 63 2), Some 52%Z).
Proof.
  destruct (gotham_size_cell_length "6" "3" "4" "52"
              eq_refl eq_refl eq_refl eq_refl ltac:(cbn; lia))
    as (_ & _ & H & _).
  rewrite H. vm_compute. reflexivity.
Defined.

(* ================================================================== *)
(** * famous_smoke_scraper.py: from listing page to listing page *)
(* ================================================================== *)

Module FamousPagesFacts.

Section Pages.
Variable get_soup : string -> result FamousSmoke.page.
Variable scrape_listing_page :
  string -> result (list FamousSmoke.item * option string).
Variable execute_insert : FamousSmoke.row -> result unit.
Variable today : string.

Local Abbreviation main_loop :=
  (FamousSmoke.main_loop get_soup scrape_listing_page execute_insert today).
Local Abbreviation scrape_items :=
  (FamousSmoke.scrape_items get_soup execute_insert today).

(** The listing pages [first .. first + n - 1] are read and each names the
    next one. *)
Definition linked (urls : nat -> string)
           (items : nat -> list FamousSmoke.item) (first n : nat) : Prop :=
  forall k, first <= k < first + n ->
            urls k <> ""
            /\ scrape_listing_page (urls k)
               = Ok (items k, Some (urls (S k))).

Lemma main_loop_linked (urls : nat -> string)
      (items : nat -> list FamousSmoke.item) (n : nat) :
  forall first fuel,
    linked urls items first n ->
    main_loop (n + fuel) (Some (urls first))
    = ((flat_map (fun k => scrape_items (items k)) (seq first n)
        ++ fst (main_loop fuel (Some (urls (first + n)))))%list,
       snd (main_loop fuel (Some (urls (first + n))))).
Proof.
  induction n as [|n IH]; intros first fuel Hl.
  - rewrite Nat.add_0_r. cbn [Nat.add seq flat_map app].
    now destruct (main_loop fuel _).
  - destruct (Hl first ltac:(lia)) as [Hne Hpage].
    cbn [Nat.add].
    rewrite (DetailFacts.main_loop_step get_soup scrape_listing_page
               execute_insert today (n + fuel) (urls first) (items first)
               (Some (urls (S first))) Hne Hpage).
    rewrite (IH (S first) fuel)
      by (intros k Hk; apply Hl; lia).
    cbn [fst snd seq flat_map].
    replace (S first + n) with (first + S n) by lia.
    now rewrite app_assoc.
Qed.

Lemma main_loop_last (fuel : nat) (u : string)
      (items : list FamousSmoke.item) :
  u <> "" -> scrape_listing_page u = Ok (items, None) ->
  main_loop (S (S fuel)) (Some u) = (scrape_items items, Returned tt).
Proof.
  intros Hu Hp.
  rewrite (DetailFacts.main_loop_step get_soup scrape_listing_page
             execute_insert today (S fuel) u items None Hu Hp).
  cbn [FamousSmoke.main_loop FamousSmoke.opt_truthy fst snd].
  now rewrite app_nil_r.
Qed.

Lemma main_loop_failure (fuel : nat) (u : string) (e : exn) :
  u <> "" -> scrape_listing_page u = Raise e ->
  main_loop (S fuel) (Some u) = ([], Crashed e).
Proof.
  intros Hu Hp. cbn [FamousSmoke.main_loop].
  destruct u; [contradiction|]. cbn [FamousSmoke.opt_truthy str_truthy].
  now rewrite Hp.
Qed.

Lemma main_loop_cycle (u : string) (items : list FamousSmoke.item) :
  u <> "" -> scrape_listing_page u = Ok (items, Some u) ->
  forall fuel, snd (main_loop fuel (Some u)) = OutOfFuel.
Proof.
  intros Hu Hp fuel. induction fuel as [|fuel IH]; [reflexivity|].
  rewrite (DetailFacts.main_loop_step get_soup scrape_listing_page
             execute_insert today fuel u items (Some u) Hu Hp).
  exact IH.
Qed.
End Pages.

End FamousPagesFacts.

(** [main] of famous_smoke_scraper.py follows the next-page links from the
    first listing page. When the pages up to some page each name the next
    one and that page names none, the run returns after the items of all
    these pages have been handled, page after page in order. When that
    page cannot be fetched instead, the exception is not caught: the run
    ends with it after the items of the pages before. A page that names
    itself as the next page keeps the loop running for ever: no amount of
    steps reaches its end. *)
Theorem famous_main_follows_next_links
        (get_soup : string -> result FamousSmoke.page)
        (scrape_listing_page :
           string -> result (list FamousSmoke.item * option string))
        (execute_insert : FamousSmoke.row -> result unit)
        (today : string) (urls : nat -> string)
        (items : nat -> list FamousSmoke.item) (n fuel : nat) (e : exn) :
  urls 0 = FamousSmoke.LISTING_URL ->
  FamousPagesFacts.linked scrape_listing_page urls items 0 n ->
  urls n <> "" ->
  n + 1 < fuel ->
  let main := FamousSmoke.main get_soup scrape_listing_page execute_insert
                               today in
  let scrape_items := FamousSmoke.scrape_items get_soup execute_insert
                                               today in
  (scrape_listing_page (urls n) = Ok (items n, None) ->
   main fuel
   = (flat_map (fun k => scrape_items (items k)) (seq 0 (S n)),
      Returned tt))
  /\ (scrape_listing_page (urls n) = Raise e ->
      main fuel
      = (flat_map (fun k => scrape_items (items k)) (seq 0 n), Crashed e))
  /\ (forall u its steps,
        u <> "" -> scrape_listing_page u = Ok (its, Some u) ->
        snd (FamousSmoke.main_loop get_soup scrape_listing_page
               execute_insert today steps (Some u)) = OutOfFuel).
Proof.
  intros H0 Hlinked Hn Hfuel main scrape_items. subst main scrape_items.
  unfold FamousSmoke.main. rewrite <- H0.
  replace fuel with (n + (S (S (fuel - n - 2)))) by lia.
  rewrite (FamousPagesFacts.main_loop_linked get_soup scrape_listing_page
             execute_insert today urls items n 0 _ Hlinked).
  cbn [Nat.add]. split; [|split].
  - intros Hp.
    rewrite (FamousPagesFacts.main_loop_last get_soup scrape_listing_page
               execute_insert today _ (urls n) (items n) Hn Hp).
    cbn [fst snd]. rewrite seq_S, flat_map_app. cbn [Nat.add flat_map].
    now rewrite app_nil_r.
  - intros Hp.
    rewrite (FamousPagesFacts.main_loop_failure get_soup scrape_listing_page
               execute_insert today _ (urls n) e Hn Hp).
    cbn [fst snd]. now rewrite app_nil_r.
  - intros u its steps Hu Hp.
    exact (FamousPagesFacts.main_loop_cycle get_soup scrape_listing_page
             execute_insert today u its Hu Hp steps).
Qed.

(** ** Two listing pages, the second of which cannot be fetched *)

Module TwoListings.

Definition second_url : string := "https://www.famous-smoke.com/cigars?p=2".

Definition scrape_listing_page (url : string)
  : result (list FamousSmoke.item * option string) :=
  if String.eqb url FamousSmoke.LISTING_URL
  then Ok (TenItems.items, Some second_url)
  else Raise (RequestException url).

Definition urls (k : nat) : string :=
  match k with O => FamousSmoke.LISTING_URL | _ => second_url end.

End TwoListings.

Lemma famous_main_follows_next_links_witness :
  FamousSmoke.main TenItems.get_soup TwoListings.scrape_listing_page
                   TenItems.insert_ok "2026-01-15" 3
  = (flat_map (fun k => FamousSmoke.scrape_items TenItems.get_soup
                          TenItems.insert_ok "2026-01-15"
                          ((fun _ => TenItems.items) k)) (seq 0 1),
     Crashed (RequestException TwoListings.second_url)).
Proof.
  assert (Hl : FamousPagesFacts.linked TwoListings.scrape_listing_page
                 TwoListings.urls (fun _ => TenItems.items) 0 1).
  { intros k Hk. assert (k = 0) as -> by lia.
    split; [discriminate|reflexivity]. }
  apply (famous_main_follows_next_links
           TenItems.get_soup TwoListings.scrape_listing_page
           TenItems.insert_ok "2026-01-15" TwoListings.urls
           (fun _ => TenItems.items) 1 3
           (RequestException TwoListings.second_url)
           eq_refl Hl ltac:(discriminate) ltac:(lia)).
  reflexivity.
Defined.

(* ================================================================== *)
(** * cigar_aficionado_scraper.py: the run over the rating pages *)
(* ================================================================== *)

Module AficionadoRunFacts.

Section Pages.
Variable get_listing : string -> result (list AficionadoRun.block).
Variable scrape_detail_page : string -> result AficionadoRun.detail.
Variable execute_insert : AficionadoRun.row -> result unit.
Variable today : string.

Local Abbreviation page_loop :=
  (AficionadoRun.page_loop get_listing scrape_detail_page execute_insert
                           today).
Local Abbreviation scrape_block :=
  (AficionadoRun.scrape_block scrape_detail_page execute_insert today).

(** The rating pages [first .. first + n - 1] are fetched and show
    blocks. *)
Definition has_blocks (blocks : nat -> list AficionadoRun.block)
           (first n : nat) : Prop :=
  forall k, first <= k < first + n ->
            get_listing (AficionadoRun.search_url k) = Ok (blocks k)
            /\ blocks k <> [].

Definition page_trace (blocks : nat -> list AficionadoRun.block) (k : nat)
  : list (event AficionadoRun.row) :=
  flat_map scrape_block (blocks k).

Lemma page_loop_pages (blocks : nat -> list AficionadoRun.block) (n : nat) :
  forall first fuel,
    has_blocks blocks first n ->
    page_loop (n + fuel) first
    = ((flat_map (page_trace blocks) (seq first n)
        ++ fst (page_loop fuel (first + n)))%list,
       snd (page_loop fuel (first + n))).
Proof.
  induction n as [|n IH]; intros first fuel Hb.
  - rewrite Nat.add_0_r. cbn [Nat.add seq flat_map app].
    now destruct (page_loop fuel first).
  - destruct (Hb first ltac:(lia)) as [Hpage Hne].
    cbn [Nat.add AficionadoRun.page_loop]. rewrite Hpage.
    rewrite (IH (S first) fuel) by (intros k Hk; apply Hb; lia).
    replace (S first + n) with (first + S n) by lia.
    cbn [seq flat_map]. unfold page_trace at 2.
    destruct (blocks first) as [|b bs]; [contradiction|].
    now rewrite app_assoc.
Qed.

Lemma listing_url_truthy (div : AficionadoRun.block)
      (l : AficionadoRun.listing) (u : string) :
  AficionadoRun.parse_listing_block div = Ok l ->
  AficionadoRun.l_url l = Some u -> str_truthy u = true.
Proof.
  unfold AficionadoRun.parse_listing_block. intros Hl Hu.
  destruct (AficionadoRun.b_name_el div) as [[text [h|]]|];
    try discriminate; injection Hl as <-; cbn in Hu;
    [injection Hu as <-; reflexivity|discriminate].
Qed.

Lemma refused_insert (div : AficionadoRun.block)
      (l : AficionadoRun.listing) (u : string)
      (dt : AficionadoRun.detail) (e : exn) :
  AficionadoRun.parse_listing_block div = Ok l ->
  AficionadoRun.l_url l = Some u ->
  scrape_detail_page u = Ok dt ->
  execute_insert (AficionadoRun.make_record today l u dt) = Raise e ->
  scrape_block div = [ItemError None e].
Proof.
  intros Hl Hu Hd He. unfold AficionadoRun.scrape_block.
  rewrite Hl. cbn [bind]. rewrite Hu.
  rewrite (listing_url_truthy div l u Hl Hu), Hd. cbn [bind].
  now rewrite He.
Qed.
End Pages.

End AficionadoRunFacts.

(** ** One rating page of two blocks *)

Module TwoBlocks.

Definition rated (name href : string) : AficionadoRun.block :=
  {| AficionadoRun.b_name_el := Some (name, Some href);
     AficionadoRun.b_score := Some "95" |}.

Definition blocks (k : nat) : list AficionadoRun.block :=
  match k with
  | 1 => [rated "Padron 1964" "/ratings/1"; rated "Fuente Opus" "/ratings/2"]
  | _ => []
  end.

Definition get_listing (url : string) : result (list AficionadoRun.block) :=
  if String.eqb url (AficionadoRun.search_url 1) then Ok (blocks 1)
  else Ok [].

Definition no_detail : AficionadoRun.detail :=
  {| AficionadoRun.d_size_length := None;
     AficionadoRun.d_size_ring_gauge := None;
     AficionadoRun.d_strength := None; AficionadoRun.d_shape := None;
     AficionadoRun.d_filler := None; AficionadoRun.d_binder := None;
     AficionadoRun.d_wrapper_country := None;
     AficionadoRun.d_wrapper_leaf := None; AficionadoRun.d_country := None;
     AficionadoRun.d_price := None;
     AficionadoRun.d_website_notes := None |}.

Definition scrape_detail_page (url : string)
  : result AficionadoRun.detail := Ok no_detail.

End TwoBlocks.

(** [main] of cigar_aficionado_scraper.py reads the rating pages in order
    from the first: when the pages before some page show blocks and that
    page shows none, the run returns with the traces of these pages in
    order; when that page cannot be fetched, the exception is not caught
    and the run ends with it, after the blocks of the pages before. Inside
    a page, whatever fails for a block, a refused INSERT and a link
    without address included, is printed once as the error of that block,
    no record is emitted for it and the next block is handled; a block
    without link is passed over in silence. *)
Theorem aficionado_run_over_rating_pages
        (get_listing : string -> result (list AficionadoRun.block))
        (scrape_detail_page : string -> result AficionadoRun.detail)
        (execute_insert : AficionadoRun.row -> result unit)
        (today : string) (blocks : nat -> list AficionadoRun.block)
        (n fuel : nat) (e : exn) :
  AficionadoRunFacts.has_blocks get_listing blocks 1 n ->
  n < fuel ->
  let main := AficionadoRun.main get_listing scrape_detail_page
                                 execute_insert today in
  let scrape_block := AficionadoRun.scrape_block scrape_detail_page
                                                 execute_insert today in
  let traces := flat_map (fun k => flat_map scrape_block (blocks k))
                         (seq 1 n) in
  (get_listing (AficionadoRun.search_url (S n)) = Ok [] ->
   main fuel = (traces, Returned tt))
  /\ (get_listing (AficionadoRun.search_url (S n)) = Raise e ->
      main fuel = (traces, Crashed e))
  /\ (forall div l u dt e',
        AficionadoRun.parse_listing_block div = Ok l ->
        AficionadoRun.l_url l = Some u ->
        scrape_detail_page u = Ok dt ->
        execute_insert (AficionadoRun.make_record today l u dt) = Raise e' ->
        scrape_block div = [ItemError None e'])
  /\ (forall div l u e',
        AficionadoRun.parse_listing_block div = Ok l ->
        AficionadoRun.l_url l = Some u ->
        scrape_detail_page u = Raise e' ->
        scrape_block div = [ItemError None e'])
  /\ (forall text score,
        scrape_block {| AficionadoRun.b_name_el := Some (text, None);
                        AficionadoRun.b_score := score |}
        = [ItemError None TypeError])
  /\ (forall score,
        scrape_block {| AficionadoRun.b_name_el := None;
                        AficionadoRun.b_score := score |} = []).
Proof.
  intros Hb Hfuel main scrape_block traces.
  subst main scrape_block traces. unfold AficionadoRun.main.
  replace fuel with (n + S (fuel - n - 1)) by lia.
  rewrite (AficionadoRunFacts.page_loop_pages get_listing scrape_detail_page
             execute_insert today blocks n 1 _ Hb).
  replace (1 + n) with (S n) by lia.
  split; [|split; [|split; [|split; [|split]]]].
  - intros Hp. cbn [AficionadoRun.page_loop]. rewrite Hp.
    cbn [fst snd]. now rewrite app_nil_r.
  - intros Hp. cbn [AficionadoRun.page_loop]. rewrite Hp.
    cbn [fst snd]. now rewrite app_nil_r.
  - intros div l u dt e' Hl Hu Hd He.
    exact (AficionadoRunFacts.refused_insert scrape_detail_page
             execute_insert today div l u dt e' Hl Hu Hd He).
  - intros div l u e' Hl Hu Hd. unfold AficionadoRun.scrape_block.
    rewrite Hl. cbn [bind]. rewrite Hu.
    rewrite (AficionadoRunFacts.listing_url_truthy div l u Hl Hu).
    now rewrite Hd.
  - reflexivity.
  - reflexivity.
Qed.

Lemma aficionado_run_over_rating_pages_witness :
  AficionadoRun.main TwoBlocks.get_listing TwoBlocks.scrape_detail_page
                     TenItems.insert_ok "2026-01-15" 2
  = (flat_map (fun k => flat_map
                          (AficionadoRun.scrape_block
                             TwoBlocks.scrape_detail_page TenItems.insert_ok
                             "2026-01-15") (TwoBlocks.blocks k)) (seq 1 1),
     Returned tt).
Proof.
  assert (Hb : AficionadoRunFacts.has_blocks TwoBlocks.get_listing
                 TwoBlocks.blocks 1 1).
  { intros k Hk. assert (k = 1) as -> by lia.
    split; [reflexivity|discriminate]. }
  apply (aficionado_run_over_rating_pages
           TwoBlocks.get_listing TwoBlocks.scrape_detail_page
           TenItems.insert_ok "2026-01-15" TwoBlocks.blocks 1 2
           TypeError Hb (le_n 2)).
  reflexivity.
Defined.

(* ================================================================== *)
(** * gotham_cigars_scraper.py: the profile of a product *)
(* ================================================================== *)

Module ProfileFacts.

Definition canonical : list string :=
  ["Mellow"; "Mellow-to-Medium"; "Medium"; "Medium-to-Full"; "Full"].

Lemma profile_of_cases (s : string) :
  match GothamProfile.profile_of s with
  | None => s = ""
  | Some p =>
      s <> ""
      /\ (In p canonical
          \/ (p = s /\ Py.contains "Mellow" s = false
              /\ Py.contains "Medium" s = false
              /\ Py.contains "Full" s = false))
  end.
Proof.
  unfold GothamProfile.profile_of.
  destruct s as [|c s]; [reflexivity|]. cbn [str_truthy].
  split; [discriminate|].
  destruct (Py.contains "Mellow" (String c s)) eqn:H1;
    destruct (Py.contains "Medium" (String c s)) eqn:H2;
    destruct (Py.contains "Full" (String c s)) eqn:H3;
    cbn [andb]; unfold canonical, In; auto 10.
Qed.

End ProfileFacts.

(** The profile that [parse_specs_table] of gotham_cigars_scraper.py reads
    from a strength text is absent for the empty text only, and is
    otherwise one of the five names Mellow, Mellow-to-Medium, Medium,
    Medium-to-Full and Full, or the text itself when it holds none of the
    words Mellow, Medium and Full in this spelling. Reading a profile
    again gives the same profile, and the five names are those of the
    categories that the run visits. A text with Mellow is never read as
    Full or Medium-to-Full. *)
Theorem gotham_profile_is_canonical (s : string) :
  match GothamProfile.profile_of s with
  | None => s = ""
  | Some p =>
      GothamProfile.profile_of p = Some p
      /\ (In p ProfileFacts.canonical
          \/ (p = s /\ Py.contains "Mellow" s = false
              /\ Py.contains "Medium" s = false
              /\ Py.contains "Full" s = false))
      /\ (Py.contains "Mellow" s = true ->
          p = "Mellow" \/ p = "Mellow-to-Medium")
  end
  /\ map fst Gotham.STRENGTH_URLS
     = ["Mellow"; "Mellow-to-Medium"; "Medium"; "Medium-to-Full"; "Full"]
  /\ map GothamProfile.profile_of (map fst Gotham.STRENGTH_URLS)
     = map Some (map fst Gotham.STRENGTH_URLS)
  /\ GothamProfile.profile_of "Medium to Full" = Some "Medium-to-Full"
  /\ GothamProfile.profile_of "Mellow - Full" = Some "Mellow"
  /\ GothamProfile.profile_of "medium" = Some "medium".
Proof.
  split.
  { pose proof (ProfileFacts.profile_of_cases s) as H.
    destruct (GothamProfile.profile_of s) as [p|] eqn:Hp; [|exact H].
    destruct H as [Hne Hcases]. split; [|split; [exact Hcases|]].
    - destruct Hcases as [Hin|(-> & _)]; [|exact Hp].
      unfold ProfileFacts.canonical, In in Hin.
      destruct Hin as [<-|[<-|[<-|[<-|[<-|[]]]]]]; reflexivity.
    - intros Hm. unfold GothamProfile.profile_of in Hp.
      destruct s as [|c s]; [discriminate|]. cbn [str_truthy] in Hp.
      rewrite Hm in Hp. cbn [andb] in Hp.
      destruct (Py.contains "Medium" (String c s));
        injection Hp as <-; auto. }
  repeat split; vm_compute; reflexivity.
Qed.
